(** * MEDIMORPH (MongoDB version): reminder scheduling and dispatch

    A shallow embedding of [app_mongodb.py]: the frequency interpreter
    [parse_frequency_to_times]; the handlers that create reminders
    ([medications], [upload_prescription]) and the startup backfill
    [backfill_reminders_for_all_users]; the handlers [list_reminders],
    [delete_medication] and [take_medication]; the scheduler class
    [MongoMedicationReminder] with its tick [_check_and_send_reminders]
    and its loop [_reminder_loop]; the user loader [load_user]; the
    information search ([search_medication_info],
    [search_medication_on_web]); and the expected doses of
    [medication_report].

    How the program is modelled.

    - Text is a [string], a sequence of bytes.  The interpreter, the
      report and the search only lower-case the text and look for ASCII
      keywords in it; [lower] maps 'A'..'Z' and leaves every other byte
      alone.  Outside ASCII, Python's [str.lower] yields an ASCII letter
      for two characters only, U+0130 (an 'i' followed by a combining
      dot) and U+212A (a 'k'); no keyword holds a 'k' or ends in 'i', so
      the keywords found are the same.
    - The MongoDB collections are lists of documents in insertion order.
      A query costs one store operation and sees the documents as they
      are when it runs; [save()] of a new document appends it under a
      fresh [_id] and is refused for an [_id] already stored; [save()] of
      a loaded document sets the changed field on the stored document
      with that [_id].  A stored [datetime] is kept to the millisecond.
    - Handlers run one after the other; a computation is a function from
      an environment and a state to an outcome (a value or a raised
      exception) and a state.  The environment supplies what the code
      gets from outside: the readings of [datetime.now()], which of the
      store, file and socket operations fail, and the ObjectIds drawn for
      new documents.  State changes made before an exception stay.
    - Users are given: registration, login and logout, which hash
      passwords and open sessions, are left out, as are the pages, the
      health endpoints, the socket rooms and the threads that start and
      stop the scheduler.  Of the report only the expected doses are
      modelled: its compliance rate is a float, and its query of the logs
      reads a timestamp that the document class fills in. *)

From Stdlib Require Import List String Ascii Bool Arith PeanoNat Lia.
Import ListNotations.
Local Open Scope string_scope.
Local Open Scope list_scope.

(* ================================================================= *)
(** ** Python values used by the code *)

(** [str | None]: what [dict.get], a model field or [frequency_text] may hold. *)
Definition pystr := option string.

(** [x or ''] on a [str | None]. *)
Definition or_empty (x : pystr) : string :=
  match x with
  | Some s => s
  | None => EmptyString
  end.

(** Python truthiness of a [str | None]: [None] and [''] are falsy. *)
Definition truthy (x : pystr) : bool :=
  match x with
  | Some (String _ _) => true
  | _ => false
  end.

(** JSON-like values placed in emitted payloads and responses. *)
#[local] Unset Elimination Schemes.
Inductive pyval : Type :=
| PStr (s : string)
| PNone
| PDict (d : list (string * pyval)).
#[local] Set Elimination Schemes.

Definition of_pystr (x : pystr) : pyval :=
  match x with
  | Some s => PStr s
  | None => PNone
  end.

(** A dict with string values or nulls, as received in a JSON body or from
    the extraction collaborator.  These are the values the document
    fields hold ([mongodb_config], where the field types are declared, is
    not among the sources); a JSON body with a number, a boolean, a list
    or an object as a value is not represented. *)
Definition pydict := list (string * pystr).

Fixpoint dict_lookup (k : string) (d : pydict) : option pystr :=
  match d with
  | [] => None
  | (k', v) :: d' => if String.eqb k k' then Some v else dict_lookup k d'
  end.

(** [d.get(k, default)] *)
Definition dict_get (d : pydict) (k : string) (default : pystr) : pystr :=
  match dict_lookup k d with
  | Some v => v
  | None => default
  end.

(* ================================================================= *)
(** ** Text: [str.lower] and the [in] operator *)

Definition lower_ascii (c : ascii) : ascii :=
  let n := nat_of_ascii c in
  if Nat.leb 65 n && Nat.leb n 90 then ascii_of_nat (n + 32) else c.

Definition upper_ascii (c : ascii) : ascii :=
  let n := nat_of_ascii c in
  if Nat.leb 97 n && Nat.leb n 122 then ascii_of_nat (n - 32) else c.

Fixpoint str_map (f : ascii -> ascii) (s : string) : string :=
  match s with
  | EmptyString => EmptyString
  | String c s' => String (f c) (str_map f s')
  end.

Definition lower (s : string) : string := str_map lower_ascii s.
Definition upper (s : string) : string := str_map upper_ascii s.

(** [pat in text]: [pat] occurs as a contiguous substring of [text]. *)
Fixpoint str_in (pat text : string) : bool :=
  String.prefix pat text
  || match text with
     | EmptyString => false
     | String _ text' => str_in pat text'
     end.

(* ================================================================= *)
(** ** The frequency interpreter *)

(** [parse_frequency_to_times], app_mongodb.py lines 614-627. *)
Definition parse_frequency_to_times (frequency_text : pystr) : list string :=
  let text := lower (or_empty frequency_text) in
  if str_in "1-1-1" text || str_in "three" text || str_in "tds" text then
    ["09:00"; "14:00"; "20:00"]
  else if str_in "1-0-1" text || str_in "twice" text || str_in "bid" text
          || str_in "0-1-1" text || str_in "1-1-0" text then
    ["09:00"; "20:00"]
  else if str_in "0-0-1" text || str_in "night" text then
    ["20:00"]
  else if str_in "morning" text || str_in "1-0-0" text then
    ["09:00"]
  else if str_in "qid" text || str_in "four" text then
    ["08:00"; "12:00"; "16:00"; "20:00"]
  else
    ["09:00"].

(** The decision list as the specification words it (section 4.1): an
    ordered list of rules, each a set of keywords and the times it yields;
    the first rule with a keyword contained in the case-folded text wins,
    and the default is a single 09:00. *)
Definition decision_list : list (list string * list string) :=
  [ (["1-1-1"; "three"; "tds"], ["09:00"; "14:00"; "20:00"]);
    (["1-0-1"; "twice"; "bid"; "0-1-1"; "1-1-0"], ["09:00"; "20:00"]);
    (["0-0-1"; "night"], ["20:00"]);
    (["morning"; "1-0-0"], ["09:00"]);
    (["qid"; "four"], ["08:00"; "12:00"; "16:00"; "20:00"]) ].

Definition rule_matches (text : string) (rule : list string * list string) : bool :=
  existsb (fun kw => str_in kw (lower text)) (fst rule).

Definition interpret_by_rules (text : string) : list string :=
  match find (rule_matches text) decision_list with
  | Some rule => snd rule
  | None => ["09:00"]
  end.

(** Letter case set aside, said without [lower]: two characters are the
    same letter when they are equal or one is an ASCII capital ('A' is 65,
    'Z' is 90) and the other its small letter, 32 further on. *)
Definition same_letter (c d : ascii) : Prop :=
  c = d
  \/ (65 <= nat_of_ascii c <= 90 /\ nat_of_ascii d = nat_of_ascii c + 32)
  \/ (65 <= nat_of_ascii d <= 90 /\ nat_of_ascii c = nat_of_ascii d + 32).

(** Two texts that differ in the case of their letters at most. *)
Inductive same_text : string -> string -> Prop :=
| same_text_empty : same_text EmptyString EmptyString
| same_text_cons : forall c d s t,
    same_letter c d -> same_text s t -> same_text (String c s) (String d t).

(** The text holds the keyword, in any letter case. *)
Definition has_keyword (text kw : string) : Prop :=
  exists a w b, text = (a ++ w ++ b)%string /\ same_text w kw.

(** A time of day written HH:MM: two decimal digits, a colon, two digits. *)
Definition is_digit (c : ascii) : bool :=
  let n := nat_of_ascii c in Nat.leb 48 n && Nat.leb n 57.

Definition is_HHMM (s : string) : bool :=
  match s with
  | String h1 (String h2 (String ":" (String m1 (String m2 EmptyString)))) =>
      is_digit h1 && is_digit h2 && is_digit m1 && is_digit m2
  | _ => false
  end.

(* ================================================================= *)
(** ** Wall-clock time *)

(** A naive local [datetime].  Python keeps [hour < 24], [minute < 60],
    [second < 60], [microsecond < 1000000], [1 <= month <= 12],
    [1 <= day <= 31] and [year <= 9999]. *)
Record datetime : Type := mk_datetime {
  year : nat;
  month : nat;
  day : nat;
  hour : nat;
  minute : nat;
  second : nat;
  microsecond : nat
}.

(** The ranges Python keeps the fields of a [datetime] in. *)
Definition is_datetime (dt : datetime) : Prop :=
  1 <= year dt /\ year dt < 100 * 100
  /\ 1 <= month dt <= 12
  /\ 1 <= day dt <= 31
  /\ hour dt < 24 /\ minute dt < 60 /\ second dt < 60
  /\ microsecond dt < 1000 * 1000.

(** [dt.date()] *)
Definition date (dt : datetime) : nat * nat * nat := (year dt, month dt, day dt).

(** The [datetime] a saved document holds: MongoDB keeps a date as a count
    of milliseconds ([microsecond // 1000] when it is written, times 1000
    when it is read back), so what is below a millisecond is dropped. *)
Definition bson_datetime (dt : datetime) : datetime :=
  mk_datetime (year dt) (month dt) (day dt) (hour dt) (minute dt) (second dt)
              (microsecond dt / 1000 * 1000).

Definition date_eqb (d1 d2 : nat * nat * nat) : bool :=
  let '(y1, m1, dd1) := d1 in
  let '(y2, m2, dd2) := d2 in
  Nat.eqb y1 y2 && Nat.eqb m1 m2 && Nat.eqb dd1 dd2.

Definition digit (n : nat) : ascii := ascii_of_nat (48 + n mod 10).

(** The last [w] decimal digits of [n], zero padded (a [%0wd] field when
    [n < 10 ^ w]). *)
Fixpoint pad_dec (w n : nat) : string :=
  match w with
  | 0 => EmptyString
  | S w' => pad_dec w' (n / 10) ++ String (digit n) EmptyString
  end.

(** What is left of [n] above its last [w] decimal digits: zero when [n]
    fits the field. *)
Fixpoint above_digits (w n : nat) : nat :=
  match w with
  | 0 => n
  | S w' => above_digits w' (n / 10)
  end.

(** [dt.strftime('%H:%M')] *)
Definition strftime_HM (dt : datetime) : string :=
  pad_dec 2 (hour dt) ++ ":" ++ pad_dec 2 (minute dt).

(** [dt.isoformat()]: YYYY-MM-DDTHH:MM:SS, followed by .ffffff when the
    microsecond is not zero. *)
Definition isoformat (dt : datetime) : string :=
  pad_dec 4 (year dt) ++ "-" ++ pad_dec 2 (month dt) ++ "-" ++ pad_dec 2 (day dt)
  ++ "T" ++ pad_dec 2 (hour dt) ++ ":" ++ pad_dec 2 (minute dt) ++ ":"
  ++ pad_dec 2 (second dt)
  ++ (if Nat.eqb (microsecond dt) 0 then EmptyString else "." ++ pad_dec 6 (microsecond dt)).

(* ================================================================= *)
(** ** Documents

    The document classes live in [mongodb_config], which is not part of the
    sources at hand; their fields are the ones app_mongodb.py reads and
    writes.  An [ObjectId] is held as its 24-digit text, the form in which
    the code passes ids around ([str(med.id)], [ObjectId(medication_id)]). *)

Definition ObjectId := string.

Module User.
Record t : Type := mk {
  id : ObjectId;
  username : string
}.
End User.

Module Medication.
(** Modelled from the spec: the Medication document of section 3 (owner,
    name, dosage text, frequency text, instructions, active flag,
    provenance).  The creation time and the confidence score, which no
    modelled operation reads, are left out. *)
Record t : Type := mk {
  id : ObjectId;
  user_id : ObjectId;
  user_username : string;
  name : pystr;
  dosage : pystr;
  frequency : pystr;
  instructions : pystr;
  duration : pystr;
  source : string;
  is_active : bool
}.

Definition set_is_active (b : bool) (m : t) : t :=
  mk (id m) (user_id m) (user_username m) (name m) (dosage m) (frequency m)
     (instructions m) (duration m) (source m) b.
End Medication.

Module Reminder.
(** Modelled from the spec: the Reminder document of section 3 (user,
    medication, trigger time HH:MM, active flag, nullable last-fired
    timestamp, called [last_sent] in the code). *)
Record t : Type := mk {
  id : ObjectId;
  user_id : ObjectId;
  medication_id : ObjectId;
  time : string;
  is_active : bool;
  last_sent : option datetime
}.

Definition set_last_sent (d : option datetime) (r : t) : t :=
  mk (id r) (user_id r) (medication_id r) (time r) (is_active r) d.

(** The key on which reminder creation is idempotent. *)
Definition key (r : t) : ObjectId * ObjectId * string :=
  (user_id r, medication_id r, time r).
End Reminder.

Module MedicationLog.
(** Modelled from the spec: the MedicationLog document of section 3
    (user, medication); [notes] is the field the code sets, and the
    timestamp is a default the document class fills in. *)
Record t : Type := mk {
  id : ObjectId;
  user_id : ObjectId;
  medication_id : ObjectId;
  notes : string
}.
End MedicationLog.

Module PrescriptionUpload.
(** The bookkeeping record of one upload, with the fields the handler
    sets after the OCR; [id] is [None] until the document has been
    inserted. *)
Record t : Type := mk {
  id : option ObjectId;
  user_id : ObjectId;
  original_filename : string;
  processing_status : string;
  medications_found : nat;
  medications_added : nat
}.

Definition set_status (status : string) (u : t) : t :=
  mk (id u) (user_id u) (original_filename u) status (medications_found u)
     (medications_added u).

Definition set_counts (found added : nat) (u : t) : t :=
  mk (id u) (user_id u) (original_filename u) (processing_status u) found added.

Definition with_id (i : ObjectId) (u : t) : t :=
  mk (Some i) (user_id u) (original_filename u) (processing_status u)
     (medications_found u) (medications_added u).
End PrescriptionUpload.

(** One [socketio.emit(event, payload, room=room)]. *)
Record emission : Type := mk_emission {
  event : string;
  payload : list (string * pyval);
  room : string
}.

Inductive exn : Type :=
| StoreError              (* a failed store, file or socket operation *)
| NotUniqueError          (* insert of an [_id] the collection already has *)
| KeyError (k : string)   (* [d[k]] on a dict without [k] *)
| AttributeError          (* attribute access on [None] *)
| InvalidId.              (* [ObjectId(s)] on text that is no ObjectId *)

(** Lines written by [print]. *)
Inductive log_line : Type :=
| LogReminderSent (medication_name : pystr)
| LogLoopError (e : exn)
| LogBackfilled
| LogBackfillFailed (e : exn).

(* ================================================================= *)
(** ** The world the code runs in *)

(** What the code obtains from outside: successive readings of
    [datetime.now()], whether the k-th store, file or socket operation
    raises, the successive ObjectIds handed out for new documents, and
    [Medication.to_dict], whose code is in [mongodb_config]. *)
Record Env : Type := mk_env {
  now : nat -> datetime;
  io_fault : nat -> bool;
  new_oid : nat -> ObjectId;
  to_dict : Medication.t -> pyval
}.

Record State : Type := mk_state {
  users : list User.t;
  medications : list Medication.t;
  reminders : list Reminder.t;
  medication_logs : list MedicationLog.t;
  uploads : list PrescriptionUpload.t;
  emitted : list emission;        (* everything passed to socketio.emit *)
  printed : list log_line;
  sleeps : nat;                   (* calls of time.sleep(60) *)
  clock_reads : nat;
  io_ops : nat;
  oids_made : nat
}.

Definition with_medications (ms : list Medication.t) (s : State) : State :=
  mk_state (users s) ms (reminders s) (medication_logs s) (uploads s) (emitted s)
           (printed s) (sleeps s) (clock_reads s) (io_ops s) (oids_made s).

Definition with_reminders (rs : list Reminder.t) (s : State) : State :=
  mk_state (users s) (medications s) rs (medication_logs s) (uploads s) (emitted s)
           (printed s) (sleeps s) (clock_reads s) (io_ops s) (oids_made s).

Definition with_medication_logs (ls : list MedicationLog.t) (s : State) : State :=
  mk_state (users s) (medications s) (reminders s) ls (uploads s) (emitted s)
           (printed s) (sleeps s) (clock_reads s) (io_ops s) (oids_made s).

Definition with_uploads (us : list PrescriptionUpload.t) (s : State) : State :=
  mk_state (users s) (medications s) (reminders s) (medication_logs s) us (emitted s)
           (printed s) (sleeps s) (clock_reads s) (io_ops s) (oids_made s).

Definition with_emitted (es : list emission) (s : State) : State :=
  mk_state (users s) (medications s) (reminders s) (medication_logs s) (uploads s) es
           (printed s) (sleeps s) (clock_reads s) (io_ops s) (oids_made s).

Definition with_printed (ps : list log_line) (s : State) : State :=
  mk_state (users s) (medications s) (reminders s) (medication_logs s) (uploads s)
           (emitted s) ps (sleeps s) (clock_reads s) (io_ops s) (oids_made s).

Definition with_sleeps (n : nat) (s : State) : State :=
  mk_state (users s) (medications s) (reminders s) (medication_logs s) (uploads s)
           (emitted s) (printed s) n (clock_reads s) (io_ops s) (oids_made s).

Definition with_clock_reads (n : nat) (s : State) : State :=
  mk_state (users s) (medications s) (reminders s) (medication_logs s) (uploads s)
           (emitted s) (printed s) (sleeps s) n (io_ops s) (oids_made s).

Definition with_io_ops (n : nat) (s : State) : State :=
  mk_state (users s) (medications s) (reminders s) (medication_logs s) (uploads s)
           (emitted s) (printed s) (sleeps s) (clock_reads s) n (oids_made s).

Definition with_oids_made (n : nat) (s : State) : State :=
  mk_state (users s) (medications s) (reminders s) (medication_logs s) (uploads s)
           (emitted s) (printed s) (sleeps s) (clock_reads s) (io_ops s) n.

(** The store before anything was saved. *)
Definition empty_state (us : list User.t) : State :=
  mk_state us [] [] [] [] [] [] 0 0 0 0.

(* ================================================================= *)
(** ** Computations: state, and exceptions that keep the state *)

Inductive outcome (A : Type) : Type :=
| Ok (a : A)
| Raise (e : exn).
Arguments Ok {A} a.
Arguments Raise {A} e.

Definition M (A : Type) : Type := Env -> State -> outcome A * State.

Definition ret {A} (a : A) : M A := fun _ s => (Ok a, s).

Definition raise {A} (e : exn) : M A := fun _ s => (Raise e, s).

Definition bind {A B} (m : M A) (k : A -> M B) : M B :=
  fun env s =>
    match m env s with
    | (Ok a, s') => k a env s'
    | (Raise e, s') => (Raise e, s')
    end.

(** [try: m / except Exception as e: h e] *)
Definition try_except {A} (m : M A) (h : exn -> M A) : M A :=
  fun env s =>
    match m env s with
    | (Ok a, s') => (Ok a, s')
    | (Raise e, s') => h e env s'
    end.

Declare Scope monad_scope.
Delimit Scope monad_scope with monad.
Notation "x <- m ;; k" := (bind m (fun x => k))
  (at level 61, m at next level, right associativity) : monad_scope.
Notation "m ;; k" := (bind m (fun _ => k))
  (at level 61, right associativity) : monad_scope.
Local Open Scope monad_scope.

Definition gets {A} (f : State -> A) : M A := fun _ s => (Ok (f s), s).

Definition modify (f : State -> State) : M unit := fun _ s => (Ok tt, f s).

(** [for x in xs: f x]; an exception leaves the loop. *)
Fixpoint for_each {A} (xs : list A) (f : A -> M unit) : M unit :=
  match xs with
  | [] => ret tt
  | x :: xs' => f x ;; for_each xs' f
  end.

(** A [for] loop that carries a local variable. *)
Fixpoint for_fold {A B} (xs : list A) (b : B) (f : B -> A -> M B) : M B :=
  match xs with
  | [] => ret b
  | x :: xs' => b' <- f b x ;; for_fold xs' b' f
  end.

(** A [for] loop that appends one element per iteration to a result list. *)
Fixpoint for_collect {A B} (xs : list A) (f : A -> M B) : M (list B) :=
  match xs with
  | [] => ret []
  | x :: xs' => y <- f x ;; ys <- for_collect xs' f ;; ret (y :: ys)
  end.

(* ----------------------------------------------------------------- *)
(** *** Primitive effects *)

(** [datetime.now()] *)
Definition datetime_now : M datetime :=
  fun env s => (Ok (now env (clock_reads s)), with_clock_reads (S (clock_reads s)) s).

(** One operation on the store, the file system or the socket: it raises
    when the environment says so. *)
Definition io : M unit :=
  fun env s =>
    let s' := with_io_ops (S (io_ops s)) s in
    if io_fault env (io_ops s) then (Raise StoreError, s') else (Ok tt, s').

(** A fresh [ObjectId()] for a document about to be inserted. *)
Definition gen_oid : M ObjectId :=
  fun env s => (Ok (new_oid env (oids_made s)), with_oids_made (S (oids_made s)) s).

Definition print (l : log_line) : M unit :=
  modify (fun s => with_printed (printed s ++ [l]) s).

(** [time.sleep(60)] *)
Definition sleep_60 : M unit :=
  modify (fun s => with_sleeps (S (sleeps s)) s).

(** [socketio.emit(event, payload, room=room)] *)
Definition socketio_emit (ev : string) (p : list (string * pyval)) (rm : string) : M unit :=
  io ;; modify (fun s => with_emitted (emitted s ++ [mk_emission ev p rm]) s).

Definition is_hex (c : ascii) : bool :=
  let n := nat_of_ascii c in
  (Nat.leb 48 n && Nat.leb n 57) || (Nat.leb 97 n && Nat.leb n 102)
  || (Nat.leb 65 n && Nat.leb n 70).

(** ASCII whitespace: tab, line feed, vertical tab, form feed, carriage
    return and space. *)
Definition is_space (c : ascii) : bool :=
  let n := nat_of_ascii c in
  (Nat.leb 9 n && Nat.leb n 13) || Nat.eqb n 32.

(** [bytes.fromhex(text)] raises nothing: the text is made of pairs of
    hexadecimal digits, with any whitespace before, between and after
    the pairs, which is skipped. *)
Fixpoint fromhex_ok (s : string) : bool :=
  match s with
  | EmptyString => true
  | String c s' =>
      if is_space c then fromhex_ok s'
      else match s' with
           | EmptyString => false
           | String d s'' => is_hex c && is_hex d && fromhex_ok s''
           end
  end.

(** [ObjectId(text)]: a text of 24 characters that [bytes.fromhex] takes,
    or [InvalidId].  With 24 hexadecimal digits the id reads the same in
    either letter case and is held as the lower-cased text.  A text of 24
    characters with whitespace among its pairs of digits is taken as
    well: it yields an id of fewer than 12 bytes, which no stored
    document has; it is held as the lower-cased text too, which is the id
    text of no stored document. *)
Definition to_ObjectId (text : string) : M ObjectId :=
  if Nat.eqb (String.length text) 24 && fromhex_ok text
  then ret (lower text)
  else raise InvalidId.

(* ----------------------------------------------------------------- *)
(** *** Collections

    A query costs one store operation and yields the matching documents
    in collection order; iterating a query set walks the documents as
    they were when the query ran. *)

Definition pystr_eqb (a b : pystr) : bool :=
  match a, b with
  | Some x, Some y => String.eqb x y
  | None, None => true
  | _, _ => false
  end.

Definition find_medication (mid : ObjectId) (ms : list Medication.t) : option Medication.t :=
  find (fun m => String.eqb (Medication.id m) mid) ms.

Definition find_reminder (rid : ObjectId) (rs : list Reminder.t) : option Reminder.t :=
  find (fun r => String.eqb (Reminder.id r) rid) rs.

(** [User.objects()] *)
Definition User_objects : M (list User.t) :=
  io ;; gets users.

(** [Medication.objects(id=mid).first()] *)
Definition Medication_by_id (mid : ObjectId) : M (option Medication.t) :=
  io ;; gets (fun s => find_medication mid (medications s)).

(** [Medication.objects(id=mid, user_id=uid).first()] *)
Definition Medication_by_id_of_user (mid uid : ObjectId) : M (option Medication.t) :=
  io ;;
  gets (fun s => find (fun m => String.eqb (Medication.id m) mid
                                && String.eqb (Medication.user_id m) uid)
                      (medications s)).

(** [Medication.objects(user_id=uid, name=n, is_active=True).first()] *)
Definition Medication_active_by_name (uid : ObjectId) (n : pystr) : M (option Medication.t) :=
  io ;;
  gets (fun s => find (fun m => String.eqb (Medication.user_id m) uid
                                && pystr_eqb (Medication.name m) n
                                && Medication.is_active m)
                      (medications s)).

(** [Medication.objects(user_id=uid, is_active=True)] *)
Definition Medication_active_of_user (uid : ObjectId) : M (list Medication.t) :=
  io ;;
  gets (fun s => filter (fun m => String.eqb (Medication.user_id m) uid
                                  && Medication.is_active m)
                        (medications s)).

(** [Reminder.objects(is_active=True)] *)
Definition Reminder_active : M (list Reminder.t) :=
  io ;; gets (fun s => filter Reminder.is_active (reminders s)).

(** [Reminder.objects(user_id=uid, is_active=True)] *)
Definition Reminder_active_of_user (uid : ObjectId) : M (list Reminder.t) :=
  io ;;
  gets (fun s => filter (fun r => String.eqb (Reminder.user_id r) uid
                                  && Reminder.is_active r)
                        (reminders s)).

Definition has_key (uid mid : ObjectId) (t : string) (r : Reminder.t) : bool :=
  String.eqb (Reminder.user_id r) uid
  && String.eqb (Reminder.medication_id r) mid
  && String.eqb (Reminder.time r) t.

(** [Reminder.objects(user_id=uid, medication_id=mid, time=t).first()] *)
Definition Reminder_by_key (uid mid : ObjectId) (t : string) : M (option Reminder.t) :=
  io ;; gets (fun s => find (has_key uid mid t) (reminders s)).

(** The update a [save()] of a loaded document sends: the changed field is
    set on the stored document with that [_id]. *)
Fixpoint update_by_id {A} (get_id : A -> ObjectId) (i : ObjectId) (f : A -> A)
         (l : list A) : list A :=
  match l with
  | [] => []
  | x :: l' =>
      if String.eqb (get_id x) i then f x :: l'
      else x :: update_by_id get_id i f l'
  end.

(** [save()] of a new document: it gets a fresh [_id] and is appended; the
    collection refuses an [_id] it already holds. *)
Definition Medication_insert (doc : ObjectId -> Medication.t) : M Medication.t :=
  oid <- gen_oid ;;
  io ;;
  taken <- gets (fun s => existsb (fun m => String.eqb (Medication.id m) oid) (medications s)) ;;
  if taken then raise NotUniqueError
  else modify (fun s => with_medications (medications s ++ [doc oid]) s) ;;
       ret (doc oid).

Definition Reminder_insert (doc : ObjectId -> Reminder.t) : M unit :=
  oid <- gen_oid ;;
  io ;;
  taken <- gets (fun s => existsb (fun r => String.eqb (Reminder.id r) oid) (reminders s)) ;;
  if taken then raise NotUniqueError
  else modify (fun s => with_reminders (reminders s ++ [doc oid]) s).

Definition MedicationLog_insert (doc : ObjectId -> MedicationLog.t) : M unit :=
  oid <- gen_oid ;;
  io ;;
  taken <- gets (fun s => existsb (fun l => String.eqb (MedicationLog.id l) oid)
                                  (medication_logs s)) ;;
  if taken then raise NotUniqueError
  else modify (fun s => with_medication_logs (medication_logs s ++ [doc oid]) s).

Definition upload_has_id (i : ObjectId) (u : PrescriptionUpload.t) : bool :=
  match PrescriptionUpload.id u with
  | Some j => String.eqb j i
  | None => false
  end.

(** [upload_record.save()]: an insert while the record has no [_id], an
    update of the stored record afterwards. *)
Definition PrescriptionUpload_save (u : PrescriptionUpload.t) : M PrescriptionUpload.t :=
  match PrescriptionUpload.id u with
  | None =>
      oid <- gen_oid ;;
      io ;;
      taken <- gets (fun s => existsb (upload_has_id oid) (uploads s)) ;;
      if taken then raise NotUniqueError
      else modify (fun s => with_uploads (uploads s ++ [PrescriptionUpload.with_id oid u]) s) ;;
           ret (PrescriptionUpload.with_id oid u)
  | Some i =>
      io ;;
      modify (fun s => with_uploads
                         (map (fun v => if upload_has_id i v then u else v) (uploads s)) s) ;;
      ret u
  end.

(** [reminder.last_sent = d; reminder.save()]: the stored document gets
    [d] to the millisecond. *)
Definition Reminder_save_last_sent (rid : ObjectId) (d : datetime) : M unit :=
  io ;;
  modify (fun s => with_reminders
                     (update_by_id Reminder.id rid
                                   (Reminder.set_last_sent (Some (bson_datetime d)))
                                   (reminders s)) s).

(** [med.is_active = False; med.save()] *)
Definition Medication_save_inactive (mid : ObjectId) : M unit :=
  io ;;
  modify (fun s => with_medications
                     (update_by_id Medication.id mid (Medication.set_is_active false)
                                   (medications s)) s).

(* ================================================================= *)
(** ** Reminder creation *)

(** The create-if-absent step, lines 187-188 (and 249-250, 577-578):
    [if not Reminder.objects(user_id=.., medication_id=.., time=t).first():
         Reminder(.., time=t, is_active=True).save()] *)
Definition ensure_reminder (uid mid : ObjectId) (t : string) : M unit :=
  existing <- Reminder_by_key uid mid t ;;
  match existing with
  | Some _ => ret tt
  | None => Reminder_insert (fun oid => Reminder.mk oid uid mid t true None)
  end.

(** The reconciling loop the three creating paths share, lines 185-188:
    [times = parse_frequency_to_times(m.frequency); for t in times: ...] *)
Definition ensure_reminders (uid : ObjectId) (m : Medication.t) : M unit :=
  let times := parse_frequency_to_times (Medication.frequency m) in
  for_each times (fun t => ensure_reminder uid (Medication.id m) t).

(** [d[k]] *)
Definition dict_getitem (d : pydict) (k : string) : M pystr :=
  match dict_lookup k d with
  | Some v => ret v
  | None => raise (KeyError k)
  end.

(** POST /medications, lines 162-192.  [json] is [request.json]: [None]
    when the body holds no JSON object.  The result is the HTTP status.
    The document class gives a new medication [is_active = True]. *)
Definition medications_post (current_user : User.t) (json : option pydict) : M nat :=
  try_except
    (match json with
     | None => raise AttributeError
     | Some data =>
         if negb (truthy (dict_get data "name" None)) then ret 400
         else
           name <- dict_getitem data "name" ;;
           existing <- Medication_active_by_name (User.id current_user) name ;;
           match existing with
           | Some _ => ret 409
           | None =>
               medication <-
                 Medication_insert (fun oid =>
                   Medication.mk oid (User.id current_user) (User.username current_user)
                                 name
                                 (dict_get data "dosage" (Some EmptyString))
                                 (dict_get data "frequency" (Some EmptyString))
                                 (dict_get data "instructions" (Some EmptyString))
                                 (dict_get data "duration" (Some EmptyString))
                                 "manual" true) ;;
               ensure_reminders (User.id current_user) medication ;;
               ret 201
           end
     end)
    (fun _ => ret 500).

(** What an upload request carries: whether a file part is present, its
    file name, and the candidate medications the OCR and extraction
    collaborators produce for it. *)
Record upload_request : Type := mk_upload {
  has_file : bool;
  file_name : string;
  extracted : list pydict
}.

(** [med.to_dict()] *)
Definition Medication_to_dict (med : Medication.t) : M pyval :=
  fun env s => (Ok (to_dict env med), s).

(** The body of the [for med_data in medications] loop, lines 233-255.
    The document class gives a new medication [is_active = True]; the
    upload path passes no [duration]. *)
Definition add_extracted (current_user : User.t) (added : nat) (med_data : pydict) : M nat :=
  name <- dict_getitem med_data "name" ;;
  existing <- Medication_active_by_name (User.id current_user) name ;;
  match existing with
  | Some _ => ret added
  | None =>
      med <-
        Medication_insert (fun oid =>
          Medication.mk oid (User.id current_user) (User.username current_user)
                        name
                        (dict_get med_data "dosage" (Some EmptyString))
                        (dict_get med_data "frequency" (Some EmptyString))
                        (dict_get med_data "instructions" (Some EmptyString))
                        None "ocr" true) ;;
      ensure_reminders (User.id current_user) med ;;
      dict <- Medication_to_dict med ;;
      socketio_emit "medication_added" [("medication", dict)]
                    ("user_" ++ User.id current_user) ;;
      ret (S added)
  end.

(** POST /upload-prescription, lines 202-271: one [try] block whose
    handler marks [upload_record] failed and saves it when that local is
    already bound.  An exception raised by the handler's own save leaves
    the function.  The [try] block is cut where the handler's view of
    [upload_record] changes. *)
Definition upload_prescription (current_user : User.t) (req : upload_request) : M nat :=
  let failed (u : PrescriptionUpload.t) : M nat :=
    PrescriptionUpload_save (PrescriptionUpload.set_status "failed" u) ;; ret 500 in
  (* lines 204-214: [upload_record] not yet bound *)
  early <-
    try_except
      (if negb (has_file req) then ret (Some 400)
       else if String.eqb (file_name req) EmptyString then ret (Some 400)
       else
         datetime_now ;;                            (* the file name's timestamp *)
         io ;;                                      (* file.save(filepath) *)
         ret None)
      (fun _ => ret (Some 500)) ;;
  match early with
  | Some status => ret status
  | None =>
      let upload_record :=
        PrescriptionUpload.mk None (User.id current_user) (file_name req)
                              "processing" 0 0 in
      (* line 225: the first save *)
      saved <-
        try_except
          (u <- PrescriptionUpload_save upload_record ;; ret (inl u))
          (fun _ => st <- failed upload_record ;; ret (inr st)) ;;
      match saved with
      | inr status => ret status
      | inl upload_record =>
          (* lines 227-255 *)
          looped <-
            try_except
              (io ;;                                (* ocr_processor.extract_text *)
               io ;;                                (* ai_processor.extract_medications *)
               n <- for_fold (extracted req) 0 (add_extracted current_user) ;;
               ret (inl n))
              (fun _ => st <- failed upload_record ;; ret (inr st)) ;;
          match looped with
          | inr status => ret status
          | inl medications_added =>
              (* lines 257-265 *)
              let upload_record :=
                PrescriptionUpload.set_counts (List.length (extracted req))
                                              medications_added upload_record in
              try_except
                (PrescriptionUpload_save
                   (PrescriptionUpload.set_status "completed" upload_record) ;;
                 ret 200)
                (fun _ => failed upload_record)
          end
      end
  end.

(** The body of the [for u in users] loop, lines 573-578. *)
Definition backfill_user (u : User.t) : M unit :=
  meds <- Medication_active_of_user (User.id u) ;;
  for_each meds (fun m => ensure_reminders (User.id u) m).

(** The loops of [backfill_reminders_for_all_users], lines 571-578. *)
Definition backfill_pass : M unit :=
  users <- User_objects ;;
  for_each users backfill_user.

(** [backfill_reminders_for_all_users], lines 569-581. *)
Definition backfill_reminders_for_all_users : M unit :=
  try_except
    (backfill_pass ;; print LogBackfilled)
    (fun e => print (LogBackfillFailed e)).

(* ================================================================= *)
(** ** The other handlers *)

(** One element of the JSON array GET /reminders answers, lines 291-298. *)
Definition reminder_row (rem : Reminder.t) (med : option Medication.t)
  : list (string * pyval) :=
  [ ("id", PStr (Reminder.id rem));
    ("medication_id", PStr (Reminder.medication_id rem));
    ("medication_name", match med with
                        | Some m => of_pystr (Medication.name m)
                        | None => PStr "Unknown"
                        end);
    ("time", PStr (Reminder.time rem));
    ("last_taken", match Reminder.last_sent rem with
                   | Some d => PStr (isoformat d)
                   | None => PNone
                   end);
    ("next_dose", PNone) ].

(** GET /reminders, lines 283-301: the status and the JSON array (the
    error object of the 500 answer is not represented). *)
Definition list_reminders (current_user : User.t)
  : M (nat * list (list (string * pyval))) :=
  try_except
    (reminders <- Reminder_active_of_user (User.id current_user) ;;
     result <- for_collect reminders (fun rem =>
                 med <- Medication_by_id (Reminder.medication_id rem) ;;
                 ret (reminder_row rem med)) ;;
     ret (200, result))
    (fun _ => ret (500, [])).

(** DELETE /medications/<medication_id>, lines 304-315. *)
Definition delete_medication (current_user : User.t) (medication_id : string) : M nat :=
  try_except
    (mid <- to_ObjectId medication_id ;;
     med <- Medication_by_id_of_user mid (User.id current_user) ;;
     match med with
     | None => ret 404
     | Some med =>
         Medication_save_inactive (Medication.id med) ;;
         ret 200
     end)
    (fun _ => ret 500).

(** POST /take-medication/<medication_id>, lines 318-337. *)
Definition take_medication (current_user : User.t) (medication_id : string) : M nat :=
  try_except
    (mid <- to_ObjectId medication_id ;;
     med <- Medication_by_id_of_user mid (User.id current_user) ;;
     match med with
     | None => ret 404
     | Some med =>
         MedicationLog_insert (fun oid =>
           MedicationLog.mk oid (User.id current_user) (Medication.id med) EmptyString) ;;
         socketio_emit "medication_taken"
                       [ ("medication_id", PStr (Medication.id med));
                         ("medication_name", of_pystr (Medication.name med)) ]
                       ("user_" ++ User.id current_user) ;;
         ret 200
     end)
    (fun _ => ret 500).

(* ================================================================= *)
(** ** The scheduler, class [MongoMedicationReminder] *)

(** The two attributes the scheduling code reads: whether a socket server
    and a Flask app were passed to the constructor ([None] otherwise). *)
Record MongoMedicationReminder : Type := mk_scheduler {
  socketio : bool;
  app : bool
}.

(** The dict built at lines 417-426. *)
Definition alert_payload (reminder : Reminder.t) (medication : Medication.t)
           (timestamp : datetime) : list (string * pyval) :=
  [ ("type", PStr "medication_reminder");
    ("reminder_id", PStr (Reminder.id reminder));
    ("medication_id", PStr (Medication.id medication));
    ("medication_name", of_pystr (Medication.name medication));
    ("dosage", PStr (or_empty (Medication.dosage medication)));
    ("instructions", PStr (or_empty (Medication.instructions medication)));
    ("time", PStr (Reminder.time reminder));
    ("timestamp", PStr (isoformat timestamp)) ].

(** [_send_reminder_alert], lines 411-429. *)
Definition _send_reminder_alert (self : MongoMedicationReminder) (reminder : Reminder.t)
  : M unit :=
  medication <- Medication_by_id (Reminder.medication_id reminder) ;;
  match medication with
  | None => ret tt
  | Some medication =>
      sent <- datetime_now ;;
      Reminder_save_last_sent (Reminder.id reminder) sent ;;
      timestamp <- datetime_now ;;
      let alert := alert_payload reminder medication timestamp in
      (if socketio self
       then socketio_emit "medication_reminder" alert ("user_" ++ Reminder.user_id reminder)
       else ret tt) ;;
      print (LogReminderSent (Medication.name medication))
  end.

(** The test of lines 406-408 on one reminder of the query set. *)
Definition not_sent_today (now_dt : datetime) (reminder : Reminder.t) : bool :=
  match Reminder.last_sent reminder with
  | None => true
  | Some last_sent => negb (date_eqb (date last_sent) (date now_dt))
  end.

(** The body of the [for reminder in reminders] loop, lines 405-409. *)
Definition check_reminder (self : MongoMedicationReminder) (now_dt : datetime)
           (now_hm : string) (reminder : Reminder.t) : M unit :=
  if String.eqb (Reminder.time reminder) now_hm then
    if not_sent_today now_dt reminder then _send_reminder_alert self reminder
    else ret tt
  else ret tt.

(** [_check_and_send_reminders], lines 400-409: one tick. *)
Definition _check_and_send_reminders (self : MongoMedicationReminder) : M unit :=
  now_dt <- datetime_now ;;
  let now_hm := strftime_HM now_dt in
  reminders <- Reminder_active ;;
  for_each reminders (check_reminder self now_dt now_hm).

(** [_reminder_loop], lines 390-398.  [is_running] lists the values the
    flag [self.is_running] shows at the successive tests of the [while]
    (another thread clears it); the run is followed as far as the list
    goes. *)
Fixpoint _reminder_loop (self : MongoMedicationReminder) (is_running : list bool) : M unit :=
  match is_running with
  | [] => ret tt
  | false :: _ => ret tt
  | true :: later =>
      try_except
        ((if app self then _check_and_send_reminders self else raise AttributeError) ;;
         sleep_60)
        (fun e => print (LogLoopError e) ;; sleep_60) ;;
      _reminder_loop self later
  end.

(** The state after one turn of the [while] whose tick ended as [res]:
    the line printed by the handler when the tick raised (line 397), and
    the sleep of 60 seconds that follows in either case (lines 394, 398). *)
Definition after_turn (res : outcome unit * State) : State :=
  match res with
  | (Ok _, s) => with_sleeps (S (sleeps s)) s
  | (Raise e, s) => with_sleeps (S (sleeps s)) (with_printed (printed s ++ [LogLoopError e]) s)
  end.

(** The number of iterations the [while] makes. *)
Fixpoint iterations (is_running : list bool) : nat :=
  match is_running with
  | true :: later => S (iterations later)
  | _ => 0
  end.

(* ================================================================= *)
(** ** The application as a transition system *)

Inductive request : Type :=
| PostMedication (current_user : User.t) (json : option pydict)
| UploadPrescription (current_user : User.t) (req : upload_request)
| ListReminders (current_user : User.t)
| DeleteMedication (current_user : User.t) (medication_id : string)
| TakeMedication (current_user : User.t) (medication_id : string)
| StartupBackfill
| SchedulerTick (self : MongoMedicationReminder).

(** Runs one request; the answer is dropped, and an exception that leaves
    a handler ends the request (the scheduler loop and Flask catch it). *)
Definition handle (req : request) : M unit :=
  match req with
  | PostMedication u json => medications_post u json ;; ret tt
  | UploadPrescription u r => upload_prescription u r ;; ret tt
  | ListReminders u => list_reminders u ;; ret tt
  | DeleteMedication u mid => delete_medication u mid ;; ret tt
  | TakeMedication u mid => take_medication u mid ;; ret tt
  | StartupBackfill => backfill_reminders_for_all_users
  | SchedulerTick self => _check_and_send_reminders self
  end.

Definition step (env : Env) (s : State) (req : request) : State :=
  snd (handle req env s).

Definition run (env : Env) (reqs : list request) (s : State) : State :=
  fold_left (step env) reqs s.

(* ================================================================= *)
(** ** Notions the statements use *)

(** A triple for computations that may raise: from a state satisfying
    [P], a normal end with value [a] satisfies [Q a], an exception [e]
    leaves a state satisfying [E e]. *)
Definition hoare {A} (env : Env) (P : State -> Prop) (m : M A)
           (Q : A -> State -> Prop) (E : exn -> State -> Prop) : Prop :=
  forall s, P s ->
    match m env s with
    | (Ok a, s') => Q a s'
    | (Raise e, s') => E e s'
    end.

(** No store, file or socket operation fails. *)
Definition no_faults (env : Env) : Prop := forall k, io_fault env k = false.

(** What a scheduler tick or a handler passed to [socketio.emit]. *)
Definition new_emissions (s s' : State) : list emission :=
  skipn (List.length (emitted s)) (emitted s').

Fixpoint payload_get (k : string) (p : list (string * pyval)) : option pyval :=
  match p with
  | [] => None
  | (k', v) :: p' => if String.eqb k k' then Some v else payload_get k p'
  end.

(** A reminder alert that names reminder [rid]. *)
Definition is_alert_for (rid : ObjectId) (e : emission) : bool :=
  String.eqb (event e) "medication_reminder"
  && match payload_get "reminder_id" (payload e) with
     | Some (PStr i) => String.eqb i rid
     | _ => false
     end.

Definition alerts_for (rid : ObjectId) (es : list emission) : list emission :=
  filter (is_alert_for rid) es.

(** The reminder passes the two tests of lines 406-408 at a tick that
    read the clock as [now_dt]. *)
Definition due (now_dt : datetime) (r : Reminder.t) : bool :=
  String.eqb (Reminder.time r) (strftime_HM now_dt) && not_sent_today now_dt r.

(** The reminder is dispatched at such a tick: it is in the query set,
    passes the tests and its medication document is found. *)
Definition fires (now_dt : datetime) (ms : list Medication.t) (r : Reminder.t) : bool :=
  Reminder.is_active r && due now_dt r
  && match find_medication (Reminder.medication_id r) ms with
     | Some _ => true
     | None => false
     end.

(** How a tick may change one reminder document. *)
Definition evolves (now_dt : datetime) (ms : list Medication.t) (r0 r : Reminder.t) : Prop :=
  r = r0 \/ (fires now_dt ms r0 = true
             /\ exists d, r = Reminder.set_last_sent (Some d) r0).

(** The frequency text of the medication a reminder points at. *)
Definition frequency_of (mid : ObjectId) (ms : list Medication.t) : option pystr :=
  option_map Medication.frequency (find_medication mid ms).

Definition time_from_frequency (ms : list Medication.t) (r : Reminder.t) : Prop :=
  exists f, frequency_of (Reminder.medication_id r) ms = Some f
            /\ In (Reminder.time r) (parse_frequency_to_times f).

(** The invariant of the stored reminders. *)
Record store_ok (s : State) : Prop := mk_store_ok {
  medication_ids_unique : NoDup (map Medication.id (medications s));
  reminder_ids_unique : NoDup (map Reminder.id (reminders s));
  reminder_keys_unique : NoDup (map Reminder.key (reminders s));
  reminder_times_ok : Forall (time_from_frequency (medications s)) (reminders s)
}.

(** How many stored reminders carry a key. *)
Definition count_key (uid mid : ObjectId) (t : string) (rs : list Reminder.t) : nat :=
  List.length (filter (has_key uid mid t) rs).

(** Every reminder the reconciler would create for medication [m] of user
    [uid] is already stored. *)
Definition reconciled (uid : ObjectId) (m : Medication.t) (rs : list Reminder.t) : Prop :=
  forall t, In t (parse_frequency_to_times (Medication.frequency m)) ->
            exists r, find (has_key uid (Medication.id m) t) rs = Some r.

(** The keys of an alert payload, in the order the dict is built. *)
Definition alert_keys : list string :=
  [ "type"; "reminder_id"; "medication_id"; "medication_name"; "dosage";
    "instructions"; "time"; "timestamp" ].

(** The seven fields the interface description lists for an alert, under
    the names the code gives them (reminderId, medicationId,
    medicationName, dosage, instructions, time, firedAt). *)
Definition listed_alert_keys : list string :=
  [ "reminder_id"; "medication_id"; "medication_name"; "dosage";
    "instructions"; "time"; "timestamp" ].

(** What a tick that read the clock as [now_dt] in state [s0] may have
    done by the time it is in state [s]: only reminder documents change,
    each as [evolves] allows. *)
Definition tick_frame (now_dt : datetime) (s0 s : State) : Prop :=
  users s = users s0
  /\ medications s = medications s0
  /\ medication_logs s = medication_logs s0
  /\ uploads s = uploads s0
  /\ Forall2 (evolves now_dt (medications s0)) (reminders s0) (reminders s).

(** An alert of such a tick: the payload built for an active stored
    reminder whose time is the tick's HH:MM and for its medication
    document, stamped with a reading of the clock and sent to the room of
    the reminder's user. *)
Definition is_tick_alert (env : Env) (now_dt : datetime) (s0 : State) (e : emission) : Prop :=
  event e = "medication_reminder"
  /\ exists r m k,
       In r (reminders s0)
       /\ Reminder.is_active r = true
       /\ due now_dt r = true
       /\ find_medication (Reminder.medication_id r) (medications s0) = Some m
       /\ payload e = alert_payload r m (now env k)
       /\ room e = ("user_" ++ Reminder.user_id r)%string.

Definition tick_emits (env : Env) (now_dt : datetime) (s0 s : State) : Prop :=
  medications s = medications s0
  /\ exists new, emitted s = emitted s0 ++ new
                 /\ Forall (is_tick_alert env now_dt s0) new.

(** The state in which a tick enters its loop: the clock was read once
    and the query for the active reminders was sent. *)
Definition tick_start (s : State) : State :=
  with_io_ops (S (io_ops s)) (with_clock_reads (S (clock_reads s)) s).

(** Between [s0] and [s] no alert naming reminder [rid] was emitted and
    the stored document of that reminder did not change. *)
Definition untouched (rid : ObjectId) (s0 s : State) : Prop :=
  alerts_for rid (emitted s) = alerts_for rid (emitted s0)
  /\ find_reminder rid (reminders s) = find_reminder rid (reminders s0).

(** A computation relates every state it starts in to the state it ends
    in, normally or by an exception. *)
Definition keeps (R : State -> State -> Prop) {A} (m : M A) : Prop :=
  forall env s, R s (snd (m env s)).

(** The reminder alerts among everything that was emitted. *)
Definition alerts (s : State) : list emission :=
  filter (fun e => String.eqb (event e) "medication_reminder") (emitted s).

(** The four collections the scheduler and the handlers share are the
    same, and so are the reminder alerts emitted. *)
Definition same_store (s s' : State) : Prop :=
  users s' = users s
  /\ medications s' = medications s
  /\ reminders s' = reminders s
  /\ medication_logs s' = medication_logs s
  /\ alerts s' = alerts s.

(** A relation between states that looks at the four collections only. *)
Definition collections_only (R : State -> State -> Prop) : Prop :=
  forall s s',
    users s' = users s -> medications s' = medications s ->
    reminders s' = reminders s -> medication_logs s' = medication_logs s ->
    R s s'.

(** A relation between states that looks at those collections and at the
    alerts only. *)
Record store_relation (R : State -> State -> Prop) : Prop := mk_store_relation {
  rel_trans : forall s1 s2 s3, R s1 s2 -> R s2 s3 -> R s1 s3;
  rel_same : forall s s', same_store s s' -> R s s'
}.

Definition same_logs (s s' : State) : Prop :=
  medication_logs s' = medication_logs s.

Definition same_reminders_and_medications (s s' : State) : Prop :=
  reminders s' = reminders s /\ medications s' = medications s.

(** Stored reminders are left as they are; reminders may be added, each
    with a null [last_sent]. *)
Definition appends_reminders (s s' : State) : Prop :=
  exists added, reminders s' = reminders s ++ added
                /\ Forall (fun r => Reminder.last_sent r = None) added.

(** Every reminder the startup backfill would create is already stored. *)
Definition backfill_reconciled (s : State) : Prop :=
  forall u m,
    In u (users s) -> In m (medications s) ->
    Medication.user_id m = User.id u -> Medication.is_active m = true ->
    reconciled (User.id u) m (reminders s).

(** The invariant, with the medications pinned down. *)
Definition store_ok_with (ms : list Medication.t) (s : State) : Prop :=
  store_ok s /\ medications s = ms.

(** A request keeps the invariant. *)
Definition keeps_store_ok (s s' : State) : Prop := store_ok s -> store_ok s'.

(** A request keeps the frequency text of every stored medication. *)
Definition keeps_frequencies (s s' : State) : Prop :=
  forall mid f, frequency_of mid (medications s) = Some f ->
                frequency_of mid (medications s') = Some f.

(** Users and medications are the same and reminders were only added. *)
Definition grows (s s' : State) : Prop :=
  users s' = users s /\ medications s' = medications s /\ appends_reminders s s'.

(** Reminders, users and medications are the given ones and no ObjectId
    was drawn. *)
Definition nothing_written (us : list User.t) (ms : list Medication.t)
           (rs : list Reminder.t) (n : nat) (s : State) : Prop :=
  users s = us /\ medications s = ms /\ reminders s = rs /\ oids_made s = n.

(** Reminder [rid] is stored with a [last_sent] on the date [D]. *)
Definition sent_on (D : nat * nat * nat) (rid : ObjectId) (s : State) : Prop :=
  exists r d,
    find_reminder rid (reminders s) = Some r
    /\ Reminder.last_sent r = Some d
    /\ date d = D.

(** No reminder alert was emitted and reminders were only added. *)
Definition adds_no_alert (s s' : State) : Prop :=
  alerts s' = alerts s /\ appends_reminders s s'.

(* ================================================================= *)
(** ** A small pharmacy: the data of the examples *)

Module Example.

Definition alice : User.t := User.mk "64b7f1a2c3d4e5f601020301" "alice".

(** 2024-03-05 09:00; every reading falls in that minute, the k-th at
    second [k mod 60] and 1999 microseconds further for each reading. *)
Definition nine_o_clock (k : nat) : datetime :=
  mk_datetime 2024 3 5 9 0 (k mod 60) (k mod 500 * 1999).

Definition oid_of (k : nat) : ObjectId :=
  ("64b7f1a2c3d4e5f60102" ++ pad_dec 4 k)%string.

Definition brief (m : Medication.t) : pyval :=
  PDict [ ("id", PStr (Medication.id m)); ("name", of_pystr (Medication.name m)) ].

(** Nothing fails. *)
Definition calm : Env := mk_env nine_o_clock (fun _ => false) oid_of brief.

(** The second store operation fails: in a tick, the lookup of the
    first due reminder's medication. *)
Definition shaky : Env := mk_env nine_o_clock (fun k => Nat.eqb k 1) oid_of brief.

Definition scheduler : MongoMedicationReminder := mk_scheduler true true.

Definition aspirin : Medication.t :=
  Medication.mk "64b7f1a2c3d4e5f6010203a1" (User.id alice) "alice"
                (Some "Aspirin") (Some "81mg") (Some "twice daily (1-0-1)")
                (Some "after food") (Some EmptyString) "manual" true.

Definition aspirin_deleted : Medication.t := Medication.set_is_active false aspirin.

Definition morning : Reminder.t :=
  Reminder.mk "64b7f1a2c3d4e5f6010203b1" (User.id alice) (Medication.id aspirin)
              "09:00" true None.

Definition evening : Reminder.t :=
  Reminder.mk "64b7f1a2c3d4e5f6010203b2" (User.id alice) (Medication.id aspirin)
              "20:00" true None.

Definition yesterday : datetime := mk_datetime 2024 3 4 9 0 2 0.
Definition earlier_today : datetime := mk_datetime 2024 3 5 9 0 0 0.

Definition morning_sent (d : datetime) : Reminder.t :=
  Reminder.set_last_sent (Some d) morning.

Definition store (ms : list Medication.t) (rs : list Reminder.t) : State :=
  mk_state [alice] ms rs [] [] [] [] 0 0 0 0.

(** Alice's aspirin with its two reminders, none sent yet. *)
Definition fresh : State := store [aspirin] [morning; evening].

(** The morning reminder was sent the day before / earlier the same day. *)
Definition next_day : State := store [aspirin] [morning_sent yesterday; evening].
Definition same_day : State := store [aspirin] [morning_sent earlier_today; evening].

(** The medication was deleted through DELETE /medications/<id>. *)
Definition deleted : State := store [aspirin_deleted] [morning; evening].

Definition new_aspirin : pydict :=
  [ ("name", Some "Aspirin"); ("dosage", Some "81mg");
    ("frequency", Some "twice daily (1-0-1)") ].

Definition new_ibuprofen : pydict :=
  [ ("name", Some "Ibuprofen"); ("dosage", Some "200mg");
    ("frequency", Some "every morning") ].

(** Alice added aspirin, taken twice daily, and then ibuprofen, taken
    every morning: two reminders are due at 09:00. *)
Definition two_due : State :=
  run calm [ PostMedication alice (Some new_aspirin);
             PostMedication alice (Some new_ibuprofen) ]
      (empty_state [alice]).

(** The reminders these two requests created. *)
Definition aspirin_morning : Reminder.t :=
  Reminder.mk (oid_of 1) (User.id alice) (oid_of 0) "09:00" true None.
Definition aspirin_evening : Reminder.t :=
  Reminder.mk (oid_of 2) (User.id alice) (oid_of 0) "20:00" true None.
Definition ibuprofen_morning : Reminder.t :=
  Reminder.mk (oid_of 4) (User.id alice) (oid_of 3) "09:00" true None.

(** In a tick that starts in [two_due], the second store operation fails:
    the lookup of the first due reminder's medication. *)
Definition stumbling : Env :=
  mk_env nine_o_clock (fun k => Nat.eqb k (S (io_ops two_due))) oid_of brief.

Definition scan : upload_request :=
  mk_upload true "rx.png"
            [ [ ("name", Some "Metformin"); ("frequency", Some "1-1-1") ];
              [ ("name", Some "Aspirin"); ("frequency", Some "bid") ] ].

(** A session: Alice adds aspirin, uploads a prescription, the process
    restarts (backfill), the scheduler ticks, she takes and then deletes
    the aspirin, and the scheduler ticks again. *)
Definition session : list request :=
  [ PostMedication alice (Some new_aspirin);
    UploadPrescription alice scan;
    StartupBackfill;
    SchedulerTick scheduler;
    TakeMedication alice (oid_of 0);
    DeleteMedication alice (oid_of 0);
    ListReminders alice;
    SchedulerTick scheduler ].

(** Alice adds aspirin and then deletes it through the API. *)
Definition after_delete : State :=
  run calm [ PostMedication alice (Some new_aspirin);
             DeleteMedication alice (oid_of 0) ]
      (empty_state [alice]).

End Example.
From Stdlib Require Import ZArith.

(* ================================================================= *)
(** ** The user loader *)

(** [User.objects(id=uid).first()] *)
Definition User_by_id (uid : ObjectId) : M (option User.t) :=
  io ;; gets (fun s => find (fun u => String.eqb (User.id u) uid) (users s)).

(** [load_user], lines 53-59: the bare [except] turns every exception
    into [None]. *)
Definition load_user (user_id : string) : M (option User.t) :=
  try_except
    (oid <- to_ObjectId user_id ;;
     User_by_id oid)
    (fun _ => ret None).

(* ================================================================= *)
(** ** The medication information search *)

(** The values of an information dict: a text or a list of texts. *)
Inductive info_value : Type :=
| IText (s : string)
| ITexts (l : list string).

(** A dict in insertion order. *)
Definition info := list (string * info_value).

Fixpoint info_get (k : string) (d : info) : option info_value :=
  match d with
  | [] => None
  | (k', v) :: d' => if String.eqb k k' then Some v else info_get k d'
  end.

(** [d[k] = v]: a key the dict holds keeps its place, a new key goes last. *)
Fixpoint info_set (k : string) (v : info_value) (d : info) : info :=
  match d with
  | [] => [(k, v)]
  | (k', v') :: d' =>
      if String.eqb k k' then (k', v) :: d' else (k', v') :: info_set k v d'
  end.

(** The dict literal of lines 449-474. *)
Definition enhanced_db : list (string * info) :=
  [ ("aspirin",
     [ ("generic_name", IText "Acetylsalicylic Acid");
       ("common_dosages", ITexts ["81mg"; "325mg"; "500mg"]);
       ("frequency", ITexts ["Once daily"; "Every 4-6 hours"]);
       ("side_effects", ITexts ["Stomach upset"; "Bleeding risk"]);
       ("precautions", ITexts ["Take with food"; "Avoid alcohol"]);
       ("interactions", ITexts ["Warfarin"; "NSAIDs"]) ]);
    ("ibuprofen",
     [ ("generic_name", IText "Ibuprofen");
       ("common_dosages", ITexts ["200mg"; "400mg"; "600mg"]);
       ("frequency", ITexts ["Every 4-6 hours"]);
       ("side_effects", ITexts ["GI upset"; "Dizziness"]);
       ("precautions", ITexts ["Take with food"]);
       ("interactions", ITexts ["Aspirin"; "Antihypertensives"]) ]);
    ("amoxicillin",
     [ ("generic_name", IText "Amoxicillin");
       ("common_dosages", ITexts ["250mg"; "500mg"; "875mg"]);
       ("frequency", ITexts ["Twice daily"; "Three times daily"]);
       ("side_effects", ITexts ["Diarrhea"; "Rash"]);
       ("precautions", ITexts ["Complete full course"]);
       ("interactions", ITexts ["Oral contraceptives"]) ]) ].

(** The three f-strings of lines 482-484 (and 497-499). *)
Definition search_urls (medication_name : string) : list string :=
  [ "https://www.drugs.com/search.php?searchterm=" ++ medication_name;
    "https://www.webmd.com/drugs/2/search?query=" ++ medication_name;
    "https://www.rxlist.com/search/" ++ medication_name ]%string.

(** [search_medication_on_web], lines 447-501: the loop returns at the
    first key of [enhanced_db] contained in the lower-cased name. *)
Definition search_medication_on_web (medication_name : string) : info :=
  let name_l := lower medication_name in
  match find (fun item => str_in (fst item) name_l) enhanced_db with
  | Some (_, data) =>
      info_set "search_urls" (ITexts (search_urls medication_name))
               (info_set "source" (IText "Enhanced Database") data)
  | None =>
      [ ("source", IText "Web Search Recommended");
        ("generic_name", IText medication_name);
        ("common_dosages", ITexts ["Consult doctor"]);
        ("frequency", ITexts ["As prescribed"]);
        ("side_effects", ITexts ["Consult doctor"]);
        ("precautions", ITexts ["Follow directions"]);
        ("interactions", ITexts ["Consult doctor"]);
        ("search_urls", ITexts (search_urls medication_name)) ]
  end.

(** GET /search-medication-info, lines 436-445.  [name] is the query
    parameter, [None] when the request has none; the answer is the status
    and, for 200, the [medication_name] and [information] of the body. *)
Definition search_medication_info (name : option string) : nat * option (string * info) :=
  let medication_name := match name with
                         | Some n => n
                         | None => EmptyString
                         end in
  if negb (truthy (Some medication_name)) then (400, None)
  else (200, Some (medication_name, search_medication_on_web medication_name)).

(* ================================================================= *)
(** ** The expected doses of the medication report *)

(** The heuristic of lines 520-526 of [medication_report]: the doses a
    day the report expects for a frequency text. *)
Definition per_day (frequency : pystr) : nat :=
  let freq := lower (or_empty frequency) in
  if str_in "three" freq || str_in "1-1-1" freq then 3
  else if str_in "twice" freq || str_in "1-0-1" freq || str_in "0-1-1" freq
          || str_in "1-1-0" freq then 2
  else 1.

(** The loop of lines 517-527 over the user's active medications;
    [days] is [int(request.args.get('days', 30))], of either sign. *)
Definition total_expected (meds : list Medication.t) (days : Z) : Z :=
  fold_left (fun total m =>
               (total + Z.of_nat (Nat.max 1 (per_day (Medication.frequency m))) * days)%Z)
            meds 0%Z.

(* ================================================================= *)
(** ** More notions the statements use *)

(** The statuses POST /medications answers with. *)
Definition post_statuses : list nat := [201; 400; 409; 500].

(** The medication document POST /medications builds from a JSON body. *)
Definition manual_medication (oid : ObjectId) (u : User.t) (data : pydict) : Medication.t :=
  Medication.mk oid (User.id u) (User.username u)
                (dict_get data "name" None)
                (dict_get data "dosage" (Some EmptyString))
                (dict_get data "frequency" (Some EmptyString))
                (dict_get data "instructions" (Some EmptyString))
                (dict_get data "duration" (Some EmptyString))
                "manual" true.

(** User [uid] has an active medication called [n]. *)
Definition has_active_name (uid : ObjectId) (n : pystr) (ms : list Medication.t) : bool :=
  existsb (fun m => String.eqb (Medication.user_id m) uid
                    && pystr_eqb (Medication.name m) n
                    && Medication.is_active m) ms.

(** A reminder as the creating paths store it for medication [m] of
    user [uid]. *)
Definition created_for (uid : ObjectId) (m : Medication.t) (r : Reminder.t) : Prop :=
  Reminder.user_id r = uid
  /\ Reminder.medication_id r = Medication.id m
  /\ In (Reminder.time r) (parse_frequency_to_times (Medication.frequency m))
  /\ Reminder.is_active r = true
  /\ Reminder.last_sent r = None.

(** The owner and name of every active medication. *)
Definition active_names (ms : list Medication.t) : list (ObjectId * pystr) :=
  map (fun m => (Medication.user_id m, Medication.name m))
      (filter Medication.is_active ms).

(** No user has two active medications of one name. *)
Definition active_names_unique (s : State) : Prop :=
  NoDup (active_names (medications s)).

(** The next [n] ObjectIds the environment hands out are pairwise
    different and are the [_id] of no stored medication or reminder. *)
Definition fresh_oids (env : Env) (n : nat) (s : State) : Prop :=
  (forall k, oids_made s <= k < oids_made s + n ->
             ~ In (new_oid env k) (map Medication.id (medications s))
             /\ ~ In (new_oid env k) (map Reminder.id (reminders s)))
  /\ (forall j k, oids_made s <= j -> j < k -> k < oids_made s + n ->
                  new_oid env j <> new_oid env k).

(** The medication of user [uid] that the id text of a URL names. *)
Definition medication_of_user (medication_id : string) (uid : ObjectId)
           (ms : list Medication.t) : option Medication.t :=
  find (fun m => String.eqb (Medication.id m) (lower medication_id)
                 && String.eqb (Medication.user_id m) uid) ms.

(** [ObjectId(text)] raises nothing: 24 characters that [bytes.fromhex]
    takes. *)
Definition is_oid_text (text : string) : bool :=
  Nat.eqb (String.length text) 24 && fromhex_ok text.

(** How DELETE by user [uid] of the id [mid] may change one medication
    document. *)
Definition deactivated (uid mid : ObjectId) (m m' : Medication.t) : Prop :=
  m' = m
  \/ (Medication.user_id m = uid /\ Medication.id m = mid
      /\ m' = Medication.set_is_active false m).

(** Every medication log names a stored medication of the user it
    belongs to. *)
Definition logs_ok (s : State) : Prop :=
  Forall (fun l => exists m,
              In m (medications s)
              /\ Medication.id m = MedicationLog.medication_id l
              /\ Medication.user_id m = MedicationLog.user_id l)
         (medication_logs s).

(** Every reminder belongs to the user who owns its medication. *)
Definition owned (ms : list Medication.t) (r : Reminder.t) : Prop :=
  exists m, find_medication (Reminder.medication_id r) ms = Some m
            /\ Medication.user_id m = Reminder.user_id r.

Definition reminders_owned (s : State) : Prop :=
  Forall (owned (medications s)) (reminders s).

(** A valid time of day. *)
Definition time_of_day (dt : datetime) : Prop := hour dt < 24 /\ minute dt < 60.

(** The fields of an information dict. *)
Definition info_keys : list string :=
  [ "generic_name"; "common_dosages"; "frequency"; "side_effects"; "precautions";
    "interactions"; "source"; "search_urls" ].

(** The keys of [enhanced_db], in the order of the dict literal. *)
Definition known_drugs : list string := map fst enhanced_db.

(** The sum of the doses a day the report expects for the medications. *)
Definition doses_a_day (meds : list Medication.t) : nat :=
  list_sum (map (fun m => per_day (Medication.frequency m)) meds).

(** Only reminder documents were written: the other collections, the
    emissions and the printed lines are the same. *)
Definition writes_reminders_only (s s' : State) : Prop :=
  users s' = users s
  /\ medications s' = medications s
  /\ medication_logs s' = medication_logs s
  /\ uploads s' = uploads s
  /\ emitted s' = emitted s
  /\ printed s' = printed s.

(** Nothing was written: the collections, the emissions, the printed
    lines and the count of ObjectIds drawn are the same. *)
Definition writes_nothing (s s' : State) : Prop :=
  writes_reminders_only s s'
  /\ reminders s' = reminders s
  /\ oids_made s' = oids_made s.

(** The state in which POST /medications starts to create reminders for
    the medication [m] it has just stored. *)
Definition medication_stored (m : Medication.t) (s : State) : State :=
  with_medications (medications s ++ [m])
    (with_io_ops (S (S (io_ops s))) (with_oids_made (S (oids_made s)) s)).

(** The medication document the upload path builds from one extracted
    candidate. *)
Definition ocr_medication (oid : ObjectId) (u : User.t) (med_data : pydict)
           (name : pystr) : Medication.t :=
  Medication.mk oid (User.id u) (User.username u) name
                (dict_get med_data "dosage" (Some EmptyString))
                (dict_get med_data "frequency" (Some EmptyString))
                (dict_get med_data "instructions" (Some EmptyString))
                None "ocr" true.

(** The event the upload path emits for a medication it has added. *)
Definition added_event (env : Env) (u : User.t) (m : Medication.t) : emission :=
  mk_emission "medication_added" [("medication", to_dict env m)]
              ("user_" ++ User.id u).

(** The event POST /take-medication emits. *)
Definition taken_event (u : User.t) (m : Medication.t) : emission :=
  mk_emission "medication_taken"
              [ ("medication_id", PStr (Medication.id m));
                ("medication_name", of_pystr (Medication.name m)) ]
              ("user_" ++ User.id u).

(** The state after [n] store operations and [k] drawn ObjectIds. *)
Definition after (n k : nat) (s : State) : State :=
  with_io_ops (n + io_ops s) (with_oids_made (k + oids_made s) s).

(** A request keeps the active names unique. *)
Definition keeps_names (s s' : State) : Prop :=
  active_names_unique s -> active_names_unique s'.

(** The active medications of user [uid] called [n]. *)
Definition active_named (uid : ObjectId) (n : pystr) (ms : list Medication.t)
  : list Medication.t :=
  filter (fun m => String.eqb (Medication.user_id m) uid
                   && pystr_eqb (Medication.name m) n
                   && Medication.is_active m) ms.

(** The log document POST /take-medication stores. *)
Definition dose_log (env : Env) (u : User.t) (m : Medication.t) (s : State)
  : MedicationLog.t :=
  MedicationLog.mk (new_oid env (oids_made s)) (User.id u) (Medication.id m) EmptyString.

(** A request keeps [logs_ok]. *)
Definition keeps_logs_ok (s s' : State) : Prop := logs_ok s -> logs_ok s'.

(** The invariant of the stored reminders, with the ownership of every
    reminder. *)
Definition store_owned (s : State) : Prop := store_ok s /\ reminders_owned s.

(** A request keeps [store_owned]. *)
Definition keeps_owned (s s' : State) : Prop := store_owned s -> store_owned s'.

(** The reminders are owned, with the medications pinned down. *)
Definition owned_with (ms : list Medication.t) (s : State) : Prop :=
  reminders_owned s /\ medications s = ms.

(** A medication as the upload path stores it for user [u] from one of
    the extracted candidates. *)
Definition extracted_from (u : User.t) (candidates : list pydict) (m : Medication.t)
  : Prop :=
  Medication.user_id m = User.id u
  /\ Medication.source m = "ocr"
  /\ Medication.is_active m = true
  /\ exists med_data,
       In med_data candidates
       /\ dict_lookup "name" med_data = Some (Medication.name m)
       /\ Medication.frequency m = dict_get med_data "frequency" (Some EmptyString).

(** The bookkeeping record of a completed upload. *)
Definition completed_upload (oid : ObjectId) (u : User.t) (req : upload_request)
           (added : nat) : PrescriptionUpload.t :=
  PrescriptionUpload.mk (Some oid) (User.id u) (file_name req) "completed"
                        (List.length (extracted req)) added.

(** A reminder as the startup backfill stores it: for an active
    medication of a user of the store [s]. *)
Definition backfilled_for (s : State) (r : Reminder.t) : Prop :=
  exists u m,
    In u (users s)
    /\ In m (medications s)
    /\ Medication.is_active m = true
    /\ Medication.user_id m = User.id u
    /\ created_for (User.id u) m r.

(** What the loops of the backfill may have done to the store [s]. *)
Definition backfill_adds (s s1 : State) : Prop :=
  writes_reminders_only s s1
  /\ exists added,
       reminders s1 = reminders s ++ added
       /\ Forall (backfilled_for s) added.

(* ================================================================= *)
(** ** More data for the examples *)

Module Sample.

Definition metformin : pydict :=
  [ ("name", Some "Metformin"); ("dosage", Some "500mg"); ("frequency", Some "1-1-1") ].

(** Bob, a second user, and his medication. *)
Definition bob : User.t := User.mk "64b7f1a2c3d4e5f601020302" "bob".

Definition statin : Medication.t :=
  Medication.mk "64b7f1a2c3d4e5f6010203a2" (User.id bob) "bob"
                (Some "Atorvastatin") (Some "20mg") (Some "0-0-1")
                (Some EmptyString) (Some EmptyString) "manual" true.

Definition night : Reminder.t :=
  Reminder.mk "64b7f1a2c3d4e5f6010203b4" (User.id bob) (Medication.id statin)
              "20:00" true None.

(** Alice's aspirin and Bob's statin, with their reminders. *)
Definition ward : State :=
  mk_state [Example.alice; bob] [Example.aspirin; statin]
           [Example.morning; Example.evening; night] [] [] [] [] 0 0 0 0.

End Sample.

(* ================================================================= *)
(** * Proofs *)

(** ** Rules for triples *)

Section HoareRules.
Variable env : Env.

Lemma hoare_conseq {A} (P P' : State -> Prop) (m : M A) Q Q' E E' :
  hoare env P' m Q' E' ->
  (forall s, P s -> P' s) ->
  (forall a s, Q' a s -> Q a s) ->
  (forall e s, E' e s -> E e s) ->
  hoare env P m Q E.
Proof.
  intros H HP HQ HE s Hs. specialize (H s (HP s Hs)).
  destruct (m env s) as [[a|e] s']; auto.
Qed.

Lemma hoare_bind {A B} (m : M A) (k : A -> M B) P Q R E :
  hoare env P m Q E ->
  (forall a, hoare env (Q a) (k a) R E) ->
  hoare env P (bind m k) R E.
Proof.
  intros Hm Hk s Hs. unfold bind. specialize (Hm s Hs).
  destruct (m env s) as [[a|e] s']; [apply (Hk a s' Hm) | exact Hm].
Qed.

Lemma hoare_try_except {A} (m : M A) (h : exn -> M A) P Q E E' :
  hoare env P m Q E' ->
  (forall e, hoare env (E' e) (h e) Q E) ->
  hoare env P (try_except m h) Q E.
Proof.
  intros Hm Hh s Hs. unfold try_except. specialize (Hm s Hs).
  destruct (m env s) as [[a|e] s']; [exact Hm | apply (Hh e s' Hm)].
Qed.

Lemma hoare_conj {A} (m : M A) P P' Q Q' E E' :
  hoare env P m Q E ->
  hoare env P' m Q' E' ->
  hoare env (fun s => P s /\ P' s) m
        (fun a s => Q a s /\ Q' a s) (fun e s => E e s /\ E' e s).
Proof.
  intros H H' s [Hs Hs']. specialize (H s Hs). specialize (H' s Hs').
  destruct (m env s) as [[a|e] s']; split; assumption.
Qed.

(** A loop keeps an invariant that each of its iterations keeps. *)
Lemma hoare_for_each {A} (xs : list A) (f : A -> M unit) (I : State -> Prop) E :
  (forall x, In x xs -> hoare env I (f x) (fun _ => I) E) ->
  hoare env I (for_each xs f) (fun _ => I) E.
Proof.
  induction xs as [|x xs IH]; intros Hf; simpl.
  - intros s Hs. exact Hs.
  - eapply hoare_bind.
    + apply Hf. now left.
    + intros ?. apply IH. intros y Hy. apply Hf. now right.
Qed.

End HoareRules.

(* ================================================================= *)
(** ** The frequency interpreter *)

Lemma prefix_app : forall p t, String.prefix p t = true <-> exists b, t = (p ++ b)%string.
Proof.
  induction p as [|c p IH]; intros t.
  - destruct t; simpl; split; intros _; try reflexivity; eexists; reflexivity.
  - destruct t as [|d t]; simpl.
    + split; [discriminate | intros [b Hb]; discriminate].
    + destruct (ascii_dec c d) as [->|Hne].
      * split.
        -- intros H. apply IH in H. destruct H as [b Hb]. exists b. now rewrite Hb.
        -- intros [b Hb]. apply IH. exists b. now inversion Hb.
      * split; [discriminate | intros [b Hb]; inversion Hb; subst; now elim Hne].
Qed.

(** [str_in] is Python's substring test. *)
Lemma str_in_spec : forall p t, str_in p t = true <-> exists a b, t = (a ++ p ++ b)%string.
Proof.
  intros p t. induction t as [|c t IH]; cbn [str_in].
  - rewrite orb_false_r. split.
    + intros H. apply prefix_app in H. destruct H as [b Hb]. exists EmptyString, b. exact Hb.
    + intros [a [b Hb]]. apply prefix_app.
      destruct a; [now exists b | discriminate].
  - split.
    + intros H. apply orb_true_iff in H. destruct H as [H | H].
      * apply prefix_app in H. destruct H as [b Hb]. exists EmptyString, b. exact Hb.
      * apply IH in H. destruct H as [a [b Hb]].
        exists (String c a), b. simpl. now rewrite Hb.
    + intros [a [b Hb]]. apply orb_true_iff. destruct a as [|c' a]; simpl in Hb.
      * left. apply prefix_app. now exists b.
      * right. apply IH. exists a, b. now inversion Hb.
Qed.

Lemma lower_ascii_idem : forall c, lower_ascii (lower_ascii c) = lower_ascii c.
Proof. intros c. destruct c as [[] [] [] [] [] [] [] []]; reflexivity. Qed.

Lemma lower_upper_ascii : forall c, lower_ascii (upper_ascii c) = lower_ascii c.
Proof. intros c. destruct c as [[] [] [] [] [] [] [] []]; reflexivity. Qed.

Lemma lower_idem : forall s, lower (lower s) = lower s.
Proof.
  unfold lower. induction s as [|c s IH]; simpl; [reflexivity|].
  now rewrite lower_ascii_idem, IH.
Qed.

Lemma lower_upper : forall s, lower (upper s) = lower s.
Proof.
  unfold lower, upper. induction s as [|c s IH]; simpl; [reflexivity|].
  now rewrite lower_upper_ascii, IH.
Qed.

Lemma lower_app : forall a b, lower (a ++ b) = (lower a ++ lower b)%string.
Proof.
  unfold lower. induction a as [|c a IH]; intros b; simpl; [reflexivity|].
  now rewrite IH.
Qed.

Lemma lower_app_inv : forall x y t,
  lower t = (x ++ y)%string ->
  exists t1 t2, t = (t1 ++ t2)%string /\ lower t1 = x /\ lower t2 = y.
Proof.
  unfold lower. induction x as [|c x IH]; intros y t H; simpl in H.
  - exists EmptyString, t. now repeat split.
  - destruct t as [|c0 t]; simpl in H; [discriminate|].
    inversion H as [[Hc Ht]]. destruct (IH y t Ht) as (t1 & t2 & -> & H1 & H2).
    exists (String c0 t1), t2. simpl. repeat split; trivial. now rewrite H1, Hc.
Qed.

(** A keyword is found in the lower-cased text exactly when the text
    holds a piece that is the keyword up to letter case. *)
Lemma str_in_lower_spec : forall kw text,
  str_in kw (lower text) = true
  <-> exists a w b, text = (a ++ w ++ b)%string /\ lower w = kw.
Proof.
  intros kw text. split.
  - intros H. apply str_in_spec in H. destruct H as (a' & b' & H).
    apply lower_app_inv in H. destruct H as (a & rest & -> & _ & Hrest).
    apply lower_app_inv in Hrest. destruct Hrest as (w & b & -> & Hw & _).
    now exists a, w, b.
  - intros (a & w & b & -> & Hw). apply str_in_spec.
    exists (lower a), (lower b). now rewrite !lower_app, Hw.
Qed.

Lemma rule_matches_spec : forall text rule,
  rule_matches text rule = true
  <-> exists kw a w b,
        In kw (fst rule) /\ text = (a ++ w ++ b)%string /\ lower w = kw.
Proof.
  intros text rule. unfold rule_matches. split.
  - intros H. apply existsb_exists in H. destruct H as (kw & Hin & Hkw).
    apply str_in_lower_spec in Hkw. destruct Hkw as (a & w & b & Ht & Hw).
    now exists kw, a, w, b.
  - intros (kw & a & w & b & Hin & Ht & Hw). apply existsb_exists. exists kw.
    split; [exact Hin|]. apply str_in_lower_spec. now exists a, w, b.
Qed.

Lemma parse_by_rules : forall ft,
  parse_frequency_to_times ft = interpret_by_rules (or_empty ft).
Proof.
  intros ft. unfold parse_frequency_to_times, interpret_by_rules.
  cbv [decision_list find rule_matches existsb fst snd].
  generalize (lower (or_empty ft)). intros text.
  repeat rewrite orb_false_r.
  repeat match goal with
  | |- context [str_in ?k text] => destruct (str_in k text); cbn [orb]; try reflexivity
  end.
Qed.

(** The interpreter yields one of six fixed lists. *)
Lemma parse_cases : forall ft,
  In (parse_frequency_to_times ft)
     [ ["09:00"; "14:00"; "20:00"]; ["09:00"; "20:00"]; ["20:00"]; ["09:00"];
       ["08:00"; "12:00"; "16:00"; "20:00"] ].
Proof.
  intros ft. unfold parse_frequency_to_times.
  repeat match goal with
  | |- context [if ?b then _ else _] => destruct b
  end; simpl; tauto.
Qed.

Lemma parse_only_reads_lower : forall a b,
  lower (or_empty a) = lower (or_empty b) ->
  parse_frequency_to_times a = parse_frequency_to_times b.
Proof. intros a b H. unfold parse_frequency_to_times. now rewrite H. Qed.

Lemma same_letter_lower_ascii : forall c d,
  same_letter c d -> lower_ascii c = lower_ascii d.
Proof.
  intros c d [-> | [[Hr He] | [Hr He]]]; [reflexivity | |].
  - rewrite <- (ascii_nat_embedding d), He.
    destruct c as [[] [] [] [] [] [] [] []]; cbn in Hr; try lia; reflexivity.
  - rewrite <- (ascii_nat_embedding c), He.
    destruct d as [[] [] [] [] [] [] [] []]; cbn in Hr; try lia; reflexivity.
Qed.

Lemma same_letter_lower_self : forall c, same_letter c (lower_ascii c).
Proof.
  intros c. destruct c as [[] [] [] [] [] [] [] []];
    first [ left; reflexivity | right; left; vm_compute; lia ].
Qed.

Lemma same_text_lower : forall s t, same_text s t -> lower s = lower t.
Proof.
  intros s t H. unfold lower. induction H as [|c d s t Hc _ IH]; simpl; [reflexivity|].
  now rewrite (same_letter_lower_ascii c d Hc), IH.
Qed.

Lemma same_text_lower_self : forall s, same_text s (lower s).
Proof.
  unfold lower. induction s as [|c s IH]; simpl; constructor; trivial.
  apply same_letter_lower_self.
Qed.

(** A keyword without capitals is found in the lower-cased text exactly
    when the text holds it in some letter case. *)
Lemma str_in_lower_has_keyword : forall kw text,
  lower kw = kw ->
  (str_in kw (lower text) = true <-> has_keyword text kw).
Proof.
  intros kw text Hkw. rewrite str_in_lower_spec. split.
  - intros (a & w & b & Ht & Hw). exists a, w, b. split; [exact Ht|].
    rewrite <- Hw. apply same_text_lower_self.
  - intros (a & w & b & Ht & Hw). exists a, w, b. split; [exact Ht|].
    now rewrite (same_text_lower _ _ Hw).
Qed.

Lemma str_in_lower_no_keyword : forall kw text,
  lower kw = kw ->
  (str_in kw (lower text) = false <-> ~ has_keyword text kw).
Proof.
  intros kw text Hkw. rewrite <- (str_in_lower_has_keyword kw text Hkw).
  destruct (str_in kw (lower text)); split; intros H; congruence.
Qed.

Lemma keywords_are_lower : forall rule kw,
  In rule decision_list -> In kw (fst rule) -> lower kw = kw.
Proof.
  intros rule kw Hr Hk. unfold decision_list in Hr. simpl in Hr.
  repeat (destruct Hr as [<- | Hr];
          [simpl in Hk; repeat (destruct Hk as [<- | Hk]; [reflexivity|]);
           contradiction|]).
  contradiction.
Qed.

(** A rule of the decision list matches exactly when the text holds one
    of its keywords in any letter case. *)
Lemma rule_matches_has_keyword : forall text rule,
  In rule decision_list ->
  (rule_matches text rule = true
   <-> exists kw, In kw (fst rule) /\ has_keyword text kw).
Proof.
  intros text rule Hr. rewrite rule_matches_spec. split.
  - intros (kw & a & w & b & Hin & Ht & Hw). exists kw. split; [exact Hin|].
    exists a, w, b. split; [exact Ht|]. rewrite <- Hw. apply same_text_lower_self.
  - intros (kw & Hin & a & w & b & Ht & Hw). exists kw, a, w, b.
    repeat split; trivial.
    rewrite (same_text_lower _ _ Hw). now apply (keywords_are_lower rule).
Qed.

Lemma find_first_match : forall {A} (f : A -> bool) before x after,
  f x = true ->
  (forall y, In y before -> f y = false) ->
  find f (before ++ x :: after) = Some x.
Proof.
  intros A f before x after Hx. induction before as [|y before IH]; intros Hb; simpl.
  - now rewrite Hx.
  - rewrite (Hb y) by now left. apply IH. intros z Hz. apply Hb. now right.
Qed.

Lemma find_no_match : forall {A} (f : A -> bool) l,
  (forall y, In y l -> f y = false) -> find f l = None.
Proof.
  intros A f l. induction l as [|y l IH]; intros H; simpl; [reflexivity|].
  rewrite (H y) by now left. apply IH. intros z Hz. apply H. now right.
Qed.

Lemma rule_without_keyword : forall text rule,
  In rule decision_list ->
  (forall kw, In kw (fst rule) -> ~ has_keyword text kw) ->
  rule_matches text rule = false.
Proof.
  intros text rule Hr Hno. destruct (rule_matches text rule) eqn:Hm; [|reflexivity].
  apply (rule_matches_has_keyword text rule Hr) in Hm.
  destruct Hm as (kw & Hin & Hkw). now elim (Hno kw Hin).
Qed.

(** C4: for every frequency text (also a missing or empty one) the
    interpreter returns a non-empty list of HH:MM times, namely the times
    of the first rule of the decision list one of whose keywords occurs in
    the text in any letter case, and 09:00 alone when no rule matches;
    texts that differ in letter case only get the same times; "1-1-1 bid"
    yields the three-times-daily list, and so do "THREE times a day" and
    "Tds". *)
Theorem parse_frequency_to_times_decision_list :
  forall frequency_text : pystr,
    parse_frequency_to_times frequency_text
      = interpret_by_rules (or_empty frequency_text)
    /\ (forall rule,
          rule_matches (or_empty frequency_text) rule = true
          <-> exists kw a w b,
                In kw (fst rule)
                /\ or_empty frequency_text = (a ++ w ++ b)%string
                /\ lower w = kw)
    /\ (forall before rule after,
          decision_list = before ++ rule :: after ->
          (exists kw, In kw (fst rule) /\ has_keyword (or_empty frequency_text) kw) ->
          (forall earlier kw, In earlier before -> In kw (fst earlier) ->
                              ~ has_keyword (or_empty frequency_text) kw) ->
          parse_frequency_to_times frequency_text = snd rule)
    /\ ((forall rule kw, In rule decision_list -> In kw (fst rule) ->
                         ~ has_keyword (or_empty frequency_text) kw) ->
        parse_frequency_to_times frequency_text = ["09:00"])
    /\ (forall other,
          same_text (or_empty frequency_text) other ->
          parse_frequency_to_times (Some other)
          = parse_frequency_to_times frequency_text)
    /\ parse_frequency_to_times frequency_text <> []
    /\ Forall (fun t => is_HHMM t = true) (parse_frequency_to_times frequency_text)
    /\ parse_frequency_to_times (option_map upper frequency_text)
       = parse_frequency_to_times frequency_text
    /\ parse_frequency_to_times (option_map lower frequency_text)
       = parse_frequency_to_times frequency_text
    /\ parse_frequency_to_times (Some "1-1-1 bid") = ["09:00"; "14:00"; "20:00"]
    /\ parse_frequency_to_times (Some "THREE times a day") = ["09:00"; "14:00"; "20:00"]
    /\ parse_frequency_to_times (Some "Tds") = ["09:00"; "14:00"; "20:00"]
    /\ parse_frequency_to_times (Some "Twice Daily") = ["09:00"; "20:00"]
    /\ parse_frequency_to_times (Some "1 tab BID") = ["09:00"; "20:00"]
    /\ parse_frequency_to_times (Some "At NIGHT") = ["20:00"]
    /\ parse_frequency_to_times (Some "Every Morning") = ["09:00"]
    /\ parse_frequency_to_times (Some "QID") = ["08:00"; "12:00"; "16:00"; "20:00"]
    /\ parse_frequency_to_times (Some "Four times daily")
       = ["08:00"; "12:00"; "16:00"; "20:00"]
    /\ parse_frequency_to_times (Some "Twice at NIGHT") = ["09:00"; "20:00"]
    /\ parse_frequency_to_times (Some "no such pattern") = ["09:00"]
    /\ parse_frequency_to_times (Some "ONCE DAILY") = ["09:00"]
    /\ parse_frequency_to_times (Some EmptyString) = ["09:00"]
    /\ parse_frequency_to_times None = ["09:00"].
Proof.
  intros ft. split; [apply parse_by_rules|].
  split; [intros rule; apply rule_matches_spec|].
  split.
  { intros before rule after Hsplit Hkw Hbefore.
    assert (Hin : forall r, In r (before ++ rule :: after) -> In r decision_list)
      by (intros r Hr; now rewrite Hsplit).
    rewrite parse_by_rules. unfold interpret_by_rules. rewrite Hsplit.
    rewrite find_first_match; [reflexivity | |].
    - apply rule_matches_has_keyword; [|exact Hkw].
      apply Hin. apply in_or_app. right. now left.
    - intros y Hy. apply rule_without_keyword.
      + apply Hin. apply in_or_app. now left.
      + intros kw Hk. now apply (Hbefore y). }
  split.
  { intros Hno. rewrite parse_by_rules. unfold interpret_by_rules.
    rewrite find_no_match; [reflexivity|].
    intros y Hy. apply rule_without_keyword; [exact Hy|].
    intros kw Hk. now apply (Hno y). }
  split.
  { intros other Hsame. apply parse_only_reads_lower. simpl.
    symmetry. now apply same_text_lower. }
  split.
  { pose proof (parse_cases ft) as H. simpl in H.
    intros Hnil. rewrite Hnil in H.
    repeat (destruct H as [H|H]; [discriminate|]). exact H. }
  split.
  { pose proof (parse_cases ft) as H. simpl in H.
    repeat (destruct H as [H|H]; [rewrite <- H; repeat constructor|]).
    contradiction. }
  split.
  { apply parse_only_reads_lower. destruct ft; simpl; [apply lower_upper | reflexivity]. }
  split.
  { apply parse_only_reads_lower. destruct ft; simpl; [apply lower_idem | reflexivity]. }
  repeat split; reflexivity.
Qed.

(* ================================================================= *)
(** ** Lists of documents *)

Lemma find_reminder_update_other : forall id0 rid d l,
  id0 <> rid ->
  find_reminder id0 (update_by_id Reminder.id rid (Reminder.set_last_sent d) l)
  = find_reminder id0 l.
Proof.
  intros id0 rid d l Hne. unfold find_reminder.
  induction l as [|x l IH]; simpl; [reflexivity|].
  destruct (String.eqb (Reminder.id x) rid) eqn:Hx; simpl.
  - apply String.eqb_eq in Hx.
    destruct (String.eqb (Reminder.id x) id0) eqn:H0; [|reflexivity].
    apply String.eqb_eq in H0. congruence.
  - now rewrite IH.
Qed.

Lemma find_reminder_update_same : forall rid d l x,
  find_reminder rid l = Some x ->
  find_reminder rid (update_by_id Reminder.id rid (Reminder.set_last_sent d) l)
  = Some (Reminder.set_last_sent d x).
Proof.
  intros rid d l x. unfold find_reminder.
  induction l as [|y l IH]; simpl; [discriminate|].
  destruct (String.eqb (Reminder.id y) rid) eqn:Hy; simpl.
  - rewrite Hy. congruence.
  - rewrite Hy. exact IH.
Qed.

Lemma find_reminder_In : forall rid l x,
  find_reminder rid l = Some x -> In x l /\ Reminder.id x = rid.
Proof.
  intros rid l x H. unfold find_reminder in H. apply find_some in H.
  destruct H as [Hin Heq]. apply String.eqb_eq in Heq. now split.
Qed.

(** With unique ids, looking a stored reminder up by its id finds it. *)
Lemma find_reminder_unique : forall l x,
  NoDup (map Reminder.id l) -> In x l -> find_reminder (Reminder.id x) l = Some x.
Proof.
  unfold find_reminder.
  induction l as [|y l IH]; intros x Hnd Hin; simpl in *; [contradiction|].
  inversion Hnd as [|? ? Hnotin Hnd']; subst.
  destruct Hin as [->|Hin].
  - now rewrite String.eqb_refl.
  - destruct (String.eqb (Reminder.id y) (Reminder.id x)) eqn:Hy.
    + apply String.eqb_eq in Hy. exfalso. apply Hnotin. rewrite Hy.
      now apply in_map.
    + now apply IH.
Qed.

Lemma find_medication_unique : forall l x,
  NoDup (map Medication.id l) -> In x l -> find_medication (Medication.id x) l = Some x.
Proof.
  unfold find_medication.
  induction l as [|y l IH]; intros x Hnd Hin; simpl in *; [contradiction|].
  inversion Hnd as [|? ? Hnotin Hnd']; subst.
  destruct Hin as [->|Hin].
  - now rewrite String.eqb_refl.
  - destruct (String.eqb (Medication.id y) (Medication.id x)) eqn:Hy.
    + apply String.eqb_eq in Hy. exfalso. apply Hnotin. rewrite Hy.
      now apply in_map.
    + now apply IH.
Qed.

Lemma alerts_for_app : forall rid es es',
  alerts_for rid (es ++ es') = alerts_for rid es ++ alerts_for rid es'.
Proof. intros. unfold alerts_for. apply filter_app. Qed.

Lemma is_alert_for_payload : forall rid r m ts rm,
  is_alert_for rid (mk_emission "medication_reminder" (alert_payload r m ts) rm)
  = String.eqb (Reminder.id r) rid.
Proof. reflexivity. Qed.

Lemma new_emissions_app : forall s s' new,
  emitted s' = emitted s ++ new -> new_emissions s s' = new.
Proof.
  intros s s' new H. unfold new_emissions. rewrite H.
  rewrite skipn_app, skipn_all, Nat.sub_diag. reflexivity.
Qed.

(* ================================================================= *)
(** ** One reminder of a tick *)

Ltac unfold_tick :=
  unfold check_reminder, _send_reminder_alert, Medication_by_id,
         Reminder_save_last_sent, socketio_emit, print, datetime_now, io,
         bind, gets, modify, ret.

(** A reminder that fails one of the two tests is passed over. *)
Lemma check_reminder_not_due : forall self now_dt r env s,
  due now_dt r = false ->
  check_reminder self now_dt (strftime_HM now_dt) r env s = (Ok tt, s).
Proof.
  intros self now_dt r env s Hdue. unfold due in Hdue. unfold check_reminder.
  destruct (String.eqb (Reminder.time r) (strftime_HM now_dt)); [|reflexivity].
  simpl in Hdue. now rewrite Hdue.
Qed.

(** Handling a reminder touches neither the alerts that name another
    reminder nor that other reminder's document. *)
Lemma check_reminder_other : forall env self now_dt now_hm r id0 X D,
  Reminder.id r <> id0 ->
  hoare env
    (fun s => alerts_for id0 (emitted s) = X /\ find_reminder id0 (reminders s) = D)
    (check_reminder self now_dt now_hm r)
    (fun _ s => alerts_for id0 (emitted s) = X /\ find_reminder id0 (reminders s) = D)
    (fun _ s => alerts_for id0 (emitted s) = X /\ find_reminder id0 (reminders s) = D).
Proof.
  intros env self now_dt now_hm r id0 X D Hne s [HX HD]. unfold_tick.
  destruct (String.eqb (Reminder.time r) now_hm); [|now split].
  destruct (not_sent_today now_dt r); [|now split].
  destruct (io_fault env (io_ops s)); simpl; [now split|].
  destruct (find_medication (Reminder.medication_id r) (medications s)) as [m|];
    simpl; [|now split].
  assert (Hf : forall d,
    find_reminder id0 (update_by_id Reminder.id (Reminder.id r)
                                    (Reminder.set_last_sent d) (reminders s)) = D).
  { intros d. rewrite find_reminder_update_other; [exact HD | congruence]. }
  destruct (io_fault env (S (io_ops s))); simpl; [now split|].
  destruct (socketio self); simpl; [|split; [exact HX | apply Hf]].
  destruct (io_fault env (S (S (io_ops s)))); simpl; [split; [exact HX | apply Hf]|].
  split; [|apply Hf].
  rewrite alerts_for_app, HX. simpl. rewrite is_alert_for_payload.
  destruct (String.eqb (Reminder.id r) id0) eqn:H0.
  - apply String.eqb_eq in H0. contradiction.
  - apply app_nil_r.
Qed.

(** A due reminder with its medication at hand, when nothing fails and a
    socket server is attached: its [last_sent] becomes the next clock
    reading and exactly one alert naming it is emitted. *)
Lemma check_reminder_fires : forall env self now_dt r r' m ms X c,
  no_faults env ->
  socketio self = true ->
  due now_dt r = true ->
  find_medication (Reminder.medication_id r) ms = Some m ->
  hoare env
    (fun s => medications s = ms /\ clock_reads s = c
              /\ alerts_for (Reminder.id r) (emitted s) = X
              /\ find_reminder (Reminder.id r) (reminders s) = Some r')
    (check_reminder self now_dt (strftime_HM now_dt) r)
    (fun _ s => medications s = ms /\ clock_reads s = S (S c)
                /\ alerts_for (Reminder.id r) (emitted s)
                   = X ++ [mk_emission "medication_reminder"
                                       (alert_payload r m (now env (S c)))
                                       ("user_" ++ Reminder.user_id r)]
                /\ find_reminder (Reminder.id r) (reminders s)
                   = Some (Reminder.set_last_sent (Some (bson_datetime (now env c))) r'))
    (fun _ _ => False).
Proof.
  intros env self now_dt r r' m ms X c Hnf Hsock Hdue Hm s (Hms & Hc & HX & HD).
  unfold due in Hdue. apply andb_true_iff in Hdue. destruct Hdue as [Ht Hn].
  unfold_tick. rewrite Ht, Hn, !Hnf. simpl. rewrite Hms, Hm. simpl.
  rewrite Hsock. simpl. rewrite !Hnf. simpl. rewrite Hc.
  split; [exact Hms|]. split; [reflexivity|]. split.
  - rewrite alerts_for_app, HX. simpl. rewrite is_alert_for_payload.
    now rewrite String.eqb_refl.
  - now apply find_reminder_update_same.
Qed.

(** Under [no_faults] the handling of a reminder raises nothing, keeps
    the medications, and only moves the clock forward. *)
Lemma check_reminder_no_raise : forall env self now_dt now_hm r ms c,
  no_faults env ->
  hoare env
    (fun s => medications s = ms /\ c <= clock_reads s)
    (check_reminder self now_dt now_hm r)
    (fun _ s => medications s = ms /\ c <= clock_reads s)
    (fun _ _ => False).
Proof.
  intros env self now_dt now_hm r ms c Hnf s [Hms Hc]. unfold_tick.
  destruct (String.eqb (Reminder.time r) now_hm); [|now split].
  destruct (not_sent_today now_dt r); [|now split].
  rewrite !Hnf. simpl.
  destruct (find_medication (Reminder.medication_id r) (medications s)); simpl;
    [|now split].
  rewrite !Hnf. simpl.
  destruct (socketio self); simpl; [rewrite !Hnf; simpl|]; split; auto; lia.
Qed.

(** Handling a reminder never changes the medications. *)
Lemma check_reminder_frame_medications : forall env self now_dt now_hm r s,
  medications (snd (check_reminder self now_dt now_hm r env s)) = medications s.
Proof.
  intros env self now_dt now_hm r s. unfold_tick.
  destruct (String.eqb (Reminder.time r) now_hm); [|reflexivity].
  destruct (not_sent_today now_dt r); [|reflexivity].
  destruct (io_fault env (io_ops s)); simpl; [reflexivity|].
  destruct (find_medication (Reminder.medication_id r) (medications s)); simpl;
    [|reflexivity].
  destruct (io_fault env (S (io_ops s))); simpl; [reflexivity|].
  destruct (socketio self); simpl; [|reflexivity].
  destruct (io_fault env (S (S (io_ops s)))); reflexivity.
Qed.

Lemma evolves_id : forall now_dt ms r0 r,
  evolves now_dt ms r0 r -> Reminder.id r = Reminder.id r0.
Proof.
  intros now_dt ms r0 r [->|[_ [d ->]]]; reflexivity.
Qed.

Lemma evolves_set_last_sent : forall now_dt ms r0 r d,
  fires now_dt ms r0 = true ->
  evolves now_dt ms r0 r ->
  evolves now_dt ms r0 (Reminder.set_last_sent (Some d) r).
Proof.
  intros now_dt ms r0 r d Hf [->|[_ [d' ->]]]; right; split; trivial; now exists d.
Qed.

Lemma Forall2_evolves_refl : forall now_dt ms l, Forall2 (evolves now_dt ms) l l.
Proof. induction l; constructor; [now left | assumption]. Qed.

(** Saving [last_sent] for a dispatched reminder of the query set changes
    the stored reminders as [evolves] allows. *)
Lemma Forall2_evolves_update : forall now_dt ms d r l0 l,
  Forall2 (evolves now_dt ms) l0 l ->
  NoDup (map Reminder.id l0) ->
  In r l0 ->
  fires now_dt ms r = true ->
  Forall2 (evolves now_dt ms) l0
          (update_by_id Reminder.id (Reminder.id r) (Reminder.set_last_sent (Some d)) l).
Proof.
  intros now_dt ms d r l0 l H. induction H as [|x0 x l0 l Hx Hl IH];
    intros Hnd Hin Hf; simpl; [constructor|].
  inversion Hnd as [|? ? Hnotin Hnd']; subst.
  pose proof (evolves_id _ _ _ _ Hx) as Hid.
  destruct (String.eqb (Reminder.id x) (Reminder.id r)) eqn:Heq.
  - apply String.eqb_eq in Heq.
    assert (r = x0) as ->.
    { destruct Hin as [Hin|Hin]; [now symmetry|].
      exfalso. apply Hnotin. rewrite <- Hid, Heq. now apply in_map. }
    constructor; [now apply evolves_set_last_sent | assumption].
  - constructor; [assumption|]. apply IH; trivial.
    destruct Hin as [Hin|Hin]; [|assumption].
    subst. rewrite Hid, String.eqb_refl in Heq. discriminate.
Qed.

(** One reminder of the query set, as to what the tick may change. *)
Lemma check_reminder_frame : forall env self now_dt r s0,
  NoDup (map Reminder.id (reminders s0)) ->
  In r (reminders s0) ->
  Reminder.is_active r = true ->
  hoare env (tick_frame now_dt s0)
        (check_reminder self now_dt (strftime_HM now_dt) r)
        (fun _ => tick_frame now_dt s0) (fun _ => tick_frame now_dt s0).
Proof.
  intros env self now_dt r s0 Hnd Hin Hact s (Hu & Hm & Hl & Hup & Hr).
  unfold_tick. unfold tick_frame.
  destruct (String.eqb (Reminder.time r) (strftime_HM now_dt)) eqn:Ht; [|now repeat split].
  destruct (not_sent_today now_dt r) eqn:Hn; [|now repeat split].
  destruct (io_fault env (io_ops s)); simpl; [now repeat split|].
  destruct (find_medication (Reminder.medication_id r) (medications s)) as [m|] eqn:Hfm;
    simpl; [|now repeat split].
  assert (Hfires : fires now_dt (medications s0) r = true).
  { unfold fires, due. rewrite Hact, Ht, Hn, <- Hm, Hfm. reflexivity. }
  assert (HF : forall d, Forall2 (evolves now_dt (medications s0)) (reminders s0)
             (update_by_id Reminder.id (Reminder.id r)
                           (Reminder.set_last_sent (Some d)) (reminders s))).
  { intros d. now apply Forall2_evolves_update. }
  destruct (io_fault env (S (io_ops s))); simpl; [now repeat split|].
  destruct (socketio self); simpl; [|repeat split; trivial].
  destruct (io_fault env (S (S (io_ops s)))); simpl; repeat split; trivial.
Qed.

(** One reminder of the query set, as to what the tick emits. *)
Lemma check_reminder_emits : forall env self now_dt r s0,
  In r (reminders s0) ->
  Reminder.is_active r = true ->
  hoare env (tick_emits env now_dt s0)
        (check_reminder self now_dt (strftime_HM now_dt) r)
        (fun _ => tick_emits env now_dt s0) (fun _ => tick_emits env now_dt s0).
Proof.
  intros env self now_dt r s0 Hin Hact s (Hm & new & Hnew & Hall).
  unfold_tick. unfold tick_emits.
  assert (Hkeep : medications s = medications s0
                  /\ exists new0, emitted s = emitted s0 ++ new0
                                  /\ Forall (is_tick_alert env now_dt s0) new0)
    by (split; [exact Hm | now exists new]).
  destruct (String.eqb (Reminder.time r) (strftime_HM now_dt)) eqn:Ht; [|exact Hkeep].
  destruct (not_sent_today now_dt r) eqn:Hn; [|exact Hkeep].
  destruct (io_fault env (io_ops s)); simpl; [exact Hkeep|].
  destruct (find_medication (Reminder.medication_id r) (medications s)) as [m|] eqn:Hfm;
    simpl; [|exact Hkeep].
  destruct (io_fault env (S (io_ops s))); simpl; [exact Hkeep|].
  destruct (socketio self); simpl; [|exact Hkeep].
  destruct (io_fault env (S (S (io_ops s)))); simpl; [exact Hkeep|].
  split; [exact Hm|].
  exists (new ++ [mk_emission "medication_reminder"
                              (alert_payload r m (now env (S (clock_reads s))))
                              ("user_" ++ Reminder.user_id r)]).
  split; [rewrite Hnew; now rewrite app_assoc|].
  apply Forall_app. split; [exact Hall|]. constructor; [|constructor].
  split; [reflexivity|]. exists r, m, (S (clock_reads s)).
  repeat split; trivial.
  - unfold due. now rewrite Ht, Hn.
  - now rewrite <- Hm.
Qed.

(* ================================================================= *)
(** ** A whole tick *)

Lemma tick_unfold : forall self env s,
  _check_and_send_reminders self env s
  = if io_fault env (io_ops s) then (Raise StoreError, tick_start s)
    else for_each (filter Reminder.is_active (reminders s))
                  (check_reminder self (now env (clock_reads s))
                                  (strftime_HM (now env (clock_reads s))))
                  env (tick_start s).
Proof.
  intros self env s.
  unfold _check_and_send_reminders, Reminder_active, datetime_now, io, bind, gets, tick_start.
  simpl. destruct (io_fault env (io_ops s)); reflexivity.
Qed.

Lemma for_each_app_run : forall A (xs ys : list A) (f : A -> M unit) env s,
  for_each (xs ++ ys) f env s
  = match for_each xs f env s with
    | (Ok _, s') => for_each ys f env s'
    | (Raise e, s') => (Raise e, s')
    end.
Proof.
  induction xs as [|x xs IH]; intros ys f env s; simpl; [reflexivity|].
  unfold bind. destruct (f x env s) as [[[]|e] s1]; [apply IH | reflexivity].
Qed.

Lemma NoDup_map_filter : forall A B (f : A -> B) (p : A -> bool) l,
  NoDup (map f l) -> NoDup (map f (filter p l)).
Proof.
  induction l as [|x l IH]; simpl; intros H; [constructor|].
  inversion H as [|? ? Hnotin Hnd]; subst.
  destruct (p x); simpl; [|now apply IH].
  constructor; [|now apply IH].
  intros Hin. apply Hnotin. apply in_map_iff in Hin. destruct Hin as [y [Hy Hin]].
  apply filter_In in Hin. rewrite <- Hy. apply in_map. tauto.
Qed.

(** What a tick may change: only reminder documents, each as
    [evolves] allows. *)
Lemma tick_frame_holds : forall env self s,
  NoDup (map Reminder.id (reminders s)) ->
  tick_frame (now env (clock_reads s)) s (snd (_check_and_send_reminders self env s)).
Proof.
  intros env self s Hnd. rewrite tick_unfold.
  assert (H0 : tick_frame (now env (clock_reads s)) s (tick_start s))
    by (repeat split; apply Forall2_evolves_refl).
  destruct (io_fault env (io_ops s)); [exact H0|].
  assert (H : hoare env (tick_frame (now env (clock_reads s)) s)
                (for_each (filter Reminder.is_active (reminders s))
                   (check_reminder self (now env (clock_reads s))
                                   (strftime_HM (now env (clock_reads s)))))
                (fun _ => tick_frame (now env (clock_reads s)) s)
                (fun _ => tick_frame (now env (clock_reads s)) s)).
  { apply hoare_for_each. intros r Hr. apply filter_In in Hr. destruct Hr.
    now apply check_reminder_frame. }
  specialize (H _ H0).
  destruct (for_each _ _ env (tick_start s)) as [[[]|e] s']; exact H.
Qed.

(** The tick only appends alerts to what was emitted. *)
Lemma tick_emits_holds : forall env self s,
  tick_emits env (now env (clock_reads s)) s (snd (_check_and_send_reminders self env s)).
Proof.
  intros env self s. rewrite tick_unfold.
  assert (H0 : tick_emits env (now env (clock_reads s)) s (tick_start s)).
  { split; [reflexivity|]. exists []. split; [now rewrite app_nil_r | constructor]. }
  destruct (io_fault env (io_ops s)); [exact H0|].
  assert (H : hoare env (tick_emits env (now env (clock_reads s)) s)
                (for_each (filter Reminder.is_active (reminders s))
                   (check_reminder self (now env (clock_reads s))
                                   (strftime_HM (now env (clock_reads s)))))
                (fun _ => tick_emits env (now env (clock_reads s)) s)
                (fun _ => tick_emits env (now env (clock_reads s)) s)).
  { apply hoare_for_each. intros r Hr. apply filter_In in Hr. destruct Hr.
    now apply check_reminder_emits. }
  specialize (H _ H0).
  destruct (for_each _ _ env (tick_start s)) as [[[]|e] s']; exact H.
Qed.

Lemma tick_appends : forall env self s,
  emitted (snd (_check_and_send_reminders self env s))
  = emitted s ++ new_emissions s (snd (_check_and_send_reminders self env s)).
Proof.
  intros env self s. destruct (tick_emits_holds env self s) as (_ & new & Hnew & _).
  now rewrite (new_emissions_app _ _ _ Hnew).
Qed.

Lemma alerts_for_new : forall rid s s' Y,
  emitted s' = emitted s ++ new_emissions s s' ->
  alerts_for rid (emitted s') = alerts_for rid (emitted s) ++ Y ->
  alerts_for rid (new_emissions s s') = Y.
Proof.
  intros rid s s' Y Happ HY. rewrite Happ, alerts_for_app in HY.
  now apply app_inv_head in HY.
Qed.

(** One reminder of the query set, seen from a stored reminder [r0] that
    the tick does not dispatch. *)
Lemma check_reminder_passes_over : forall env self now_dt r r0 s0 X,
  NoDup (map Reminder.id (reminders s0)) ->
  In r (reminders s0) ->
  In r0 (reminders s0) ->
  Reminder.is_active r = true ->
  fires now_dt (medications s0) r0 = false ->
  hoare env
    (fun s => medications s = medications s0
              /\ alerts_for (Reminder.id r0) (emitted s) = X
              /\ find_reminder (Reminder.id r0) (reminders s) = Some r0)
    (check_reminder self now_dt (strftime_HM now_dt) r)
    (fun _ s => medications s = medications s0
                /\ alerts_for (Reminder.id r0) (emitted s) = X
                /\ find_reminder (Reminder.id r0) (reminders s) = Some r0)
    (fun _ s => medications s = medications s0
                /\ alerts_for (Reminder.id r0) (emitted s) = X
                /\ find_reminder (Reminder.id r0) (reminders s) = Some r0).
Proof.
  intros env self now_dt r r0 s0 X Hnd Hr Hr0 Hact Hnf.
  destruct (String.eqb (Reminder.id r) (Reminder.id r0)) eqn:Hid.
  - apply String.eqb_eq in Hid.
    assert (r = r0) as ->.
    { pose proof (find_reminder_unique _ _ Hnd Hr) as H1.
      pose proof (find_reminder_unique _ _ Hnd Hr0) as H2.
      rewrite Hid in H1. congruence. }
    unfold fires in Hnf. rewrite Hact in Hnf. simpl in Hnf.
    intros s (Hm & HX & HD).
    destruct (due now_dt r0) eqn:Hdue.
    + simpl in Hnf.
      destruct (find_medication (Reminder.medication_id r0) (medications s0)) eqn:Hfm;
        [discriminate|].
      rewrite <- Hm in Hfm.
      unfold due in Hdue. apply andb_true_iff in Hdue. destruct Hdue as [Ht Hn].
      unfold_tick. rewrite Ht, Hn.
      destruct (io_fault env (io_ops s)); simpl; [now repeat split|].
      rewrite Hfm. simpl. now repeat split.
    + rewrite check_reminder_not_due by assumption. now repeat split.
  - assert (Hne : Reminder.id r <> Reminder.id r0)
      by (intros Heq; rewrite Heq, String.eqb_refl in Hid; discriminate).
    intros s (Hm & HX & HD).
    assert (H1 := check_reminder_other env self now_dt (strftime_HM now_dt) r
                    (Reminder.id r0) X (Some r0) Hne s (conj HX HD)).
    pose proof (check_reminder_frame_medications env self now_dt
                  (strftime_HM now_dt) r s) as H2.
    destruct (check_reminder self now_dt (strftime_HM now_dt) r env s) as [[[]|e] s'];
      simpl in H2; (split; [congruence | exact H1]).
Qed.

(** A stored reminder the tick does not dispatch gets no alert and keeps
    its document, whatever fails. *)
Lemma tick_passes_over : forall env self s r0,
  NoDup (map Reminder.id (reminders s)) ->
  In r0 (reminders s) ->
  fires (now env (clock_reads s)) (medications s) r0 = false ->
  alerts_for (Reminder.id r0)
             (new_emissions s (snd (_check_and_send_reminders self env s))) = []
  /\ find_reminder (Reminder.id r0)
                   (reminders (snd (_check_and_send_reminders self env s))) = Some r0.
Proof.
  intros env self s r0 Hnd Hr0 Hnf.
  pose proof (tick_appends env self s) as Happ.
  set (s' := snd (_check_and_send_reminders self env s)) in *.
  assert (HP : medications s' = medications s
               /\ alerts_for (Reminder.id r0) (emitted s')
                  = alerts_for (Reminder.id r0) (emitted s)
               /\ find_reminder (Reminder.id r0) (reminders s') = Some r0).
  { subst s'. rewrite tick_unfold.
    assert (H0 : medications (tick_start s) = medications s
                 /\ alerts_for (Reminder.id r0) (emitted (tick_start s))
                    = alerts_for (Reminder.id r0) (emitted s)
                 /\ find_reminder (Reminder.id r0) (reminders (tick_start s)) = Some r0).
    { repeat split. simpl. now apply find_reminder_unique. }
    destruct (io_fault env (io_ops s)); [exact H0|].
    assert (H : hoare env
              (fun s1 => medications s1 = medications s
                         /\ alerts_for (Reminder.id r0) (emitted s1)
                            = alerts_for (Reminder.id r0) (emitted s)
                         /\ find_reminder (Reminder.id r0) (reminders s1) = Some r0)
              (for_each (filter Reminder.is_active (reminders s))
                 (check_reminder self (now env (clock_reads s))
                                 (strftime_HM (now env (clock_reads s)))))
              (fun _ s1 => medications s1 = medications s
                         /\ alerts_for (Reminder.id r0) (emitted s1)
                            = alerts_for (Reminder.id r0) (emitted s)
                         /\ find_reminder (Reminder.id r0) (reminders s1) = Some r0)
              (fun _ s1 => medications s1 = medications s
                         /\ alerts_for (Reminder.id r0) (emitted s1)
                            = alerts_for (Reminder.id r0) (emitted s)
                         /\ find_reminder (Reminder.id r0) (reminders s1) = Some r0)).
    { apply hoare_for_each. intros r Hr. apply filter_In in Hr. destruct Hr.
      now apply check_reminder_passes_over. }
    specialize (H _ H0).
    destruct (for_each _ _ env (tick_start s)) as [[[]|e] s1]; exact H. }
  destruct HP as (_ & HX & HD). split; [|exact HD].
  apply alerts_for_new; [exact Happ | now rewrite app_nil_r].
Qed.

(** The reminders of a query set other than [id0], when nothing fails. *)
Lemma for_each_others : forall env self now_dt now_hm rs id0 ms c X D,
  no_faults env ->
  (forall r, In r rs -> Reminder.id r <> id0) ->
  hoare env
    (fun s => (medications s = ms /\ c <= clock_reads s)
              /\ alerts_for id0 (emitted s) = X /\ find_reminder id0 (reminders s) = D)
    (for_each rs (check_reminder self now_dt now_hm))
    (fun _ s => (medications s = ms /\ c <= clock_reads s)
              /\ alerts_for id0 (emitted s) = X /\ find_reminder id0 (reminders s) = D)
    (fun _ _ => False).
Proof.
  intros env self now_dt now_hm rs id0 ms c X D Hnf Hne.
  apply hoare_for_each. intros r Hr.
  eapply hoare_conseq.
  - apply hoare_conj.
    + apply (check_reminder_no_raise env self now_dt now_hm r ms c Hnf).
    + apply (check_reminder_other env self now_dt now_hm r id0 X D (Hne r Hr)).
  - intros s H. exact H.
  - intros a s H. exact H.
  - intros e s [[] _].
Qed.

(** A due reminder of the query set whose medication document exists is
    dispatched when nothing fails and a socket server is attached: one
    alert naming it, and [last_sent] set to a clock reading of the tick. *)
Lemma tick_dispatch : forall env self s r m,
  no_faults env ->
  socketio self = true ->
  NoDup (map Reminder.id (reminders s)) ->
  In r (reminders s) ->
  Reminder.is_active r = true ->
  due (now env (clock_reads s)) r = true ->
  find_medication (Reminder.medication_id r) (medications s) = Some m ->
  exists k s',
    _check_and_send_reminders self env s = (Ok tt, s')
    /\ clock_reads s < k /\ S k < clock_reads s'
    /\ alerts_for (Reminder.id r) (new_emissions s s')
       = [mk_emission "medication_reminder" (alert_payload r m (now env (S k)))
                      ("user_" ++ Reminder.user_id r)]
    /\ find_reminder (Reminder.id r) (reminders s')
       = Some (Reminder.set_last_sent (Some (bson_datetime (now env k))) r).
Proof.
  intros env self s r m Hnf Hsock Hnd Hr Hact Hdue Hm.
  pose proof (tick_appends env self s) as Happ.
  assert (Hsnap : In r (filter Reminder.is_active (reminders s)))
    by (apply filter_In; now split).
  pose proof (NoDup_map_filter _ _ Reminder.id Reminder.is_active _ Hnd) as Hnd'.
  apply in_split in Hsnap. destruct Hsnap as (pre & post & Hsplit).
  rewrite Hsplit, map_app in Hnd'. simpl in Hnd'.
  pose proof (NoDup_remove_2 _ _ _ Hnd') as Hnotin.
  assert (Hpre : forall x, In x pre -> Reminder.id x <> Reminder.id r).
  { intros x Hx Heq. apply Hnotin. apply in_or_app. left. rewrite <- Heq.
    now apply in_map. }
  assert (Hpost : forall x, In x post -> Reminder.id x <> Reminder.id r).
  { intros x Hx Heq. apply Hnotin. apply in_or_app. right. rewrite <- Heq.
    now apply in_map. }
  remember (_check_and_send_reminders self env s) as res eqn:Hres.
  rewrite tick_unfold, Hnf, Hsplit, for_each_app_run in Hres.
  set (now_dt := now env (clock_reads s)) in *.
  (* the reminders before [r] *)
  pose proof (for_each_others env self now_dt (strftime_HM now_dt) pre (Reminder.id r)
                (medications s) (S (clock_reads s))
                (alerts_for (Reminder.id r) (emitted s)) (Some r) Hnf Hpre
                (tick_start s)) as H1.
  destruct (for_each pre _ env (tick_start s)) as [[[]|e] s1].
  2:{ exfalso. apply H1. repeat split; simpl; auto. now apply find_reminder_unique. }
  destruct H1 as ((Hms1 & Hc1) & HX1 & HD1).
  { repeat split; simpl; auto. now apply find_reminder_unique. }
  (* [r] itself *)
  cbn [for_each] in Hres. unfold bind in Hres.
  pose proof (check_reminder_fires env self now_dt r r m (medications s)
                (alerts_for (Reminder.id r) (emitted s)) (clock_reads s1)
                Hnf Hsock Hdue Hm s1) as H2.
  destruct (check_reminder self now_dt (strftime_HM now_dt) r env s1) as [[[]|e] s2].
  2:{ exfalso. apply H2. repeat split; assumption. }
  destruct H2 as (Hms2 & Hc2 & HX2 & HD2); [repeat split; assumption|].
  (* the reminders after [r] *)
  pose proof (for_each_others env self now_dt (strftime_HM now_dt) post (Reminder.id r)
                (medications s) (S (S (clock_reads s1)))
                (alerts_for (Reminder.id r) (emitted s)
                 ++ [mk_emission "medication_reminder"
                                 (alert_payload r m (now env (S (clock_reads s1))))
                                 ("user_" ++ Reminder.user_id r)])
                (Some (Reminder.set_last_sent (Some (bson_datetime (now env (clock_reads s1)))) r))
                Hnf Hpost s2) as H3.
  destruct (for_each post _ env s2) as [[[]|e] s3].
  2:{ exfalso. apply H3. repeat split; try eassumption. lia. }
  destruct H3 as ((Hms3 & Hc3) & HX3 & HD3); [repeat split; try eassumption; lia|].
  subst res. simpl in Happ.
  exists (clock_reads s1), s3. split; [reflexivity|].
  split; [lia|]. split; [lia|]. split; [|exact HD3].
  apply alerts_for_new; assumption.
Qed.

(* ================================================================= *)
(** ** Computations that keep a relation between states *)

Lemma same_store_refl : forall s, same_store s s.
Proof. intros s. now repeat split. Qed.

Lemma same_store_is_store_relation : store_relation same_store.
Proof.
  split.
  - intros s1 s2 s3 (H1 & H2 & H3 & H4 & H5) (K1 & K2 & K3 & K4 & K5).
    repeat split; congruence.
  - trivial.
Qed.

Section Keeps.
Variable R : State -> State -> Prop.
Hypothesis HR : store_relation R.

Lemma rel_refl : forall s, R s s.
Proof. intros s. apply (rel_same R HR). apply same_store_refl. Qed.

Lemma keeps_ret {A} (a : A) : keeps R (ret a).
Proof. intros env s. apply rel_refl. Qed.

Lemma keeps_raise {A} (e : exn) : keeps R (@raise A e).
Proof. intros env s. apply rel_refl. Qed.

Lemma keeps_gets {A} (f : State -> A) : keeps R (gets f).
Proof. intros env s. apply rel_refl. Qed.

Lemma keeps_bind {A B} (m : M A) (k : A -> M B) :
  keeps R m -> (forall a, keeps R (k a)) -> keeps R (bind m k).
Proof.
  intros Hm Hk env s. unfold bind. specialize (Hm env s).
  destruct (m env s) as [[a|e] s1]; simpl in *; [|exact Hm].
  eapply (rel_trans R HR); [exact Hm | apply Hk].
Qed.

Lemma keeps_try_except {A} (m : M A) (h : exn -> M A) :
  keeps R m -> (forall e, keeps R (h e)) -> keeps R (try_except m h).
Proof.
  intros Hm Hh env s. unfold try_except. specialize (Hm env s).
  destruct (m env s) as [[a|e] s1]; simpl in *; [exact Hm|].
  eapply (rel_trans R HR); [exact Hm | apply Hh].
Qed.

Lemma keeps_for_each {A} (xs : list A) (f : A -> M unit) :
  (forall x, keeps R (f x)) -> keeps R (for_each xs f).
Proof.
  intros Hf. induction xs as [|x xs IH]; simpl; [apply keeps_ret|].
  apply keeps_bind; [apply Hf | intros _; exact IH].
Qed.

Lemma keeps_for_fold {A B} (xs : list A) (b : B) (f : B -> A -> M B) :
  (forall b x, keeps R (f b x)) -> keeps R (for_fold xs b f).
Proof.
  intros Hf. revert b. induction xs as [|x xs IH]; intros b; simpl; [apply keeps_ret|].
  apply keeps_bind; [apply Hf | intros b'; apply IH].
Qed.

Lemma keeps_for_collect {A B} (xs : list A) (f : A -> M B) :
  (forall x, keeps R (f x)) -> keeps R (for_collect xs f).
Proof.
  intros Hf. induction xs as [|x xs IH]; simpl; [apply keeps_ret|].
  apply keeps_bind; [apply Hf | intros y].
  apply keeps_bind; [exact IH | intros ys; apply keeps_ret].
Qed.

(** The operations that only touch counters, logs of output, the
    socket or the upload records. *)
Lemma keeps_io : keeps R io.
Proof.
  intros env s. unfold io. destruct (io_fault env (io_ops s));
    apply (rel_same R HR); now repeat split.
Qed.

Lemma keeps_datetime_now : keeps R datetime_now.
Proof. intros env s. apply (rel_same R HR). now repeat split. Qed.

Lemma keeps_gen_oid : keeps R gen_oid.
Proof. intros env s. apply (rel_same R HR). now repeat split. Qed.

Lemma keeps_print l : keeps R (print l).
Proof. intros env s. apply (rel_same R HR). now repeat split. Qed.

(** An emission that is no reminder alert. *)
Lemma keeps_socketio_emit ev p rm :
  String.eqb ev "medication_reminder" = false ->
  keeps R (socketio_emit ev p rm).
Proof.
  intros Hev. unfold socketio_emit. apply keeps_bind; [apply keeps_io | intros _].
  intros env s. apply (rel_same R HR). repeat split.
  unfold alerts. simpl. rewrite filter_app. simpl. rewrite Hev. apply app_nil_r.
Qed.

Lemma keeps_to_ObjectId text : keeps R (to_ObjectId text).
Proof.
  unfold to_ObjectId.
  destruct (Nat.eqb (String.length text) 24 && fromhex_ok text);
    [apply keeps_ret | apply keeps_raise].
Qed.

Lemma keeps_dict_getitem d k : keeps R (dict_getitem d k).
Proof.
  unfold dict_getitem. destruct (dict_lookup k d); [apply keeps_ret | apply keeps_raise].
Qed.

Lemma keeps_query {A} (f : State -> A) : keeps R (io ;; gets f).
Proof. apply keeps_bind; [apply keeps_io | intros _; apply keeps_gets]. Qed.

Lemma keeps_PrescriptionUpload_save u : keeps R (PrescriptionUpload_save u).
Proof.
  unfold PrescriptionUpload_save. destruct (PrescriptionUpload.id u) as [i|].
  - apply keeps_bind; [apply keeps_io | intros _].
    apply keeps_bind; [|intros _; apply keeps_ret].
    intros env s. apply (rel_same R HR). now repeat split.
  - apply keeps_bind; [apply keeps_gen_oid | intros oid].
    apply keeps_bind; [apply keeps_io | intros _].
    apply keeps_bind; [apply keeps_gets | intros taken].
    destruct taken; [apply keeps_raise|].
    apply keeps_bind; [|intros _; apply keeps_ret].
    intros env s. apply (rel_same R HR). now repeat split.
Qed.

(** GET /reminders changes none of the collections. *)
Lemma keeps_list_reminders u : keeps R (list_reminders u).
Proof.
  unfold list_reminders. apply keeps_try_except; [|intros e; apply keeps_ret].
  apply keeps_bind; [apply keeps_query | intros rs].
  apply keeps_bind; [|intros res; apply keeps_ret].
  apply keeps_for_collect. intros rem.
  apply keeps_bind; [apply keeps_query | intros med; apply keeps_ret].
Qed.

(** POST /upload-prescription, given what adding one extracted
    medication does. *)
Lemma keeps_upload_prescription_from u req :
  (forall b x, keeps R (add_extracted u b x)) ->
  keeps R (upload_prescription u req).
Proof.
  intros Hadd. unfold upload_prescription.
  assert (Hfailed : forall v,
    keeps R (PrescriptionUpload_save (PrescriptionUpload.set_status "failed" v) ;; ret 500)).
  { intros v. apply keeps_bind; [apply keeps_PrescriptionUpload_save|intros _; apply keeps_ret]. }
  apply keeps_bind.
  { apply keeps_try_except; [|intros e; apply keeps_ret].
    destruct (negb (has_file req)); [apply keeps_ret|].
    destruct (String.eqb (file_name req) EmptyString); [apply keeps_ret|].
    apply keeps_bind; [apply keeps_datetime_now | intros _].
    apply keeps_bind; [apply keeps_io | intros _; apply keeps_ret]. }
  intros [status|]; [apply keeps_ret|].
  apply keeps_bind.
  { apply keeps_try_except.
    - apply keeps_bind; [apply keeps_PrescriptionUpload_save | intros v; apply keeps_ret].
    - intros e. apply keeps_bind; [apply Hfailed | intros st; apply keeps_ret]. }
  intros [upload_record|status]; [|apply keeps_ret].
  apply keeps_bind.
  { apply keeps_try_except.
    - apply keeps_bind; [apply keeps_io | intros _].
      apply keeps_bind; [apply keeps_io | intros _].
      apply keeps_bind; [|intros n; apply keeps_ret].
      apply keeps_for_fold. intros b x. apply Hadd.
    - intros e. apply keeps_bind; [apply Hfailed | intros st; apply keeps_ret]. }
  intros [n|status]; [|apply keeps_ret].
  apply keeps_try_except; [|intros e; apply Hfailed].
  apply keeps_bind; [apply keeps_PrescriptionUpload_save | intros _; apply keeps_ret].
Qed.

(** The handlers, given that the relation survives the writes they make. *)
Hypothesis keeps_Medication_insert : forall doc, keeps R (Medication_insert doc).
Hypothesis keeps_ensure_reminder : forall uid mid t, keeps R (ensure_reminder uid mid t).
Hypothesis keeps_Medication_save_inactive : forall mid, keeps R (Medication_save_inactive mid).
Hypothesis keeps_MedicationLog_insert : forall doc, keeps R (MedicationLog_insert doc).
Hypothesis keeps_Reminder_save_last_sent :
  forall rid d, keeps R (Reminder_save_last_sent rid d).
Hypothesis keeps_emit_alert :
  forall p rm, keeps R (socketio_emit "medication_reminder" p rm).

Lemma keeps_ensure_reminders uid m : keeps R (ensure_reminders uid m).
Proof. unfold ensure_reminders. apply keeps_for_each. intros t. apply keeps_ensure_reminder. Qed.

Lemma keeps_medications_post u json : keeps R (medications_post u json).
Proof.
  unfold medications_post. apply keeps_try_except; [|intros e; apply keeps_ret].
  destruct json as [data|]; [|apply keeps_raise].
  destruct (negb (truthy (dict_get data "name" None))); [apply keeps_ret|].
  apply keeps_bind; [apply keeps_dict_getitem | intros name].
  apply keeps_bind; [apply keeps_query | intros existing].
  destruct existing; [apply keeps_ret|].
  apply keeps_bind; [apply keeps_Medication_insert | intros medication].
  apply keeps_bind; [apply keeps_ensure_reminders | intros _; apply keeps_ret].
Qed.

Lemma keeps_add_extracted u added med_data : keeps R (add_extracted u added med_data).
Proof.
  unfold add_extracted.
  apply keeps_bind; [apply keeps_dict_getitem | intros name].
  apply keeps_bind; [apply keeps_query | intros existing].
  destruct existing; [apply keeps_ret|].
  apply keeps_bind; [apply keeps_Medication_insert | intros med].
  apply keeps_bind; [apply keeps_ensure_reminders | intros _].
  apply keeps_bind; [intros env s; apply rel_refl | intros dict].
  apply keeps_bind; [now apply keeps_socketio_emit | intros _; apply keeps_ret].
Qed.

Lemma keeps_upload_prescription u req : keeps R (upload_prescription u req).
Proof.
  apply keeps_upload_prescription_from. intros b x. apply keeps_add_extracted.
Qed.

Lemma keeps_backfill : keeps R backfill_reminders_for_all_users.
Proof.
  unfold backfill_reminders_for_all_users, backfill_pass.
  apply keeps_try_except; [|intros e; apply keeps_print].
  apply keeps_bind; [|intros _; apply keeps_print].
  apply keeps_bind; [apply keeps_query | intros us].
  apply keeps_for_each. intros u. unfold backfill_user.
  apply keeps_bind; [apply keeps_query | intros meds].
  apply keeps_for_each. intros m. apply keeps_ensure_reminders.
Qed.

Lemma keeps_delete_medication u mid : keeps R (delete_medication u mid).
Proof.
  unfold delete_medication. apply keeps_try_except; [|intros e; apply keeps_ret].
  apply keeps_bind; [apply keeps_to_ObjectId | intros oid].
  apply keeps_bind; [apply keeps_query | intros med].
  destruct med as [med|]; [|apply keeps_ret].
  apply keeps_bind; [apply keeps_Medication_save_inactive | intros _; apply keeps_ret].
Qed.

Lemma keeps_take_medication u mid : keeps R (take_medication u mid).
Proof.
  unfold take_medication. apply keeps_try_except; [|intros e; apply keeps_ret].
  apply keeps_bind; [apply keeps_to_ObjectId | intros oid].
  apply keeps_bind; [apply keeps_query | intros med].
  destruct med as [med|]; [|apply keeps_ret].
  apply keeps_bind; [apply keeps_MedicationLog_insert | intros _].
  apply keeps_bind; [now apply keeps_socketio_emit | intros _; apply keeps_ret].
Qed.

Lemma keeps_send_reminder_alert self r : keeps R (_send_reminder_alert self r).
Proof.
  unfold _send_reminder_alert.
  apply keeps_bind; [apply keeps_query | intros med].
  destruct med as [med|]; [|apply keeps_ret].
  apply keeps_bind; [apply keeps_datetime_now | intros sent].
  apply keeps_bind; [apply keeps_Reminder_save_last_sent | intros _].
  apply keeps_bind; [apply keeps_datetime_now | intros ts].
  apply keeps_bind; [|intros _; apply keeps_print].
  destruct (socketio self); [apply keeps_emit_alert | apply keeps_ret].
Qed.

Lemma keeps_tick self : keeps R (_check_and_send_reminders self).
Proof.
  unfold _check_and_send_reminders.
  apply keeps_bind; [apply keeps_datetime_now | intros now_dt].
  apply keeps_bind; [apply keeps_query | intros rs].
  apply keeps_for_each. intros r. unfold check_reminder.
  destruct (String.eqb (Reminder.time r) (strftime_HM now_dt)); [|apply keeps_ret].
  destruct (not_sent_today now_dt r); [apply keeps_send_reminder_alert | apply keeps_ret].
Qed.
End Keeps.


(** A relation that looks at the collections only survives every emission. *)
Lemma keeps_emit_any : forall R ev p rm,
  collections_only R -> keeps R (socketio_emit ev p rm).
Proof.
  intros R ev p rm HC env s. unfold socketio_emit, bind, io, modify.
  destruct (io_fault env (io_ops s)); now apply HC.
Qed.

(* ================================================================= *)
(** ** The scheduler's firing rule *)

Lemma date_eqb_eq : forall d1 d2, date_eqb d1 d2 = true <-> d1 = d2.
Proof.
  intros [[y1 m1] dd1] [[y2 m2] dd2]. unfold date_eqb. split.
  - intros H. apply andb_true_iff in H. destruct H as [H H3].
    apply andb_true_iff in H. destruct H as [H1 H2].
    apply Nat.eqb_eq in H1, H2, H3. congruence.
  - intros H. inversion H. now rewrite !Nat.eqb_refl.
Qed.

Lemma due_intro : forall now_dt r,
  Reminder.time r = strftime_HM now_dt ->
  (Reminder.last_sent r = None
   \/ exists d, Reminder.last_sent r = Some d /\ date d <> date now_dt) ->
  due now_dt r = true.
Proof.
  intros now_dt r Ht Hl. unfold due, not_sent_today.
  rewrite Ht, String.eqb_refl.
  destruct Hl as [Hl | (d & Hl & Hd)]; rewrite Hl; [reflexivity|].
  destruct (date_eqb (date d) (date now_dt)) eqn:He; [|reflexivity].
  apply date_eqb_eq in He. contradiction.
Qed.

Lemma sent_today_not_due : forall now_dt r d,
  Reminder.last_sent r = Some d ->
  date d = date now_dt ->
  due now_dt r = false.
Proof.
  intros now_dt r d Hl Hd. unfold due, not_sent_today. rewrite Hl, Hd.
  replace (date_eqb (date now_dt) (date now_dt)) with true
    by (symmetry; now apply date_eqb_eq).
  simpl. apply andb_false_r.
Qed.

Lemma date_bson_datetime : forall d, date (bson_datetime d) = date d.
Proof. intros d. reflexivity. Qed.

Lemma strftime_HM_bson_datetime : forall d,
  strftime_HM (bson_datetime d) = strftime_HM d.
Proof. intros d. reflexivity. Qed.

(** C1: for every active reminder (with a unique id) whose trigger time
    equals the tick's HH:MM, whose [last_sent] is null or falls on another
    date than the tick's, and whose medication document exists and is
    active, a tick during which nothing fails, run by a scheduler with a
    socket server attached, ends normally, emits exactly one alert naming
    the reminder and sets the stored [last_sent] to the current time: the
    clock reading taken when the reminder is dispatched, to the
    millisecond as the store keeps it.  Its date is the date of that
    reading, hence the tick's date when the readings of the tick fall on
    one date. *)
Theorem tick_fires_due_reminder_once :
  forall env self s r m,
    no_faults env ->
    socketio self = true ->
    NoDup (map Reminder.id (reminders s)) ->
    In r (reminders s) ->
    Reminder.is_active r = true ->
    Reminder.time r = strftime_HM (now env (clock_reads s)) ->
    (Reminder.last_sent r = None
     \/ exists d, Reminder.last_sent r = Some d
                  /\ date d <> date (now env (clock_reads s))) ->
    find_medication (Reminder.medication_id r) (medications s) = Some m ->
    Medication.is_active m = true ->
    fst (_check_and_send_reminders self env s) = Ok tt
    /\ List.length (alerts_for (Reminder.id r)
                      (new_emissions s (snd (_check_and_send_reminders self env s)))) = 1
    /\ exists d,
         find_reminder (Reminder.id r)
                       (reminders (snd (_check_and_send_reminders self env s)))
         = Some (Reminder.set_last_sent (Some d) r)
         /\ (exists k, clock_reads s < k
                       /\ k < clock_reads (snd (_check_and_send_reminders self env s))
                       /\ d = bson_datetime (now env k)
                       /\ date d = date (now env k)
                       /\ hour d = hour (now env k)
                       /\ minute d = minute (now env k)
                       /\ second d = second (now env k)
                       /\ microsecond d = microsecond (now env k) / 1000 * 1000)
         /\ ((forall k, clock_reads s <= k
                        < clock_reads (snd (_check_and_send_reminders self env s)) ->
                        date (now env k) = date (now env (clock_reads s))) ->
             date d = date (now env (clock_reads s))
             /\ not_sent_today (now env (clock_reads s))
                               (Reminder.set_last_sent (Some d) r) = false).
Proof.
  intros env self s r m Hnf Hsock Hnd Hr Hact Ht Hl Hm _.
  pose proof (due_intro _ _ Ht Hl) as Hdue.
  destruct (tick_dispatch env self s r m Hnf Hsock Hnd Hr Hact Hdue Hm)
    as (k & s' & Hrun & Hk1 & Hk2 & HX & HD).
  rewrite Hrun in *. simpl in *.
  split; [reflexivity|]. split; [now rewrite HX|].
  exists (bson_datetime (now env k)). split; [exact HD|]. split.
  - exists k. repeat split; try reflexivity; lia.
  - intros Hday.
    assert (Hd : date (bson_datetime (now env k)) = date (now env (clock_reads s))).
    { rewrite date_bson_datetime. apply Hday. lia. }
    split; [exact Hd|].
    unfold not_sent_today. cbn [Reminder.last_sent Reminder.set_last_sent].
    rewrite Hd.
    replace (date_eqb (date (now env (clock_reads s))) (date (now env (clock_reads s))))
      with true by (symmetry; now apply date_eqb_eq).
    reflexivity.
Qed.

(** Alice's morning reminder at 09:00 on 2024-03-05: the tick reads the
    clock at 09:00:00.000000, the dispatch at 09:00:01.001999, and the
    stored [last_sent] is 09:00:01.001000. *)
Lemma tick_fires_due_reminder_once_witness :
  fst (_check_and_send_reminders Example.scheduler Example.calm Example.fresh) = Ok tt
  /\ List.length
       (alerts_for (Reminder.id Example.morning)
          (new_emissions Example.fresh
             (snd (_check_and_send_reminders Example.scheduler Example.calm Example.fresh))))
     = 1
  /\ now Example.calm 1 = mk_datetime 2024 3 5 9 0 1 1999
  /\ find_reminder (Reminder.id Example.morning)
       (reminders (snd (_check_and_send_reminders Example.scheduler Example.calm
                                                   Example.fresh)))
     = Some (Reminder.set_last_sent (Some (mk_datetime 2024 3 5 9 0 1 1000))
                                    Example.morning)
  /\ date (mk_datetime 2024 3 5 9 0 1 1000)
     = date (now Example.calm (clock_reads Example.fresh)).
Proof.
  destruct (tick_fires_due_reminder_once Example.calm Example.scheduler Example.fresh
              Example.morning Example.aspirin)
    as (Hok & Hone & d & Hd & _ & Hdate).
  - intros k. reflexivity.
  - reflexivity.
  - repeat constructor; simpl; intuition discriminate.
  - simpl. now left.
  - reflexivity.
  - reflexivity.
  - now left.
  - reflexivity.
  - reflexivity.
  - split; [exact Hok|]. split; [exact Hone|]. split; [reflexivity|].
    assert (Hval : d = mk_datetime 2024 3 5 9 0 1 1000).
    { assert (H : Some (Reminder.set_last_sent (Some d) Example.morning)
                  = Some (Reminder.set_last_sent (Some (mk_datetime 2024 3 5 9 0 1 1000))
                                                 Example.morning))
        by (rewrite <- Hd; reflexivity).
      inversion H. reflexivity. }
    split; [rewrite Hd, Hval; reflexivity|].
    rewrite <- Hval. apply Hdate. intros k _. reflexivity.
Defined.

(** C3 fails on the code for a medication that was deactivated: after
    Alice adds aspirin and deletes it through DELETE /medications/<id>,
    its document is inactive, yet the tick at 09:00 emits an alert for its
    morning reminder and sets the reminder's [last_sent]. *)
Theorem tick_fires_for_deleted_medication :
  exists m r,
    medications Example.after_delete = [m]
    /\ Medication.is_active m = false
    /\ In r (reminders Example.after_delete)
    /\ Reminder.medication_id r = Medication.id m
    /\ Reminder.last_sent r = None
    /\ Reminder.time r = strftime_HM (now Example.calm (clock_reads Example.after_delete))
    /\ List.length
         (alerts_for (Reminder.id r)
            (new_emissions Example.after_delete
               (snd (_check_and_send_reminders Example.scheduler Example.calm
                                               Example.after_delete)))) = 1
    /\ exists d,
         find_reminder (Reminder.id r)
           (reminders (snd (_check_and_send_reminders Example.scheduler Example.calm
                                                       Example.after_delete)))
         = Some (Reminder.set_last_sent (Some d) r).
Proof.
  exists (Medication.mk (Example.oid_of 0) (User.id Example.alice) "alice"
                        (Some "Aspirin") (Some "81mg") (Some "twice daily (1-0-1)")
                        (Some EmptyString) (Some EmptyString) "manual" false).
  exists (Reminder.mk (Example.oid_of 1) (User.id Example.alice) (Example.oid_of 0)
                      "09:00" true None).
  repeat split; try reflexivity.
  - vm_compute. now left.
  - eexists. vm_compute. reflexivity.
Qed.

(* ================================================================= *)
(** ** The alert payload *)

Lemma is_digit_digit : forall n, is_digit (digit n) = true.
Proof.
  intros n. unfold is_digit, digit.
  pose proof (Nat.mod_upper_bound n 10) as H.
  rewrite nat_ascii_embedding by lia.
  apply andb_true_iff. split; apply Nat.leb_le; lia.
Qed.

(** [strftime('%H:%M')] always writes two digits, a colon and two digits. *)
Lemma is_HHMM_strftime : forall dt, is_HHMM (strftime_HM dt) = true.
Proof.
  intros dt. unfold strftime_HM. cbn [pad_dec String.append is_HHMM].
  now rewrite !is_digit_digit.
Qed.

(** C7, as the code has it: everything a tick emits is a
    [medication_reminder] event whose payload has exactly the eight keys
    type, reminder_id, medication_id, medication_name, dosage,
    instructions, time and timestamp, built from an active stored
    reminder that is due and from its medication document; [type] is
    the text medication_reminder, [time] is the tick's HH:MM and
    [timestamp] is the ISO form of a clock reading. *)
Theorem tick_alert_payload_shape :
  forall env self s,
    emitted (snd (_check_and_send_reminders self env s))
    = emitted s ++ new_emissions s (snd (_check_and_send_reminders self env s))
    /\ Forall
         (fun e =>
            event e = "medication_reminder"
            /\ map fst (payload e) = alert_keys
            /\ payload_get "type" (payload e) = Some (PStr "medication_reminder")
            /\ payload_get "time" (payload e)
               = Some (PStr (strftime_HM (now env (clock_reads s))))
            /\ is_HHMM (strftime_HM (now env (clock_reads s))) = true
            /\ exists r m k,
                 In r (reminders s)
                 /\ Reminder.is_active r = true
                 /\ find_medication (Reminder.medication_id r) (medications s) = Some m
                 /\ payload e = alert_payload r m (now env k)
                 /\ payload_get "timestamp" (payload e) = Some (PStr (isoformat (now env k)))
                 /\ room e = ("user_" ++ Reminder.user_id r)%string)
         (new_emissions s (snd (_check_and_send_reminders self env s))).
Proof.
  intros env self s. split; [apply tick_appends|].
  destruct (tick_emits_holds env self s) as (_ & new & Hnew & Hall).
  rewrite (new_emissions_app _ _ _ Hnew).
  eapply Forall_impl; [|exact Hall].
  intros e (Hev & r & m & k & Hr & Hact & Hdue & Hm & Hp & Hroom).
  unfold due in Hdue. apply andb_true_iff in Hdue. destruct Hdue as [Ht _].
  apply String.eqb_eq in Ht.
  split; [exact Hev|]. rewrite Hp.
  split; [reflexivity|]. split; [reflexivity|].
  split; [simpl; now rewrite Ht|]. split; [apply is_HHMM_strftime|].
  exists r, m, k. repeat split; trivial.
Qed.

(** C7 as stated fails: the alert emitted for Alice's morning reminder
    carries a key, [type], that is none of the seven listed fields. *)
Lemma alert_payload_has_type_field :
  exists e,
    In e (new_emissions Example.fresh
            (snd (_check_and_send_reminders Example.scheduler Example.calm Example.fresh)))
    /\ List.length (payload e) = 8
    /\ ~ (forall k, In k (map fst (payload e)) <-> In k listed_alert_keys).
Proof.
  eexists. split; [vm_compute; left; reflexivity|].
  split; [reflexivity|].
  intros H. specialize (H "type"). destruct H as [H _].
  assert (Hin : In "type" listed_alert_keys) by (apply H; simpl; now left).
  simpl in Hin. intuition discriminate.
Qed.

(* ================================================================= *)
(** ** What a tick leaves alone *)

Lemma same_logs_is_store_relation : store_relation same_logs.
Proof.
  split.
  - unfold same_logs. intros s1 s2 s3 H1 H2. congruence.
  - intros s s' (_ & _ & _ & H & _). exact H.
Qed.

Lemma same_logs_collections_only : collections_only same_logs.
Proof. intros s s' _ _ _ H. exact H. Qed.

Lemma keeps_logs_Medication_insert : forall doc, keeps same_logs (Medication_insert doc).
Proof.
  intros doc env s. unfold Medication_insert, gen_oid, io, bind, gets, modify, ret, raise.
  simpl. destruct (io_fault env (io_ops s)); simpl; [reflexivity|].
  destruct (existsb _ _); reflexivity.
Qed.

Lemma keeps_logs_ensure_reminder : forall uid mid t, keeps same_logs (ensure_reminder uid mid t).
Proof.
  intros uid mid t env s.
  unfold ensure_reminder, Reminder_by_key, Reminder_insert, gen_oid, io, bind, gets,
         modify, ret, raise.
  simpl. destruct (io_fault env (io_ops s)); simpl; [reflexivity|].
  destruct (find _ _); simpl; [reflexivity|].
  destruct (io_fault env (S (io_ops s))); simpl; [reflexivity|].
  destruct (existsb _ _); reflexivity.
Qed.

Lemma keeps_logs_Medication_save_inactive : forall mid,
  keeps same_logs (Medication_save_inactive mid).
Proof.
  intros mid env s. unfold Medication_save_inactive, io, bind, modify.
  destruct (io_fault env (io_ops s)); reflexivity.
Qed.

Lemma keeps_logs_Reminder_save_last_sent : forall rid d,
  keeps same_logs (Reminder_save_last_sent rid d).
Proof.
  intros rid d env s. unfold Reminder_save_last_sent, io, bind, modify.
  destruct (io_fault env (io_ops s)); reflexivity.
Qed.

(** Only POST /take-medication writes medication logs. *)
Lemma logs_written_by_take_only : forall env s req,
  (forall u mid, req <> TakeMedication u mid) ->
  medication_logs (step env s req) = medication_logs s.
Proof.
  intros env s req Hreq. unfold step.
  assert (H : keeps same_logs (handle req)).
  { pose proof same_logs_is_store_relation as HR.
    destruct req as [u json|u r|u|u mid|u mid| |self]; simpl.
    - apply keeps_bind; trivial; [|intros; now apply keeps_ret].
      apply keeps_medications_post; trivial.
      + apply keeps_logs_Medication_insert.
      + apply keeps_logs_ensure_reminder.
    - apply keeps_bind; trivial; [|intros; now apply keeps_ret].
      apply keeps_upload_prescription; trivial.
      + apply keeps_logs_Medication_insert.
      + apply keeps_logs_ensure_reminder.
    - apply keeps_bind; trivial; [|intros; now apply keeps_ret].
      now apply keeps_list_reminders.
    - apply keeps_bind; trivial; [|intros; now apply keeps_ret].
      apply keeps_delete_medication; trivial.
      apply keeps_logs_Medication_save_inactive.
    - exfalso. now apply (Hreq u mid).
    - apply keeps_backfill; trivial. apply keeps_logs_ensure_reminder.
    - apply keeps_tick; trivial.
      + apply keeps_logs_Reminder_save_last_sent.
      + intros p rm. apply keeps_emit_any. apply same_logs_collections_only. }
  apply H.
Qed.

(** C8: a tick over a store with unique reminder ids leaves users,
    medications, medication logs and upload records as they are, adds and
    removes no reminder, and changes a reminder document only by setting
    the [last_sent] of a reminder it dispatches (active, due, medication
    document found); and of all requests only POST /take-medication
    changes the medication logs. *)
Theorem tick_changes_only_last_sent :
  forall env self s,
    NoDup (map Reminder.id (reminders s)) ->
    users (snd (_check_and_send_reminders self env s)) = users s
    /\ medications (snd (_check_and_send_reminders self env s)) = medications s
    /\ medication_logs (snd (_check_and_send_reminders self env s)) = medication_logs s
    /\ uploads (snd (_check_and_send_reminders self env s)) = uploads s
    /\ List.length (reminders (snd (_check_and_send_reminders self env s)))
       = List.length (reminders s)
    /\ Forall2 (fun r r' =>
                  r' = r
                  \/ (fires (now env (clock_reads s)) (medications s) r = true
                      /\ exists d, r' = Reminder.set_last_sent (Some d) r))
               (reminders s) (reminders (snd (_check_and_send_reminders self env s)))
    /\ (forall env' req,
          (forall u mid, req <> TakeMedication u mid) ->
          medication_logs (step env' s req) = medication_logs s).
Proof.
  intros env self s Hnd.
  destruct (tick_frame_holds env self s Hnd) as (Hu & Hm & Hl & Hup & Hr).
  repeat split; trivial.
  - symmetry. eapply Forall2_length. exact Hr.
  - intros env' req Hreq. now apply logs_written_by_take_only.
Qed.

(** A tick at 09:00 over Alice's two reminders. *)
Lemma tick_changes_only_last_sent_witness :
  users (snd (_check_and_send_reminders Example.scheduler Example.calm Example.fresh))
  = users Example.fresh
  /\ medications (snd (_check_and_send_reminders Example.scheduler Example.calm Example.fresh))
     = medications Example.fresh
  /\ medication_logs (snd (_check_and_send_reminders Example.scheduler Example.calm
                                                      Example.fresh))
     = medication_logs Example.fresh
  /\ uploads (snd (_check_and_send_reminders Example.scheduler Example.calm Example.fresh))
     = uploads Example.fresh
  /\ List.length (reminders (snd (_check_and_send_reminders Example.scheduler Example.calm
                                                            Example.fresh)))
     = List.length (reminders Example.fresh)
  /\ Forall2 (fun r r' =>
                r' = r
                \/ (fires (now Example.calm (clock_reads Example.fresh))
                          (medications Example.fresh) r = true
                    /\ exists d, r' = Reminder.set_last_sent (Some d) r))
             (reminders Example.fresh)
             (reminders (snd (_check_and_send_reminders Example.scheduler Example.calm
                                                        Example.fresh)))
  /\ (forall env' req,
        (forall u mid, req <> TakeMedication u mid) ->
        medication_logs (step env' Example.fresh req) = medication_logs Example.fresh).
Proof.
  apply (tick_changes_only_last_sent Example.calm Example.scheduler Example.fresh).
  repeat constructor; simpl; intuition discriminate.
Defined.

(* ================================================================= *)
(** ** Failures during a tick, and the loop *)

Lemma check_reminder_sleeps : forall env self now_dt now_hm r s,
  sleeps (snd (check_reminder self now_dt now_hm r env s)) = sleeps s.
Proof.
  intros env self now_dt now_hm r s. unfold_tick.
  destruct (String.eqb (Reminder.time r) now_hm); [|reflexivity].
  destruct (not_sent_today now_dt r); [|reflexivity].
  destruct (io_fault env (io_ops s)); simpl; [reflexivity|].
  destruct (find_medication (Reminder.medication_id r) (medications s)); simpl;
    [|reflexivity].
  destruct (io_fault env (S (io_ops s))); simpl; [reflexivity|].
  destruct (socketio self); simpl; [|reflexivity].
  destruct (io_fault env (S (S (io_ops s)))); reflexivity.
Qed.

Lemma tick_sleeps : forall env self s,
  sleeps (snd (_check_and_send_reminders self env s)) = sleeps s.
Proof.
  intros env self s. rewrite tick_unfold.
  destruct (io_fault env (io_ops s)); [reflexivity|].
  assert (H : hoare env (fun s1 => sleeps s1 = sleeps s)
                (for_each (filter Reminder.is_active (reminders s))
                   (check_reminder self (now env (clock_reads s))
                                   (strftime_HM (now env (clock_reads s)))))
                (fun _ s1 => sleeps s1 = sleeps s) (fun _ s1 => sleeps s1 = sleeps s)).
  { apply hoare_for_each. intros r _ s1 Hs1.
    pose proof (check_reminder_sleeps env self (now env (clock_reads s))
                  (strftime_HM (now env (clock_reads s))) r s1) as Hk.
    destruct (check_reminder _ _ _ r env s1) as [[[]|e] s2]; simpl in Hk; congruence. }
  specialize (H (tick_start s) eq_refl).
  destruct (for_each _ _ env (tick_start s)) as [[[]|e] s1]; exact H.
Qed.

(** One turn of the [while] loop ends normally and sleeps once, whatever
    the tick did. *)
Lemma loop_iteration : forall env self s,
  exists s1,
    try_except
      ((if app self then _check_and_send_reminders self else raise AttributeError) ;;
       sleep_60)
      (fun e => print (LogLoopError e) ;; sleep_60) env s = (Ok tt, s1)
    /\ sleeps s1 = S (sleeps s).
Proof.
  intros env self s. unfold try_except, bind.
  destruct (app self).
  - pose proof (tick_sleeps env self s) as Hk.
    destruct (_check_and_send_reminders self env s) as [[[]|e] s1]; simpl in Hk.
    + eexists. split; [reflexivity|]. simpl. now rewrite Hk.
    + eexists. split; [reflexivity|]. simpl. now rewrite Hk.
  - eexists. split; [reflexivity|]. reflexivity.
Qed.

(** The loop never ends by an exception. *)
Lemma reminder_loop_survives : forall env self is_running s,
  exists s',
    _reminder_loop self is_running env s = (Ok tt, s')
    /\ sleeps s' = sleeps s + iterations is_running.
Proof.
  intros env self is_running. induction is_running as [|flag later IH]; intros s.
  - exists s. split; [reflexivity | simpl; lia].
  - destruct flag.
    + destruct (loop_iteration env self s) as (s1 & Hrun & Hs1).
      destruct (IH s1) as (s' & Hrun' & Hs').
      exists s'. split.
      * cbn [_reminder_loop]. unfold bind at 1. now rewrite Hrun.
      * simpl. lia.
    + exists s. split; [reflexivity | simpl; lia].
Qed.

(** When the handling of reminder [r] raises, the tick ends there. *)
Lemma tick_stops_at_failure : forall env self s pre r post e s1 s2,
  NoDup (map Reminder.id (reminders s)) ->
  io_fault env (io_ops s) = false ->
  filter Reminder.is_active (reminders s) = pre ++ r :: post ->
  for_each pre (check_reminder self (now env (clock_reads s))
                               (strftime_HM (now env (clock_reads s))))
           env (tick_start s) = (Ok tt, s1) ->
  check_reminder self (now env (clock_reads s)) (strftime_HM (now env (clock_reads s)))
                 r env s1 = (Raise e, s2) ->
  _check_and_send_reminders self env s = (Raise e, s2)
  /\ forall r', In r' post ->
       untouched (Reminder.id r') s s2
       /\ find_reminder (Reminder.id r') (reminders s2) = Some r'.
Proof.
  intros env self s pre r post e s1 s2 Hnd Hq Hsplit Hpre Hr.
  split.
  { rewrite tick_unfold, Hq, Hsplit, for_each_app_run, Hpre.
    cbn [for_each]. unfold bind. now rewrite Hr. }
  intros r' Hr'.
  pose proof (NoDup_map_filter _ _ Reminder.id Reminder.is_active _ Hnd) as Hnd'.
  rewrite Hsplit, map_app in Hnd'. simpl in Hnd'.
  assert (Hin : In r' (reminders s)).
  { assert (H : In r' (filter Reminder.is_active (reminders s)))
      by (rewrite Hsplit; apply in_or_app; right; now right).
    apply filter_In in H. tauto. }
  assert (Hne_r : Reminder.id r <> Reminder.id r').
  { apply NoDup_remove_1 in Hnd' as Hnd2. apply NoDup_remove_2 in Hnd'.
    intros Heq. apply Hnd'. apply in_or_app. right. rewrite Heq. now apply in_map. }
  assert (Hne_pre : forall x, In x pre -> Reminder.id x <> Reminder.id r').
  { intros x Hx Heq.
    apply NoDup_app_remove_l in Hnd' as Hnd2.
    assert (Hdisj : forall a, In a (map Reminder.id pre) ->
                              ~ In a (Reminder.id r :: map Reminder.id post)).
    { clear -Hnd'. induction pre as [|y pre IH]; simpl in *; [contradiction|].
      inversion Hnd' as [|? ? Hnotin Hrest]; subst.
      intros a [<-|Ha] Hbad.
      - apply Hnotin. apply in_or_app. now right.
      - now apply (IH Hrest a). }
    apply (Hdisj (Reminder.id x)); [now apply in_map|].
    right. rewrite Heq. now apply in_map. }
  assert (H1 : hoare env
            (fun s0 => alerts_for (Reminder.id r') (emitted s0)
                       = alerts_for (Reminder.id r') (emitted s)
                       /\ find_reminder (Reminder.id r') (reminders s0) = Some r')
            (for_each pre (check_reminder self (now env (clock_reads s))
                                          (strftime_HM (now env (clock_reads s)))))
            (fun _ s0 => alerts_for (Reminder.id r') (emitted s0)
                         = alerts_for (Reminder.id r') (emitted s)
                         /\ find_reminder (Reminder.id r') (reminders s0) = Some r')
            (fun _ s0 => alerts_for (Reminder.id r') (emitted s0)
                         = alerts_for (Reminder.id r') (emitted s)
                         /\ find_reminder (Reminder.id r') (reminders s0) = Some r')).
  { apply hoare_for_each. intros x Hx. apply check_reminder_other. now apply Hne_pre. }
  specialize (H1 (tick_start s)). rewrite Hpre in H1.
  destruct H1 as [HX1 HD1];
    [split; [reflexivity | simpl; now apply find_reminder_unique]|].
  pose proof (check_reminder_other env self (now env (clock_reads s))
                (strftime_HM (now env (clock_reads s))) r (Reminder.id r') _ _ Hne_r
                s1 (conj HX1 HD1)) as H2.
  rewrite Hr in H2. destruct H2 as [HX2 HD2].
  split; [|exact HD2].
  split; [exact HX2|]. rewrite HD2. symmetry. now apply find_reminder_unique.
Qed.

Lemma check_reminder_clock : forall env self now_dt now_hm r s,
  clock_reads s <= clock_reads (snd (check_reminder self now_dt now_hm r env s)).
Proof.
  intros env self now_dt now_hm r s. unfold_tick.
  destruct (String.eqb (Reminder.time r) now_hm); [|simpl; lia].
  destruct (not_sent_today now_dt r); [|simpl; lia].
  destruct (io_fault env (io_ops s)); simpl; [lia|].
  destruct (find_medication (Reminder.medication_id r) (medications s)); simpl;
    [|lia].
  destruct (io_fault env (S (io_ops s))); simpl; [lia|].
  destruct (socketio self); simpl; [|lia].
  destruct (io_fault env (S (S (io_ops s)))); simpl; lia.
Qed.

(** Every tick reads the clock. *)
Lemma tick_reads_clock : forall env self s,
  S (clock_reads s) <= clock_reads (snd (_check_and_send_reminders self env s)).
Proof.
  intros env self s. rewrite tick_unfold.
  destruct (io_fault env (io_ops s)); [simpl; lia|].
  assert (H : hoare env (fun s1 => S (clock_reads s) <= clock_reads s1)
                (for_each (filter Reminder.is_active (reminders s))
                   (check_reminder self (now env (clock_reads s))
                                   (strftime_HM (now env (clock_reads s)))))
                (fun _ s1 => S (clock_reads s) <= clock_reads s1)
                (fun _ s1 => S (clock_reads s) <= clock_reads s1)).
  { apply hoare_for_each. intros r _ s1 Hs1.
    pose proof (check_reminder_clock env self (now env (clock_reads s))
                  (strftime_HM (now env (clock_reads s))) r s1) as Hk.
    destruct (check_reminder _ _ _ r env s1) as [[[]|e] s2]; simpl in Hk; lia. }
  specialize (H (tick_start s)).
  destruct (for_each _ _ env (tick_start s)) as [[[]|e] s1]; apply H; simpl; lia.
Qed.

(** One turn of the loop of a scheduler with an application: the tick,
    then the sleep, with the line printed in between when the tick
    raised. *)
Lemma loop_turn : forall env self later s,
  app self = true ->
  _reminder_loop self (true :: later) env s
  = _reminder_loop self later env
      (after_turn (_check_and_send_reminders self env s)).
Proof.
  intros env self later s Happ. cbn [_reminder_loop].
  unfold bind at 1. unfold try_except, bind. rewrite Happ.
  destruct (_check_and_send_reminders self env s) as [[[]|e] s1]; reflexivity.
Qed.

Lemma reminder_loop_reads_clock : forall env self is_running s,
  app self = true ->
  clock_reads s + iterations is_running
  <= clock_reads (snd (_reminder_loop self is_running env s)).
Proof.
  intros env self is_running. induction is_running as [|flag later IH]; intros s Happ.
  - simpl. lia.
  - destruct flag; [|simpl; lia].
    rewrite loop_turn by exact Happ. specialize (IH (after_turn
      (_check_and_send_reminders self env s)) Happ).
    pose proof (tick_reads_clock env self s) as Hk.
    destruct (_check_and_send_reminders self env s) as [[[]|e] s1];
      cbn [after_turn snd iterations] in *; simpl in IH; lia.
Qed.

(** C6, as the code has it.  A failure while one reminder of the query
    set is handled ends the tick at once with that exception: the
    reminders after it in the query set are not looked at in that tick (no
    alert, document unchanged), and a failing query ends the tick before
    any reminder is looked at.  The loop catches the exception, prints
    it, sleeps the 60 seconds and ticks again: the turn after a failed
    tick runs [_check_and_send_reminders] from the state the failed turn
    left, the loop never ends by an exception, sleeps once per turn and
    reads the clock in every turn. *)
Theorem failure_ends_tick_not_loop :
  forall env self s pre r post e s1 s2,
    NoDup (map Reminder.id (reminders s)) ->
    io_fault env (io_ops s) = false ->
    filter Reminder.is_active (reminders s) = pre ++ r :: post ->
    for_each pre (check_reminder self (now env (clock_reads s))
                                 (strftime_HM (now env (clock_reads s))))
             env (tick_start s) = (Ok tt, s1) ->
    check_reminder self (now env (clock_reads s)) (strftime_HM (now env (clock_reads s)))
                   r env s1 = (Raise e, s2) ->
    _check_and_send_reminders self env s = (Raise e, s2)
    /\ (forall r', In r' post ->
          untouched (Reminder.id r') s s2
          /\ find_reminder (Reminder.id r') (reminders s2) = Some r')
    /\ (forall env' self' s0,
          io_fault env' (io_ops s0) = true ->
          _check_and_send_reminders self' env' s0 = (Raise StoreError, tick_start s0))
    /\ (forall env' self' e' s0 s0',
          app self' = true ->
          _check_and_send_reminders self' env' s0 = (Raise e', s0') ->
          _reminder_loop self' [true] env' s0
          = (Ok tt, with_sleeps (S (sleeps s0'))
                      (with_printed (printed s0' ++ [LogLoopError e']) s0')))
    /\ (forall env' self' e' s0 s0' later,
          app self' = true ->
          _check_and_send_reminders self' env' s0 = (Raise e', s0') ->
          _reminder_loop self' (true :: later) env' s0
          = _reminder_loop self' later env'
              (with_sleeps (S (sleeps s0'))
                 (with_printed (printed s0' ++ [LogLoopError e']) s0')))
    /\ (forall env' self' e' s0 s0' later res s1',
          app self' = true ->
          _check_and_send_reminders self' env' s0 = (Raise e', s0') ->
          _check_and_send_reminders self' env'
            (with_sleeps (S (sleeps s0'))
               (with_printed (printed s0' ++ [LogLoopError e']) s0')) = (res, s1') ->
          _reminder_loop self' (true :: true :: later) env' s0
          = _reminder_loop self' later env'
              (match res with
               | Ok _ => with_sleeps (S (sleeps s1')) s1'
               | Raise e2 =>
                   with_sleeps (S (sleeps s1'))
                     (with_printed (printed s1' ++ [LogLoopError e2]) s1')
               end))
    /\ (forall env' self' is_running s0,
          exists s',
            _reminder_loop self' is_running env' s0 = (Ok tt, s')
            /\ sleeps s' = sleeps s0 + iterations is_running
            /\ (app self' = true ->
                clock_reads s0 + iterations is_running <= clock_reads s')).
Proof.
  intros env self s pre r post e s1 s2 Hnd Hq Hsplit Hpre Hr.
  destruct (tick_stops_at_failure env self s pre r post e s1 s2 Hnd Hq Hsplit Hpre Hr)
    as [Hrun Hpost].
  split; [exact Hrun|]. split; [exact Hpost|]. split; [|split; [|split; [|split]]].
  - intros env' self' s0 Hf. rewrite tick_unfold. now rewrite Hf.
  - intros env' self' e' s0 s0' Happ Hraise.
    cbn [_reminder_loop]. unfold bind, try_except. now rewrite Happ, Hraise.
  - intros env' self' e' s0 s0' later Happ Hraise.
    rewrite loop_turn by exact Happ. now rewrite Hraise.
  - intros env' self' e' s0 s0' later res s1' Happ Hraise Hagain.
    rewrite loop_turn by exact Happ. rewrite Hraise. cbn [after_turn].
    rewrite loop_turn by exact Happ. rewrite Hagain. now destruct res as [[]|e2].
  - intros env' self' is_running s0.
    destruct (reminder_loop_survives env' self' is_running s0) as (s' & Hloop & Hsl).
    exists s'. split; [exact Hloop|]. split; [exact Hsl|].
    intros Happ. pose proof (reminder_loop_reads_clock env' self' is_running s0 Happ) as Hc.
    now rewrite Hloop in Hc.
Qed.

(** Alice's aspirin and ibuprofen are both due at 09:00; the medication
    lookup for the aspirin reminder fails, and the tick ends there.  In a
    loop of two turns the second turn ticks again: it finds both
    reminders still due and dispatches them. *)
Lemma failure_ends_tick_not_loop_witness :
  reminders Example.two_due
  = [Example.aspirin_morning; Example.aspirin_evening; Example.ibuprofen_morning]
  /\ (_check_and_send_reminders Example.scheduler Example.stumbling Example.two_due
      = (Raise StoreError,
         with_io_ops (S (S (io_ops Example.two_due))) (tick_start Example.two_due))
      /\ (forall r', In r' [Example.aspirin_evening; Example.ibuprofen_morning] ->
            untouched (Reminder.id r') Example.two_due
                      (with_io_ops (S (S (io_ops Example.two_due)))
                                   (tick_start Example.two_due))
            /\ find_reminder (Reminder.id r')
                 (reminders (with_io_ops (S (S (io_ops Example.two_due)))
                                         (tick_start Example.two_due)))
               = Some r'))
  /\ fst (_reminder_loop Example.scheduler [true; true] Example.stumbling Example.two_due)
     = Ok tt
  /\ printed (snd (_reminder_loop Example.scheduler [true; true] Example.stumbling
                                  Example.two_due))
     = printed Example.two_due
       ++ [LogLoopError StoreError;
           LogReminderSent (Some "Aspirin"); LogReminderSent (Some "Ibuprofen")]
  /\ sleeps (snd (_reminder_loop Example.scheduler [true; true] Example.stumbling
                                 Example.two_due)) = 2
  /\ List.length
       (alerts_for (Reminder.id Example.aspirin_morning)
          (emitted (snd (_reminder_loop Example.scheduler [true; true] Example.stumbling
                                        Example.two_due)))) = 1
  /\ List.length
       (alerts_for (Reminder.id Example.ibuprofen_morning)
          (emitted (snd (_reminder_loop Example.scheduler [true; true] Example.stumbling
                                        Example.two_due)))) = 1.
Proof.
  destruct (failure_ends_tick_not_loop Example.stumbling Example.scheduler Example.two_due
              [] Example.aspirin_morning
              [Example.aspirin_evening; Example.ibuprofen_morning] StoreError
              (tick_start Example.two_due)
              (with_io_ops (S (S (io_ops Example.two_due))) (tick_start Example.two_due)))
    as (Htick & Hpost & _).
  - repeat constructor; simpl; intuition discriminate.
  - reflexivity.
  - reflexivity.
  - reflexivity.
  - reflexivity.
  - split; [reflexivity|]. split; [split; [exact Htick | exact Hpost]|].
    repeat split; reflexivity.
Defined.

(** C6 as stated fails in its first half: with two reminders due in the
    same tick (Alice's aspirin and ibuprofen, both added through POST
    /medications), a failure while the first is handled leaves the
    second, which is dispatched when nothing fails, without alert and
    with a null [last_sent]. *)
Lemma failure_skips_remaining_due_reminders :
  Example.two_due
  = run Example.calm [ PostMedication Example.alice (Some Example.new_aspirin);
                       PostMedication Example.alice (Some Example.new_ibuprofen) ]
        (empty_state [Example.alice])
  /\ reminders Example.two_due
     = [Example.aspirin_morning; Example.aspirin_evening; Example.ibuprofen_morning]
  /\ fires (now Example.stumbling (clock_reads Example.two_due))
           (medications Example.two_due) Example.ibuprofen_morning = true
  /\ List.length
       (alerts_for (Reminder.id Example.ibuprofen_morning)
          (new_emissions Example.two_due
             (snd (_check_and_send_reminders Example.scheduler Example.calm
                                             Example.two_due)))) = 1
  /\ fst (_check_and_send_reminders Example.scheduler Example.stumbling Example.two_due)
     = Raise StoreError
  /\ alerts_for (Reminder.id Example.ibuprofen_morning)
       (new_emissions Example.two_due
          (snd (_check_and_send_reminders Example.scheduler Example.stumbling
                                          Example.two_due))) = []
  /\ find_reminder (Reminder.id Example.ibuprofen_morning)
       (reminders (snd (_check_and_send_reminders Example.scheduler Example.stumbling
                                                   Example.two_due)))
     = Some Example.ibuprofen_morning
  /\ Reminder.last_sent Example.ibuprofen_morning = None.
Proof. repeat split; reflexivity. Qed.
(* ================================================================= *)
(** ** The ISO form of a datetime *)

Lemma digit_inj : forall a b, a < 10 -> b < 10 -> digit a = digit b -> a = b.
Proof.
  intros a b Ha Hb H. unfold digit in H.
  rewrite (Nat.mod_small a 10), (Nat.mod_small b 10) in H by assumption.
  apply (f_equal nat_of_ascii) in H.
  rewrite !nat_ascii_embedding in H by lia. lia.
Qed.

Lemma digit_mod : forall n, digit n = digit (n mod 10).
Proof.
  intros n. unfold digit. now rewrite Nat.Div0.mod_mod.
Qed.

Lemma str_length_app : forall a b,
  String.length (a ++ b) = String.length a + String.length b.
Proof. induction a as [|c a IH]; intros b; simpl; [reflexivity | now rewrite IH]. Qed.

Lemma str_app_inj : forall a a' b b',
  String.length a = String.length a' ->
  (a ++ b = a' ++ b')%string -> a = a' /\ b = b'.
Proof.
  induction a as [|c a IH]; intros [|c' a'] b b' Hl H; simpl in *; try discriminate.
  - now split.
  - inversion H as [[Hc Hr]]. destruct (IH a' b b') as [-> ->]; [lia | exact Hr|].
    now split.
Qed.

Lemma pad_dec_length : forall w n, String.length (pad_dec w n) = w.
Proof.
  induction w as [|w IH]; intros n; simpl; [reflexivity|].
  rewrite str_length_app, IH. simpl. lia.
Qed.

Lemma pad_dec_inj : forall w a b,
  above_digits w a = 0 -> above_digits w b = 0 ->
  pad_dec w a = pad_dec w b -> a = b.
Proof.
  induction w as [|w IH]; intros a b Ha Hb H; cbn [pad_dec above_digits] in *;
    [congruence|].
  apply str_app_inj in H; [|now rewrite !pad_dec_length].
  destruct H as [Hhigh Hlow].
  apply IH in Hhigh; [|assumption|assumption].
  assert (Hd : digit (a mod 10) = digit (b mod 10)).
  { rewrite <- !digit_mod. congruence. }
  apply digit_inj in Hd; try (apply Nat.mod_upper_bound; lia).
  rewrite (Nat.div_mod_eq a 10), (Nat.div_mod_eq b 10). now rewrite Hhigh, Hd.
Qed.

Ltac fits :=
  cbn [above_digits]; rewrite !Nat.Div0.div_div; apply Nat.div_small; lia.

(** The ISO form tells the datetime. *)
Lemma isoformat_inj : forall d1 d2,
  is_datetime d1 -> is_datetime d2 -> isoformat d1 = isoformat d2 -> d1 = d2.
Proof.
  intros [y1 mo1 dd1 h1 mi1 s1 u1] [y2 mo2 dd2 h2 mi2 s2 u2] V1 V2 H.
  unfold is_datetime in V1, V2. cbn [year month day hour minute second microsecond] in *.
  unfold isoformat in H. cbn [year month day hour minute second microsecond] in H.
  apply str_app_inj in H; [|now rewrite !pad_dec_length]. destruct H as [Hy H].
  apply str_app_inj in H; [|reflexivity]. destruct H as [_ H].
  apply str_app_inj in H; [|now rewrite !pad_dec_length]. destruct H as [Hmo H].
  apply str_app_inj in H; [|reflexivity]. destruct H as [_ H].
  apply str_app_inj in H; [|now rewrite !pad_dec_length]. destruct H as [Hdd H].
  apply str_app_inj in H; [|reflexivity]. destruct H as [_ H].
  apply str_app_inj in H; [|now rewrite !pad_dec_length]. destruct H as [Hh H].
  apply str_app_inj in H; [|reflexivity]. destruct H as [_ H].
  apply str_app_inj in H; [|now rewrite !pad_dec_length]. destruct H as [Hmi H].
  apply str_app_inj in H; [|reflexivity]. destruct H as [_ H].
  apply str_app_inj in H; [|now rewrite !pad_dec_length]. destruct H as [Hs Hu].
  apply pad_dec_inj in Hy; [|fits|fits].
  apply pad_dec_inj in Hmo; [|fits|fits].
  apply pad_dec_inj in Hdd; [|fits|fits].
  apply pad_dec_inj in Hh; [|fits|fits].
  apply pad_dec_inj in Hmi; [|fits|fits].
  apply pad_dec_inj in Hs; [|fits|fits].
  assert (Hu' : u1 = u2).
  { destruct (Nat.eqb u1 0) eqn:E1; destruct (Nat.eqb u2 0) eqn:E2.
    - apply Nat.eqb_eq in E1, E2. congruence.
    - apply (f_equal String.length) in Hu. rewrite str_length_app in Hu.
      discriminate Hu.
    - apply (f_equal String.length) in Hu. rewrite str_length_app in Hu.
      discriminate Hu.
    - apply str_app_inj in Hu; [|reflexivity]. destruct Hu as [_ Hu].
      apply pad_dec_inj in Hu; [exact Hu| |]; fits. }
  congruence.
Qed.

(** A stored datetime is a datetime. *)
Lemma is_datetime_bson : forall d, is_datetime d -> is_datetime (bson_datetime d).
Proof.
  intros [y mo dd h mi s u]. unfold is_datetime, bson_datetime.
  cbn [year month day hour minute second microsecond]. intros V.
  repeat split; try lia.
  assert (u / 1000 * 1000 <= u) by (rewrite Nat.mul_comm; apply Nat.Div0.mul_div_le).
  lia.
Qed.


(* ================================================================= *)
(** ** GET /reminders and the writers of [last_sent] *)

Lemma same_rm_is_store_relation : store_relation same_reminders_and_medications.
Proof.
  split.
  - unfold same_reminders_and_medications. intros s1 s2 s3 [H1 H2] [K1 K2].
    split; congruence.
  - intros s s' (_ & Hm & Hr & _). now split.
Qed.

Lemma keeps_rm_MedicationLog_insert : forall doc,
  keeps same_reminders_and_medications (MedicationLog_insert doc).
Proof.
  intros doc env s. unfold MedicationLog_insert, gen_oid, io, bind, gets, modify, raise.
  simpl. destruct (io_fault env (io_ops s)); simpl; [now split|].
  destruct (existsb _ _); now split.
Qed.

Lemma appends_reminders_is_store_relation : store_relation appends_reminders.
Proof.
  split.
  - intros s1 s2 s3 (a1 & H1 & F1) (a2 & H2 & F2). exists (a1 ++ a2). split.
    + now rewrite H2, H1, app_assoc.
    + apply Forall_app. now split.
  - intros s s' (_ & _ & Hr & _). exists []. split; [now rewrite app_nil_r | constructor].
Qed.

Lemma appends_same : forall s s', reminders s' = reminders s -> appends_reminders s s'.
Proof. intros s s' H. exists []. split; [now rewrite app_nil_r | constructor]. Qed.

Lemma keeps_appends_Medication_insert : forall doc,
  keeps appends_reminders (Medication_insert doc).
Proof.
  intros doc env s. unfold Medication_insert, gen_oid, io, bind, gets, modify, ret, raise.
  simpl. destruct (io_fault env (io_ops s)); simpl; [now apply appends_same|].
  destruct (existsb _ _); now apply appends_same.
Qed.

Lemma keeps_appends_ensure_reminder : forall uid mid t,
  keeps appends_reminders (ensure_reminder uid mid t).
Proof.
  intros uid mid t env s.
  unfold ensure_reminder, Reminder_by_key, Reminder_insert, gen_oid, io, bind, gets,
         modify, ret, raise.
  simpl. destruct (io_fault env (io_ops s)); simpl; [now apply appends_same|].
  destruct (find _ _); simpl; [now apply appends_same|].
  destruct (io_fault env (S (io_ops s))); simpl; [now apply appends_same|].
  destruct (existsb _ _); simpl; [now apply appends_same|].
  eexists. split; [reflexivity|]. now repeat constructor.
Qed.

Lemma keeps_appends_Medication_save_inactive : forall mid,
  keeps appends_reminders (Medication_save_inactive mid).
Proof.
  intros mid env s. unfold Medication_save_inactive, io, bind, modify.
  destruct (io_fault env (io_ops s)); now apply appends_same.
Qed.

Lemma keeps_appends_MedicationLog_insert : forall doc,
  keeps appends_reminders (MedicationLog_insert doc).
Proof.
  intros doc env s. unfold MedicationLog_insert, gen_oid, io, bind, gets, modify, raise.
  simpl. destruct (io_fault env (io_ops s)); simpl; [now apply appends_same|].
  destruct (existsb _ _); now apply appends_same.
Qed.

(** Only the scheduler writes [last_sent]: every other request leaves
    the stored reminders as they are and adds reminders with a null
    [last_sent] at most. *)
Lemma last_sent_written_by_tick_only : forall env s req,
  (forall self, req <> SchedulerTick self) ->
  appends_reminders s (step env s req).
Proof.
  intros env s req Hreq. unfold step.
  assert (H : keeps appends_reminders (handle req)).
  { pose proof appends_reminders_is_store_relation as HR.
    destruct req as [u json|u r|u|u mid|u mid| |self]; simpl.
    - apply keeps_bind; trivial; [|intros; now apply keeps_ret].
      apply keeps_medications_post; trivial.
      + apply keeps_appends_Medication_insert.
      + apply keeps_appends_ensure_reminder.
    - apply keeps_bind; trivial; [|intros; now apply keeps_ret].
      apply keeps_upload_prescription; trivial.
      + apply keeps_appends_Medication_insert.
      + apply keeps_appends_ensure_reminder.
    - apply keeps_bind; trivial; [|intros; now apply keeps_ret].
      now apply keeps_list_reminders.
    - apply keeps_bind; trivial; [|intros; now apply keeps_ret].
      apply keeps_delete_medication; trivial.
      apply keeps_appends_Medication_save_inactive.
    - apply keeps_bind; trivial; [|intros; now apply keeps_ret].
      apply keeps_take_medication; trivial.
      apply keeps_appends_MedicationLog_insert.
    - apply keeps_backfill; trivial. apply keeps_appends_ensure_reminder.
    - exfalso. now apply (Hreq self). }
  apply H.
Qed.

Lemma bind_ok : forall A B (m : M A) (k : A -> M B) env s a s1,
  m env s = (Ok a, s1) -> bind m k env s = k a env s1.
Proof. intros A B m k env s a s1 H. unfold bind. now rewrite H. Qed.

Lemma io_run : forall env s,
  no_faults env -> io env s = (Ok tt, with_io_ops (S (io_ops s)) s).
Proof. intros env s Hnf. unfold io. now rewrite Hnf. Qed.

Lemma query_run : forall A (f : State -> A) env s,
  no_faults env ->
  (io ;; gets f) env s
  = (Ok (f (with_io_ops (S (io_ops s)) s)), with_io_ops (S (io_ops s)) s).
Proof.
  intros A f env s Hnf. erewrite bind_ok by (now apply io_run). reflexivity.
Qed.

(** The rows of GET /reminders when nothing fails. *)
Lemma rows_run : forall env rs s,
  no_faults env ->
  exists s',
    for_collect rs
      (fun rem => med <- Medication_by_id (Reminder.medication_id rem) ;;
                  ret (reminder_row rem med)) env s
    = (Ok (map (fun rem => reminder_row rem
                             (find_medication (Reminder.medication_id rem) (medications s)))
               rs), s')
    /\ medications s' = medications s.
Proof.
  intros env rs s Hnf. revert s. induction rs as [|rem rs IH]; intros s.
  - exists s. now split.
  - cbn [for_collect].
    destruct (IH (with_io_ops (S (io_ops s)) s)) as (s' & Hrun & Hm).
    exists s'. split; [|exact Hm].
    erewrite bind_ok.
    2:{ erewrite bind_ok.
        2:{ unfold Medication_by_id. now apply query_run. }
        reflexivity. }
    erewrite bind_ok by exact Hrun. reflexivity.
Qed.

Lemma list_reminders_run : forall env u s,
  no_faults env ->
  fst (list_reminders u env s)
  = Ok (200,
        map (fun rem => reminder_row rem
                          (find_medication (Reminder.medication_id rem) (medications s)))
            (filter (fun r => String.eqb (Reminder.user_id r) (User.id u)
                              && Reminder.is_active r)
                    (reminders s))).
Proof.
  intros env u s Hnf.
  destruct (rows_run env
              (filter (fun r => String.eqb (Reminder.user_id r) (User.id u)
                                && Reminder.is_active r) (reminders s))
              (with_io_ops (S (io_ops s)) s) Hnf) as (s' & Hrun & _).
  unfold list_reminders, try_except.
  erewrite bind_ok.
  2:{ unfold Reminder_active_of_user. now apply query_run. }
  erewrite bind_ok by exact Hrun. reflexivity.
Qed.

Lemma isoformat_length : forall d,
  String.length (isoformat d) = if Nat.eqb (microsecond d) 0 then 19 else 26.
Proof.
  intros d. unfold isoformat.
  repeat rewrite ?str_length_app, ?pad_dec_length.
  destruct (Nat.eqb (microsecond d) 0); [reflexivity|].
  rewrite str_length_app, pad_dec_length. reflexivity.
Qed.

Lemma last_taken_of_row : forall rem med,
  payload_get "last_taken" (reminder_row rem med)
  = Some (match Reminder.last_sent rem with
          | Some d => PStr (isoformat d)
          | None => PNone
          end).
Proof. reflexivity. Qed.

(** C10: when nothing fails, GET /reminders answers 200 with one row per
    active reminder of the requesting user, in store order, and the
    [last_taken] field of a row is the ISO form of the reminder's
    [last_sent], null exactly when [last_sent] is null; the ISO form is
    YYYY-MM-DDTHH:MM:SS, with a dot and six digits after it when the
    microseconds are not zero, and it tells the stored datetime.  POST
    /take-medication changes neither reminders nor medications, hence not
    the answer; and no request other than a scheduler tick changes a
    stored reminder (reminders it adds have a null [last_sent]). *)
Theorem list_reminders_reports_last_sent :
  forall env current_user s,
    no_faults env ->
    fst (list_reminders current_user env s)
    = Ok (200,
          map (fun rem => reminder_row rem
                            (find_medication (Reminder.medication_id rem) (medications s)))
              (filter (fun r => String.eqb (Reminder.user_id r) (User.id current_user)
                                && Reminder.is_active r)
                      (reminders s)))
    /\ (forall rem med,
          payload_get "last_taken" (reminder_row rem med)
          = Some (match Reminder.last_sent rem with
                  | Some d => PStr (isoformat d)
                  | None => PNone
                  end))
    /\ (forall rem med,
          payload_get "last_taken" (reminder_row rem med) = Some PNone
          <-> Reminder.last_sent rem = None)
    /\ (forall rem rem' med med' d d',
          Reminder.last_sent rem = Some d ->
          Reminder.last_sent rem' = Some d' ->
          is_datetime d -> is_datetime d' ->
          payload_get "last_taken" (reminder_row rem med)
          = payload_get "last_taken" (reminder_row rem' med') ->
          d = d')
    /\ (forall d, String.length (isoformat d)
                  = if Nat.eqb (microsecond d) 0 then 19 else 26)
    /\ isoformat (mk_datetime 2024 3 5 9 0 0 0) = "2024-03-05T09:00:00"
    /\ isoformat (mk_datetime 2024 3 5 9 0 1 1000) = "2024-03-05T09:00:01.001000"
    /\ isoformat (mk_datetime 1999 12 31 23 59 58 4000) = "1999-12-31T23:59:58.004000"
    /\ (forall env' u medication_id,
          reminders (snd (take_medication u medication_id env' s)) = reminders s
          /\ medications (snd (take_medication u medication_id env' s)) = medications s
          /\ fst (list_reminders current_user env
                    (snd (take_medication u medication_id env' s)))
             = fst (list_reminders current_user env s))
    /\ (forall env' req,
          (forall self, req <> SchedulerTick self) ->
          appends_reminders s (step env' s req)).
Proof.
  intros env u s Hnf.
  split; [now apply list_reminders_run|].
  split; [apply last_taken_of_row|].
  split.
  { intros rem med. rewrite last_taken_of_row.
    destruct (Reminder.last_sent rem); split; intros H; congruence. }
  split.
  { intros rem rem' med med' d d' Hl Hl' Hd Hd'. rewrite !last_taken_of_row.
    rewrite Hl, Hl'. intros H. apply isoformat_inj; trivial. congruence. }
  split; [apply isoformat_length|].
  split; [reflexivity|]. split; [reflexivity|]. split; [reflexivity|].
  split.
  - intros env' u' mid.
    assert (H : same_reminders_and_medications s (snd (take_medication u' mid env' s))).
    { apply keeps_take_medication.
      - apply same_rm_is_store_relation.
      - apply keeps_rm_MedicationLog_insert. }
    destruct H as [Hr Hm]. split; [exact Hr|]. split; [exact Hm|].
    rewrite !list_reminders_run by assumption. now rewrite Hr, Hm.
  - intros env' req Hreq. now apply last_sent_written_by_tick_only.
Qed.

(** Alice lists her reminders after the morning one was sent at 09:00:00,
    and after a tick that dispatched it at 09:00:01.001999: the row of the
    morning reminder shows the stored time, that of the evening reminder
    null; taking the aspirin in between changes nothing of it. *)
Lemma list_reminders_reports_last_sent_witness :
  fst (list_reminders Example.alice Example.calm Example.same_day)
  = Ok (200,
        map (fun rem => reminder_row rem
                          (find_medication (Reminder.medication_id rem)
                                           (medications Example.same_day)))
            (filter (fun r => String.eqb (Reminder.user_id r) (User.id Example.alice)
                              && Reminder.is_active r)
                    (reminders Example.same_day)))
  /\ fst (list_reminders Example.alice Example.calm Example.same_day)
     = Ok (200,
           [ [ ("id", PStr "64b7f1a2c3d4e5f6010203b1");
               ("medication_id", PStr "64b7f1a2c3d4e5f6010203a1");
               ("medication_name", PStr "Aspirin");
               ("time", PStr "09:00");
               ("last_taken", PStr "2024-03-05T09:00:00");
               ("next_dose", PNone) ];
             [ ("id", PStr "64b7f1a2c3d4e5f6010203b2");
               ("medication_id", PStr "64b7f1a2c3d4e5f6010203a1");
               ("medication_name", PStr "Aspirin");
               ("time", PStr "20:00");
               ("last_taken", PNone);
               ("next_dose", PNone) ] ])
  /\ fst (list_reminders Example.alice Example.calm
            (snd (take_medication Example.alice (Medication.id Example.aspirin)
                    Example.calm
                    (snd (_check_and_send_reminders Example.scheduler Example.calm
                                                    Example.fresh)))))
     = Ok (200,
           [ [ ("id", PStr "64b7f1a2c3d4e5f6010203b1");
               ("medication_id", PStr "64b7f1a2c3d4e5f6010203a1");
               ("medication_name", PStr "Aspirin");
               ("time", PStr "09:00");
               ("last_taken", PStr "2024-03-05T09:00:01.001000");
               ("next_dose", PNone) ];
             [ ("id", PStr "64b7f1a2c3d4e5f6010203b2");
               ("medication_id", PStr "64b7f1a2c3d4e5f6010203a1");
               ("medication_name", PStr "Aspirin");
               ("time", PStr "20:00");
               ("last_taken", PNone);
               ("next_dose", PNone) ] ]).
Proof.
  destruct (list_reminders_reports_last_sent Example.calm Example.alice Example.same_day)
    as (Hrows & _).
  - intros k. reflexivity.
  - split; [exact Hrows|]. split; reflexivity.
Defined.

(* ================================================================= *)
(** ** Creating reminders *)

Lemma find_app_some : forall A (p : A -> bool) l l' x,
  find p l = Some x -> find p (l ++ l') = Some x.
Proof.
  induction l as [|y l IH]; simpl; intros l' x H; [discriminate|].
  destruct (p y); [exact H | now apply IH].
Qed.

Lemma find_app_none : forall A (p : A -> bool) l l',
  find p l = None -> find p (l ++ l') = find p l'.
Proof.
  induction l as [|y l IH]; simpl; intros l' H; [reflexivity|].
  destruct (p y); [discriminate | now apply IH].
Qed.

Lemma NoDup_snoc : forall A (l : list A) x, NoDup l -> ~ In x l -> NoDup (l ++ [x]).
Proof.
  induction l as [|y l IH]; simpl; intros x Hnd Hx.
  - constructor; [tauto | constructor].
  - inversion Hnd as [|? ? Hy Hnd']; subst. constructor.
    + intros Hin. apply in_app_or in Hin. destruct Hin as [Hin|[Hin|[]]].
      * contradiction.
      * subst. apply Hx. now left.
    + apply IH; [assumption|]. intros Hin. apply Hx. now right.
Qed.

Lemma has_key_iff : forall uid mid t r,
  has_key uid mid t r = true <-> Reminder.key r = (uid, mid, t).
Proof.
  intros uid mid t r. unfold has_key, Reminder.key. split.
  - intros H. apply andb_true_iff in H. destruct H as [H H3].
    apply andb_true_iff in H. destruct H as [H1 H2].
    apply String.eqb_eq in H1, H2, H3. congruence.
  - intros H. inversion H. now rewrite !String.eqb_refl.
Qed.

Lemma find_key_none : forall uid mid t rs,
  find (has_key uid mid t) rs = None -> ~ In (uid, mid, t) (map Reminder.key rs).
Proof.
  intros uid mid t rs H Hin. apply in_map_iff in Hin. destruct Hin as (r & Hk & Hr).
  apply (find_none _ _ H) in Hr. apply has_key_iff in Hk. congruence.
Qed.

Lemma existsb_id_false : forall oid rs,
  existsb (fun r => String.eqb (Reminder.id r) oid) rs = false ->
  ~ In oid (map Reminder.id rs).
Proof.
  intros oid rs H Hin. apply in_map_iff in Hin. destruct Hin as (r & Hid & Hr).
  assert (Ht : existsb (fun r => String.eqb (Reminder.id r) oid) rs = true).
  { apply existsb_exists. exists r. split; [assumption|]. subst. apply String.eqb_refl. }
  congruence.
Qed.

Lemma count_key_find_none : forall uid mid t rs,
  find (has_key uid mid t) rs = None -> count_key uid mid t rs = 0.
Proof.
  intros uid mid t rs. unfold count_key.
  induction rs as [|r rs IH]; simpl; [reflexivity|].
  destruct (has_key uid mid t r); [discriminate | exact IH].
Qed.

Lemma count_key_find_some : forall uid mid t rs r,
  find (has_key uid mid t) rs = Some r -> 1 <= count_key uid mid t rs.
Proof.
  intros uid mid t rs. unfold count_key.
  induction rs as [|x rs IH]; simpl; intros r H; [discriminate|].
  destruct (has_key uid mid t x); simpl; [lia | eapply IH; eassumption].
Qed.

Lemma count_key_app : forall uid mid t rs rs',
  count_key uid mid t (rs ++ rs') = count_key uid mid t rs + count_key uid mid t rs'.
Proof. intros. unfold count_key. now rewrite filter_app, length_app. Qed.

(** With unique keys no key is stored twice. *)
Lemma count_key_unique : forall uid mid t rs,
  NoDup (map Reminder.key rs) -> count_key uid mid t rs <= 1.
Proof.
  intros uid mid t rs. unfold count_key.
  induction rs as [|r rs IH]; simpl; intros Hnd; [lia|].
  inversion Hnd as [|? ? Hnotin Hnd']; subst.
  destruct (has_key uid mid t r) eqn:Hk; simpl; [|now apply IH].
  apply has_key_iff in Hk.
  assert (H0 : filter (has_key uid mid t) rs = []).
  { destruct (filter (has_key uid mid t) rs) as [|y ys] eqn:Hf; [reflexivity|].
    exfalso. assert (Hy : In y (filter (has_key uid mid t) rs)) by (rewrite Hf; now left).
    apply filter_In in Hy. destruct Hy as [Hy Hky]. apply has_key_iff in Hky.
    apply Hnotin. rewrite Hk, <- Hky. now apply in_map. }
  rewrite H0. simpl. lia.
Qed.

(** What the create-if-absent step does. *)
Lemma ensure_reminder_spec : forall env uid mid t s,
  medications (snd (ensure_reminder uid mid t env s)) = medications s
  /\ users (snd (ensure_reminder uid mid t env s)) = users s
  /\ match find (has_key uid mid t) (reminders s) with
     | Some _ =>
         reminders (snd (ensure_reminder uid mid t env s)) = reminders s
         /\ oids_made (snd (ensure_reminder uid mid t env s)) = oids_made s
     | None =>
         (fst (ensure_reminder uid mid t env s) = Ok tt
          /\ exists oid,
               existsb (fun r => String.eqb (Reminder.id r) oid) (reminders s) = false
               /\ reminders (snd (ensure_reminder uid mid t env s))
                  = reminders s ++ [Reminder.mk oid uid mid t true None])
         \/ ((exists e, fst (ensure_reminder uid mid t env s) = Raise e)
             /\ reminders (snd (ensure_reminder uid mid t env s)) = reminders s)
     end.
Proof.
  intros env uid mid t s.
  unfold ensure_reminder, Reminder_by_key, Reminder_insert, gen_oid, io, bind, gets,
         modify, ret, raise.
  simpl. destruct (io_fault env (io_ops s)); simpl.
  - repeat split. destruct (find _ _); [now split|]. right. split; [now eexists | reflexivity].
  - destruct (find (has_key uid mid t) (reminders s)) eqn:Hf; simpl; [now repeat split|].
    destruct (io_fault env (S (io_ops s))); simpl.
    + repeat split. right. split; [now eexists | reflexivity].
    + destruct (existsb _ _) eqn:Hex; simpl.
      * repeat split. right. split; [now eexists | reflexivity].
      * repeat split. left. split; [reflexivity|]. eexists. split; [exact Hex | reflexivity].
Qed.

Lemma ensure_reminder_ok_found : forall env uid mid t s,
  fst (ensure_reminder uid mid t env s) = Ok tt ->
  exists r, find (has_key uid mid t) (reminders (snd (ensure_reminder uid mid t env s)))
            = Some r.
Proof.
  intros env uid mid t s Hok.
  destruct (ensure_reminder_spec env uid mid t s) as (_ & _ & H).
  destruct (find (has_key uid mid t) (reminders s)) as [r|] eqn:Hf.
  - destruct H as [Hr _]. rewrite Hr, Hf. now exists r.
  - destruct H as [(_ & oid & _ & Hr) | ((e & He) & _)]; [|congruence].
    rewrite Hr, (find_app_none _ _ _ _ Hf). simpl.
    replace (has_key uid mid t (Reminder.mk oid uid mid t true None)) with true.
    + now eexists.
    + symmetry. now apply has_key_iff.
Qed.

Lemma ensure_reminder_keeps_keys : forall env uid mid t s,
  NoDup (map Reminder.key (reminders s)) ->
  NoDup (map Reminder.key (reminders (snd (ensure_reminder uid mid t env s)))).
Proof.
  intros env uid mid t s Hnd.
  destruct (ensure_reminder_spec env uid mid t s) as (_ & _ & H).
  destruct (find (has_key uid mid t) (reminders s)) as [r|] eqn:Hf.
  - destruct H as [Hr _]. now rewrite Hr.
  - destruct H as [(_ & oid & _ & Hr) | (_ & Hr)]; rewrite Hr; [|assumption].
    rewrite map_app. simpl. apply NoDup_snoc; [assumption|]. now apply find_key_none.
Qed.

Lemma found_after_append : forall uid mid t s s',
  appends_reminders s s' ->
  (exists r, find (has_key uid mid t) (reminders s) = Some r) ->
  exists r, find (has_key uid mid t) (reminders s') = Some r.
Proof.
  intros uid mid t s s' (added & Hr & _) (r & Hf). exists r.
  rewrite Hr. now apply find_app_some.
Qed.

(** A reconciling loop that ends normally has stored every target time. *)
Lemma for_each_ensure_found : forall env uid mid ts s,
  fst (for_each ts (fun t => ensure_reminder uid mid t) env s) = Ok tt ->
  forall t, In t ts ->
    exists r, find (has_key uid mid t)
                   (reminders (snd (for_each ts (fun t => ensure_reminder uid mid t) env s)))
              = Some r.
Proof.
  intros env uid mid ts. induction ts as [|t0 ts IH]; intros s Hok t Hin; [contradiction|].
  cbn [for_each] in *. unfold bind in *.
  pose proof (ensure_reminder_ok_found env uid mid t0 s) as Hfound.
  destruct (ensure_reminder uid mid t0 env s) as [[[]|e] s1] eqn:Hrun; simpl in *;
    [|discriminate].
  destruct Hin as [<-|Hin].
  - apply (found_after_append uid mid t0 s1); [|now apply Hfound].
    apply (keeps_for_each appends_reminders appends_reminders_is_store_relation).
    intros x. apply keeps_appends_ensure_reminder.
  - now apply IH.
Qed.

Lemma for_each_ensure_keeps_keys : forall env uid mid ts s,
  NoDup (map Reminder.key (reminders s)) ->
  NoDup (map Reminder.key
           (reminders (snd (for_each ts (fun t => ensure_reminder uid mid t) env s)))).
Proof.
  intros env uid mid ts. induction ts as [|t0 ts IH]; intros s Hnd; [exact Hnd|].
  cbn [for_each]. unfold bind.
  pose proof (ensure_reminder_keeps_keys env uid mid t0 s Hnd) as H1.
  destruct (ensure_reminder uid mid t0 env s) as [[[]|e] s1]; simpl in *;
    [now apply IH | exact H1].
Qed.

(** When every target reminder is stored, reconciling writes nothing. *)
Lemma ensure_reminders_reconciled : forall env uid m us ms rs n,
  reconciled uid m rs ->
  hoare env (nothing_written us ms rs n)
        (ensure_reminders uid m)
        (fun _ => nothing_written us ms rs n)
        (fun _ => nothing_written us ms rs n).
Proof.
  intros env uid m us ms rs n Hrec. unfold ensure_reminders.
  apply hoare_for_each. intros t Ht s (Hu & Hm & Hr & Hn).
  destruct (ensure_reminder_spec env uid (Medication.id m) t s) as (Hm' & Hu' & H).
  destruct (Hrec t Ht) as (r & Hf). rewrite Hr, Hf in H. destruct H as [Hr' Hn'].
  unfold nothing_written.
  destruct (ensure_reminder uid (Medication.id m) t env s) as [[[]|e] s1]; simpl in *;
    repeat split; congruence.
Qed.

Lemma nothing_written_io : forall env us ms rs n Q,
  (forall a s, nothing_written us ms rs n s -> Q a s) ->
  hoare env (nothing_written us ms rs n) io Q (fun _ => nothing_written us ms rs n).
Proof.
  intros env us ms rs n Q HQ s Hs. unfold io.
  destruct (io_fault env (io_ops s)); [exact Hs | apply HQ; exact Hs].
Qed.

(** When every reminder the backfill would create is stored, the
    backfill writes nothing. *)
Lemma backfill_reconciled_run : forall env s,
  backfill_reconciled s ->
  reminders (snd (backfill_reminders_for_all_users env s)) = reminders s
  /\ oids_made (snd (backfill_reminders_for_all_users env s)) = oids_made s.
Proof.
  intros env s Hrec.
  assert (H : hoare env (nothing_written (users s) (medications s) (reminders s) (oids_made s))
                backfill_reminders_for_all_users
                (fun _ => nothing_written (users s) (medications s) (reminders s)
                                          (oids_made s))
                (fun _ => nothing_written (users s) (medications s) (reminders s)
                                          (oids_made s))).
  { unfold backfill_reminders_for_all_users, backfill_pass.
    eapply hoare_try_except
      with (E' := fun _ => nothing_written (users s) (medications s) (reminders s)
                                           (oids_made s));
      [|intros e s1 Hs1; exact Hs1].
    eapply hoare_bind
      with (Q := fun _ => nothing_written (users s) (medications s) (reminders s)
                                          (oids_made s));
      [|intros _ s1 Hs1; exact Hs1].
    unfold User_objects.
    eapply hoare_bind
      with (Q := fun us s1 => nothing_written (users s) (medications s) (reminders s)
                                              (oids_made s) s1 /\ us = users s).
    { eapply hoare_bind
        with (Q := fun _ => nothing_written (users s) (medications s) (reminders s)
                                            (oids_made s)).
      - apply nothing_written_io. trivial.
      - intros _ s1 Hs1. split; [exact Hs1|]. apply Hs1. }
    intros us.
    eapply hoare_conseq
      with (P' := fun s1 => nothing_written (users s) (medications s) (reminders s)
                                            (oids_made s) s1 /\ us = users s)
           (Q' := fun _ => nothing_written (users s) (medications s) (reminders s)
                                           (oids_made s))
           (E' := fun _ => nothing_written (users s) (medications s) (reminders s)
                                           (oids_made s)); trivial.
    intros s1 [Hs1 Hus]. revert s1 Hs1. subst us.
    apply hoare_for_each. intros u Hu.
    unfold backfill_user, Medication_active_of_user.
    eapply hoare_bind
      with (Q := fun meds s1 =>
                   nothing_written (users s) (medications s) (reminders s) (oids_made s) s1
                   /\ meds = filter (fun m => String.eqb (Medication.user_id m) (User.id u)
                                               && Medication.is_active m)
                                    (medications s)).
    { eapply hoare_bind
        with (Q := fun _ => nothing_written (users s) (medications s) (reminders s)
                                            (oids_made s)).
      - apply nothing_written_io. trivial.
      - intros _ s1 Hs1. split; [exact Hs1|].
        destruct Hs1 as (_ & Hm & _). unfold gets. simpl. now rewrite Hm. }
    intros meds.
    eapply hoare_conseq
      with (P' := fun s1 =>
                    nothing_written (users s) (medications s) (reminders s) (oids_made s) s1
                    /\ meds = filter (fun m => String.eqb (Medication.user_id m) (User.id u)
                                                && Medication.is_active m)
                                     (medications s))
           (Q' := fun _ => nothing_written (users s) (medications s) (reminders s)
                                           (oids_made s))
           (E' := fun _ => nothing_written (users s) (medications s) (reminders s)
                                           (oids_made s)); trivial.
    intros s1 [Hs1 Hmeds]. revert s1 Hs1. subst meds.
    apply hoare_for_each. intros m Hm.
    apply filter_In in Hm. destruct Hm as [Hm Hcond].
    apply andb_true_iff in Hcond. destruct Hcond as [Huid Hact].
    apply String.eqb_eq in Huid.
    apply ensure_reminders_reconciled. now apply Hrec. }
  specialize (H s). unfold nothing_written in H.
  destruct (backfill_reminders_for_all_users env s) as [[[]|e] s1]; simpl;
    destruct H as (_ & _ & Hr & Hn); auto.
Qed.

Lemma grows_is_store_relation : store_relation grows.
Proof.
  split.
  - intros s1 s2 s3 (U1 & M1 & A1) (U2 & M2 & A2). repeat split; try congruence.
    eapply (rel_trans _ appends_reminders_is_store_relation); eassumption.
  - intros s s' H. destruct H as (Hu & Hm & Hr & _). repeat split; trivial.
    now apply appends_same.
Qed.

Lemma keeps_grows_ensure_reminder : forall uid mid t, keeps grows (ensure_reminder uid mid t).
Proof.
  intros uid mid t env s.
  destruct (ensure_reminder_spec env uid mid t s) as (Hm & Hu & _).
  repeat split; trivial. apply keeps_appends_ensure_reminder.
Qed.

Lemma keeps_grows_ensure_reminders : forall uid m, keeps grows (ensure_reminders uid m).
Proof.
  intros uid m. apply keeps_ensure_reminders.
  - apply grows_is_store_relation.
  - apply keeps_grows_ensure_reminder.
Qed.

Lemma reconciled_grows : forall uid m s s',
  grows s s' -> reconciled uid m (reminders s) -> reconciled uid m (reminders s').
Proof.
  intros uid m s s' (_ & _ & Happ) Hrec t Ht.
  apply (found_after_append uid (Medication.id m) t s s' Happ). now apply Hrec.
Qed.

(** A reconciliation that ends normally leaves the medication reconciled. *)
Lemma ensure_reminders_ok_reconciled : forall env uid m s,
  fst (ensure_reminders uid m env s) = Ok tt ->
  reconciled uid m (reminders (snd (ensure_reminders uid m env s))).
Proof.
  intros env uid m s Hok t Ht. unfold ensure_reminders in *.
  now apply for_each_ensure_found.
Qed.

(** What holds after each iteration that ends normally, and is not undone
    by later iterations, holds for every element when the loop ends
    normally. *)
Lemma for_each_ok_all : forall A (f : A -> M unit) (P : A -> State -> Prop) env,
  (forall x s, fst (f x env s) = Ok tt -> P x (snd (f x env s))) ->
  (forall x y s, P x s -> P x (snd (f y env s))) ->
  forall xs s,
    fst (for_each xs f env s) = Ok tt ->
    forall x, In x xs -> P x (snd (for_each xs f env s)).
Proof.
  intros A f P env Hdone Hstable.
  assert (Hrest : forall xs x s, P x s -> P x (snd (for_each xs f env s))).
  { induction xs as [|y xs IH]; intros x s Hx; [exact Hx|].
    cbn [for_each]. unfold bind. pose proof (Hstable x y s Hx) as Hy.
    destruct (f y env s) as [[[]|e] s1]; simpl in *; [now apply IH | exact Hy]. }
  induction xs as [|y xs IH]; intros s Hok x Hin; [contradiction|].
  cbn [for_each] in *. unfold bind in *.
  pose proof (Hdone y s) as Hy.
  destruct (f y env s) as [[[]|e] s1]; simpl in *; [|discriminate].
  destruct Hin as [<-|Hin]; [apply Hrest; now apply Hy | now apply IH].
Qed.

Lemma backfill_user_unfold : forall u env s,
  backfill_user u env s
  = if io_fault env (io_ops s) then (Raise StoreError, with_io_ops (S (io_ops s)) s)
    else for_each (filter (fun m => String.eqb (Medication.user_id m) (User.id u)
                                    && Medication.is_active m)
                          (medications s))
                  (fun m => ensure_reminders (User.id u) m)
                  env (with_io_ops (S (io_ops s)) s).
Proof.
  intros u env s. unfold backfill_user, Medication_active_of_user, bind, io, gets.
  destruct (io_fault env (io_ops s)); reflexivity.
Qed.

Lemma backfill_pass_unfold : forall env s,
  backfill_pass env s
  = if io_fault env (io_ops s) then (Raise StoreError, with_io_ops (S (io_ops s)) s)
    else for_each (users s) backfill_user env (with_io_ops (S (io_ops s)) s).
Proof.
  intros env s. unfold backfill_pass, User_objects, bind, io, gets.
  destruct (io_fault env (io_ops s)); reflexivity.
Qed.

Lemma backfill_user_grows : forall u, keeps grows (backfill_user u).
Proof.
  intros u. pose proof grows_is_store_relation as HR. unfold backfill_user.
  apply keeps_bind; trivial; [now apply keeps_query | intros meds].
  apply keeps_for_each; trivial. intros m. apply keeps_grows_ensure_reminders.
Qed.

Lemma backfill_user_ok : forall env u s,
  fst (backfill_user u env s) = Ok tt ->
  forall m, In m (medications s) ->
    Medication.user_id m = User.id u -> Medication.is_active m = true ->
    reconciled (User.id u) m (reminders (snd (backfill_user u env s))).
Proof.
  intros env u s Hok m Hm Huid Hact. rewrite backfill_user_unfold in *.
  destruct (io_fault env (io_ops s)); simpl in *; [discriminate|].
  apply (for_each_ok_all _ (fun m => ensure_reminders (User.id u) m)
           (fun m s1 => reconciled (User.id u) m (reminders s1)) env); trivial.
  - intros x s1 Hx. now apply ensure_reminders_ok_reconciled.
  - intros x y s1 Hx. eapply reconciled_grows; [|exact Hx].
    apply keeps_grows_ensure_reminders.
  - apply filter_In. split; [exact Hm|]. rewrite Huid, String.eqb_refl. now rewrite Hact.
Qed.

(** A backfill whose loops end normally leaves every active medication
    of every user reconciled. *)
Lemma backfill_pass_ok_reconciled : forall env s,
  fst (backfill_pass env s) = Ok tt ->
  backfill_reconciled (snd (backfill_pass env s)).
Proof.
  intros env s Hok.
  assert (Hg : grows s (snd (backfill_pass env s))).
  { pose proof grows_is_store_relation as HR. unfold backfill_pass.
    apply keeps_bind; trivial; [now apply keeps_query | intros us].
    apply keeps_for_each; trivial. intros u. apply backfill_user_grows. }
  destruct Hg as (Hu & Hm & _).
  intros u m Hin_u Hin_m Huid Hact. rewrite Hu in Hin_u. rewrite Hm in Hin_m.
  rewrite backfill_pass_unfold in *.
  destruct (io_fault env (io_ops s)); simpl in Hok; [discriminate|].
  apply (for_each_ok_all _ backfill_user
           (fun u s1 => forall m, In m (medications s1) ->
                          Medication.user_id m = User.id u ->
                          Medication.is_active m = true ->
                          reconciled (User.id u) m (reminders s1)) env); trivial.
  - intros x s1 Hx m1 Hm1.
    pose proof (backfill_user_grows x env s1) as (_ & Hms & _).
    rewrite Hms in Hm1. now apply backfill_user_ok.
  - intros x y s1 Hx m1 Hm1 Hu1 Ha1.
    pose proof (backfill_user_grows y env s1) as Hg.
    eapply reconciled_grows; [exact Hg|]. apply Hx; trivial.
    destruct Hg as (_ & Hms & _). now rewrite Hms in Hm1.
  - pose proof (keeps_for_each grows grows_is_store_relation (users s) backfill_user
                  backfill_user_grows env (with_io_ops (S (io_ops s)) s)) as (_ & Hms & _).
    now rewrite Hms.
Qed.

(* ================================================================= *)
(** ** The invariant of the store *)

Lemma store_ok_ext : forall s s',
  medications s' = medications s -> reminders s' = reminders s ->
  store_ok s -> store_ok s'.
Proof.
  intros s s' Hm Hr [H1 H2 H3 H4]. split; rewrite ?Hm, ?Hr; assumption.
Qed.

Lemma keeps_store_ok_is_store_relation : store_relation keeps_store_ok.
Proof.
  split.
  - unfold keeps_store_ok. auto.
  - intros s s' (_ & Hm & Hr & _) Hok. now apply (store_ok_ext s).
Qed.

Lemma map_update_by_id : forall A B (get_id : A -> ObjectId) (h : A -> B) i f l,
  (forall x, h (f x) = h x) ->
  map h (update_by_id get_id i f l) = map h l.
Proof.
  intros A B get_id h i f l Hf. induction l as [|x l IH]; simpl; [reflexivity|].
  destruct (String.eqb (get_id x) i); simpl; [now rewrite Hf | now rewrite IH].
Qed.

Lemma Forall_update_by_id : forall A (get_id : A -> ObjectId) (P : A -> Prop) i f l,
  (forall x, P x -> P (f x)) ->
  Forall P l -> Forall P (update_by_id get_id i f l).
Proof.
  intros A get_id P i f l Hf H. induction H as [|x l Hx Hl IH]; simpl; [constructor|].
  destruct (String.eqb (get_id x) i); constructor; auto.
Qed.

Lemma frequency_of_update : forall mid' mid b ms,
  frequency_of mid' (update_by_id Medication.id mid (Medication.set_is_active b) ms)
  = frequency_of mid' ms.
Proof.
  intros mid' mid b ms. unfold frequency_of, find_medication.
  induction ms as [|x ms IH]; simpl; [reflexivity|].
  destruct (String.eqb (Medication.id x) mid); simpl.
  - destruct (String.eqb (Medication.id x) mid'); reflexivity.
  - destruct (String.eqb (Medication.id x) mid'); [reflexivity | exact IH].
Qed.

Lemma frequency_of_app : forall mid ms ms' f,
  frequency_of mid ms = Some f -> frequency_of mid (ms ++ ms') = Some f.
Proof.
  intros mid ms ms' f. unfold frequency_of, find_medication.
  destruct (find _ ms) as [m|] eqn:Hf; simpl; [|discriminate].
  intros H. now rewrite (find_app_some _ _ _ ms' _ Hf).
Qed.

Lemma time_from_frequency_app : forall ms ms' r,
  time_from_frequency ms r -> time_from_frequency (ms ++ ms') r.
Proof.
  intros ms ms' r (f & Hf & Ht). exists f. split; [now apply frequency_of_app | exact Ht].
Qed.

Lemma keeps_ok_Reminder_save_last_sent : forall rid d,
  keeps keeps_store_ok (Reminder_save_last_sent rid d).
Proof.
  intros rid d env s. unfold Reminder_save_last_sent, io, bind, modify, keeps_store_ok.
  destruct (io_fault env (io_ops s)); simpl.
  - now apply store_ok_ext.
  - intros [H1 H2 H3 H4]. split; simpl; trivial.
    + now rewrite map_update_by_id.
    + now rewrite map_update_by_id.
    + now apply Forall_update_by_id.
Qed.

Lemma keeps_ok_Medication_save_inactive : forall mid,
  keeps keeps_store_ok (Medication_save_inactive mid).
Proof.
  intros mid env s. unfold Medication_save_inactive, io, bind, modify, keeps_store_ok.
  destruct (io_fault env (io_ops s)); simpl.
  - now apply store_ok_ext.
  - intros [H1 H2 H3 H4]. split; simpl; trivial.
    + now rewrite map_update_by_id.
    + eapply Forall_impl; [|exact H4]. intros r (f & Hf & Ht). exists f.
      split; [now rewrite frequency_of_update | exact Ht].
Qed.

Lemma keeps_ok_MedicationLog_insert : forall doc,
  keeps keeps_store_ok (MedicationLog_insert doc).
Proof.
  intros doc env s.
  unfold MedicationLog_insert, gen_oid, io, bind, gets, modify, raise, keeps_store_ok.
  simpl. destruct (io_fault env (io_ops s)); simpl; [now apply store_ok_ext|].
  destruct (existsb _ _); now apply store_ok_ext.
Qed.

(** A computation that leaves the collections alone keeps every assertion
    that only speaks of them. *)
Lemma hoare_of_keeps : forall A env (m : M A) (I : State -> Prop),
  keeps same_store m ->
  (forall s s', same_store s s' -> I s -> I s') ->
  hoare env I m (fun _ => I) (fun _ => I).
Proof.
  intros A env m I Hk HI s Hs. specialize (Hk env s).
  destruct (m env s) as [[a|e] s']; simpl in Hk; eapply HI; eassumption.
Qed.

Lemma store_ok_stable : forall s s', same_store s s' -> store_ok s -> store_ok s'.
Proof. intros s s' (_ & Hm & Hr & _). now apply store_ok_ext. Qed.

Lemma store_ok_with_stable : forall ms s s',
  same_store s s' -> store_ok_with ms s -> store_ok_with ms s'.
Proof.
  intros ms s s' Hs [Hok Hms]. split; [now apply (store_ok_stable s) |].
  destruct Hs as (_ & Hm & _). congruence.
Qed.

(** The create-if-absent step keeps the invariant when the time comes
    from the medication's frequency text. *)
Lemma ensure_reminder_store_ok : forall env uid mid t f ms,
  In t (parse_frequency_to_times f) ->
  frequency_of mid ms = Some f ->
  hoare env (store_ok_with ms) (ensure_reminder uid mid t)
        (fun _ => store_ok_with ms) (fun _ => store_ok_with ms).
Proof.
  intros env uid mid t f ms Ht Hf s [Hok Hms].
  destruct (ensure_reminder_spec env uid mid t s) as (Hm & _ & H).
  assert (Hgoal : store_ok_with ms (snd (ensure_reminder uid mid t env s))).
  { split; [|congruence].
    destruct (find (has_key uid mid t) (reminders s)) eqn:Hfind.
    - destruct H as [Hr _]. now apply (store_ok_ext s).
    - destruct H as [(_ & oid & Hex & Hr) | (_ & Hr)]; [|now apply (store_ok_ext s)].
      destruct Hok as [H1 H2 H3 H4]. split; rewrite ?Hm, ?Hr; trivial.
      + rewrite map_app. simpl. apply NoDup_snoc; [assumption|].
        now apply existsb_id_false.
      + rewrite map_app. simpl. apply NoDup_snoc; [assumption|].
        now apply find_key_none.
      + apply Forall_app. split; [assumption|]. constructor; [|constructor].
        exists f. simpl. split; [now rewrite Hms | exact Ht]. }
  destruct (ensure_reminder uid mid t env s) as [[[]|e] s1]; exact Hgoal.
Qed.

Lemma ensure_reminders_store_ok : forall env uid m,
  hoare env
    (fun s => store_ok s
              /\ frequency_of (Medication.id m) (medications s) = Some (Medication.frequency m))
    (ensure_reminders uid m)
    (fun _ => store_ok) (fun _ => store_ok).
Proof.
  intros env uid m s [Hok Hf].
  assert (H : hoare env (store_ok_with (medications s)) (ensure_reminders uid m)
                (fun _ => store_ok_with (medications s))
                (fun _ => store_ok_with (medications s))).
  { unfold ensure_reminders. apply hoare_for_each. intros t Ht.
    eapply ensure_reminder_store_ok; eassumption. }
  specialize (H s (conj Hok eq_refl)).
  destruct (ensure_reminders uid m env s) as [[[]|e] s1]; apply H.
Qed.

Lemma existsb_med_id_false : forall oid ms,
  existsb (fun m => String.eqb (Medication.id m) oid) ms = false ->
  ~ In oid (map Medication.id ms) /\ find_medication oid ms = None.
Proof.
  intros oid ms H. split.
  - intros Hin. apply in_map_iff in Hin. destruct Hin as (m & Hid & Hm).
    assert (Ht : existsb (fun m => String.eqb (Medication.id m) oid) ms = true).
    { apply existsb_exists. exists m. split; [assumption|]. subst. apply String.eqb_refl. }
    congruence.
  - unfold find_medication. destruct (find _ ms) as [m|] eqn:Hf; [|reflexivity].
    apply find_some in Hf. destruct Hf as [Hin Heq].
    assert (Ht : existsb (fun m => String.eqb (Medication.id m) oid) ms = true).
    { apply existsb_exists. now exists m. }
    congruence.
Qed.

(** Saving a new medication keeps the invariant; afterwards its
    frequency text is the one found under its id. *)
Lemma Medication_insert_store_ok : forall env doc,
  (forall oid, Medication.id (doc oid) = oid) ->
  hoare env store_ok (Medication_insert doc)
        (fun m s => store_ok s
                    /\ frequency_of (Medication.id m) (medications s)
                       = Some (Medication.frequency m))
        (fun _ => store_ok).
Proof.
  intros env doc Hdoc s Hok.
  unfold Medication_insert, gen_oid, io, bind, gets, modify, ret, raise. simpl.
  destruct (io_fault env (io_ops s)); simpl; [now apply (store_ok_ext s)|].
  destruct (existsb _ _) eqn:Hex; simpl; [now apply (store_ok_ext s)|].
  apply existsb_med_id_false in Hex. destruct Hex as [Hnotin Hnone].
  destruct Hok as [H1 H2 H3 H4]. split.
  - split; simpl; trivial.
    + rewrite map_app. simpl. apply NoDup_snoc; [assumption|]. now rewrite Hdoc.
    + eapply Forall_impl; [|exact H4]. intros r. apply time_from_frequency_app.
  - simpl. unfold frequency_of, find_medication in *.
    rewrite Hdoc. rewrite (find_app_none _ _ _ _ Hnone). simpl.
    now rewrite Hdoc, String.eqb_refl.
Qed.

Lemma hoare_quiet_ok : forall A env (m : M A),
  keeps same_store m -> hoare env store_ok m (fun _ => store_ok) (fun _ => store_ok).
Proof. intros A env m Hk. apply hoare_of_keeps; [exact Hk | apply store_ok_stable]. Qed.

Lemma hoare_quiet_ok_with : forall A env ms (m : M A),
  keeps same_store m ->
  hoare env (store_ok_with ms) m (fun _ => store_ok_with ms) (fun _ => store_ok_with ms).
Proof.
  intros A env ms m Hk. apply hoare_of_keeps; [exact Hk | apply store_ok_with_stable].
Qed.

Lemma keeps_ok_of_hoare : forall A (m : M A),
  (forall env, hoare env store_ok m (fun _ => store_ok) (fun _ => store_ok)) ->
  keeps keeps_store_ok m.
Proof.
  intros A m H env s Hok. specialize (H env s Hok).
  destruct (m env s) as [[a|e] s']; exact H.
Qed.

(** POST /medications keeps the invariant. *)
Lemma medications_post_store_ok : forall env u json,
  hoare env store_ok (medications_post u json) (fun _ => store_ok) (fun _ => store_ok).
Proof.
  intros env u json. pose proof same_store_is_store_relation as HS.
  unfold medications_post.
  eapply hoare_try_except with (E' := fun _ => store_ok); [|intros e s Hs; exact Hs].
  destruct json as [data|]; [|intros s Hs; exact Hs].
  destruct (negb (truthy (dict_get data "name" None))); [intros s Hs; exact Hs|].
  eapply hoare_bind with (Q := fun _ => store_ok);
    [apply hoare_quiet_ok; now apply keeps_dict_getitem | intros name].
  eapply hoare_bind with (Q := fun _ => store_ok);
    [apply hoare_quiet_ok; now apply keeps_query | intros existing].
  destruct existing; [intros s Hs; exact Hs|].
  eapply hoare_bind; [apply Medication_insert_store_ok; reflexivity | intros medication].
  eapply hoare_bind with (Q := fun _ => store_ok);
    [apply ensure_reminders_store_ok | intros _ s Hs; exact Hs].
Qed.

(** Adding one extracted medication keeps the invariant. *)
Lemma add_extracted_store_ok : forall env u added med_data,
  hoare env store_ok (add_extracted u added med_data)
        (fun _ => store_ok) (fun _ => store_ok).
Proof.
  intros env u added med_data. pose proof same_store_is_store_relation as HS.
  unfold add_extracted.
  eapply hoare_bind with (Q := fun _ => store_ok);
    [apply hoare_quiet_ok; now apply keeps_dict_getitem | intros name].
  eapply hoare_bind with (Q := fun _ => store_ok);
    [apply hoare_quiet_ok; now apply keeps_query | intros existing].
  destruct existing; [intros s Hs; exact Hs|].
  eapply hoare_bind; [apply Medication_insert_store_ok; reflexivity | intros med].
  eapply hoare_bind with (Q := fun _ => store_ok);
    [apply ensure_reminders_store_ok | intros _].
  eapply hoare_bind with (Q := fun _ => store_ok);
    [intros s Hs; exact Hs | intros dict].
  eapply hoare_bind with (Q := fun _ => store_ok);
    [apply hoare_quiet_ok; now apply keeps_socketio_emit | intros _ s Hs; exact Hs].
Qed.

(** The startup backfill keeps the invariant. *)
Lemma backfill_store_ok : forall env,
  hoare env store_ok backfill_reminders_for_all_users
        (fun _ => store_ok) (fun _ => store_ok).
Proof.
  intros env s Hok. pose proof same_store_is_store_relation as HS.
  assert (H : hoare env (store_ok_with (medications s)) backfill_reminders_for_all_users
                (fun _ => store_ok_with (medications s))
                (fun _ => store_ok_with (medications s))).
  { unfold backfill_reminders_for_all_users, backfill_pass.
    eapply hoare_try_except with (E' := fun _ => store_ok_with (medications s));
      [|intros e; apply hoare_quiet_ok_with; now apply keeps_print].
    eapply hoare_bind with (Q := fun _ => store_ok_with (medications s));
      [|intros _; apply hoare_quiet_ok_with; now apply keeps_print].
    eapply hoare_bind with (Q := fun _ => store_ok_with (medications s));
      [apply hoare_quiet_ok_with; now apply keeps_query | intros us].
    apply hoare_for_each. intros u _. unfold backfill_user, Medication_active_of_user.
    eapply hoare_bind
      with (Q := fun meds s1 => store_ok_with (medications s) s1
                                /\ forall m, In m meds -> In m (medications s)).
    { intros s1 Hs1. unfold bind, io, gets.
      destruct (io_fault env (io_ops s1)); simpl.
      - eapply store_ok_with_stable; [|exact Hs1]. now repeat split.
      - split; [eapply store_ok_with_stable; [|exact Hs1]; now repeat split|].
        intros m Hm. apply filter_In in Hm. destruct Hs1 as [_ Hms].
        rewrite <- Hms. tauto. }
    intros meds.
    eapply hoare_conseq
      with (P' := fun s1 => store_ok_with (medications s) s1
                            /\ forall m, In m meds -> In m (medications s))
           (Q' := fun _ => store_ok_with (medications s))
           (E' := fun _ => store_ok_with (medications s)); trivial.
    intros s1 [Hs1 Hmeds]. revert s1 Hs1.
    apply hoare_for_each. intros m Hm. unfold ensure_reminders.
    apply hoare_for_each. intros t Ht.
    eapply ensure_reminder_store_ok; [exact Ht|].
    unfold frequency_of.
    rewrite (find_medication_unique (medications s) m);
      [reflexivity | apply (medication_ids_unique s Hok) | now apply Hmeds]. }
  specialize (H s (conj Hok eq_refl)).
  destruct (backfill_reminders_for_all_users env s) as [[[]|e] s1]; apply H.
Qed.

(** Every request keeps the invariant. *)
Lemma step_store_ok : forall env s req, store_ok s -> store_ok (step env s req).
Proof.
  intros env s req. unfold step.
  assert (H : keeps keeps_store_ok (handle req)).
  { pose proof keeps_store_ok_is_store_relation as HR.
    destruct req as [u json|u r|u|u mid|u mid| |self]; simpl.
    - apply keeps_bind; trivial; [|intros; now apply keeps_ret].
      apply keeps_ok_of_hoare. intros env'. apply medications_post_store_ok.
    - apply keeps_bind; trivial; [|intros; now apply keeps_ret].
      apply keeps_upload_prescription_from; trivial. intros b x.
      apply keeps_ok_of_hoare. intros env'. apply add_extracted_store_ok.
    - apply keeps_bind; trivial; [|intros; now apply keeps_ret].
      now apply keeps_list_reminders.
    - apply keeps_bind; trivial; [|intros; now apply keeps_ret].
      apply keeps_delete_medication; trivial.
      apply keeps_ok_Medication_save_inactive.
    - apply keeps_bind; trivial; [|intros; now apply keeps_ret].
      apply keeps_take_medication; trivial.
      apply keeps_ok_MedicationLog_insert.
    - apply keeps_ok_of_hoare. intros env'. apply backfill_store_ok.
    - apply keeps_tick; trivial.
      + apply keeps_ok_Reminder_save_last_sent.
      + intros p rm. apply keeps_emit_any.
        intros s1 s2 _ Hm Hr _ Hok. now apply (store_ok_ext s1). }
  apply H.
Qed.

Lemma run_store_ok : forall env reqs s, store_ok s -> store_ok (run env reqs s).
Proof.
  intros env reqs. unfold run.
  induction reqs as [|req reqs IH]; intros s Hok; [exact Hok|].
  simpl. apply IH. now apply step_store_ok.
Qed.

Lemma keeps_frequencies_is_store_relation : store_relation keeps_frequencies.
Proof.
  split.
  - unfold keeps_frequencies. auto.
  - intros s s' (_ & Hm & _) mid f. now rewrite Hm.
Qed.

Lemma keeps_freq_same_meds : forall s s',
  medications s' = medications s -> keeps_frequencies s s'.
Proof. intros s s' H mid f. now rewrite H. Qed.

Lemma keeps_freq_Medication_insert : forall doc,
  keeps keeps_frequencies (Medication_insert doc).
Proof.
  intros doc env s. unfold Medication_insert, gen_oid, io, bind, gets, modify, ret, raise.
  simpl. destruct (io_fault env (io_ops s)); simpl; [now apply keeps_freq_same_meds|].
  destruct (existsb _ _); simpl; [now apply keeps_freq_same_meds|].
  intros mid f. simpl. apply frequency_of_app.
Qed.

Lemma keeps_freq_ensure_reminder : forall uid mid t,
  keeps keeps_frequencies (ensure_reminder uid mid t).
Proof.
  intros uid mid t env s. apply keeps_freq_same_meds.
  apply (ensure_reminder_spec env uid mid t s).
Qed.

Lemma keeps_freq_Medication_save_inactive : forall mid,
  keeps keeps_frequencies (Medication_save_inactive mid).
Proof.
  intros mid env s. unfold Medication_save_inactive, io, bind, modify.
  destruct (io_fault env (io_ops s)); simpl; [now apply keeps_freq_same_meds|].
  intros mid' f. simpl. now rewrite frequency_of_update.
Qed.

Lemma keeps_freq_MedicationLog_insert : forall doc,
  keeps keeps_frequencies (MedicationLog_insert doc).
Proof.
  intros doc env s. unfold MedicationLog_insert, gen_oid, io, bind, gets, modify, raise.
  simpl. destruct (io_fault env (io_ops s)); simpl; [now apply keeps_freq_same_meds|].
  destruct (existsb _ _); now apply keeps_freq_same_meds.
Qed.

Lemma keeps_freq_Reminder_save_last_sent : forall rid d,
  keeps keeps_frequencies (Reminder_save_last_sent rid d).
Proof.
  intros rid d env s. unfold Reminder_save_last_sent, io, bind, modify.
  destruct (io_fault env (io_ops s)); now apply keeps_freq_same_meds.
Qed.

(** No request changes the frequency text of a stored medication. *)
Lemma step_keeps_frequencies : forall env s req, keeps_frequencies s (step env s req).
Proof.
  intros env s req. unfold step.
  assert (H : keeps keeps_frequencies (handle req)).
  { pose proof keeps_frequencies_is_store_relation as HR.
    destruct req as [u json|u r|u|u mid|u mid| |self]; simpl.
    - apply keeps_bind; trivial; [|intros; now apply keeps_ret].
      apply keeps_medications_post; trivial.
      + apply keeps_freq_Medication_insert.
      + apply keeps_freq_ensure_reminder.
    - apply keeps_bind; trivial; [|intros; now apply keeps_ret].
      apply keeps_upload_prescription; trivial.
      + apply keeps_freq_Medication_insert.
      + apply keeps_freq_ensure_reminder.
    - apply keeps_bind; trivial; [|intros; now apply keeps_ret].
      now apply keeps_list_reminders.
    - apply keeps_bind; trivial; [|intros; now apply keeps_ret].
      apply keeps_delete_medication; trivial.
      apply keeps_freq_Medication_save_inactive.
    - apply keeps_bind; trivial; [|intros; now apply keeps_ret].
      apply keeps_take_medication; trivial.
      apply keeps_freq_MedicationLog_insert.
    - apply keeps_backfill; trivial. apply keeps_freq_ensure_reminder.
    - apply keeps_tick; trivial.
      + apply keeps_freq_Reminder_save_last_sent.
      + intros p rm. apply keeps_emit_any.
        intros s1 s2 _ Hm _ _. now apply keeps_freq_same_meds. }
  apply H.
Qed.

Lemma run_keeps_frequencies : forall env reqs s, keeps_frequencies s (run env reqs s).
Proof.
  intros env reqs. unfold run.
  induction reqs as [|req reqs IH]; intros s; [intros mid f H; exact H|].
  simpl. intros mid f H. apply IH. now apply step_keeps_frequencies.
Qed.

(* ================================================================= *)
(** ** Idempotent creation, and the invariant over every run *)

(** C5.  (1) When the create-if-absent step has ended normally, the
    stored reminders of before are still there unchanged, and a second
    step with the same user, medication and time writes nothing (same
    reminders, no ObjectId drawn); if the key was stored at most once
    before, it is stored exactly once afterwards.  (2) Reconciling a
    medication whose target reminders are all stored writes nothing.
    (3) A reconciliation that ends normally, over reminders with unique
    keys, leaves exactly one reminder per target key and the medication
    reconciled.  (4) The startup backfill writes nothing when every
    active medication of every user is reconciled, and (5) a backfill
    whose loops end normally leaves the store in that condition. *)
Theorem reminder_creation_idempotent :
  (forall env env' uid mid t s,
     fst (ensure_reminder uid mid t env s) = Ok tt ->
     appends_reminders s (snd (ensure_reminder uid mid t env s))
     /\ reminders (snd (ensure_reminder uid mid t env'
                          (snd (ensure_reminder uid mid t env s))))
        = reminders (snd (ensure_reminder uid mid t env s))
     /\ oids_made (snd (ensure_reminder uid mid t env'
                          (snd (ensure_reminder uid mid t env s))))
        = oids_made (snd (ensure_reminder uid mid t env s))
     /\ (count_key uid mid t (reminders s) <= 1 ->
         count_key uid mid t
           (reminders (snd (ensure_reminder uid mid t env'
                              (snd (ensure_reminder uid mid t env s))))) = 1))
  /\ (forall env uid m s,
        reconciled uid m (reminders s) ->
        reminders (snd (ensure_reminders uid m env s)) = reminders s
        /\ oids_made (snd (ensure_reminders uid m env s)) = oids_made s)
  /\ (forall env uid m s,
        NoDup (map Reminder.key (reminders s)) ->
        fst (ensure_reminders uid m env s) = Ok tt ->
        reconciled uid m (reminders (snd (ensure_reminders uid m env s)))
        /\ appends_reminders s (snd (ensure_reminders uid m env s))
        /\ forall t, In t (parse_frequency_to_times (Medication.frequency m)) ->
             count_key uid (Medication.id m) t
                       (reminders (snd (ensure_reminders uid m env s))) = 1)
  /\ (forall env s,
        backfill_reconciled s ->
        reminders (snd (backfill_reminders_for_all_users env s)) = reminders s
        /\ oids_made (snd (backfill_reminders_for_all_users env s)) = oids_made s)
  /\ (forall env s,
        fst (backfill_pass env s) = Ok tt ->
        backfill_reconciled (snd (backfill_pass env s))).
Proof.
  split; [|split; [|split; [|split]]].
  - intros env env' uid mid t s Hok.
    pose proof (keeps_appends_ensure_reminder uid mid t env s) as Happ.
    pose proof (ensure_reminder_ok_found env uid mid t s Hok) as (r1 & Hfound).
    pose proof (ensure_reminder_spec env uid mid t s) as (_ & _ & H1).
    set (s1 := snd (ensure_reminder uid mid t env s)) in *.
    pose proof (ensure_reminder_spec env' uid mid t s1) as (_ & _ & H2).
    rewrite Hfound in H2. destruct H2 as [Hr2 Hn2].
    split; [exact Happ|]. split; [exact Hr2|]. split; [exact Hn2|].
    intros Hcount. rewrite Hr2.
    destruct (find (has_key uid mid t) (reminders s)) as [r0|] eqn:Hf.
    + destruct H1 as [Hr1 _]. rewrite Hr1.
      pose proof (count_key_find_some _ _ _ _ _ Hf). lia.
    + destruct H1 as [(_ & oid & _ & Hr1) | ((e & He) & _)]; [|congruence].
      rewrite Hr1, count_key_app, (count_key_find_none _ _ _ _ Hf).
      unfold count_key. simpl.
      replace (has_key uid mid t (Reminder.mk oid uid mid t true None)) with true;
        [reflexivity|]. symmetry. now apply has_key_iff.
  - intros env uid m s Hrec.
    pose proof (ensure_reminders_reconciled env uid m (users s) (medications s)
                  (reminders s) (oids_made s) Hrec s) as H.
    unfold nothing_written in H.
    destruct (ensure_reminders uid m env s) as [[[]|e] s1]; simpl;
      destruct H as (_ & _ & Hr & Hn); auto.
  - intros env uid m s Hnd Hok.
    pose proof (ensure_reminders_ok_reconciled env uid m s Hok) as Hrec.
    split; [exact Hrec|]. split.
    + apply keeps_ensure_reminders.
      * apply appends_reminders_is_store_relation.
      * apply keeps_appends_ensure_reminder.
    + intros t Ht. destruct (Hrec t Ht) as (r & Hf).
      pose proof (count_key_find_some _ _ _ _ _ Hf) as Hge.
      pose proof (for_each_ensure_keeps_keys env uid (Medication.id m)
                    (parse_frequency_to_times (Medication.frequency m)) s Hnd) as Hnd'.
      pose proof (count_key_unique uid (Medication.id m) t _ Hnd') as Hle.
      unfold ensure_reminders in *. lia.
  - intros env s Hrec. now apply backfill_reconciled_run.
  - intros env s Hok. now apply backfill_pass_ok_reconciled.
Qed.

(** Alice's aspirin: the 09:00 reminder ensured twice on an empty
    reminder collection, a reconciliation and a backfill over the stored
    pair of reminders, and both run on the empty collection. *)
Lemma reminder_creation_idempotent_witness :
  (reminders (snd (ensure_reminder (User.id Example.alice) (Medication.id Example.aspirin)
                     "09:00" Example.shaky
                     (snd (ensure_reminder (User.id Example.alice)
                             (Medication.id Example.aspirin) "09:00" Example.calm
                             (Example.store [Example.aspirin] [])))))
   = reminders (snd (ensure_reminder (User.id Example.alice)
                       (Medication.id Example.aspirin) "09:00" Example.calm
                       (Example.store [Example.aspirin] [])))
   /\ count_key (User.id Example.alice) (Medication.id Example.aspirin) "09:00"
        (reminders (snd (ensure_reminder (User.id Example.alice)
                           (Medication.id Example.aspirin) "09:00" Example.shaky
                           (snd (ensure_reminder (User.id Example.alice)
                                   (Medication.id Example.aspirin) "09:00" Example.calm
                                   (Example.store [Example.aspirin] [])))))) = 1)
  /\ reminders (snd (ensure_reminders (User.id Example.alice) Example.aspirin
                       Example.calm Example.fresh))
     = reminders Example.fresh
  /\ (forall t, In t (parse_frequency_to_times (Medication.frequency Example.aspirin)) ->
        count_key (User.id Example.alice) (Medication.id Example.aspirin) t
          (reminders (snd (ensure_reminders (User.id Example.alice) Example.aspirin
                             Example.calm (Example.store [Example.aspirin] [])))) = 1)
  /\ reminders (snd (backfill_reminders_for_all_users Example.calm Example.fresh))
     = reminders Example.fresh
  /\ backfill_reconciled (snd (backfill_pass Example.calm
                                 (Example.store [Example.aspirin] []))).
Proof.
  destruct reminder_creation_idempotent as (H1 & H2 & H3 & H4 & H5).
  assert (Hrec : reconciled (User.id Example.alice) Example.aspirin
                            (reminders Example.fresh)).
  { intros t Ht. vm_compute in Ht.
    destruct Ht as [<-|[<-|[]]]; eexists; vm_compute; reflexivity. }
  split; [|split; [|split; [|split]]].
  - destruct (H1 Example.calm Example.shaky (User.id Example.alice)
                 (Medication.id Example.aspirin) "09:00"
                 (Example.store [Example.aspirin] []))
      as (_ & Hr & _ & Hc); [reflexivity|].
    split; [exact Hr|]. apply Hc. vm_compute. lia.
  - apply (H2 Example.calm (User.id Example.alice) Example.aspirin Example.fresh Hrec).
  - apply (H3 Example.calm (User.id Example.alice) Example.aspirin
              (Example.store [Example.aspirin] [])).
    + constructor.
    + reflexivity.
  - apply (H4 Example.calm Example.fresh).
    intros u m [<-|[]] [<-|[]] _ _. exact Hrec.
  - apply (H5 Example.calm (Example.store [Example.aspirin] [])). reflexivity.
Defined.

(** C9: from a store that satisfies the invariant, in particular from
    the empty store, every sequence of requests (creation by hand, by
    upload, the startup backfill, deletions, takings, listings, ticks),
    whatever fails on the way, leads to a store in which every reminder's
    trigger time is among the times the interpreter yields for the
    frequency text of its medication, and no (user, medication, time)
    key is stored twice; and no request changes the frequency text of a
    stored medication. *)
Theorem reminders_follow_frequency :
  forall env reqs s,
    store_ok s ->
    store_ok (run env reqs s)
    /\ (forall r, In r (reminders (run env reqs s)) ->
          exists m,
            find_medication (Reminder.medication_id r) (medications (run env reqs s))
            = Some m
            /\ In (Reminder.time r) (parse_frequency_to_times (Medication.frequency m)))
    /\ (forall uid mid t, count_key uid mid t (reminders (run env reqs s)) <= 1)
    /\ (forall mid f,
          frequency_of mid (medications s) = Some f ->
          frequency_of mid (medications (run env reqs s)) = Some f).
Proof.
  intros env reqs s Hok.
  pose proof (run_store_ok env reqs s Hok) as Hok'.
  split; [exact Hok'|]. split; [|split].
  - intros r Hr.
    pose proof (reminder_times_ok _ Hok') as Hall.
    rewrite Forall_forall in Hall. destruct (Hall r Hr) as (f & Hf & Ht).
    unfold frequency_of in Hf.
    destruct (find_medication (Reminder.medication_id r) (medications (run env reqs s)))
      as [m|]; simpl in Hf; [|discriminate].
    exists m. split; [reflexivity|]. congruence.
  - intros uid mid t. apply count_key_unique. apply (reminder_keys_unique _ Hok').
  - apply run_keeps_frequencies.
Qed.

(** Alice's session, started on an empty store. *)
Lemma reminders_follow_frequency_witness :
  store_ok (run Example.calm Example.session (empty_state [Example.alice]))
  /\ (forall r, In r (reminders (run Example.calm Example.session
                                     (empty_state [Example.alice]))) ->
        exists m,
          find_medication (Reminder.medication_id r)
            (medications (run Example.calm Example.session (empty_state [Example.alice])))
          = Some m
          /\ In (Reminder.time r) (parse_frequency_to_times (Medication.frequency m)))
  /\ (forall uid mid t,
        count_key uid mid t
          (reminders (run Example.calm Example.session (empty_state [Example.alice]))) <= 1)
  /\ (forall mid f,
        frequency_of mid (medications (empty_state [Example.alice])) = Some f ->
        frequency_of mid
          (medications (run Example.calm Example.session (empty_state [Example.alice])))
        = Some f).
Proof.
  apply (reminders_follow_frequency Example.calm Example.session
           (empty_state [Example.alice])).
  split; simpl; constructor.
Defined.

(* ================================================================= *)
(** ** At most one alert a day *)

Lemma alerts_for_of_alerts : forall rid es,
  alerts_for rid
    (filter (fun e => String.eqb (event e) "medication_reminder") es)
  = alerts_for rid es.
Proof.
  intros rid es. unfold alerts_for, is_alert_for.
  induction es as [|e es IH]; simpl; [reflexivity|].
  destruct (String.eqb (event e) "medication_reminder") eqn:He; simpl.
  - rewrite He. simpl. now rewrite IH.
  - exact IH.
Qed.

Lemma same_alerts_for : forall rid s s',
  alerts s' = alerts s -> alerts_for rid (emitted s') = alerts_for rid (emitted s).
Proof.
  intros rid s s' H. rewrite <- (alerts_for_of_alerts rid (emitted s')).
  rewrite <- (alerts_for_of_alerts rid (emitted s)). unfold alerts in H. now rewrite H.
Qed.

Lemma adds_no_alert_is_store_relation : store_relation adds_no_alert.
Proof.
  split.
  - intros s1 s2 s3 [A1 R1] [A2 R2]. split; [congruence|].
    eapply (rel_trans _ appends_reminders_is_store_relation); eassumption.
  - intros s s' H. split; [apply H|].
    destruct H as (_ & _ & Hr & _). now apply appends_same.
Qed.

Lemma keeps_quiet_Medication_insert : forall doc,
  keeps adds_no_alert (Medication_insert doc).
Proof.
  intros doc env s. split; [|apply keeps_appends_Medication_insert].
  unfold Medication_insert, gen_oid, io, bind, gets, modify, ret, raise. simpl.
  destruct (io_fault env (io_ops s)); simpl; [reflexivity|].
  destruct (existsb _ _); reflexivity.
Qed.

Lemma keeps_quiet_ensure_reminder : forall uid mid t,
  keeps adds_no_alert (ensure_reminder uid mid t).
Proof.
  intros uid mid t env s. split; [|apply keeps_appends_ensure_reminder].
  unfold ensure_reminder, Reminder_by_key, Reminder_insert, gen_oid, io, bind, gets,
         modify, ret, raise.
  simpl. destruct (io_fault env (io_ops s)); simpl; [reflexivity|].
  destruct (find _ _); simpl; [reflexivity|].
  destruct (io_fault env (S (io_ops s))); simpl; [reflexivity|].
  destruct (existsb _ _); reflexivity.
Qed.

Lemma keeps_quiet_Medication_save_inactive : forall mid,
  keeps adds_no_alert (Medication_save_inactive mid).
Proof.
  intros mid env s. split; [|apply keeps_appends_Medication_save_inactive].
  unfold Medication_save_inactive, io, bind, modify.
  destruct (io_fault env (io_ops s)); reflexivity.
Qed.

Lemma keeps_quiet_MedicationLog_insert : forall doc,
  keeps adds_no_alert (MedicationLog_insert doc).
Proof.
  intros doc env s. split; [|apply keeps_appends_MedicationLog_insert].
  unfold MedicationLog_insert, gen_oid, io, bind, gets, modify, raise. simpl.
  destruct (io_fault env (io_ops s)); simpl; [reflexivity|].
  destruct (existsb _ _); reflexivity.
Qed.

(** No request other than a tick emits a reminder alert or changes a
    stored reminder. *)
Lemma alerts_emitted_by_tick_only : forall env s req,
  (forall self, req <> SchedulerTick self) ->
  adds_no_alert s (step env s req).
Proof.
  intros env s req Hreq. unfold step.
  assert (H : keeps adds_no_alert (handle req)).
  { pose proof adds_no_alert_is_store_relation as HR.
    destruct req as [u json|u r|u|u mid|u mid| |self]; simpl.
    - apply keeps_bind; trivial; [|intros; now apply keeps_ret].
      apply keeps_medications_post; trivial.
      + apply keeps_quiet_Medication_insert.
      + apply keeps_quiet_ensure_reminder.
    - apply keeps_bind; trivial; [|intros; now apply keeps_ret].
      apply keeps_upload_prescription; trivial.
      + apply keeps_quiet_Medication_insert.
      + apply keeps_quiet_ensure_reminder.
    - apply keeps_bind; trivial; [|intros; now apply keeps_ret].
      now apply keeps_list_reminders.
    - apply keeps_bind; trivial; [|intros; now apply keeps_ret].
      apply keeps_delete_medication; trivial.
      apply keeps_quiet_Medication_save_inactive.
    - apply keeps_bind; trivial; [|intros; now apply keeps_ret].
      apply keeps_take_medication; trivial.
      apply keeps_quiet_MedicationLog_insert.
    - apply keeps_backfill; trivial. apply keeps_quiet_ensure_reminder.
    - exfalso. now apply (Hreq self). }
  apply H.
Qed.

Lemma sent_on_appends : forall D rid s s',
  appends_reminders s s' -> sent_on D rid s -> sent_on D rid s'.
Proof.
  intros D rid s s' (added & Hr & _) (r & d & Hf & Hl & Hd).
  exists r, d. split; [|now split]. rewrite Hr. unfold find_reminder in *.
  now apply find_app_some.
Qed.

(** The reminder with the id looked at: no alert naming it, or one alert
    emitted after its [last_sent] was stored. *)
Lemma check_reminder_self : forall env self now_dt now_hm r r' X s,
  alerts_for (Reminder.id r) (emitted s) = X ->
  find_reminder (Reminder.id r) (reminders s) = Some r' ->
  alerts_for (Reminder.id r) (emitted (snd (check_reminder self now_dt now_hm r env s))) = X
  \/ (exists a,
        alerts_for (Reminder.id r)
                   (emitted (snd (check_reminder self now_dt now_hm r env s)))
        = X ++ [a])
     /\ find_reminder (Reminder.id r)
          (reminders (snd (check_reminder self now_dt now_hm r env s)))
        = Some (Reminder.set_last_sent (Some (bson_datetime (now env (clock_reads s)))) r').
Proof.
  intros env self now_dt now_hm r r' X s HX HD. unfold_tick.
  destruct (String.eqb (Reminder.time r) now_hm); [|now left].
  destruct (not_sent_today now_dt r); [|now left].
  destruct (io_fault env (io_ops s)); simpl; [now left|].
  destruct (find_medication (Reminder.medication_id r) (medications s)) as [m|];
    simpl; [|now left].
  destruct (io_fault env (S (io_ops s))); simpl; [now left|].
  destruct (socketio self); simpl; [|now left].
  destruct (io_fault env (S (S (io_ops s)))); simpl; [now left|].
  right. split.
  - eexists. rewrite alerts_for_app, HX. simpl. rewrite is_alert_for_payload.
    now rewrite String.eqb_refl.
  - now apply find_reminder_update_same.
Qed.

Lemma find_reminder_none_ids : forall rid rs,
  find_reminder rid rs = None -> forall r, In r rs -> Reminder.id r <> rid.
Proof.
  intros rid rs H r Hr Heq. unfold find_reminder in H.
  apply (find_none _ _ H) in Hr. rewrite Heq, String.eqb_refl in Hr. discriminate.
Qed.

(** The reminders of a query set other than [rid], whatever fails. *)
Lemma for_each_other : forall env self now_dt now_hm rs rid X D s,
  (forall r, In r rs -> Reminder.id r <> rid) ->
  alerts_for rid (emitted s) = X ->
  find_reminder rid (reminders s) = D ->
  alerts_for rid (emitted (snd (for_each rs (check_reminder self now_dt now_hm) env s))) = X
  /\ find_reminder rid
       (reminders (snd (for_each rs (check_reminder self now_dt now_hm) env s))) = D.
Proof.
  intros env self now_dt now_hm rs rid X D s Hne HX HD.
  assert (H : hoare env
            (fun s0 => alerts_for rid (emitted s0) = X
                       /\ find_reminder rid (reminders s0) = D)
            (for_each rs (check_reminder self now_dt now_hm))
            (fun _ s0 => alerts_for rid (emitted s0) = X
                         /\ find_reminder rid (reminders s0) = D)
            (fun _ s0 => alerts_for rid (emitted s0) = X
                         /\ find_reminder rid (reminders s0) = D)).
  { apply hoare_for_each. intros r Hr. apply check_reminder_other. now apply Hne. }
  specialize (H s (conj HX HD)).
  destruct (for_each rs _ env s) as [[[]|e] s1]; exact H.
Qed.

(** A tick emits at most one alert naming a reminder, and when it emits
    one, the reminder's stored [last_sent] is a clock reading. *)
Lemma tick_at_most_one : forall env self s rid,
  NoDup (map Reminder.id (reminders s)) ->
  alerts_for rid (emitted (snd (_check_and_send_reminders self env s)))
  = alerts_for rid (emitted s)
  \/ exists a r' k,
       alerts_for rid (emitted (snd (_check_and_send_reminders self env s)))
       = alerts_for rid (emitted s) ++ [a]
       /\ find_reminder rid (reminders (snd (_check_and_send_reminders self env s)))
          = Some r'
       /\ Reminder.last_sent r' = Some (bson_datetime (now env k)).
Proof.
  intros env self s rid Hnd. rewrite tick_unfold.
  destruct (io_fault env (io_ops s)); [now left|].
  set (now_dt := now env (clock_reads s)).
  destruct (find_reminder rid (filter Reminder.is_active (reminders s))) as [r0|] eqn:Hfind.
  - apply find_reminder_In in Hfind. destruct Hfind as [Hin Hid]. subst rid.
    pose proof (NoDup_map_filter _ _ Reminder.id Reminder.is_active _ Hnd) as Hnd'.
    assert (Hstored : In r0 (reminders s)) by (apply filter_In in Hin; tauto).
    apply in_split in Hin. destruct Hin as (pre & post & Hsplit).
    rewrite Hsplit, map_app in Hnd'. simpl in Hnd'.
    pose proof (NoDup_remove_2 _ _ _ Hnd') as Hnotin.
    assert (Hpre : forall x, In x pre -> Reminder.id x <> Reminder.id r0).
    { intros x Hx Heq. apply Hnotin. apply in_or_app. left. rewrite <- Heq.
      now apply in_map. }
    assert (Hpost : forall x, In x post -> Reminder.id x <> Reminder.id r0).
    { intros x Hx Heq. apply Hnotin. apply in_or_app. right. rewrite <- Heq.
      now apply in_map. }
    rewrite Hsplit, for_each_app_run.
    pose proof (for_each_other env self now_dt (strftime_HM now_dt) pre (Reminder.id r0)
                  (alerts_for (Reminder.id r0) (emitted (tick_start s)))
                  (find_reminder (Reminder.id r0) (reminders (tick_start s)))
                  (tick_start s) Hpre eq_refl eq_refl) as [HX1 HD1].
    simpl in HX1, HD1. rewrite (find_reminder_unique _ _ Hnd Hstored) in HD1.
    destruct (for_each pre _ env (tick_start s)) as [[[]|e] s1]; simpl in HX1, HD1;
      [|now left].
    cbn [for_each]. unfold bind.
    pose proof (check_reminder_self env self now_dt (strftime_HM now_dt) r0 r0 _ s1
                  HX1 HD1) as Hself.
    destruct (check_reminder self now_dt (strftime_HM now_dt) r0 env s1) as [[[]|e] s2];
      simpl in Hself.
    + destruct Hself as [HX2 | [(a & HX2) HD2]].
      * left.
        now apply (for_each_other env self now_dt (strftime_HM now_dt) post
                     (Reminder.id r0) _ (find_reminder (Reminder.id r0) (reminders s2))
                     s2 Hpost HX2 eq_refl).
      * right. exists a, (Reminder.set_last_sent (Some (bson_datetime (now env (clock_reads s1)))) r0),
                 (clock_reads s1).
        pose proof (for_each_other env self now_dt (strftime_HM now_dt) post
                      (Reminder.id r0) _ _ s2 Hpost HX2 HD2) as [HX3 HD3].
        split; [exact HX3|]. split; [exact HD3 | reflexivity].
    + destruct Hself as [HX2 | [(a & HX2) HD2]]; [now left|].
      right. exists a, (Reminder.set_last_sent (Some (bson_datetime (now env (clock_reads s1)))) r0),
               (clock_reads s1).
      split; [exact HX2|]. split; [exact HD2 | reflexivity].
  - left.
    now apply (for_each_other env self now_dt (strftime_HM now_dt)
                 (filter Reminder.is_active (reminders s)) rid
                 (alerts_for rid (emitted (tick_start s)))
                 (find_reminder rid (reminders (tick_start s))) (tick_start s)
                 (find_reminder_none_ids _ _ Hfind)).
Qed.

(** A reminder already sent on the tick's date gets no alert and stays
    sent on that date. *)
Lemma tick_after_sent : forall env self s rid,
  NoDup (map Reminder.id (reminders s)) ->
  sent_on (date (now env (clock_reads s))) rid s ->
  alerts_for rid (emitted (snd (_check_and_send_reminders self env s)))
  = alerts_for rid (emitted s)
  /\ sent_on (date (now env (clock_reads s))) rid
             (snd (_check_and_send_reminders self env s)).
Proof.
  intros env self s rid Hnd (r & d & Hf & Hl & Hd).
  apply find_reminder_In in Hf as Hin. destruct Hin as [Hin Hid]. subst rid.
  assert (Hnf : fires (now env (clock_reads s)) (medications s) r = false).
  { unfold fires. rewrite (sent_today_not_due _ _ _ Hl Hd). now rewrite andb_false_r. }
  destruct (tick_passes_over env self s r Hnd Hin Hnf) as [HX HD].
  split.
  - rewrite (tick_appends env self s), alerts_for_app, HX. apply app_nil_r.
  - exists r, d. now repeat split.
Qed.

(** Over any run in which every clock reading falls on one date [D], at
    most one alert naming a given reminder is emitted, and none when the
    reminder was already sent on [D]. *)
Lemma run_one_alert_a_day : forall env D rid reqs s,
  (forall k, date (now env k) = D) ->
  store_ok s ->
  (sent_on D rid s ->
   alerts_for rid (emitted (run env reqs s)) = alerts_for rid (emitted s)
   /\ sent_on D rid (run env reqs s))
  /\ (alerts_for rid (emitted (run env reqs s)) = alerts_for rid (emitted s)
      \/ exists a, alerts_for rid (emitted (run env reqs s))
                   = alerts_for rid (emitted s) ++ [a]).
Proof.
  intros env D rid reqs s Hday. revert s.
  assert (Hstep_sent : forall s req,
    store_ok s -> sent_on D rid s ->
    alerts_for rid (emitted (step env s req)) = alerts_for rid (emitted s)
    /\ sent_on D rid (step env s req)).
  { intros s req Hok Hsent. destruct req as [u json|u r|u|u mid|u mid| |self];
      try (match goal with
           | |- context [step env s ?q] =>
               assert (Hq : adds_no_alert s (step env s q))
                 by (apply alerts_emitted_by_tick_only; intros self0; discriminate);
               destruct Hq as [Ha Happ];
               split; [now apply same_alerts_for | now apply (sent_on_appends D rid s)]
           end).
    unfold step. simpl. rewrite <- (Hday (clock_reads s)) in *.
    apply tick_after_sent; [apply (reminder_ids_unique s Hok) | exact Hsent]. }
  assert (Hsent_run : forall reqs s,
    store_ok s -> sent_on D rid s ->
    alerts_for rid (emitted (run env reqs s)) = alerts_for rid (emitted s)
    /\ sent_on D rid (run env reqs s)).
  { clear reqs. induction reqs as [|req reqs IH]; intros s Hok Hsent; [now split|].
    unfold run in *. simpl.
    destruct (Hstep_sent s req Hok Hsent) as [Ha Hs].
    destruct (IH (step env s req) (step_store_ok env s req Hok) Hs) as [Ha' Hs'].
    split; [congruence | exact Hs']. }
  induction reqs as [|req reqs IH]; intros s Hok.
  { split; [intros Hsent; now split | now left]. }
  split; [now apply Hsent_run|].
  pose proof (step_store_ok env s req Hok) as Hok1.
  destruct (IH (step env s req) Hok1) as [_ Hrest].
  change (run env (req :: reqs) s) with (run env reqs (step env s req)).
  assert (Hfirst :
    alerts_for rid (emitted (step env s req)) = alerts_for rid (emitted s)
    \/ (exists a, alerts_for rid (emitted (step env s req))
                  = alerts_for rid (emitted s) ++ [a])
       /\ sent_on D rid (step env s req)).
  { destruct req as [u json|u r|u|u mid|u mid| |self];
      try (left; apply same_alerts_for;
           apply alerts_emitted_by_tick_only; intros self0; discriminate).
    unfold step. simpl.
    destruct (tick_at_most_one env self s rid (reminder_ids_unique s Hok))
      as [H | (a & r' & k & Ha & Hf & Hl)]; [now left|].
    right. split; [now exists a|]. exists r', (bson_datetime (now env k)).
    rewrite date_bson_datetime. now repeat split. }
  destruct Hfirst as [H1 | [(a & H1) Hsent]].
  - rewrite <- H1. exact Hrest.
  - right. exists a.
    destruct (Hsent_run reqs (step env s req) Hok1 Hsent) as [Ha _]. congruence.
Qed.

(* ================================================================= *)
(** ** Dedup by day *)

Lemma Forall2_evolves_ids : forall now_dt ms l0 l,
  Forall2 (evolves now_dt ms) l0 l -> map Reminder.id l = map Reminder.id l0.
Proof.
  intros now_dt ms l0 l H. induction H as [|x0 x l0 l Hx _ IH]; simpl; [reflexivity|].
  now rewrite (evolves_id _ _ _ _ Hx), IH.
Qed.

(** C2.  (a) A stored reminder whose [last_sent] has
    the tick's date gets no alert in that tick and keeps its document,
    whatever else happens.  (b) An active reminder whose [last_sent] has
    another date (the day before, say), whose trigger time is the tick's
    HH:MM and whose medication document exists and is active is
    dispatched again: one alert, the stored [last_sent] set to a clock
    reading of the tick, to the millisecond (nothing failing, socket
    server attached, unique ids).  (c) After
    such a dispatch a further tick the same day emits no alert for it.
    (d) Over every sequence of requests and ticks whose clock readings
    all fall on one date, whatever fails, at most one alert naming a given
    reminder is emitted, and none when the reminder was already sent on
    that date. *)
Theorem tick_dedup_by_day :
  (forall env self s r d,
     NoDup (map Reminder.id (reminders s)) ->
     In r (reminders s) ->
     Reminder.last_sent r = Some d ->
     date d = date (now env (clock_reads s)) ->
     alerts_for (Reminder.id r)
                (new_emissions s (snd (_check_and_send_reminders self env s))) = []
     /\ find_reminder (Reminder.id r)
                      (reminders (snd (_check_and_send_reminders self env s))) = Some r)
  /\
  (forall env self s r d m,
     no_faults env ->
     socketio self = true ->
     NoDup (map Reminder.id (reminders s)) ->
     In r (reminders s) ->
     Reminder.is_active r = true ->
     Reminder.time r = strftime_HM (now env (clock_reads s)) ->
     Reminder.last_sent r = Some d ->
     date d <> date (now env (clock_reads s)) ->
     find_medication (Reminder.medication_id r) (medications s) = Some m ->
     Medication.is_active m = true ->
     fst (_check_and_send_reminders self env s) = Ok tt
     /\ List.length (alerts_for (Reminder.id r)
                       (new_emissions s (snd (_check_and_send_reminders self env s)))) = 1
     /\ exists k,
          clock_reads s < k
          /\ k < clock_reads (snd (_check_and_send_reminders self env s))
          /\ find_reminder (Reminder.id r)
                           (reminders (snd (_check_and_send_reminders self env s)))
             = Some (Reminder.set_last_sent (Some (bson_datetime (now env k))) r)
          /\ date (bson_datetime (now env k)) = date (now env k)
          /\ second (bson_datetime (now env k)) = second (now env k)
          /\ microsecond (bson_datetime (now env k))
             = microsecond (now env k) / 1000 * 1000)
  /\
  (forall env self self' s r m,
     no_faults env ->
     socketio self = true ->
     NoDup (map Reminder.id (reminders s)) ->
     In r (reminders s) ->
     Reminder.is_active r = true ->
     due (now env (clock_reads s)) r = true ->
     find_medication (Reminder.medication_id r) (medications s) = Some m ->
     Medication.is_active m = true ->
     (forall k, clock_reads s <= k <= clock_reads (snd (_check_and_send_reminders self env s)) ->
                date (now env k) = date (now env (clock_reads s))) ->
     alerts_for (Reminder.id r)
       (new_emissions (snd (_check_and_send_reminders self env s))
          (snd (_check_and_send_reminders self' env
                  (snd (_check_and_send_reminders self env s))))) = [])
  /\
  (forall env D rid reqs s,
     (forall k, date (now env k) = D) ->
     store_ok s ->
     List.length (alerts_for rid (emitted (run env reqs s)))
     <= S (List.length (alerts_for rid (emitted s)))
     /\ (sent_on D rid s ->
         alerts_for rid (emitted (run env reqs s)) = alerts_for rid (emitted s))).
Proof.
  split; [|split; [|split]].
  - intros env self s r d Hnd Hr Hl Hd.
    apply tick_passes_over; trivial.
    unfold fires. rewrite (sent_today_not_due _ _ _ Hl Hd).
    now rewrite andb_false_r.
  - intros env self s r d m Hnf Hsock Hnd Hr Hact Ht Hl Hd Hm _.
    assert (Hdue : due (now env (clock_reads s)) r = true).
    { apply due_intro; [exact Ht|]. right. now exists d. }
    destruct (tick_dispatch env self s r m Hnf Hsock Hnd Hr Hact Hdue Hm)
      as (k & s' & Hrun & Hk1 & Hk2 & HX & HD).
    rewrite Hrun. simpl.
    split; [reflexivity|]. split; [now rewrite HX|].
    exists k. repeat split; trivial; lia.
  - intros env self self' s r m Hnf Hsock Hnd Hr Hact Hdue Hm _ Hday.
    pose proof (tick_frame_holds env self s Hnd) as Hframe.
    destruct (tick_dispatch env self s r m Hnf Hsock Hnd Hr Hact Hdue Hm)
      as (k & s1 & Hrun & Hk1 & Hk2 & HX & HD).
    rewrite Hrun in *. simpl in *.
    destruct Hframe as (_ & _ & _ & _ & Hev).
    apply Forall2_evolves_ids in Hev.
    assert (Hnd1 : NoDup (map Reminder.id (reminders s1))) by now rewrite Hev.
    apply find_reminder_In in HD as Hin. destruct Hin as [Hin _].
    change (Reminder.id r)
      with (Reminder.id (Reminder.set_last_sent (Some (bson_datetime (now env k))) r)).
    apply tick_passes_over; trivial.
    unfold fires.
    rewrite (sent_today_not_due (now env (clock_reads s1))
               (Reminder.set_last_sent (Some (bson_datetime (now env k))) r)
               (bson_datetime (now env k))).
    + now rewrite andb_false_r.
    + reflexivity.
    + rewrite date_bson_datetime, (Hday k) by lia. symmetry. apply Hday. lia.
  - intros env D rid reqs s Hday Hok.
    destruct (run_one_alert_a_day env D rid reqs s Hday Hok) as [Hsent Hone].
    split.
    + destruct Hone as [-> | (a & ->)]; [lia|]. rewrite length_app. simpl. lia.
    + intros H. now apply Hsent.
Qed.

(** The morning reminder sent earlier the same day, sent the day before,
    and sent by a first tick that is followed by a second one; Alice's
    session, all on 2024-03-05; and the store after the reminder sent the
    day before was dispatched again. *)
Lemma tick_dedup_by_day_witness :
  (alerts_for (Reminder.id (Example.morning_sent Example.earlier_today))
     (new_emissions Example.same_day
        (snd (_check_and_send_reminders Example.scheduler Example.calm Example.same_day)))
   = []
   /\ find_reminder (Reminder.id (Example.morning_sent Example.earlier_today))
        (reminders (snd (_check_and_send_reminders Example.scheduler Example.calm
                                                    Example.same_day)))
      = Some (Example.morning_sent Example.earlier_today))
  /\
  (fst (_check_and_send_reminders Example.scheduler Example.calm Example.next_day) = Ok tt
   /\ List.length
        (alerts_for (Reminder.id (Example.morning_sent Example.yesterday))
           (new_emissions Example.next_day
              (snd (_check_and_send_reminders Example.scheduler Example.calm
                                              Example.next_day)))) = 1
   /\ exists k,
        clock_reads Example.next_day < k
        /\ k < clock_reads (snd (_check_and_send_reminders Example.scheduler Example.calm
                                                            Example.next_day))
        /\ find_reminder (Reminder.id (Example.morning_sent Example.yesterday))
             (reminders (snd (_check_and_send_reminders Example.scheduler Example.calm
                                                         Example.next_day)))
           = Some (Reminder.set_last_sent (Some (bson_datetime (now Example.calm k)))
                                          (Example.morning_sent Example.yesterday))
        /\ date (bson_datetime (now Example.calm k)) = date (now Example.calm k)
        /\ second (bson_datetime (now Example.calm k)) = second (now Example.calm k)
        /\ microsecond (bson_datetime (now Example.calm k))
           = microsecond (now Example.calm k) / 1000 * 1000)
  /\
  alerts_for (Reminder.id Example.morning)
    (new_emissions
       (snd (_check_and_send_reminders Example.scheduler Example.calm Example.fresh))
       (snd (_check_and_send_reminders Example.scheduler Example.calm
               (snd (_check_and_send_reminders Example.scheduler Example.calm
                                               Example.fresh))))) = []
  /\
  (List.length (alerts_for (Example.oid_of 1)
                  (emitted (run Example.calm Example.session
                                (empty_state [Example.alice]))))
   <= S (List.length (alerts_for (Example.oid_of 1)
                        (emitted (empty_state [Example.alice]))))
   /\ (sent_on (2024, 3, 5) (Example.oid_of 1) (empty_state [Example.alice]) ->
       alerts_for (Example.oid_of 1)
         (emitted (run Example.calm Example.session (empty_state [Example.alice])))
       = alerts_for (Example.oid_of 1) (emitted (empty_state [Example.alice]))))
  /\
  (Example.yesterday = mk_datetime 2024 3 4 9 0 2 0
   /\ now Example.calm 1 = mk_datetime 2024 3 5 9 0 1 1999
   /\ reminders (snd (_check_and_send_reminders Example.scheduler Example.calm
                                                Example.next_day))
      = [Example.morning_sent (mk_datetime 2024 3 5 9 0 1 1000); Example.evening]).
Proof.
  destruct tick_dedup_by_day as (Ha & Hb & Hc & Hd).
  split; [|split; [|split; [|split; [|repeat split]]]].
  - apply (Ha Example.calm Example.scheduler Example.same_day
              (Example.morning_sent Example.earlier_today) Example.earlier_today).
    + repeat constructor; simpl; intuition discriminate.
    + simpl. now left.
    + reflexivity.
    + reflexivity.
  - apply (Hb Example.calm Example.scheduler Example.next_day
              (Example.morning_sent Example.yesterday) Example.yesterday Example.aspirin).
    + intros k. reflexivity.
    + reflexivity.
    + repeat constructor; simpl; intuition discriminate.
    + simpl. now left.
    + reflexivity.
    + reflexivity.
    + reflexivity.
    + discriminate.
    + reflexivity.
    + reflexivity.
  - apply (Hc Example.calm Example.scheduler Example.scheduler Example.fresh
              Example.morning Example.aspirin).
    + intros k. reflexivity.
    + reflexivity.
    + repeat constructor; simpl; intuition discriminate.
    + simpl. now left.
    + reflexivity.
    + reflexivity.
    + reflexivity.
    + reflexivity.
    + intros k _. reflexivity.
  - apply (Hd Example.calm (2024, 3, 5) (Example.oid_of 1) Example.session
              (empty_state [Example.alice])).
    + intros k. reflexivity.
    + split; simpl; constructor.
Defined.

(* ================================================================= *)
(** ** The medication information search *)

Lemma search_cases : forall medication_name,
  (exists key data,
      In (key, data) enhanced_db
      /\ str_in key (lower medication_name) = true
      /\ search_medication_on_web medication_name
         = info_set "search_urls" (ITexts (search_urls medication_name))
                    (info_set "source" (IText "Enhanced Database") data))
  \/ ((forall key, In key known_drugs -> str_in key (lower medication_name) = false)
      /\ search_medication_on_web medication_name
         = [ ("source", IText "Web Search Recommended");
             ("generic_name", IText medication_name);
             ("common_dosages", ITexts ["Consult doctor"]);
             ("frequency", ITexts ["As prescribed"]);
             ("side_effects", ITexts ["Consult doctor"]);
             ("precautions", ITexts ["Follow directions"]);
             ("interactions", ITexts ["Consult doctor"]);
             ("search_urls", ITexts (search_urls medication_name)) ]).
Proof.
  intros n. unfold search_medication_on_web.
  destruct (find (fun item => str_in (fst item) (lower n)) enhanced_db)
    as [[key data]|] eqn:Hfind.
  - left. exists key, data. apply find_some in Hfind. destruct Hfind as [Hin Hs].
    repeat split; assumption.
  - right. split; [|reflexivity].
    intros key Hkey. unfold known_drugs in Hkey. apply in_map_iff in Hkey.
    destruct Hkey as [[k d] [Hk Hin]]. simpl in Hk. subst k.
    apply (find_none _ _ Hfind (key, d) Hin).
Qed.

(** The information found for a name has the eight fields, each once. *)
Lemma search_on_web_shape :
  forall medication_name,
    NoDup (map fst (search_medication_on_web medication_name))
    /\ (forall k, In k (map fst (search_medication_on_web medication_name))
                  <-> In k info_keys)
    /\ (exists g src,
          info_get "generic_name" (search_medication_on_web medication_name)
          = Some (IText g)
          /\ info_get "source" (search_medication_on_web medication_name)
             = Some (IText src))
    /\ (forall k,
          In k ["common_dosages"; "frequency"; "side_effects"; "precautions";
                "interactions"] ->
          exists l, info_get k (search_medication_on_web medication_name)
                    = Some (ITexts l)
                    /\ l <> [])
    /\ info_get "search_urls" (search_medication_on_web medication_name)
       = Some (ITexts [ ("https://www.drugs.com/search.php?searchterm="
                           ++ medication_name)%string;
                        ("https://www.webmd.com/drugs/2/search?query="
                           ++ medication_name)%string;
                        ("https://www.rxlist.com/search/" ++ medication_name)%string ]).
Proof.
  intros n.
  assert (Hk : forall d : info,
             (map fst d = ["generic_name"; "common_dosages"; "frequency"; "side_effects";
                           "precautions"; "interactions"; "source"; "search_urls"]
              \/ map fst d = ["source"; "generic_name"; "common_dosages"; "frequency";
                              "side_effects"; "precautions"; "interactions"; "search_urls"]) ->
             NoDup (map fst d) /\ (forall k, In k (map fst d) <-> In k info_keys)).
  { intros d [H|H]; rewrite H; split.
    - repeat constructor; simpl; intuition discriminate.
    - intros k. reflexivity.
    - repeat constructor; simpl; intuition discriminate.
    - intros k. unfold info_keys. simpl. intuition. }
  destruct (search_cases n) as [(key & data & Hin & _ & Heq)|[_ Heq]]; rewrite Heq; clear Heq.
  - simpl in Hin.
    destruct Hin as [H|[H|[H|[]]]]; inversion H; subst key data; clear H;
      (split; [apply Hk; left; reflexivity|]);
      (split; [apply Hk; left; reflexivity|]);
      (split; [eexists; eexists; split; reflexivity|]);
      (split; [|reflexivity]);
      intros k Hkk; simpl in Hkk;
      destruct Hkk as [H|[H|[H|[H|[H|[]]]]]]; subst k;
      eexists; (split; [reflexivity | discriminate]).
  - (split; [apply Hk; right; reflexivity|]).
    (split; [apply Hk; right; reflexivity|]).
    (split; [eexists; eexists; split; reflexivity|]).
    (split; [|reflexivity]).
    intros k Hkk; simpl in Hkk;
      destruct Hkk as [H|[H|[H|[H|[H|[]]]]]]; subst k;
      eexists; (split; [reflexivity | discriminate]).
Qed.

(** X1: GET /search-medication-info answers 400, with no information,
    exactly when the name parameter is absent or empty.  For every other
    name it answers 200 with the name as it was given and an information
    dict that always has the same eight fields, each once: a generic name
    and a source that are texts, five non-empty lists, and three search
    URLs, each a site prefix followed by the name exactly as given. *)
Theorem search_information_shape :
  forall name,
    (fst (search_medication_info name) = 400
     <-> name = None \/ name = Some EmptyString)
    /\ (fst (search_medication_info name) = 400 ->
        snd (search_medication_info name) = None)
    /\ (forall c n,
          name = Some (String c n) ->
          exists information,
            search_medication_info name = (200, Some (String c n, information))
            /\ information = search_medication_on_web (String c n)
            /\ NoDup (map fst information)
            /\ (forall k, In k (map fst information) <-> In k info_keys)
            /\ (exists g src,
                  info_get "generic_name" information = Some (IText g)
                  /\ info_get "source" information = Some (IText src))
            /\ (forall k,
                  In k ["common_dosages"; "frequency"; "side_effects"; "precautions";
                        "interactions"] ->
                  exists l, info_get k information = Some (ITexts l) /\ l <> [])
            /\ info_get "search_urls" information
               = Some (ITexts [ ("https://www.drugs.com/search.php?searchterm="
                                   ++ String c n)%string;
                                ("https://www.webmd.com/drugs/2/search?query="
                                   ++ String c n)%string;
                                ("https://www.rxlist.com/search/" ++ String c n)%string ])).
Proof.
  intros name.
  split; [|split].
  - destruct name as [[|c n]|]; unfold search_medication_info; cbn [truthy negb fst].
    + split; auto.
    + split; [discriminate | intros [H|H]; discriminate H].
    + split; auto.
  - destruct name as [[|c n]|]; unfold search_medication_info; cbn [truthy negb fst snd];
      try reflexivity. discriminate.
  - intros c n Hname. subst name. unfold search_medication_info. cbn [truthy negb].
    exists (search_medication_on_web (String c n)).
    destruct (search_on_web_shape (String c n)) as (A & B & C & D & E).
    split; [reflexivity|]. split; [reflexivity|].
    split; [exact A|]. split; [exact B|]. split; [exact C|]. split; [exact D | exact E].
Qed.

Lemma search_unfold : forall medication_name,
  search_medication_on_web medication_name
  = if str_in "aspirin" (lower medication_name) then
      info_set "search_urls" (ITexts (search_urls medication_name))
               (info_set "source" (IText "Enhanced Database")
                         (match enhanced_db with
                          | (_, data) :: _ => data
                          | [] => []
                          end))
    else if str_in "ibuprofen" (lower medication_name) then
      info_set "search_urls" (ITexts (search_urls medication_name))
               (info_set "source" (IText "Enhanced Database")
                         (match enhanced_db with
                          | _ :: (_, data) :: _ => data
                          | _ => []
                          end))
    else if str_in "amoxicillin" (lower medication_name) then
      info_set "search_urls" (ITexts (search_urls medication_name))
               (info_set "source" (IText "Enhanced Database")
                         (match enhanced_db with
                          | _ :: _ :: (_, data) :: _ => data
                          | _ => []
                          end))
    else
      [ ("source", IText "Web Search Recommended");
        ("generic_name", IText medication_name);
        ("common_dosages", ITexts ["Consult doctor"]);
        ("frequency", ITexts ["As prescribed"]);
        ("side_effects", ITexts ["Consult doctor"]);
        ("precautions", ITexts ["Follow directions"]);
        ("interactions", ITexts ["Consult doctor"]);
        ("search_urls", ITexts (search_urls medication_name)) ].
Proof.
  intros n. unfold search_medication_on_web, enhanced_db. cbn [find fst].
  destruct (str_in "aspirin" (lower n)); [reflexivity|].
  destruct (str_in "ibuprofen" (lower n)); [reflexivity|].
  destruct (str_in "amoxicillin" (lower n)); reflexivity.
Qed.

(** X2: the search looks for the names of the known drugs inside the
    name, in any letter case, and the first of aspirin, ibuprofen and
    amoxicillin that occurs decides the record; a name that holds none of
    them gets the fallback record, which repeats the name as the generic
    name.  So "Aspirin 81mg" and "Baby ASPIRIN with Ibuprofen" get the
    record of aspirin, "IBUPROFEN" that of ibuprofen, "Paracetamol" the
    fallback. *)
Theorem search_first_known_drug_wins :
  forall medication_name,
    (has_keyword medication_name "aspirin" ->
     info_get "generic_name" (search_medication_on_web medication_name)
     = Some (IText "Acetylsalicylic Acid"))
    /\ (~ has_keyword medication_name "aspirin" ->
        has_keyword medication_name "ibuprofen" ->
        info_get "generic_name" (search_medication_on_web medication_name)
        = Some (IText "Ibuprofen"))
    /\ (~ has_keyword medication_name "aspirin" ->
        ~ has_keyword medication_name "ibuprofen" ->
        has_keyword medication_name "amoxicillin" ->
        info_get "generic_name" (search_medication_on_web medication_name)
        = Some (IText "Amoxicillin"))
    /\ (info_get "source" (search_medication_on_web medication_name)
        = Some (IText "Enhanced Database")
        <-> exists key, In key known_drugs /\ has_keyword medication_name key)
    /\ ((forall key, In key known_drugs -> ~ has_keyword medication_name key) ->
        info_get "source" (search_medication_on_web medication_name)
        = Some (IText "Web Search Recommended")
        /\ info_get "generic_name" (search_medication_on_web medication_name)
           = Some (IText medication_name))
    /\ info_get "generic_name" (search_medication_on_web "Aspirin 81mg")
       = Some (IText "Acetylsalicylic Acid")
    /\ info_get "generic_name" (search_medication_on_web "Baby ASPIRIN with Ibuprofen")
       = Some (IText "Acetylsalicylic Acid")
    /\ info_get "generic_name" (search_medication_on_web "IBUPROFEN")
       = Some (IText "Ibuprofen")
    /\ info_get "generic_name" (search_medication_on_web "Amoxicillin 500mg")
       = Some (IText "Amoxicillin")
    /\ info_get "source" (search_medication_on_web "AmoxiCillin")
       = Some (IText "Enhanced Database")
    /\ info_get "source" (search_medication_on_web "Paracetamol")
       = Some (IText "Web Search Recommended")
    /\ info_get "generic_name" (search_medication_on_web "Paracetamol")
       = Some (IText "Paracetamol").
Proof.
  intros n.
  assert (Hin : forall key, In key known_drugs ->
                  (str_in key (lower n) = true <-> has_keyword n key)).
  { intros key Hkey. apply str_in_lower_has_keyword.
    simpl in Hkey. destruct Hkey as [K|[K|[K|[]]]]; subst key; reflexivity. }
  assert (Hout : forall key, In key known_drugs ->
                   (str_in key (lower n) = false <-> ~ has_keyword n key)).
  { intros key Hkey. apply str_in_lower_no_keyword.
    simpl in Hkey. destruct Hkey as [K|[K|[K|[]]]]; subst key; reflexivity. }
  assert (K1 : In "aspirin" known_drugs) by (simpl; auto).
  assert (K2 : In "ibuprofen" known_drugs) by (simpl; auto).
  assert (K3 : In "amoxicillin" known_drugs) by (simpl; auto).
  split; [|split; [|split; [|split; [|split]]]].
  - intros Hw. rewrite search_unfold.
    apply (Hin _ K1) in Hw. rewrite Hw. reflexivity.
  - intros H1 Hw. rewrite search_unfold.
    apply (Hout _ K1) in H1. apply (Hin _ K2) in Hw. rewrite H1, Hw. reflexivity.
  - intros H1 H2 Hw. rewrite search_unfold.
    apply (Hout _ K1) in H1. apply (Hout _ K2) in H2. apply (Hin _ K3) in Hw.
    rewrite H1, H2, Hw. reflexivity.
  - rewrite search_unfold. split.
    + intros H.
      destruct (str_in "aspirin" (lower n)) eqn:H1.
      { exists "aspirin". split; [exact K1 | now apply (Hin _ K1)]. }
      destruct (str_in "ibuprofen" (lower n)) eqn:H2.
      { exists "ibuprofen". split; [exact K2 | now apply (Hin _ K2)]. }
      destruct (str_in "amoxicillin" (lower n)) eqn:H3.
      { exists "amoxicillin". split; [exact K3 | now apply (Hin _ K3)]. }
      discriminate H.
    + intros (key & Hkey & Hw).
      apply (Hin _ Hkey) in Hw.
      simpl in Hkey. destruct Hkey as [K|[K|[K|[]]]]; subst key.
      * rewrite Hw. reflexivity.
      * rewrite Hw. destruct (str_in "aspirin" (lower n)); reflexivity.
      * rewrite Hw. destruct (str_in "aspirin" (lower n));
          [|destruct (str_in "ibuprofen" (lower n))]; reflexivity.
  - intros Hnone. rewrite search_unfold.
    pose proof (proj2 (Hout _ K1) (Hnone _ K1)) as H1.
    pose proof (proj2 (Hout _ K2) (Hnone _ K2)) as H2.
    pose proof (proj2 (Hout _ K3) (Hnone _ K3)) as H3.
    rewrite H1, H2, H3. simpl. auto.
  - repeat split; reflexivity.
Qed.

(* ================================================================= *)
(** ** The expected doses of the medication report *)

Ltac split_tests :=
  repeat match goal with
         | |- context [str_in ?k ?t] =>
             let E := fresh "E" in
             destruct (str_in k t) eqn:E; cbn [orb andb negb]
         end.

Lemma per_day_lt_reminders : forall f,
  let t := lower (or_empty f) in
  Nat.ltb (per_day f) (List.length (parse_frequency_to_times f))
  = (negb (str_in "three" t) && negb (str_in "1-1-1" t) && str_in "tds" t)
    || (negb (str_in "1-1-1" t) && negb (str_in "three" t) && negb (str_in "tds" t)
        && negb (str_in "1-0-1" t) && negb (str_in "twice" t)
        && negb (str_in "0-1-1" t) && negb (str_in "1-1-0" t)
        && str_in "bid" t)
    || (negb (str_in "1-1-1" t) && negb (str_in "three" t) && negb (str_in "tds" t)
        && negb (str_in "1-0-1" t) && negb (str_in "twice" t) && negb (str_in "bid" t)
        && negb (str_in "0-1-1" t) && negb (str_in "1-1-0" t)
        && negb (str_in "0-0-1" t) && negb (str_in "night" t)
        && negb (str_in "morning" t) && negb (str_in "1-0-0" t)
        && (str_in "qid" t || str_in "four" t)).
Proof.
  intros f t. unfold per_day, parse_frequency_to_times. fold t.
  destruct (str_in "1-1-1" t); destruct (str_in "three" t); destruct (str_in "tds" t);
    cbn [orb andb negb]; try reflexivity;
    destruct (str_in "1-0-1" t); destruct (str_in "twice" t);
    destruct (str_in "0-1-1" t); destruct (str_in "1-1-0" t);
    cbn [orb andb negb]; try reflexivity;
    destruct (str_in "bid" t);
    cbn [orb andb negb]; try reflexivity;
    destruct (str_in "0-0-1" t); destruct (str_in "night" t);
    cbn [orb andb negb]; try reflexivity;
    destruct (str_in "morning" t); destruct (str_in "1-0-0" t);
    cbn [orb andb negb]; try reflexivity;
    destruct (str_in "qid" t); destruct (str_in "four" t); reflexivity.
Qed.

(** X3: the doses a day the report expects for a frequency text are
    between one and three and never more than the reminders created for
    that text.  The report counts fewer exactly in three cases, keywords
    being found in any letter case: the text holds tds but neither three
    nor 1-1-1; it holds bid but no keyword of the three-times rule and
    none of twice, 1-0-1, 0-1-1 and 1-1-0; it holds qid or four but no
    keyword of the four rules before.  So "TDS", "bid" and "Four times a
    day" are counted as one dose, while "three tds" and "twice (BID)" are
    counted as the reminders are. *)
Theorem report_per_day_vs_reminders :
  forall frequency : pystr,
    1 <= per_day frequency <= 3
    /\ per_day frequency <= List.length (parse_frequency_to_times frequency)
    /\ (per_day frequency < List.length (parse_frequency_to_times frequency)
        <-> (has_keyword (or_empty frequency) "tds"
             /\ Forall (fun kw => ~ has_keyword (or_empty frequency) kw)
                       ["three"; "1-1-1"])
            \/ (has_keyword (or_empty frequency) "bid"
                /\ Forall (fun kw => ~ has_keyword (or_empty frequency) kw)
                          ["1-1-1"; "three"; "tds"; "1-0-1"; "twice"; "0-1-1"; "1-1-0"])
            \/ ((has_keyword (or_empty frequency) "qid"
                 \/ has_keyword (or_empty frequency) "four")
                /\ Forall (fun kw => ~ has_keyword (or_empty frequency) kw)
                          ["1-1-1"; "three"; "tds"; "1-0-1"; "twice"; "bid"; "0-1-1";
                           "1-1-0"; "0-0-1"; "night"; "morning"; "1-0-0"]))
    /\ (Forall (fun kw => ~ has_keyword (or_empty frequency) kw)
               ["tds"; "bid"; "qid"; "four"] ->
        per_day frequency = List.length (parse_frequency_to_times frequency))
    /\ (per_day (Some "TDS") = 1
        /\ parse_frequency_to_times (Some "TDS") = ["09:00"; "14:00"; "20:00"])
    /\ (per_day (Some "bid") = 1
        /\ parse_frequency_to_times (Some "bid") = ["09:00"; "20:00"])
    /\ (per_day (Some "Four times a day") = 1
        /\ parse_frequency_to_times (Some "Four times a day")
           = ["08:00"; "12:00"; "16:00"; "20:00"])
    /\ (per_day (Some "Twice daily, tds") = 2
        /\ parse_frequency_to_times (Some "Twice daily, tds")
           = ["09:00"; "14:00"; "20:00"])
    /\ (per_day (Some "three tds") = 3
        /\ parse_frequency_to_times (Some "three tds") = ["09:00"; "14:00"; "20:00"])
    /\ (per_day (Some "twice (BID)") = 2
        /\ parse_frequency_to_times (Some "twice (BID)") = ["09:00"; "20:00"])
    /\ (per_day (Some "four at night") = 1
        /\ parse_frequency_to_times (Some "four at night") = ["20:00"])
    /\ per_day (Some "THREE times") = 3
    /\ per_day None = 1
    /\ per_day (Some EmptyString) = 1.
Proof.
  intros f.
  assert (Hlt : per_day f < List.length (parse_frequency_to_times f)
                <-> (has_keyword (or_empty f) "tds"
             /\ Forall (fun kw => ~ has_keyword (or_empty f) kw)
                       ["three"; "1-1-1"])
            \/ (has_keyword (or_empty f) "bid"
                /\ Forall (fun kw => ~ has_keyword (or_empty f) kw)
                          ["1-1-1"; "three"; "tds"; "1-0-1"; "twice"; "0-1-1"; "1-1-0"])
            \/ ((has_keyword (or_empty f) "qid"
                 \/ has_keyword (or_empty f) "four")
                /\ Forall (fun kw => ~ has_keyword (or_empty f) kw)
                          ["1-1-1"; "three"; "tds"; "1-0-1"; "twice"; "bid"; "0-1-1";
                           "1-1-0"; "0-0-1"; "night"; "morning"; "1-0-0"])).
  { rewrite <- Nat.ltb_lt, per_day_lt_reminders.
    rewrite !Forall_cons_iff, !Forall_nil_iff.
    repeat rewrite ?orb_true_iff, ?andb_true_iff, ?negb_true_iff.
    rewrite !str_in_lower_no_keyword by reflexivity.
    rewrite !str_in_lower_has_keyword by reflexivity.
    tauto. }
  split.
  { unfold per_day. destruct (_ || _); [lia|]. destruct (_ || _); lia. }
  split.
  { unfold per_day, parse_frequency_to_times.
    set (t := lower (or_empty f)). split_tests; simpl; lia. }
  split; [exact Hlt|].
  split.
  { intros Hnone.
    assert (Hle : per_day f <= List.length (parse_frequency_to_times f)).
    { unfold per_day, parse_frequency_to_times.
      set (t := lower (or_empty f)). split_tests; simpl; lia. }
    assert (Hno : ~ per_day f < List.length (parse_frequency_to_times f)).
    { rewrite Hlt. rewrite !Forall_cons_iff in Hnone.
      destruct Hnone as (N1 & N2 & N3 & N4 & _). tauto. }
    lia. }
  repeat split; reflexivity.
Qed.

Lemma fold_total_expected : forall meds days acc,
  fold_left (fun total (m : Medication.t) =>
               (total + Z.of_nat (Nat.max 1 (per_day (Medication.frequency m))) * days)%Z)
            meds acc
  = (acc + Z.of_nat (doses_a_day meds) * days)%Z.
Proof.
  unfold doses_a_day.
  induction meds as [|m meds IH]; intros days acc; cbn [fold_left map].
  - simpl. lia.
  - rewrite IH.
    assert (H : Nat.max 1 (per_day (Medication.frequency m))
                = per_day (Medication.frequency m)).
    { unfold per_day.
      destruct (_ || _); [reflexivity|]. destruct (_ || _); reflexivity. }
    rewrite H. unfold list_sum. cbn [fold_right]. lia.
Qed.

Lemma doses_a_day_bounds : forall meds,
  List.length meds <= doses_a_day meds <= 3 * List.length meds.
Proof.
  unfold doses_a_day.
  induction meds as [|m meds IH]; [simpl; lia|].
  assert (H : 1 <= per_day (Medication.frequency m) <= 3).
  { unfold per_day.
    destruct (_ || _); [lia|]. destruct (_ || _); lia. }
  cbn [map List.length]. unfold list_sum in *. cbn [fold_right]. lia.
Qed.

(** X4: the expected doses of the report are the number of days times
    the doses a day of the medications, at least one and at most three a
    medication; the total is zero exactly when there is no medication or
    the period is zero days, and negative for a negative number of
    days. *)
Theorem total_expected_doses :
  forall (meds : list Medication.t) (days : Z),
    total_expected meds days = (Z.of_nat (doses_a_day meds) * days)%Z
    /\ List.length meds <= doses_a_day meds <= 3 * List.length meds
    /\ (total_expected meds days = 0%Z <-> meds = [] \/ days = 0%Z)
    /\ ((0 <= days)%Z ->
        (Z.of_nat (List.length meds) * days <= total_expected meds days
         <= 3 * Z.of_nat (List.length meds) * days)%Z)
    /\ ((days < 0)%Z -> meds <> [] -> (total_expected meds days < 0)%Z).
Proof.
  intros meds days.
  assert (Hv : total_expected meds days = (Z.of_nat (doses_a_day meds) * days)%Z).
  { unfold total_expected. rewrite fold_total_expected. lia. }
  pose proof (doses_a_day_bounds meds) as Hb.
  split; [exact Hv|]. split; [exact Hb|]. rewrite Hv.
  assert (Hlen : meds = [] <-> List.length meds = 0).
  { destruct meds; simpl; split; intros H; try reflexivity; discriminate. }
  split; [|split].
  - split.
    + intros H. apply Z.mul_eq_0 in H. destruct H as [H|H]; [left|now right].
      apply Hlen. lia.
    + intros [H|H]; [subst meds; reflexivity | subst days; lia].
  - intros Hd. nia.
  - intros Hd Hne.
    assert (0 < List.length meds) by (destruct meds; [congruence | simpl; lia]).
    nia.
Qed.

(* ================================================================= *)
(** ** The user loader *)

(** X5: [load_user] never raises and writes nothing.  For a text that
    is no ObjectId, or when the store fails, it yields [None]; otherwise
    it yields the first stored user whose id is the text (in either
    letter case), and [None] when there is none. *)
Theorem load_user_never_raises :
  forall env user_id s,
    (exists r, fst (load_user user_id env s) = Ok r)
    /\ same_store s (snd (load_user user_id env s))
    /\ uploads (snd (load_user user_id env s)) = uploads s
    /\ emitted (snd (load_user user_id env s)) = emitted s
    /\ (forall u,
          fst (load_user user_id env s) = Ok (Some u) ->
          is_oid_text user_id = true
          /\ In u (users s)
          /\ User.id u = lower user_id)
    /\ (is_oid_text user_id = false -> fst (load_user user_id env s) = Ok None)
    /\ (io_fault env (io_ops s) = true -> fst (load_user user_id env s) = Ok None)
    /\ (is_oid_text user_id = true ->
        io_fault env (io_ops s) = false ->
        fst (load_user user_id env s)
        = Ok (find (fun u => String.eqb (User.id u) (lower user_id)) (users s))).
Proof.
  intros env user_id s.
  unfold load_user, try_except, bind, to_ObjectId, User_by_id, bind, io, gets, is_oid_text.
  destruct (Nat.eqb (String.length user_id) 24 && fromhex_ok user_id) eqn:Hoid;
    unfold ret, raise; cbn [fst snd].
  - destruct (io_fault env (io_ops s)) eqn:Hio; cbn [fst snd].
    + split; [eauto|]. split; [now repeat split|].
      split; [reflexivity|]. split; [reflexivity|].
      split; [intros u H; discriminate H|].
      split; [intros H; discriminate H|].
      split; [reflexivity | intros _ H; discriminate H].
    + split; [eauto|]. split; [now repeat split|].
      split; [reflexivity|]. split; [reflexivity|].
      split.
      { intros u H. inversion H as [Hf]. apply find_some in Hf.
        destruct Hf as [Hin Hf]. apply String.eqb_eq in Hf. auto. }
      split; [intros H; discriminate H|].
      split; [intros H; discriminate H | reflexivity].
  - split; [eauto|]. split; [now repeat split|].
    split; [reflexivity|]. split; [reflexivity|].
    split; [intros u H; discriminate H|].
    split; [reflexivity|].
    split; [reflexivity | intros H; discriminate H].
Qed.

(* ================================================================= *)
(** ** POST /medications *)

Lemma existsb_find : forall A (p : A -> bool) l,
  existsb p l = match find p l with
                | Some _ => true
                | None => false
                end.
Proof.
  intros A p l. induction l as [|x l IH]; simpl; [reflexivity|].
  destruct (p x); [reflexivity | exact IH].
Qed.

Lemma truthy_lookup : forall (data : pydict) k,
  truthy (dict_get data k None) = true ->
  dict_getitem data k = ret (dict_get data k None).
Proof.
  intros data k. unfold dict_get, dict_getitem.
  destruct (dict_lookup k data); [reflexivity | discriminate].
Qed.

Lemma bind_ret : forall A B (a : A) (k : A -> M B) env s,
  bind (ret a) k env s = k a env s.
Proof. reflexivity. Qed.

(** A query, with its possible failure. *)
Lemma query_unfold : forall A (f : State -> A) env s,
  (io ;; gets f) env s
  = if io_fault env (io_ops s)
    then (Raise StoreError, with_io_ops (S (io_ops s)) s)
    else (Ok (f (with_io_ops (S (io_ops s)) s)), with_io_ops (S (io_ops s)) s).
Proof.
  intros A f env s. unfold bind, io, gets.
  destruct (io_fault env (io_ops s)); reflexivity.
Qed.

Lemma Medication_insert_unfold : forall doc env s,
  Medication_insert doc env s
  = let s1 := with_io_ops (S (io_ops s)) (with_oids_made (S (oids_made s)) s) in
    let oid := new_oid env (oids_made s) in
    if io_fault env (io_ops s) then (Raise StoreError, s1)
    else if existsb (fun m => String.eqb (Medication.id m) oid) (medications s)
    then (Raise NotUniqueError, s1)
    else (Ok (doc oid), with_medications (medications s ++ [doc oid]) s1).
Proof.
  intros doc env s. unfold Medication_insert, bind, gen_oid, io, gets, modify, ret, raise.
  cbn [io_ops with_oids_made with_io_ops medications].
  destruct (io_fault env (io_ops s)); [reflexivity|].
  cbn [medications with_oids_made with_io_ops].
  destruct (existsb _ (medications s)); reflexivity.
Qed.

Lemma MedicationLog_insert_unfold : forall doc env s,
  MedicationLog_insert doc env s
  = let s1 := with_io_ops (S (io_ops s)) (with_oids_made (S (oids_made s)) s) in
    let oid := new_oid env (oids_made s) in
    if io_fault env (io_ops s) then (Raise StoreError, s1)
    else if existsb (fun l => String.eqb (MedicationLog.id l) oid) (medication_logs s)
    then (Raise NotUniqueError, s1)
    else (Ok tt, with_medication_logs (medication_logs s ++ [doc oid]) s1).
Proof.
  intros doc env s. unfold MedicationLog_insert, bind, gen_oid, io, gets, modify, ret, raise.
  cbn [io_ops with_oids_made with_io_ops medication_logs].
  destruct (io_fault env (io_ops s)); [reflexivity|].
  cbn [medication_logs with_oids_made with_io_ops].
  destruct (existsb _ (medication_logs s)); reflexivity.
Qed.

Lemma Reminder_insert_unfold : forall doc env s,
  Reminder_insert doc env s
  = let s1 := with_io_ops (S (io_ops s)) (with_oids_made (S (oids_made s)) s) in
    let oid := new_oid env (oids_made s) in
    if io_fault env (io_ops s) then (Raise StoreError, s1)
    else if existsb (fun r => String.eqb (Reminder.id r) oid) (reminders s)
    then (Raise NotUniqueError, s1)
    else (Ok tt, with_reminders (reminders s ++ [doc oid]) s1).
Proof.
  intros doc env s. unfold Reminder_insert, bind, gen_oid, io, gets, modify, ret, raise.
  cbn [io_ops with_oids_made with_io_ops reminders].
  destruct (io_fault env (io_ops s)); [reflexivity|].
  cbn [reminders with_oids_made with_io_ops].
  destruct (existsb _ (reminders s)); reflexivity.
Qed.

Lemma socketio_emit_unfold : forall ev p rm env s,
  socketio_emit ev p rm env s
  = if io_fault env (io_ops s)
    then (Raise StoreError, with_io_ops (S (io_ops s)) s)
    else (Ok tt, with_emitted (emitted s ++ [mk_emission ev p rm])
                              (with_io_ops (S (io_ops s)) s)).
Proof.
  intros ev p rm env s. unfold socketio_emit, bind, io, modify.
  destruct (io_fault env (io_ops s)); reflexivity.
Qed.

(** The handler, path by path. *)
Lemma medications_post_unfold : forall env u json s,
  medications_post u json env s
  = match json with
    | None => (Ok 500, s)
    | Some data =>
        if negb (truthy (dict_get data "name" None)) then (Ok 400, s)
        else if io_fault env (io_ops s) then (Ok 500, with_io_ops (S (io_ops s)) s)
        else if has_active_name (User.id u) (dict_get data "name" None) (medications s)
        then (Ok 409, with_io_ops (S (io_ops s)) s)
        else
          let m := manual_medication (new_oid env (oids_made s)) u data in
          if io_fault env (S (io_ops s))
          then (Ok 500, with_io_ops (S (S (io_ops s))) (with_oids_made (S (oids_made s)) s))
          else if existsb (fun m' => String.eqb (Medication.id m') (Medication.id m))
                          (medications s)
          then (Ok 500, with_io_ops (S (S (io_ops s))) (with_oids_made (S (oids_made s)) s))
          else match ensure_reminders (User.id u) m env (medication_stored m s) with
               | (Ok _, s') => (Ok 201, s')
               | (Raise _, s') => (Ok 500, s')
               end
    end.
Proof.
  intros env u json s. unfold medications_post, try_except.
  destruct json as [data|]; [|reflexivity].
  destruct (truthy (dict_get data "name" None)) eqn:Hname; cbn [negb]; [|reflexivity].
  rewrite (truthy_lookup data "name" Hname), bind_ret.
  unfold bind at 1. unfold Medication_active_by_name. rewrite query_unfold.
  destruct (io_fault env (io_ops s)) eqn:Hio1; [reflexivity|].
  cbn [medications with_io_ops].
  unfold has_active_name. rewrite existsb_find.
  destruct (find _ (medications s)) as [m0|] eqn:Hfind; [reflexivity|].
  unfold bind at 1. rewrite Medication_insert_unfold.
  cbn [io_ops oids_made medications with_io_ops].
  cbv zeta.
  destruct (io_fault env (S (io_ops s))) eqn:Hio2; [reflexivity|].
  cbn [manual_medication Medication.id].
  destruct (existsb _ (medications s)) eqn:Htaken; [reflexivity|].
  unfold bind, ret, medication_stored, manual_medication.
  match goal with
  | |- context [ensure_reminders ?a ?b ?c ?d] =>
      destruct (ensure_reminders a b c d) as [[[]|e] s'] eqn:Hloop
  end.
  - match goal with
    | |- context [ensure_reminders ?a ?b ?c ?d] =>
        replace (ensure_reminders a b c d) with (@Ok unit tt, s')
    end; reflexivity.
  - match goal with
    | |- context [ensure_reminders ?a ?b ?c ?d] =>
        replace (ensure_reminders a b c d) with (@Raise unit e, s')
    end; reflexivity.
Qed.

Lemma ensure_reminder_unfold : forall uid mid t env s,
  ensure_reminder uid mid t env s
  = if io_fault env (io_ops s) then (Raise StoreError, with_io_ops (S (io_ops s)) s)
    else match find (has_key uid mid t) (reminders s) with
         | Some _ => (Ok tt, with_io_ops (S (io_ops s)) s)
         | None => Reminder_insert (fun oid => Reminder.mk oid uid mid t true None)
                                   env (with_io_ops (S (io_ops s)) s)
         end.
Proof.
  intros uid mid t env s. unfold ensure_reminder, bind at 1, Reminder_by_key.
  rewrite query_unfold.
  destruct (io_fault env (io_ops s)); [reflexivity|].
  cbn [reminders with_io_ops].
  destruct (find (has_key uid mid t) (reminders s)); reflexivity.
Qed.

Lemma writes_reminders_only_refl : forall s, writes_reminders_only s s.
Proof. intros s. now repeat split. Qed.

Lemma writes_reminders_only_trans : forall s1 s2 s3,
  writes_reminders_only s1 s2 -> writes_reminders_only s2 s3 ->
  writes_reminders_only s1 s3.
Proof.
  intros s1 s2 s3 (A1 & A2 & A3 & A4 & A5 & A6) (B1 & B2 & B3 & B4 & B5 & B6).
  repeat split; congruence.
Qed.

(** What one create-if-absent step does, whatever its outcome. *)
Lemma ensure_reminder_adds : forall env uid mid t s,
  writes_reminders_only s (snd (ensure_reminder uid mid t env s))
  /\ (reminders (snd (ensure_reminder uid mid t env s)) = reminders s
      /\ oids_made (snd (ensure_reminder uid mid t env s)) <= S (oids_made s)
      /\ (fst (ensure_reminder uid mid t env s) = Ok tt ->
          exists r, find (has_key uid mid t) (reminders s) = Some r)
      \/ fst (ensure_reminder uid mid t env s) = Ok tt
         /\ find (has_key uid mid t) (reminders s) = None
         /\ ~ In (new_oid env (oids_made s)) (map Reminder.id (reminders s))
         /\ oids_made (snd (ensure_reminder uid mid t env s)) = S (oids_made s)
         /\ reminders (snd (ensure_reminder uid mid t env s))
            = reminders s ++ [Reminder.mk (new_oid env (oids_made s)) uid mid t true None]).
Proof.
  intros env uid mid t s. rewrite ensure_reminder_unfold.
  destruct (io_fault env (io_ops s)) eqn:Hio1.
  { split; [now repeat split|]. left. cbn. repeat split; auto. discriminate. }
  destruct (find (has_key uid mid t) (reminders s)) as [r|] eqn:Hfind.
  { split; [now repeat split|]. left. cbn. repeat split; eauto. }
  rewrite Reminder_insert_unfold. cbv zeta.
  cbn [io_ops oids_made reminders with_io_ops].
  destruct (io_fault env (S (io_ops s))) eqn:Hio2.
  { split; [now repeat split|]. left. cbn. repeat split; auto. discriminate. }
  destruct (existsb _ (reminders s)) eqn:Htaken.
  { split; [now repeat split|]. left. cbn. repeat split; auto. discriminate. }
  split; [now repeat split|]. right. cbn. repeat split; auto.
  now apply existsb_id_false.
Qed.

(** What the reconciling loop adds, whatever its outcome; when it ends
    normally and found none of the keys, it adds one reminder a time, in
    the order of the times. *)
Lemma ensure_each_adds : forall env uid mid ts s,
  exists added,
    reminders (snd (for_each ts (fun t => ensure_reminder uid mid t) env s))
    = reminders s ++ added
    /\ Forall (fun r => Reminder.user_id r = uid
                        /\ Reminder.medication_id r = mid
                        /\ In (Reminder.time r) ts
                        /\ Reminder.is_active r = true
                        /\ Reminder.last_sent r = None) added
    /\ writes_reminders_only s (snd (for_each ts (fun t => ensure_reminder uid mid t) env s))
    /\ (fst (for_each ts (fun t => ensure_reminder uid mid t) env s) = Ok tt ->
        NoDup ts ->
        (forall t, In t ts -> find (has_key uid mid t) (reminders s) = None) ->
        map Reminder.time added = ts).
Proof.
  intros env uid mid ts. induction ts as [|t ts IH]; intros s.
  - exists []. cbn. rewrite app_nil_r. repeat split; auto.
  - cbn [for_each]. unfold bind.
    destruct (ensure_reminder_adds env uid mid t s) as [Hw Hcase].
    destruct (ensure_reminder uid mid t env s) as [[[]|e] s1] eqn:Hstep;
      cbn [fst snd] in *.
    + destruct (IH s1) as (added & Hrs & Hall & Hw' & Hexact).
      destruct Hcase as [(Hsame & _ & Hfound)|(_ & Hnone & _ & _ & Hnew)].
      * exists added. rewrite Hrs, Hsame. split; [reflexivity|].
        split.
        { eapply Forall_impl; [|exact Hall]. cbn. intros r (A & B & C & D & E).
          repeat split; auto. }
        split; [eapply writes_reminders_only_trans; eassumption|].
        intros Hok Hnd Hnone. destruct (Hfound eq_refl) as [r Hr].
        rewrite (Hnone t (or_introl eq_refl)) in Hr. discriminate.
      * exists (Reminder.mk (new_oid env (oids_made s)) uid mid t true None :: added).
        rewrite Hrs, Hnew, <- app_assoc. split; [reflexivity|].
        split.
        { constructor; [cbn; repeat split; auto|].
          eapply Forall_impl; [|exact Hall]. cbn. intros r (A & B & C & D & E).
          repeat split; auto. }
        split; [eapply writes_reminders_only_trans; eassumption|].
        intros Hok Hnd Hnone'. cbn [map Reminder.time]. f_equal.
        apply Hexact; [exact Hok | now inversion Hnd |].
        intros t' Ht'. rewrite Hnew. rewrite find_app_none; [|apply Hnone'; now right].
        cbn. unfold has_key. cbn.
        inversion Hnd as [|? ? Hnotin _]; subst.
        destruct (String.eqb t t') eqn:Heq.
        { apply String.eqb_eq in Heq. subst t'. contradiction. }
        rewrite andb_false_r. reflexivity.
    + exists []. rewrite app_nil_r.
      destruct Hcase as [(Hsame & _)|(Hok & _)]; [|discriminate].
      repeat split; auto; try apply Hw. discriminate.
Qed.

Ltac post_paths env u data s :=
  rewrite medications_post_unfold;
  destruct (truthy (dict_get data "name" None)) eqn:?Hname; cbn [negb];
  [ destruct (io_fault env (io_ops s)) eqn:?Hio1;
    [ | destruct (has_active_name (User.id u) (dict_get data "name" None) (medications s))
          eqn:?Hdup;
        [ | cbv zeta;
            destruct (io_fault env (S (io_ops s))) eqn:?Hio2;
            [ | destruct (existsb
                            (fun m' => String.eqb (Medication.id m')
                               (Medication.id
                                  (manual_medication (new_oid env (oids_made s)) u data)))
                            (medications s)) eqn:?Htaken;
                [ | destruct (ensure_reminders (User.id u)
                                (manual_medication (new_oid env (oids_made s)) u data) env
                                (medication_stored
                                   (manual_medication (new_oid env (oids_made s)) u data) s))
                      as [[[]|?e] ?s'] eqn:?Hloop ] ] ] ]
  | ];
  cbn [fst snd].

(** X6: for a body that is a JSON object with texts and nulls as values,
    or no JSON object at all, POST /medications never raises and answers
    201, 400, 409 or 500.  It answers 400 exactly when the test of line
    165 finds the name falsy, which for such a body means that the name
    is missing, empty or null, and then changes nothing at all; it
    answers 409 only for a name the user has as an active medication, and
    then has written nothing; a body that is no JSON object gets 500.
    (A body with a number, a boolean, a list or an object as a value is
    outside [pydict] and outside this statement.) *)
Theorem medications_post_rejects_without_writing :
  forall env current_user json s,
    (exists status,
        fst (medications_post current_user json env s) = Ok status
        /\ In status post_statuses)
    /\ (fst (medications_post current_user json env s) = Ok 400
        <-> exists data, json = Some data /\ truthy (dict_get data "name" None) = false)
    /\ (fst (medications_post current_user json env s) = Ok 400 ->
        snd (medications_post current_user json env s) = s)
    /\ (fst (medications_post current_user json env s) = Ok 409 ->
        (exists data,
            json = Some data
            /\ has_active_name (User.id current_user) (dict_get data "name" None)
                               (medications s) = true)
        /\ writes_nothing s (snd (medications_post current_user json env s)))
    /\ (forall data,
          json = Some data ->
          truthy (dict_get data "name" None) = true ->
          has_active_name (User.id current_user) (dict_get data "name" None)
                          (medications s) = true ->
          io_fault env (io_ops s) = false ->
          fst (medications_post current_user json env s) = Ok 409)
    /\ (json = None -> medications_post current_user json env s = (Ok 500, s)).
Proof.
  intros env u json s. unfold post_statuses.
  destruct json as [data|].
  2:{ rewrite medications_post_unfold. cbn [fst snd].
      split; [exists 500; split; [reflexivity | simpl; intuition]|].
      split; [split; [discriminate | intros (d & H & _); discriminate]|].
      split; [discriminate|]. split; [discriminate|].
      split; [intros d H; discriminate | reflexivity]. }
  split.
  { post_paths env u data s; eexists; (split; [reflexivity | simpl; intuition]). }
  split.
  { post_paths env u data s;
      (split; [intros H; try discriminate H; eauto
              | intros (d & Hd & Ht); inversion Hd; subst d; try congruence]). }
  split.
  { post_paths env u data s; intros H; try discriminate H; reflexivity. }
  split.
  { post_paths env u data s; intros H; try discriminate H.
    split; [eauto | now repeat split]. }
  split; [|discriminate].
  intros d Hd Ht Hdup Hio. inversion Hd; subst d.
  rewrite medications_post_unfold, Ht, Hio, Hdup. reflexivity.
Qed.

Lemma find_none_intro : forall A (p : A -> bool) l,
  (forall x, In x l -> p x = false) -> find p l = None.
Proof.
  intros A p l H. induction l as [|x l IH]; simpl; [reflexivity|].
  rewrite (H x (or_introl eq_refl)). apply IH. intros y Hy. apply H. now right.
Qed.

Lemma parse_times_distinct : forall ft,
  NoDup (parse_frequency_to_times ft)
  /\ 1 <= List.length (parse_frequency_to_times ft) <= 4.
Proof.
  intros ft. pose proof (parse_cases ft) as H. simpl in H.
  destruct H as [H|[H|[H|[H|[H|[]]]]]]; rewrite <- H; split; simpl; try lia;
    repeat constructor; simpl; intuition discriminate.
Qed.

(** X7: when POST /medications answers 201, it has stored one new
    medication, built from the body, owned by the current user and
    active, under a fresh id and a name the user had no active medication
    of; it has added reminders for that medication only, one for every
    time of its frequency text that had none, and nothing else.  When no
    stored reminder carried the new id, the added reminders are exactly
    the times of the frequency text, in their order. *)
Theorem medications_post_creates :
  forall env current_user json s,
    fst (medications_post current_user json env s) = Ok 201 ->
    exists data added,
      json = Some data
      /\ truthy (dict_get data "name" None) = true
      /\ has_active_name (User.id current_user) (dict_get data "name" None)
                         (medications s) = false
      /\ ~ In (new_oid env (oids_made s)) (map Medication.id (medications s))
      /\ medications (snd (medications_post current_user json env s))
         = medications s
           ++ [manual_medication (new_oid env (oids_made s)) current_user data]
      /\ reminders (snd (medications_post current_user json env s))
         = reminders s ++ added
      /\ Forall (created_for (User.id current_user)
                   (manual_medication (new_oid env (oids_made s)) current_user data))
                added
      /\ reconciled (User.id current_user)
           (manual_medication (new_oid env (oids_made s)) current_user data)
           (reminders (snd (medications_post current_user json env s)))
      /\ ((forall r, In r (reminders s) ->
                     Reminder.medication_id r <> new_oid env (oids_made s)) ->
          map Reminder.time added
          = parse_frequency_to_times (dict_get data "frequency" (Some EmptyString)))
      /\ users (snd (medications_post current_user json env s)) = users s
      /\ medication_logs (snd (medications_post current_user json env s))
         = medication_logs s
      /\ uploads (snd (medications_post current_user json env s)) = uploads s
      /\ emitted (snd (medications_post current_user json env s)) = emitted s.
Proof.
  intros env u json s.
  destruct json as [data|]; [|rewrite medications_post_unfold; discriminate].
  post_paths env u data s; intros H201; try discriminate H201.
  set (m := manual_medication (new_oid env (oids_made s)) u data) in *.
  unfold ensure_reminders in Hloop.
  destruct (ensure_each_adds env (User.id u) (Medication.id m)
              (parse_frequency_to_times (Medication.frequency m))
              (medication_stored m s))
    as (added & Hrs & Hall & Hw & Hexact).
  pose proof (for_each_ensure_found env (User.id u) (Medication.id m)
                (parse_frequency_to_times (Medication.frequency m))
                (medication_stored m s)) as Hfound.
  rewrite Hloop in Hrs, Hw, Hexact, Hfound. cbn [fst snd] in *.
  destruct Hw as (W1 & W2 & W3 & W4 & W5 & W6).
  exists data, added.
  split; [reflexivity|]. split; [assumption|]. split; [assumption|].
  split; [apply (existsb_med_id_false _ _ Htaken)|].
  split; [exact W2|]. split; [exact Hrs|].
  split; [exact Hall|].
  split; [intros t Ht; apply Hfound; [reflexivity | exact Ht]|].
  split; [|now repeat split].
  intros Hnew. apply Hexact; [reflexivity | apply parse_times_distinct |].
  intros t Ht. apply find_none_intro. intros r Hr. unfold has_key.
  destruct (String.eqb (Reminder.medication_id r) (Medication.id m)) eqn:Heq.
  - apply String.eqb_eq in Heq. exfalso. apply (Hnew r Hr). exact Heq.
  - rewrite andb_false_r. reflexivity.
Qed.

Lemma medications_post_creates_witness :
  exists data added,
    Some Example.new_aspirin = Some data
    /\ truthy (dict_get data "name" None) = true
    /\ has_active_name (User.id Example.alice) (dict_get data "name" None)
                       (medications (empty_state [Example.alice])) = false
    /\ ~ In (new_oid Example.calm (oids_made (empty_state [Example.alice])))
            (map Medication.id (medications (empty_state [Example.alice])))
    /\ medications (snd (medications_post Example.alice (Some Example.new_aspirin)
                           Example.calm (empty_state [Example.alice])))
       = medications (empty_state [Example.alice])
         ++ [manual_medication
               (new_oid Example.calm (oids_made (empty_state [Example.alice])))
               Example.alice data]
    /\ reminders (snd (medications_post Example.alice (Some Example.new_aspirin)
                         Example.calm (empty_state [Example.alice])))
       = reminders (empty_state [Example.alice]) ++ added
    /\ Forall (created_for (User.id Example.alice)
                 (manual_medication
                    (new_oid Example.calm (oids_made (empty_state [Example.alice])))
                    Example.alice data))
              added
    /\ reconciled (User.id Example.alice)
         (manual_medication
            (new_oid Example.calm (oids_made (empty_state [Example.alice])))
            Example.alice data)
         (reminders (snd (medications_post Example.alice (Some Example.new_aspirin)
                            Example.calm (empty_state [Example.alice]))))
    /\ ((forall r, In r (reminders (empty_state [Example.alice])) ->
                   Reminder.medication_id r
                   <> new_oid Example.calm (oids_made (empty_state [Example.alice]))) ->
        map Reminder.time added
        = parse_frequency_to_times (dict_get data "frequency" (Some EmptyString)))
    /\ users (snd (medications_post Example.alice (Some Example.new_aspirin)
                     Example.calm (empty_state [Example.alice])))
       = users (empty_state [Example.alice])
    /\ medication_logs (snd (medications_post Example.alice (Some Example.new_aspirin)
                               Example.calm (empty_state [Example.alice])))
       = medication_logs (empty_state [Example.alice])
    /\ uploads (snd (medications_post Example.alice (Some Example.new_aspirin)
                       Example.calm (empty_state [Example.alice])))
       = uploads (empty_state [Example.alice])
    /\ emitted (snd (medications_post Example.alice (Some Example.new_aspirin)
                       Example.calm (empty_state [Example.alice])))
       = emitted (empty_state [Example.alice]).
Proof.
  apply (medications_post_creates Example.calm Example.alice (Some Example.new_aspirin)
           (empty_state [Example.alice])).
  reflexivity.
Defined.

(** When nothing fails and the next ObjectIds are fresh, the reconciling
    loop ends normally. *)
Lemma ensure_each_ok : forall env uid mid ts s,
  no_faults env ->
  (forall k, oids_made s <= k < oids_made s + List.length ts ->
             ~ In (new_oid env k) (map Reminder.id (reminders s))) ->
  (forall j k, oids_made s <= j -> j < k -> k < oids_made s + List.length ts ->
               new_oid env j <> new_oid env k) ->
  fst (for_each ts (fun t => ensure_reminder uid mid t) env s) = Ok tt.
Proof.
  intros env uid mid ts s Hnf. revert s.
  induction ts as [|t ts IH]; intros s Hfresh Hinj; [reflexivity|].
  cbn [for_each List.length] in *. unfold bind.
  rewrite ensure_reminder_unfold, (Hnf (io_ops s)).
  destruct (find (has_key uid mid t) (reminders s)) as [r|] eqn:Hfind.
  - apply IH; cbn [oids_made reminders with_io_ops].
    + intros k Hk. apply Hfresh. lia.
    + intros j k Hj Hjk Hk. apply Hinj; lia.
  - rewrite Reminder_insert_unfold. cbv zeta.
    cbn [io_ops oids_made reminders with_io_ops].
    rewrite (Hnf (S (io_ops s))).
    destruct (existsb _ (reminders s)) eqn:Htaken.
    { exfalso. apply existsb_exists in Htaken. destruct Htaken as (r & Hr & Heq).
      apply String.eqb_eq in Heq. apply (Hfresh (oids_made s)); [lia|].
      rewrite <- Heq. now apply in_map. }
    apply IH; cbn [oids_made reminders with_io_ops with_reminders with_oids_made].
    + intros k Hk. rewrite map_app, in_app_iff. cbn.
      intros [Hin|[Heq|[]]].
      * apply (Hfresh k); [lia | exact Hin].
      * apply (Hinj (oids_made s) k); [lia | lia | lia | exact Heq].
    + intros j k Hj Hjk Hk. apply Hinj; lia.
Qed.

(** X8: when no store operation fails and the next five ObjectIds are
    fresh, POST /medications of a JSON object with texts and nulls as
    values, whose name is a non-empty text that the user has no active
    medication of, answers 201.  (A body with a number, a boolean, a list
    or an object as a value is outside [pydict] and outside this
    statement.) *)
Theorem medications_post_accepts :
  forall env current_user data s,
    no_faults env ->
    fresh_oids env 5 s ->
    truthy (dict_get data "name" None) = true ->
    has_active_name (User.id current_user) (dict_get data "name" None)
                    (medications s) = false ->
    fst (medications_post current_user (Some data) env s) = Ok 201.
Proof.
  intros env u data s Hnf [Hfresh Hinj] Hname' Hdup'.
  post_paths env u data s; try congruence.
  - exfalso. apply existsb_exists in Htaken. destruct Htaken as (m & Hm & Heq).
    apply String.eqb_eq in Heq. cbn in Heq.
    destruct (Hfresh (oids_made s)) as [Hm' _]; [lia|].
    apply Hm'. rewrite <- Heq. now apply in_map.
  - exfalso.
    pose proof (ensure_each_ok env (User.id u)
                  (Medication.id (manual_medication (new_oid env (oids_made s)) u data))
                  (parse_frequency_to_times
                     (Medication.frequency
                        (manual_medication (new_oid env (oids_made s)) u data)))
                  (medication_stored
                     (manual_medication (new_oid env (oids_made s)) u data) s) Hnf) as Hok.
    unfold ensure_reminders in Hloop. rewrite Hloop in Hok.
    pose proof (parse_times_distinct
                  (Medication.frequency
                     (manual_medication (new_oid env (oids_made s)) u data))) as [_ Hlen].
    cbn [fst] in Hok.
    assert (H : @Raise unit e = Ok tt); [|discriminate H].
    apply Hok; cbn [oids_made reminders medication_stored with_medications with_io_ops
                    with_oids_made].
    + intros k Hk. apply Hfresh. lia.
    + intros j k Hj Hjk Hk. apply Hinj; lia.
Qed.

Lemma medications_post_accepts_witness :
  no_faults Example.calm
  /\ fresh_oids Example.calm 5 Example.fresh
  /\ fst (medications_post Example.alice (Some Sample.metformin) Example.calm Example.fresh)
     = Ok 201.
Proof.
  assert (Hnf : no_faults Example.calm) by (intros k; reflexivity).
  assert (Hfresh : fresh_oids Example.calm 5 Example.fresh).
  { split.
    - intros k Hk. cbn in Hk.
      do 5 (destruct k as [|k]; [vm_compute; split; intuition discriminate|]). lia.
    - intros j k Hj Hjk Hk. cbn in Hk.
      do 5 (destruct j as [|j];
            [do 5 (destruct k as [|k]; [try lia; vm_compute; discriminate|]); lia|]).
      lia. }
  split; [exact Hnf|]. split; [exact Hfresh|].
  apply (medications_post_accepts Example.calm Example.alice Sample.metformin Example.fresh
           Hnf Hfresh); reflexivity.
Defined.

(* ================================================================= *)
(** ** The other writing handlers, path by path *)

Lemma add_extracted_unfold : forall env u added med_data s,
  add_extracted u added med_data env s
  = match dict_lookup "name" med_data with
    | None => (Raise (KeyError "name"), s)
    | Some name =>
        if io_fault env (io_ops s) then (Raise StoreError, after 1 0 s)
        else if has_active_name (User.id u) name (medications s)
        then (Ok added, after 1 0 s)
        else
          let m := ocr_medication (new_oid env (oids_made s)) u med_data name in
          if io_fault env (S (io_ops s)) then (Raise StoreError, after 2 1 s)
          else if existsb (fun m' => String.eqb (Medication.id m') (Medication.id m))
                          (medications s)
          then (Raise NotUniqueError, after 2 1 s)
          else match ensure_reminders (User.id u) m env (medication_stored m s) with
               | (Ok _, s') =>
                   if io_fault env (io_ops s')
                   then (Raise StoreError, with_io_ops (S (io_ops s')) s')
                   else (Ok (S added),
                         with_emitted (emitted s' ++ [added_event env u m])
                                      (with_io_ops (S (io_ops s')) s'))
               | (Raise e, s') => (Raise e, s')
               end
    end.
Proof.
  intros env u added med_data s. unfold add_extracted, dict_getitem.
  destruct (dict_lookup "name" med_data) as [name|]; [|reflexivity].
  rewrite bind_ret.
  unfold bind at 1. unfold Medication_active_by_name. rewrite query_unfold.
  destruct (io_fault env (io_ops s)) eqn:Hio1; [reflexivity|].
  cbn [medications with_io_ops].
  unfold has_active_name. rewrite existsb_find.
  destruct (find _ (medications s)) as [m0|] eqn:Hfind; [reflexivity|].
  unfold bind at 1. rewrite Medication_insert_unfold.
  cbn [io_ops oids_made medications with_io_ops].
  cbv zeta.
  destruct (io_fault env (S (io_ops s))) eqn:Hio2; [reflexivity|].
  cbn [ocr_medication Medication.id].
  destruct (existsb _ (medications s)) eqn:Htaken; [reflexivity|].
  unfold bind at 1.
  change (with_medications _ _)
    with (medication_stored (ocr_medication (new_oid env (oids_made s)) u med_data name) s).
  change (Medication.mk (new_oid env (oids_made s)) (User.id u) (User.username u) name
            (dict_get med_data "dosage" (Some EmptyString))
            (dict_get med_data "frequency" (Some EmptyString))
            (dict_get med_data "instructions" (Some EmptyString)) None "ocr" true)
    with (ocr_medication (new_oid env (oids_made s)) u med_data name).
  destruct (ensure_reminders (User.id u)
              (ocr_medication (new_oid env (oids_made s)) u med_data name) env
              (medication_stored
                 (ocr_medication (new_oid env (oids_made s)) u med_data name) s))
    as [[[]|e] s'] eqn:Hloop; [|reflexivity].
  unfold bind at 1, Medication_to_dict. unfold bind at 1.
  rewrite socketio_emit_unfold.
  destruct (io_fault env (io_ops s')); reflexivity.
Qed.

Lemma delete_medication_unfold : forall env u medication_id s,
  delete_medication u medication_id env s
  = if is_oid_text medication_id then
      if io_fault env (io_ops s) then (Ok 500, after 1 0 s)
      else match medication_of_user medication_id (User.id u) (medications s) with
           | None => (Ok 404, after 1 0 s)
           | Some med =>
               if io_fault env (S (io_ops s)) then (Ok 500, after 2 0 s)
               else (Ok 200,
                     with_medications
                       (update_by_id Medication.id (Medication.id med)
                                     (Medication.set_is_active false) (medications s))
                       (after 2 0 s))
           end
    else (Ok 500, s).
Proof.
  intros env u mid s. unfold delete_medication, try_except, is_oid_text, to_ObjectId.
  destruct (Nat.eqb (String.length mid) 24 && fromhex_ok mid); [|reflexivity].
  rewrite bind_ret. unfold bind at 1. unfold Medication_by_id_of_user.
  rewrite query_unfold.
  destruct (io_fault env (io_ops s)) eqn:Hio1; [reflexivity|].
  cbn [medications with_io_ops]. unfold medication_of_user.
  destruct (find _ (medications s)) as [med|]; [|reflexivity].
  unfold bind, Medication_save_inactive, bind, io, modify, ret.
  cbn [io_ops with_io_ops].
  destruct (io_fault env (S (io_ops s))); reflexivity.
Qed.

Lemma take_medication_unfold : forall env u medication_id s,
  take_medication u medication_id env s
  = if is_oid_text medication_id then
      if io_fault env (io_ops s) then (Ok 500, after 1 0 s)
      else match medication_of_user medication_id (User.id u) (medications s) with
           | None => (Ok 404, after 1 0 s)
           | Some med =>
               if io_fault env (S (io_ops s)) then (Ok 500, after 2 1 s)
               else if existsb (fun l => String.eqb (MedicationLog.id l)
                                                    (new_oid env (oids_made s)))
                               (medication_logs s)
               then (Ok 500, after 2 1 s)
               else
                 let log := MedicationLog.mk (new_oid env (oids_made s)) (User.id u)
                                             (Medication.id med) EmptyString in
                 if io_fault env (S (S (io_ops s)))
                 then (Ok 500,
                       with_medication_logs (medication_logs s ++ [log]) (after 3 1 s))
                 else (Ok 200,
                       with_emitted (emitted s ++ [taken_event u med])
                         (with_medication_logs (medication_logs s ++ [log])
                                               (after 3 1 s)))
           end
    else (Ok 500, s).
Proof.
  intros env u mid s. unfold take_medication, try_except, is_oid_text, to_ObjectId.
  destruct (Nat.eqb (String.length mid) 24 && fromhex_ok mid); [|reflexivity].
  rewrite bind_ret. unfold bind at 1. unfold Medication_by_id_of_user.
  rewrite query_unfold.
  destruct (io_fault env (io_ops s)) eqn:Hio1; [reflexivity|].
  cbn [medications with_io_ops]. unfold medication_of_user.
  destruct (find _ (medications s)) as [med|]; [|reflexivity].
  unfold bind at 1. rewrite MedicationLog_insert_unfold. cbv zeta.
  cbn [io_ops oids_made medication_logs with_io_ops].
  destruct (io_fault env (S (io_ops s))); [reflexivity|].
  destruct (existsb _ (medication_logs s)); [reflexivity|].
  unfold bind at 1. rewrite socketio_emit_unfold.
  cbn [io_ops with_io_ops with_oids_made with_medication_logs].
  destruct (io_fault env (S (S (io_ops s)))); reflexivity.
Qed.

(* ================================================================= *)
(** ** One active medication a name *)

Lemma pystr_eqb_eq : forall a b, pystr_eqb a b = true <-> a = b.
Proof.
  intros [x|] [y|]; simpl; split; intros H; try discriminate; try reflexivity.
  - apply String.eqb_eq in H. now subst.
  - inversion H. apply String.eqb_refl.
Qed.

Lemma has_active_name_spec : forall uid n ms,
  has_active_name uid n ms = true <-> In (uid, n) (active_names ms).
Proof.
  intros uid n ms. unfold has_active_name, active_names.
  rewrite existsb_exists, in_map_iff. split.
  - intros (m & Hin & H). apply andb_prop in H. destruct H as [H Ha].
    apply andb_prop in H. destruct H as [Hu Hn].
    apply String.eqb_eq in Hu. apply pystr_eqb_eq in Hn.
    exists m. split; [now subst | apply filter_In; auto].
  - intros (m & Heq & Hin). apply filter_In in Hin. destruct Hin as [Hin Ha].
    inversion Heq. exists m. split; [exact Hin|].
    rewrite String.eqb_refl, Ha. simpl. rewrite andb_true_r.
    now apply pystr_eqb_eq.
Qed.

Lemma active_names_app : forall ms ms',
  active_names (ms ++ ms') = active_names ms ++ active_names ms'.
Proof. intros ms ms'. unfold active_names. now rewrite filter_app, map_app. Qed.

(** Storing an active medication under a name its owner has no active
    medication of. *)
Lemma active_names_add : forall ms m,
  NoDup (active_names ms) ->
  has_active_name (Medication.user_id m) (Medication.name m) ms = false ->
  NoDup (active_names (ms ++ [m])).
Proof.
  intros ms m Hnd Hnone. rewrite active_names_app. unfold active_names at 2.
  simpl. destruct (Medication.is_active m); simpl; [|now rewrite app_nil_r].
  apply NoDup_snoc; [exact Hnd|].
  intros Hin. apply has_active_name_spec in Hin. congruence.
Qed.

Lemma active_names_deactivate_incl : forall mid ms p,
  In p (active_names (update_by_id Medication.id mid (Medication.set_is_active false) ms)) ->
  In p (active_names ms).
Proof.
  intros mid ms p. unfold active_names.
  induction ms as [|x ms IH]; simpl; [tauto|].
  destruct (String.eqb (Medication.id x) mid); simpl.
  - destruct (Medication.is_active x); simpl; tauto.
  - destruct (Medication.is_active x); simpl; tauto.
Qed.

Lemma active_names_deactivate : forall mid ms,
  NoDup (active_names ms) ->
  NoDup (active_names (update_by_id Medication.id mid (Medication.set_is_active false) ms)).
Proof.
  intros mid ms. induction ms as [|x ms IH]; simpl; [trivial|].
  intros Hnd.
  assert (Htail : NoDup (active_names ms)).
  { unfold active_names in *. simpl in Hnd.
    destruct (Medication.is_active x); [now inversion Hnd | exact Hnd]. }
  destruct (String.eqb (Medication.id x) mid).
  - unfold active_names in *. simpl. exact Htail.
  - unfold active_names in *. simpl in *.
    destruct (Medication.is_active x); simpl; [|now apply IH].
    inversion Hnd as [|? ? Hnotin Hnd']; subst. constructor; [|now apply IH].
    intros Hin. apply Hnotin. eapply active_names_deactivate_incl. exact Hin.
Qed.

Lemma keeps_names_is_store_relation : store_relation keeps_names.
Proof.
  split.
  - unfold keeps_names. auto.
  - intros s s' (_ & Hm & _). unfold keeps_names, active_names_unique. now rewrite Hm.
Qed.

Lemma keeps_names_same_meds : forall A (m : M A),
  (forall env s, medications (snd (m env s)) = medications s) ->
  keeps keeps_names m.
Proof.
  intros A m H env s. unfold keeps_names, active_names_unique. now rewrite H.
Qed.

Lemma ensure_reminders_medications : forall env uid m s,
  medications (snd (ensure_reminders uid m env s)) = medications s.
Proof.
  intros env uid m s. unfold ensure_reminders.
  destruct (ensure_each_adds env uid (Medication.id m)
              (parse_frequency_to_times (Medication.frequency m)) s)
    as (added & _ & _ & Hw & _).
  apply Hw.
Qed.

Lemma medications_post_keeps_names : forall u json, keeps keeps_names (medications_post u json).
Proof.
  intros u json env s. unfold keeps_names, active_names_unique.
  destruct json as [data|]; [|now rewrite medications_post_unfold].
  post_paths env u data s; trivial; intros Hnd.
  - replace s' with (snd (ensure_reminders (User.id u)
                            (manual_medication (new_oid env (oids_made s)) u data) env
                            (medication_stored
                               (manual_medication (new_oid env (oids_made s)) u data) s)))
      by now rewrite Hloop.
    rewrite ensure_reminders_medications. cbn [medications medication_stored with_medications].
    now apply active_names_add.
  - replace s' with (snd (ensure_reminders (User.id u)
                            (manual_medication (new_oid env (oids_made s)) u data) env
                            (medication_stored
                               (manual_medication (new_oid env (oids_made s)) u data) s)))
      by now rewrite Hloop.
    rewrite ensure_reminders_medications. cbn [medications medication_stored with_medications].
    now apply active_names_add.
Qed.

Lemma add_extracted_keeps_names : forall u added med_data,
  keeps keeps_names (add_extracted u added med_data).
Proof.
  intros u added med_data env s. unfold keeps_names, active_names_unique.
  rewrite add_extracted_unfold.
  destruct (dict_lookup "name" med_data) as [name|]; [|trivial].
  destruct (io_fault env (io_ops s)); [trivial|].
  destruct (has_active_name (User.id u) name (medications s)) eqn:Hdup; [trivial|].
  cbv zeta. destruct (io_fault env (S (io_ops s))); [trivial|].
  destruct (existsb _ (medications s)); [trivial|].
  intros Hnd.
  pose proof (ensure_reminders_medications env (User.id u)
                (ocr_medication (new_oid env (oids_made s)) u med_data name)
                (medication_stored
                   (ocr_medication (new_oid env (oids_made s)) u med_data name) s)) as Hm.
  destruct (ensure_reminders _ _ env _) as [[[]|e] s'] eqn:Hloop; cbn [snd] in *.
  - destruct (io_fault env (io_ops s')); cbn [snd medications with_emitted with_io_ops];
      rewrite Hm; cbn [medications medication_stored with_medications];
      now apply active_names_add.
  - rewrite Hm. cbn [medications medication_stored with_medications].
    now apply active_names_add.
Qed.

Lemma step_keeps_names : forall env s req, keeps_names s (step env s req).
Proof.
  intros env s req. unfold step.
  assert (H : keeps keeps_names (handle req)).
  { pose proof keeps_names_is_store_relation as HR.
    destruct req as [u json|u r|u|u mid|u mid| |self]; simpl.
    - apply keeps_bind; trivial; [|intros; now apply keeps_ret].
      apply medications_post_keeps_names.
    - apply keeps_bind; trivial; [|intros; now apply keeps_ret].
      apply keeps_upload_prescription_from; trivial. intros b x.
      apply add_extracted_keeps_names.
    - apply keeps_bind; trivial; [|intros; now apply keeps_ret].
      now apply keeps_list_reminders.
    - apply keeps_bind; trivial; [|intros; now apply keeps_ret].
      apply keeps_delete_medication; trivial.
      intros mid' env' s'. unfold Medication_save_inactive, bind, io, modify.
      destruct (io_fault env' (io_ops s')); cbn; [now intros ?|].
      unfold keeps_names, active_names_unique. cbn. apply active_names_deactivate.
    - apply keeps_bind; trivial; [|intros; now apply keeps_ret].
      apply keeps_take_medication; trivial.
      intros doc. apply keeps_names_same_meds. intros env' s'.
      rewrite MedicationLog_insert_unfold. cbv zeta.
      destruct (io_fault env' (io_ops s')); [reflexivity|].
      destruct (existsb _ _); reflexivity.
    - apply keeps_backfill; trivial.
      intros uid mid t. apply keeps_names_same_meds. intros env' s'.
      apply (ensure_reminder_adds env' uid mid t s').
    - apply keeps_tick; trivial.
      + intros rid d. apply keeps_names_same_meds. intros env' s'.
        unfold Reminder_save_last_sent, bind, io, modify.
        destruct (io_fault env' (io_ops s')); reflexivity.
      + intros p rm. apply keeps_emit_any.
        intros s1 s2 _ Hm _ _. unfold keeps_names, active_names_unique. now rewrite Hm. }
  apply H.
Qed.

Lemma NoDup_map_count : forall A B (f : A -> B) (p : A -> bool) (k : B) l,
  NoDup (map f l) ->
  (forall x, In x l -> p x = true -> f x = k) ->
  List.length (filter p l) <= 1.
Proof.
  intros A B f p k l. induction l as [|x l IH]; simpl; intros Hnd Hp; [lia|].
  inversion Hnd as [|? ? Hnotin Hnd']; subst.
  destruct (p x) eqn:Hpx; [|apply IH; auto].
  assert (Hnil : filter p l = []).
  { destruct (filter p l) as [|y ys] eqn:Hf; [reflexivity|]. exfalso.
    assert (Hy : In y (filter p l)) by (rewrite Hf; now left).
    apply filter_In in Hy. destruct Hy as [Hy Hpy]. apply Hnotin.
    rewrite (Hp x (or_introl eq_refl) Hpx), <- (Hp y (or_intror Hy) Hpy).
    now apply in_map. }
  rewrite Hnil. simpl. lia.
Qed.

(** X9: no sequence of requests gives a user two active medications of
    one name: when the active names are unique in a store, they are
    unique in every store reached from it, and each user has at most one
    active medication of any name. *)
Theorem active_names_stay_unique :
  forall env reqs s,
    active_names_unique s ->
    active_names_unique (run env reqs s)
    /\ forall uid n,
         List.length (active_named uid n (medications (run env reqs s))) <= 1.
Proof.
  intros env reqs s Hs.
  assert (H : active_names_unique (run env reqs s)).
  { revert s Hs. unfold run. induction reqs as [|req reqs IH]; intros s Hs; [exact Hs|].
    simpl. apply IH. now apply step_keeps_names. }
  split; [exact H|]. intros uid n. unfold active_named.
  unfold active_names_unique, active_names in H.
  set (ms := medications (run env reqs s)) in *.
  assert (Heq : filter (fun m => String.eqb (Medication.user_id m) uid
                                 && pystr_eqb (Medication.name m) n
                                 && Medication.is_active m) ms
                = filter (fun m => String.eqb (Medication.user_id m) uid
                                   && pystr_eqb (Medication.name m) n)
                         (filter Medication.is_active ms)).
  { clear H. induction ms as [|x l IH]; simpl; [reflexivity|].
    destruct (Medication.is_active x); simpl.
    - rewrite andb_true_r.
      destruct (String.eqb (Medication.user_id x) uid && pystr_eqb (Medication.name x) n);
        now rewrite IH.
    - rewrite andb_false_r. exact IH. }
  rewrite Heq.
  apply (NoDup_map_count _ _ (fun m => (Medication.user_id m, Medication.name m)) _ (uid, n));
    [exact H|].
  intros x _ Hx. apply andb_prop in Hx. destruct Hx as [Hu Hn].
  apply String.eqb_eq in Hu. apply pystr_eqb_eq in Hn. now subst.
Qed.

Lemma active_names_stay_unique_witness :
  active_names_unique (empty_state [Example.alice])
  /\ active_names_unique (run Example.calm Example.session (empty_state [Example.alice]))
  /\ forall uid n,
       List.length
         (active_named uid n
            (medications (run Example.calm Example.session (empty_state [Example.alice]))))
       <= 1.
Proof.
  assert (H : active_names_unique (empty_state [Example.alice])) by constructor.
  split; [exact H|].
  apply (active_names_stay_unique Example.calm Example.session
           (empty_state [Example.alice]) H).
Defined.

(* ================================================================= *)
(** ** DELETE /medications/<medication_id> *)

Lemma Forall2_deactivated_refl : forall uid mid ms, Forall2 (deactivated uid mid) ms ms.
Proof. intros uid mid ms. induction ms; constructor; [now left | assumption]. Qed.

Lemma update_deactivated : forall uid mid ms,
  (forall x, In x ms -> Medication.id x = mid -> Medication.user_id x = uid) ->
  Forall2 (deactivated uid mid) ms
          (update_by_id Medication.id mid (Medication.set_is_active false) ms).
Proof.
  intros uid mid ms. induction ms as [|x ms IH]; intros H; simpl; [constructor|].
  destruct (String.eqb (Medication.id x) mid) eqn:Heq.
  - apply String.eqb_eq in Heq. constructor; [|apply Forall2_deactivated_refl].
    right. repeat split; auto. apply H; [now left | exact Heq].
  - constructor; [now left|]. apply IH. intros y Hy. apply H. now right.
Qed.

Lemma find_medication_deactivate : forall mid' mid ms m,
  find_medication mid' ms = Some m ->
  exists m',
    find_medication mid' (update_by_id Medication.id mid (Medication.set_is_active false) ms)
    = Some m'
    /\ (m' = m \/ (mid' = mid /\ m' = Medication.set_is_active false m)).
Proof.
  intros mid' mid ms m. unfold find_medication.
  induction ms as [|x ms IH]; simpl; [discriminate|].
  destruct (String.eqb (Medication.id x) mid) eqn:Hx.
  - simpl. destruct (String.eqb (Medication.id x) mid') eqn:Hx'.
    + intros H. inversion H; subst x. eexists. split; [reflexivity|]. right.
      apply String.eqb_eq in Hx, Hx'. split; congruence.
    + intros H. exists m. split; [exact H | now left].
  - simpl. destruct (String.eqb (Medication.id x) mid') eqn:Hx'.
    + intros H. exists m. split; [exact H | now left].
    + exact IH.
Qed.

Lemma medication_of_user_found : forall medication_id uid ms med,
  medication_of_user medication_id uid ms = Some med ->
  In med ms /\ Medication.id med = lower medication_id /\ Medication.user_id med = uid.
Proof.
  intros mid uid ms med H. unfold medication_of_user in H. apply find_some in H.
  destruct H as [Hin H]. apply andb_prop in H. destruct H as [H1 H2].
  apply String.eqb_eq in H1, H2. auto.
Qed.

Lemma Forall2_In_l : forall A B (R : A -> B -> Prop) l l' x,
  Forall2 R l l' -> In x l -> exists y, In y l' /\ R x y.
Proof.
  intros A B R l l' x H. induction H as [|a b l l' Hab H IH]; simpl; [tauto|].
  intros [Hx|Hx].
  - subst a. exists b. auto.
  - destruct (IH Hx) as (y & Hy & Hxy). exists y. auto.
Qed.

(** X10: DELETE /medications/<id> answers 200, 404 or 500 and writes at
    most the active flag of one medication, the one of the current user
    with that id: every medication of another user, every reminder and
    every medication log is left as stored.  On 200 the medication is
    stored inactive; on 404 the user has no medication of that id and
    nothing was written. *)
Theorem delete_medication_touches_own_only :
  forall env current_user medication_id s,
    NoDup (map Medication.id (medications s)) ->
    (exists status,
        fst (delete_medication current_user medication_id env s) = Ok status
        /\ In status [200; 404; 500])
    /\ Forall2 (deactivated (User.id current_user) (lower medication_id))
               (medications s)
               (medications (snd (delete_medication current_user medication_id env s)))
    /\ (forall m, In m (medications s) ->
                  Medication.user_id m <> User.id current_user ->
                  In m (medications (snd (delete_medication current_user medication_id
                                                            env s))))
    /\ users (snd (delete_medication current_user medication_id env s)) = users s
    /\ reminders (snd (delete_medication current_user medication_id env s)) = reminders s
    /\ medication_logs (snd (delete_medication current_user medication_id env s))
       = medication_logs s
    /\ emitted (snd (delete_medication current_user medication_id env s)) = emitted s
    /\ (fst (delete_medication current_user medication_id env s) = Ok 200 ->
        exists m,
          medication_of_user medication_id (User.id current_user) (medications s) = Some m
          /\ find_medication (lower medication_id)
               (medications (snd (delete_medication current_user medication_id env s)))
             = Some (Medication.set_is_active false m))
    /\ (fst (delete_medication current_user medication_id env s) = Ok 404 ->
        medication_of_user medication_id (User.id current_user) (medications s) = None
        /\ medications (snd (delete_medication current_user medication_id env s))
           = medications s).
Proof.
  intros env u mid s Hnd.
  assert (Hframe :
    Forall2 (deactivated (User.id u) (lower mid)) (medications s)
            (medications (snd (delete_medication u mid env s)))
    /\ users (snd (delete_medication u mid env s)) = users s
    /\ reminders (snd (delete_medication u mid env s)) = reminders s
    /\ medication_logs (snd (delete_medication u mid env s)) = medication_logs s
    /\ emitted (snd (delete_medication u mid env s)) = emitted s
    /\ (exists status, fst (delete_medication u mid env s) = Ok status
                       /\ In status [200; 404; 500])
    /\ (fst (delete_medication u mid env s) = Ok 200 ->
        exists m,
          medication_of_user mid (User.id u) (medications s) = Some m
          /\ find_medication (lower mid)
               (medications (snd (delete_medication u mid env s)))
             = Some (Medication.set_is_active false m))
    /\ (fst (delete_medication u mid env s) = Ok 404 ->
        medication_of_user mid (User.id u) (medications s) = None
        /\ medications (snd (delete_medication u mid env s)) = medications s)).
  { rewrite delete_medication_unfold.
    destruct (is_oid_text mid).
    2:{ cbn. repeat split; try discriminate; try apply Forall2_deactivated_refl.
        exists 500. simpl. auto. }
    destruct (io_fault env (io_ops s)).
    { cbn. repeat split; try discriminate; try apply Forall2_deactivated_refl.
      exists 500. simpl. auto. }
    destruct (medication_of_user mid (User.id u) (medications s)) as [med|] eqn:Hmed.
    2:{ cbn. repeat split; try discriminate; try apply Forall2_deactivated_refl.
        exists 404. simpl. auto. }
    destruct (medication_of_user_found _ _ _ _ Hmed) as (Hin & Hid & Huser).
    destruct (io_fault env (S (io_ops s))).
    { cbn. repeat split; try discriminate; try apply Forall2_deactivated_refl.
      exists 500. simpl. auto. }
    cbn. rewrite Hid.
    split.
    { apply update_deactivated. intros x Hx Hxid.
      assert (x = med); [|now subst].
      pose proof (find_medication_unique _ _ Hnd Hx) as H1.
      pose proof (find_medication_unique _ _ Hnd Hin) as H2.
      rewrite Hxid, <- Hid in H1. congruence. }
    repeat split; try discriminate.
    - exists 200. simpl. auto.
    - intros _. exists med. split; [reflexivity|].
      pose proof (find_medication_unique _ _ Hnd Hin) as H2. rewrite Hid in H2.
      destruct (find_medication_deactivate (lower mid) (lower mid) _ _ H2)
        as (m' & Hm' & Hcase).
      unfold find_medication in Hm' |- *. rewrite Hm'. f_equal.
      clear - H2 Hm'. unfold find_medication in *.
      induction (medications s) as [|x ms IH]; simpl in *; [discriminate|].
      destruct (String.eqb (Medication.id x) (lower mid)) eqn:Hx.
      + simpl in Hm'. rewrite Hx in Hm'. congruence.
      + simpl in Hm'. rewrite Hx in Hm'. auto. }
  destruct Hframe as (F & U & R & L & E & St & H200 & H404).
  split; [exact St|]. split; [exact F|].
  split.
  { intros m Hm Hother. destruct (Forall2_In_l _ _ _ _ _ m F Hm) as (m' & Hm' & [Heq|Hd]).
    - now subst.
    - destruct Hd as (Hu & _). contradiction. }
  auto 10.
Qed.

Lemma delete_medication_touches_own_only_witness :
  NoDup (map Medication.id (medications Sample.ward))
  /\ (forall m, In m (medications Sample.ward) ->
                Medication.user_id m <> User.id Example.alice ->
                In m (medications (snd (delete_medication Example.alice
                                          (Medication.id Sample.statin)
                                          Example.calm Sample.ward))))
  /\ fst (delete_medication Example.alice (Medication.id Sample.statin)
                            Example.calm Sample.ward) = Ok 404
  /\ fst (delete_medication Example.alice (Medication.id Example.aspirin)
                            Example.calm Sample.ward) = Ok 200.
Proof.
  assert (Hnd : NoDup (map Medication.id (medications Sample.ward))).
  { repeat constructor; simpl; intuition discriminate. }
  split; [exact Hnd|].
  split; [|split; reflexivity].
  apply (delete_medication_touches_own_only Example.calm Example.alice
           (Medication.id Sample.statin) Sample.ward Hnd).
Defined.

Lemma update_by_id_deactivate_idem : forall mid ms,
  update_by_id Medication.id mid (Medication.set_is_active false)
               (update_by_id Medication.id mid (Medication.set_is_active false) ms)
  = update_by_id Medication.id mid (Medication.set_is_active false) ms.
Proof.
  intros mid ms. induction ms as [|x ms IH]; simpl; [reflexivity|].
  destruct (String.eqb (Medication.id x) mid) eqn:Hx; simpl.
  - cbn [Medication.id Medication.set_is_active]. rewrite Hx. reflexivity.
  - rewrite Hx. now rewrite IH.
Qed.

Lemma medication_of_user_deactivate : forall medication_id uid mid ms med,
  medication_of_user medication_id uid ms = Some med ->
  exists med',
    medication_of_user medication_id uid
      (update_by_id Medication.id mid (Medication.set_is_active false) ms) = Some med'
    /\ Medication.id med' = Medication.id med.
Proof.
  intros medication_id uid mid ms med. unfold medication_of_user.
  induction ms as [|x ms IH]; simpl; [discriminate|].
  destruct (String.eqb (Medication.id x) mid); simpl.
  - destruct (String.eqb (Medication.id x) (lower medication_id)
              && String.eqb (Medication.user_id x) uid).
    + intros H. inversion H; subst. eexists. split; reflexivity.
    + intros H. exists med. auto.
  - destruct (String.eqb (Medication.id x) (lower medication_id)
              && String.eqb (Medication.user_id x) uid).
    + intros H. inversion H; subst. eexists. split; reflexivity.
    + exact IH.
Qed.

(** X11: a deletion that was answered 200 can be repeated: the second
    request finds the medication again, answers 200 when the store does
    not fail, and whatever its outcome leaves the medications as the first
    one left them. *)
Theorem delete_medication_idempotent :
  forall env env' current_user medication_id s,
    fst (delete_medication current_user medication_id env s) = Ok 200 ->
    medications (snd (delete_medication current_user medication_id env'
                        (snd (delete_medication current_user medication_id env s))))
    = medications (snd (delete_medication current_user medication_id env s))
    /\ (no_faults env' ->
        fst (delete_medication current_user medication_id env'
               (snd (delete_medication current_user medication_id env s))) = Ok 200).
Proof.
  intros env env' u mid s.
  rewrite (delete_medication_unfold env u mid s).
  destruct (is_oid_text mid) eqn:Hoid; [|discriminate].
  destruct (io_fault env (io_ops s)); [discriminate|].
  destruct (medication_of_user mid (User.id u) (medications s)) as [med|] eqn:Hmed;
    [|discriminate].
  destruct (io_fault env (S (io_ops s))); [discriminate|].
  intros _. cbn [fst snd].
  rewrite delete_medication_unfold, Hoid.
  cbn [io_ops medications with_medications after with_io_ops with_oids_made].
  destruct (medication_of_user_deactivate mid (User.id u) (Medication.id med) _ _ Hmed)
    as (med' & Hmed' & Hid).
  rewrite Hmed', Hid.
  split.
  - destruct (io_fault env' (2 + io_ops s)); [reflexivity|].
    destruct (io_fault env' (S (2 + io_ops s))); [reflexivity|].
    cbn [snd medications with_medications]. apply update_by_id_deactivate_idem.
  - intros Hnf. rewrite (Hnf (2 + io_ops s)), (Hnf (S (2 + io_ops s))). reflexivity.
Qed.

Lemma delete_medication_idempotent_witness :
  fst (delete_medication Example.alice (Medication.id Example.aspirin)
                         Example.calm Example.fresh) = Ok 200
  /\ medications (snd (delete_medication Example.alice (Medication.id Example.aspirin)
                         Example.shaky
                         (snd (delete_medication Example.alice
                                 (Medication.id Example.aspirin)
                                 Example.calm Example.fresh))))
     = medications (snd (delete_medication Example.alice (Medication.id Example.aspirin)
                           Example.calm Example.fresh))
  /\ (no_faults Example.shaky ->
      fst (delete_medication Example.alice (Medication.id Example.aspirin)
             Example.shaky
             (snd (delete_medication Example.alice (Medication.id Example.aspirin)
                     Example.calm Example.fresh))) = Ok 200).
Proof.
  split; [reflexivity|].
  apply (delete_medication_idempotent Example.calm Example.shaky Example.alice
           (Medication.id Example.aspirin) Example.fresh).
  reflexivity.
Defined.

(** X12: a deletion silences no reminder.  Whatever DELETE
    /medications/<id> answered, the reminders are stored as before, and
    a reminder that is due at the next tick and whose medication document
    was stored is alerted at that tick with the medication's name, dosage
    and instructions, also when the deletion has just marked that
    medication inactive. *)
Theorem delete_medication_keeps_reminders_firing :
  forall env env' self current_user medication_id s r m,
    no_faults env' ->
    socketio self = true ->
    NoDup (map Reminder.id (reminders s)) ->
    In r (reminders s) ->
    Reminder.is_active r = true ->
    find_medication (Reminder.medication_id r) (medications s) = Some m ->
    due (now env' (clock_reads s)) r = true ->
    reminders (snd (delete_medication current_user medication_id env s)) = reminders s
    /\ clock_reads (snd (delete_medication current_user medication_id env s))
       = clock_reads s
    /\ (exists k,
          alerts_for (Reminder.id r)
            (new_emissions
               (snd (delete_medication current_user medication_id env s))
               (snd (_check_and_send_reminders self env'
                       (snd (delete_medication current_user medication_id env s)))))
          = [mk_emission "medication_reminder" (alert_payload r m (now env' k))
                         ("user_" ++ Reminder.user_id r)])
    /\ (fst (delete_medication current_user medication_id env s) = Ok 200 ->
        Reminder.medication_id r = lower medication_id ->
        find_medication (Reminder.medication_id r)
          (medications (snd (delete_medication current_user medication_id env s)))
        = Some (Medication.set_is_active false m)).
Proof.
  intros env env' self u mid s r m Hnf Hsock Hnd Hin Hact Hm Hdue.
  set (s1 := snd (delete_medication u mid env s)).
  assert (Hs1 : reminders s1 = reminders s /\ clock_reads s1 = clock_reads s
                /\ exists m', find_medication (Reminder.medication_id r) (medications s1)
                              = Some m'
                              /\ (m' = m \/ m' = Medication.set_is_active false m)
                              /\ (fst (delete_medication u mid env s) = Ok 200 ->
                                  Reminder.medication_id r = lower mid ->
                                  m' = Medication.set_is_active false m)).
  { unfold s1. rewrite delete_medication_unfold.
    assert (Hsame : forall st n,
               st <> 200 ->
               reminders (snd (@Ok nat st, after n 0 s)) = reminders s
               /\ clock_reads (snd (@Ok nat st, after n 0 s)) = clock_reads s
               /\ exists m',
                    find_medication (Reminder.medication_id r)
                                    (medications (snd (@Ok nat st, after n 0 s))) = Some m'
                    /\ (m' = m \/ m' = Medication.set_is_active false m)
                    /\ (fst (@Ok nat st, after n 0 s) = Ok 200 ->
                        Reminder.medication_id r = lower mid ->
                        m' = Medication.set_is_active false m)).
    { intros st n Hst. cbn. split; [reflexivity|]. split; [reflexivity|].
      exists m. split; [exact Hm|]. split; [now left|].
      intros H. inversion H. contradiction. }
    destruct (is_oid_text mid); [|apply (Hsame 500 0); discriminate].
    destruct (io_fault env (io_ops s)); [apply (Hsame 500 1); discriminate|].
    destruct (medication_of_user mid (User.id u) (medications s)) as [med|] eqn:Hmed;
      [|apply (Hsame 404 1); discriminate].
    destruct (io_fault env (S (io_ops s))); [apply (Hsame 500 2); discriminate|].
    cbn. split; [reflexivity|]. split; [reflexivity|].
    destruct (medication_of_user_found _ _ _ _ Hmed) as (_ & Hid & _).
    destruct (find_medication_deactivate (Reminder.medication_id r) (Medication.id med)
                _ _ Hm) as (m' & Hm' & Hcase).
    exists m'. split; [exact Hm'|]. split; [tauto|].
    intros _ Hr. rewrite Hid, <- Hr in Hm'.
    clear - Hm Hm'. unfold find_medication in *.
    induction (medications s) as [|x ms IH]; simpl in *; [discriminate|].
    destruct (String.eqb (Medication.id x) (Reminder.medication_id r)) eqn:Hx.
    - simpl in Hm'. rewrite Hx in Hm'. congruence.
    - simpl in Hm'. rewrite Hx in Hm'. auto. }
  destruct Hs1 as (Hr & Hc & m' & Hm' & Hcase & H200).
  split; [exact Hr|]. split; [exact Hc|].
  split.
  - destruct (tick_dispatch env' self s1 r m' Hnf Hsock) as (k & s' & Hrun & _ & _ & Ha & _).
    + now rewrite Hr.
    + now rewrite Hr.
    + exact Hact.
    + now rewrite Hc.
    + exact Hm'.
    + rewrite Hrun. cbn [snd]. exists (S k). rewrite Ha.
      destruct Hcase as [->| ->]; reflexivity.
  - intros H1 H2. rewrite Hm'. f_equal. now apply H200.
Qed.

Lemma delete_medication_keeps_reminders_firing_witness :
  exists k,
    alerts_for (Reminder.id Example.morning)
      (new_emissions
         (snd (delete_medication Example.alice (Medication.id Example.aspirin)
                                 Example.calm Example.fresh))
         (snd (_check_and_send_reminders Example.scheduler Example.calm
                 (snd (delete_medication Example.alice (Medication.id Example.aspirin)
                                         Example.calm Example.fresh)))))
    = [mk_emission "medication_reminder"
                   (alert_payload Example.morning Example.aspirin (now Example.calm k))
                   ("user_" ++ Reminder.user_id Example.morning)].
Proof.
  apply (delete_medication_keeps_reminders_firing Example.calm Example.calm
           Example.scheduler Example.alice (Medication.id Example.aspirin)
           Example.fresh Example.morning Example.aspirin).
  - intros k. reflexivity.
  - reflexivity.
  - repeat constructor; simpl; intuition discriminate.
  - simpl. auto.
  - reflexivity.
  - reflexivity.
  - reflexivity.
Defined.

(* ================================================================= *)
(** ** POST /take-medication/<medication_id> *)

Ltac take_paths env u mid s :=
  rewrite take_medication_unfold;
  destruct (is_oid_text mid) eqn:?Hoid;
  [ destruct (io_fault env (io_ops s)) eqn:?Hio1;
    [ | destruct (medication_of_user mid (User.id u) (medications s)) as [med|] eqn:?Hmed;
        [ destruct (io_fault env (S (io_ops s))) eqn:?Hio2;
          [ | destruct (existsb (fun l => String.eqb (MedicationLog.id l)
                                                     (new_oid env (oids_made s)))
                                (medication_logs s)) eqn:?Htaken;
              [ | cbv zeta; destruct (io_fault env (S (S (io_ops s)))) eqn:?Hio3 ] ]
        | ] ]
  | ];
  cbn [fst snd users medications reminders medication_logs emitted uploads printed
       oids_made after with_io_ops with_oids_made with_medication_logs with_emitted].

(** X13: POST /take-medication/<id> answers 200, 404 or 500 and never
    writes a medication or a reminder.  On 200 it has appended one log,
    for the current user and for the medication of that user with that
    id, active or not, and emitted one [medication_taken] event to the
    user's room; on 404 the user has no such medication and nothing was
    written; when only the emission fails the answer is 500 although the
    log is stored. *)
Theorem take_medication_logs_one_dose :
  forall env current_user medication_id s,
    (exists status,
        fst (take_medication current_user medication_id env s) = Ok status
        /\ In status [200; 404; 500])
    /\ users (snd (take_medication current_user medication_id env s)) = users s
    /\ medications (snd (take_medication current_user medication_id env s))
       = medications s
    /\ reminders (snd (take_medication current_user medication_id env s)) = reminders s
    /\ (fst (take_medication current_user medication_id env s) = Ok 200 ->
        exists med,
          medication_of_user medication_id (User.id current_user) (medications s)
          = Some med
          /\ medication_logs (snd (take_medication current_user medication_id env s))
             = medication_logs s ++ [dose_log env current_user med s]
          /\ emitted (snd (take_medication current_user medication_id env s))
             = emitted s ++ [taken_event current_user med])
    /\ (fst (take_medication current_user medication_id env s) = Ok 404 ->
        medication_of_user medication_id (User.id current_user) (medications s) = None
        /\ writes_nothing s (snd (take_medication current_user medication_id env s)))
    /\ (fst (take_medication current_user medication_id env s) = Ok 500 ->
        emitted (snd (take_medication current_user medication_id env s)) = emitted s
        /\ (medication_logs (snd (take_medication current_user medication_id env s))
            = medication_logs s
            \/ exists med,
                 medication_of_user medication_id (User.id current_user) (medications s)
                 = Some med
                 /\ medication_logs (snd (take_medication current_user medication_id
                                                          env s))
                    = medication_logs s ++ [dose_log env current_user med s]))
    /\ (forall med,
          is_oid_text medication_id = true ->
          medication_of_user medication_id (User.id current_user) (medications s)
          = Some med ->
          ~ In (new_oid env (oids_made s)) (map MedicationLog.id (medication_logs s)) ->
          io_fault env (io_ops s) = false ->
          io_fault env (S (io_ops s)) = false ->
          (io_fault env (S (S (io_ops s))) = false ->
           fst (take_medication current_user medication_id env s) = Ok 200)
          /\ (io_fault env (S (S (io_ops s))) = true ->
              fst (take_medication current_user medication_id env s) = Ok 500
              /\ medication_logs (snd (take_medication current_user medication_id env s))
                 = medication_logs s ++ [dose_log env current_user med s])).
Proof.
  intros env u mid s. unfold dose_log.
  split; [take_paths env u mid s; eexists; (split; [reflexivity | simpl; intuition])|].
  split; [take_paths env u mid s; reflexivity|].
  split; [take_paths env u mid s; reflexivity|].
  split; [take_paths env u mid s; reflexivity|].
  split.
  { take_paths env u mid s; intros H; try discriminate H.
    exists med. repeat split. }
  split.
  { take_paths env u mid s; intros H; try discriminate H.
    split; [reflexivity | now repeat split]. }
  split.
  { take_paths env u mid s; intros H; try discriminate H;
      (split; [reflexivity|]); try (now left).
    right. exists med. split; reflexivity. }
  intros med' Hoid' Hmed' Hfresh Hio1' Hio2'.
  take_paths env u mid s; try congruence.
  - exfalso. apply Hfresh.
    apply existsb_exists in Htaken. destruct Htaken as (l & Hl & Heq).
    apply String.eqb_eq in Heq. rewrite <- Heq. now apply in_map.
  - split; [discriminate|]. intros _. inversion Hmed'. split; reflexivity.
  - split; [reflexivity | discriminate].
Qed.

Lemma keeps_logs_ok_is_store_relation : store_relation keeps_logs_ok.
Proof.
  split.
  - unfold keeps_logs_ok. auto.
  - intros s s' (_ & Hm & _ & Hl & _). unfold keeps_logs_ok, logs_ok. now rewrite Hm, Hl.
Qed.

(** The invariant looks at the ids and owners of the medications and at
    the logs only. *)
Lemma logs_ok_ext : forall s s',
  medication_logs s' = medication_logs s ->
  (forall m, In m (medications s) ->
             exists m', In m' (medications s')
                        /\ Medication.id m' = Medication.id m
                        /\ Medication.user_id m' = Medication.user_id m) ->
  logs_ok s -> logs_ok s'.
Proof.
  intros s s' Hl Hm Hok. unfold logs_ok in *. rewrite Hl.
  eapply Forall_impl; [|exact Hok]. cbn. intros l (m & Hin & Hid & Hu).
  destruct (Hm m Hin) as (m' & Hin' & Hid' & Hu'). exists m'.
  repeat split; congruence.
Qed.

Lemma In_update_by_id : forall mid ms m,
  In m ms ->
  exists m', In m' (update_by_id Medication.id mid (Medication.set_is_active false) ms)
             /\ Medication.id m' = Medication.id m
             /\ Medication.user_id m' = Medication.user_id m.
Proof.
  intros mid ms m. induction ms as [|x ms IH]; simpl; [tauto|].
  destruct (String.eqb (Medication.id x) mid).
  - intros [Hx|Hx].
    + subst x. eexists. split; [now left|]. split; reflexivity.
    + exists m. split; [now right | auto].
  - intros [Hx|Hx].
    + subst x. exists m. split; [now left | auto].
    + destruct (IH Hx) as (m' & Hm' & H). exists m'. split; [now right | exact H].
Qed.

Lemma keeps_logs_ok_same : forall A (m : M A),
  (forall env s, medications (snd (m env s)) = medications s
                 /\ medication_logs (snd (m env s)) = medication_logs s) ->
  keeps keeps_logs_ok m.
Proof.
  intros A m H env s. destruct (H env s) as [Hm Hl]. unfold keeps_logs_ok.
  apply logs_ok_ext; [exact Hl|]. intros x Hx. exists x. rewrite Hm. auto.
Qed.

Lemma take_medication_keeps_logs_ok : forall u mid, keeps keeps_logs_ok (take_medication u mid).
Proof.
  intros u mid env s Hok.
  take_paths env u mid s; trivial; unfold logs_ok in *;
    cbn [medications medication_logs with_emitted with_medication_logs after
         with_io_ops with_oids_made];
    (apply Forall_app; split; [exact Hok|]); repeat constructor;
    destruct (medication_of_user_found _ _ _ _ Hmed) as (Hin & _ & Hu);
    exists med; cbn; auto.
Qed.

Lemma step_keeps_logs_ok : forall env s req, keeps_logs_ok s (step env s req).
Proof.
  intros env s req. unfold step.
  assert (Hins : forall doc, keeps keeps_logs_ok (Medication_insert doc)).
  { intros doc env' s'. rewrite Medication_insert_unfold. cbv zeta.
    destruct (io_fault env' (io_ops s')); [now intros ?|].
    destruct (existsb _ _); [now intros ?|]. unfold keeps_logs_ok.
    apply logs_ok_ext; [reflexivity|]. intros x Hx. exists x. cbn.
    rewrite in_app_iff. auto. }
  assert (Hens : forall uid mid t, keeps keeps_logs_ok (ensure_reminder uid mid t)).
  { intros uid mid t. apply keeps_logs_ok_same. intros env' s'.
    destruct (ensure_reminder_adds env' uid mid t s') as [Hw _].
    split; apply Hw. }
  assert (H : keeps keeps_logs_ok (handle req)).
  { pose proof keeps_logs_ok_is_store_relation as HR.
    destruct req as [u json|u r|u|u mid|u mid| |self]; simpl.
    - apply keeps_bind; trivial; [|intros; now apply keeps_ret].
      now apply keeps_medications_post.
    - apply keeps_bind; trivial; [|intros; now apply keeps_ret].
      now apply keeps_upload_prescription.
    - apply keeps_bind; trivial; [|intros; now apply keeps_ret].
      now apply keeps_list_reminders.
    - apply keeps_bind; trivial; [|intros; now apply keeps_ret].
      apply keeps_delete_medication; trivial.
      intros mid' env' s'. unfold Medication_save_inactive, bind, io, modify.
      destruct (io_fault env' (io_ops s')); cbn; [now intros ?|]. unfold keeps_logs_ok.
      apply logs_ok_ext; [reflexivity|]. cbn. intros x Hx. now apply In_update_by_id.
    - apply keeps_bind; trivial; [|intros; now apply keeps_ret].
      apply take_medication_keeps_logs_ok.
    - now apply keeps_backfill.
    - apply keeps_tick; trivial.
      + intros rid d. apply keeps_logs_ok_same. intros env' s'.
        unfold Reminder_save_last_sent, bind, io, modify.
        destruct (io_fault env' (io_ops s')); split; reflexivity.
      + intros p rm. apply keeps_emit_any.
        intros s1 s2 _ Hm _ Hl. unfold keeps_logs_ok, logs_ok. now rewrite Hm, Hl. }
  apply H.
Qed.

(** X14: no sequence of requests stores a log for a medication of
    another user or for a medication that is not stored: when every log
    names a stored medication of the log's user, this stays so in every
    store reached. *)
Theorem logs_name_own_medications :
  forall env reqs s,
    logs_ok s ->
    forall l, In l (medication_logs (run env reqs s)) ->
      exists m,
        In m (medications (run env reqs s))
        /\ Medication.id m = MedicationLog.medication_id l
        /\ Medication.user_id m = MedicationLog.user_id l.
Proof.
  intros env reqs s Hs.
  assert (H : logs_ok (run env reqs s)).
  { revert s Hs. unfold run. induction reqs as [|req reqs IH]; intros s Hs; [exact Hs|].
    simpl. apply IH. now apply step_keeps_logs_ok. }
  unfold logs_ok in H. rewrite Forall_forall in H. exact H.
Qed.

Lemma logs_name_own_medications_witness :
  logs_ok (empty_state [Example.alice])
  /\ medication_logs (run Example.calm Example.session (empty_state [Example.alice])) <> []
  /\ forall l,
       In l (medication_logs (run Example.calm Example.session
                                  (empty_state [Example.alice]))) ->
       exists m,
         In m (medications (run Example.calm Example.session (empty_state [Example.alice])))
         /\ Medication.id m = MedicationLog.medication_id l
         /\ Medication.user_id m = MedicationLog.user_id l.
Proof.
  assert (H : logs_ok (empty_state [Example.alice])) by constructor.
  split; [exact H|]. split; [vm_compute; discriminate|].
  apply (logs_name_own_medications Example.calm Example.session
           (empty_state [Example.alice]) H).
Defined.

(* ================================================================= *)
(** ** Every reminder belongs to the owner of its medication *)

Lemma owned_app : forall ms ms' r, owned ms r -> owned (ms ++ ms') r.
Proof.
  intros ms ms' r (m & Hm & Hu). exists m. split; [|exact Hu].
  unfold find_medication in *. now apply find_app_some.
Qed.

Lemma owned_deactivate : forall mid ms r,
  owned ms r ->
  owned (update_by_id Medication.id mid (Medication.set_is_active false) ms) r.
Proof.
  intros mid ms r (m & Hm & Hu).
  destruct (find_medication_deactivate _ mid _ _ Hm) as (m' & Hm' & [Heq|[_ Heq]]);
    exists m'; subst m'; auto.
Qed.

Lemma reminders_owned_ext : forall s s',
  medications s' = medications s -> reminders s' = reminders s ->
  reminders_owned s -> reminders_owned s'.
Proof. intros s s' Hm Hr. unfold reminders_owned. now rewrite Hm, Hr. Qed.

(** The reconciling loop for a stored medication of user [uid]. *)
Lemma ensure_reminders_owned : forall env uid m m' s,
  find_medication (Medication.id m) (medications s) = Some m' ->
  Medication.user_id m' = uid ->
  reminders_owned s ->
  reminders_owned (snd (ensure_reminders uid m env s)).
Proof.
  intros env uid m m' s Hfind Hu Hok. unfold ensure_reminders.
  destruct (ensure_each_adds env uid (Medication.id m)
              (parse_frequency_to_times (Medication.frequency m)) s)
    as (added & Hrs & Hall & Hw & _).
  destruct Hw as (_ & Hm & _).
  unfold reminders_owned in *. rewrite Hrs, Hm. apply Forall_app. split; [exact Hok|].
  eapply Forall_impl; [|exact Hall]. cbn. intros r (A & B & _).
  exists m'. rewrite B. split; [exact Hfind | congruence].
Qed.

Lemma find_medication_stored : forall m s,
  existsb (fun m' => String.eqb (Medication.id m') (Medication.id m)) (medications s)
  = false ->
  find_medication (Medication.id m) (medications (medication_stored m s)) = Some m.
Proof.
  intros m s H. apply existsb_med_id_false in H. destruct H as [_ H].
  cbn [medications medication_stored with_medications].
  unfold find_medication in *. rewrite find_app_none; [|exact H].
  simpl. now rewrite String.eqb_refl.
Qed.

Lemma reminders_owned_stored : forall m s,
  reminders_owned s -> reminders_owned (medication_stored m s).
Proof.
  intros m s H. unfold reminders_owned in *.
  cbn [medications reminders medication_stored with_medications with_io_ops with_oids_made].
  eapply Forall_impl; [|exact H]. intros r. apply owned_app.
Qed.

Lemma medications_post_owned : forall env u json s,
  reminders_owned s -> reminders_owned (snd (medications_post u json env s)).
Proof.
  intros env u json s Hok.
  destruct json as [data|]; [|now rewrite medications_post_unfold].
  post_paths env u data s; trivial.
  - replace s' with (snd (ensure_reminders (User.id u)
                            (manual_medication (new_oid env (oids_made s)) u data) env
                            (medication_stored
                               (manual_medication (new_oid env (oids_made s)) u data) s)))
      by now rewrite Hloop.
    eapply ensure_reminders_owned;
      [now apply find_medication_stored | reflexivity | now apply reminders_owned_stored].
  - replace s' with (snd (ensure_reminders (User.id u)
                            (manual_medication (new_oid env (oids_made s)) u data) env
                            (medication_stored
                               (manual_medication (new_oid env (oids_made s)) u data) s)))
      by now rewrite Hloop.
    eapply ensure_reminders_owned;
      [now apply find_medication_stored | reflexivity | now apply reminders_owned_stored].
Qed.

Lemma add_extracted_owned : forall env u added med_data s,
  reminders_owned s -> reminders_owned (snd (add_extracted u added med_data env s)).
Proof.
  intros env u added med_data s Hok. rewrite add_extracted_unfold.
  destruct (dict_lookup "name" med_data) as [name|]; [|trivial].
  destruct (io_fault env (io_ops s)); [trivial|].
  destruct (has_active_name (User.id u) name (medications s)); [trivial|].
  cbv zeta. destruct (io_fault env (S (io_ops s))); [trivial|].
  destruct (existsb _ (medications s)) eqn:Htaken; [trivial|].
  pose proof (ensure_reminders_owned env (User.id u)
                (ocr_medication (new_oid env (oids_made s)) u med_data name)
                (ocr_medication (new_oid env (oids_made s)) u med_data name)
                (medication_stored
                   (ocr_medication (new_oid env (oids_made s)) u med_data name) s)
                (find_medication_stored _ _ Htaken) eq_refl
                (reminders_owned_stored _ _ Hok)) as H.
  destruct (ensure_reminders _ _ env _) as [[[]|e] s'] eqn:Hloop; cbn [snd] in *;
    [|exact H].
  destruct (io_fault env (io_ops s')); exact H.
Qed.

Lemma owned_with_stable : forall ms s s',
  same_store s s' -> owned_with ms s -> owned_with ms s'.
Proof.
  intros ms s s' (_ & Hm & Hr & _) [Ho Hms]. split; [|congruence].
  now apply (reminders_owned_ext s).
Qed.

Lemma backfill_owned : forall env s,
  NoDup (map Medication.id (medications s)) ->
  reminders_owned s ->
  reminders_owned (snd (backfill_reminders_for_all_users env s)).
Proof.
  intros env s Hnd Hok. pose proof same_store_is_store_relation as HS.
  assert (H : hoare env (owned_with (medications s)) backfill_reminders_for_all_users
                (fun _ => owned_with (medications s))
                (fun _ => owned_with (medications s))).
  { unfold backfill_reminders_for_all_users, backfill_pass.
    eapply hoare_try_except with (E' := fun _ => owned_with (medications s));
      [|intros e; apply hoare_of_keeps; [now apply keeps_print | apply owned_with_stable]].
    eapply hoare_bind with (Q := fun _ => owned_with (medications s));
      [|intros _; apply hoare_of_keeps; [now apply keeps_print | apply owned_with_stable]].
    eapply hoare_bind with (Q := fun _ => owned_with (medications s));
      [apply hoare_of_keeps; [now apply keeps_query | apply owned_with_stable] | intros us].
    apply hoare_for_each. intros u _. unfold backfill_user, Medication_active_of_user.
    eapply hoare_bind
      with (Q := fun meds s1 =>
                   owned_with (medications s) s1
                   /\ forall m, In m meds ->
                                In m (medications s) /\ Medication.user_id m = User.id u).
    { intros s1 Hs1. rewrite query_unfold.
      destruct (io_fault env (io_ops s1)).
      - eapply owned_with_stable; [|exact Hs1]. now repeat split.
      - split; [eapply owned_with_stable; [|exact Hs1]; now repeat split|].
        intros m Hm. cbn [medications with_io_ops] in Hm. apply filter_In in Hm.
        destruct Hm as [Hin Hp]. destruct Hs1 as [_ Hms]. rewrite <- Hms.
        apply andb_prop in Hp. destruct Hp as [Hu _]. apply String.eqb_eq in Hu. auto. }
    intros meds.
    eapply hoare_conseq
      with (P' := fun s1 => owned_with (medications s) s1
                            /\ forall m, In m meds ->
                                 In m (medications s)
                                 /\ Medication.user_id m = User.id u)
           (Q' := fun _ => owned_with (medications s))
           (E' := fun _ => owned_with (medications s)); trivial.
    intros s1 [Hs1 Hmeds]. revert s1 Hs1.
    apply hoare_for_each. intros m Hm s1 [Ho Hms].
    destruct (Hmeds m Hm) as [Hin Hu].
    assert (Hres : owned_with (medications s) (snd (ensure_reminders (User.id u) m env s1))).
    { split.
      - apply (ensure_reminders_owned env (User.id u) m m); [|exact Hu | exact Ho].
        rewrite Hms. now apply find_medication_unique.
      - now rewrite ensure_reminders_medications. }
    destruct (ensure_reminders (User.id u) m env s1) as [[[]|e] s2]; exact Hres. }
  specialize (H s (conj Hok eq_refl)).
  destruct (backfill_reminders_for_all_users env s) as [[[]|e] s1]; apply H.
Qed.

Lemma keeps_owned_is_store_relation : store_relation keeps_owned.
Proof.
  split.
  - unfold keeps_owned. auto.
  - intros s s' Hsame [Hok Ho]. split; [now apply (store_ok_stable s)|].
    destruct Hsame as (_ & Hm & Hr & _). now apply (reminders_owned_ext s).
Qed.

(** A computation keeps the invariant and keeps the reminders owned. *)
Lemma keeps_owned_intro : forall A (m : M A),
  keeps keeps_store_ok m ->
  (forall env s, store_ok s -> reminders_owned s -> reminders_owned (snd (m env s))) ->
  keeps keeps_owned m.
Proof.
  intros A m Hk Ho env s [Hok Hown]. split; [now apply Hk | now apply Ho].
Qed.

Lemma step_keeps_owned : forall env s req, keeps_owned s (step env s req).
Proof.
  intros env s req. unfold step.
  assert (H : keeps keeps_owned (handle req)).
  { pose proof keeps_owned_is_store_relation as HR.
    destruct req as [u json|u r|u|u mid|u mid| |self]; simpl.
    - apply keeps_bind; trivial; [|intros; now apply keeps_ret].
      apply keeps_owned_intro.
      + apply keeps_ok_of_hoare. intros env'. apply medications_post_store_ok.
      + intros env' s' _. apply medications_post_owned.
    - apply keeps_bind; trivial; [|intros; now apply keeps_ret].
      apply keeps_upload_prescription_from; trivial. intros b x.
      apply keeps_owned_intro.
      + apply keeps_ok_of_hoare. intros env'. apply add_extracted_store_ok.
      + intros env' s' _. apply add_extracted_owned.
    - apply keeps_bind; trivial; [|intros; now apply keeps_ret].
      now apply keeps_list_reminders.
    - apply keeps_bind; trivial; [|intros; now apply keeps_ret].
      apply keeps_delete_medication; trivial. intros mid'.
      apply keeps_owned_intro; [apply keeps_ok_Medication_save_inactive|].
      intros env' s' _ Ho. unfold Medication_save_inactive, bind, io, modify.
      destruct (io_fault env' (io_ops s')); cbn; [exact Ho|].
      unfold reminders_owned in *. cbn.
      eapply Forall_impl; [|exact Ho]. intros r. apply owned_deactivate.
    - apply keeps_bind; trivial; [|intros; now apply keeps_ret].
      apply keeps_take_medication; trivial. intros doc.
      apply keeps_owned_intro; [apply keeps_ok_MedicationLog_insert|].
      intros env' s' _ Ho. rewrite MedicationLog_insert_unfold. cbv zeta.
      destruct (io_fault env' (io_ops s')); [exact Ho|].
      destruct (existsb _ _); exact Ho.
    - apply keeps_owned_intro.
      + apply keeps_ok_of_hoare. intros env'. apply backfill_store_ok.
      + intros env' s' Hok Ho. apply backfill_owned; [|exact Ho].
        apply (medication_ids_unique s' Hok).
    - apply keeps_tick; trivial.
      + intros rid d. apply keeps_owned_intro; [apply keeps_ok_Reminder_save_last_sent|].
        intros env' s' _ Ho. unfold Reminder_save_last_sent, bind, io, modify.
        destruct (io_fault env' (io_ops s')); cbn; [exact Ho|].
        unfold reminders_owned in *. cbn.
        apply Forall_update_by_id; [|exact Ho].
        intros r Hr. exact Hr.
      + intros p rm. apply keeps_emit_any.
        intros s1 s2 _ Hm Hr _ [Hok Ho].
        split; [now apply (store_ok_ext s1) | now apply (reminders_owned_ext s1)]. }
  apply H.
Qed.

Lemma run_keeps_owned : forall env reqs s, store_owned s -> store_owned (run env reqs s).
Proof.
  intros env reqs. unfold run.
  induction reqs as [|req reqs IH]; intros s Hs; [exact Hs|].
  simpl. apply IH. now apply step_keeps_owned.
Qed.

(** X15: in every store reached by requests, each reminder belongs to
    the user who owns its medication, so every alert a tick emits goes to
    the room of the owner of the medication it names, and to no other
    room. *)
Theorem alerts_go_to_the_owner :
  forall env reqs s,
    store_ok s ->
    reminders_owned s ->
    reminders_owned (run env reqs s)
    /\ forall env' self e,
         In e (new_emissions (run env reqs s)
                 (snd (_check_and_send_reminders self env' (run env reqs s)))) ->
         exists r m,
           In r (reminders (run env reqs s))
           /\ find_medication (Reminder.medication_id r) (medications (run env reqs s))
              = Some m
           /\ Medication.user_id m = Reminder.user_id r
           /\ event e = "medication_reminder"
           /\ payload_get "medication_id" (payload e) = Some (PStr (Medication.id m))
           /\ payload_get "medication_name" (payload e)
              = Some (of_pystr (Medication.name m))
           /\ room e = ("user_" ++ Medication.user_id m)%string.
Proof.
  intros env reqs s Hok Hown.
  destruct (run_keeps_owned env reqs s (conj Hok Hown)) as [Hok' Hown'].
  split; [exact Hown'|].
  intros env' self e He.
  destruct (tick_emits_holds env' self (run env reqs s)) as (_ & new & Hnew & Hall).
  rewrite (new_emissions_app _ _ _ Hnew) in He.
  rewrite Forall_forall in Hall. destruct (Hall e He) as (Hev & r & m & k & Hr & _ & _ & Hm & Hp & Hroom).
  unfold reminders_owned in Hown'. rewrite Forall_forall in Hown'.
  destruct (Hown' r Hr) as (m' & Hm' & Hu). rewrite Hm in Hm'. inversion Hm'; subst m'.
  exists r, m. rewrite Hp, Hroom, Hu. repeat split; auto.
Qed.

Lemma alerts_go_to_the_owner_witness :
  store_ok (empty_state [Example.alice])
  /\ reminders_owned (run Example.calm Example.session (empty_state [Example.alice]))
  /\ forall env' self e,
       In e (new_emissions (run Example.calm Example.session (empty_state [Example.alice]))
               (snd (_check_and_send_reminders self env'
                       (run Example.calm Example.session
                            (empty_state [Example.alice]))))) ->
       exists r m,
         In r (reminders (run Example.calm Example.session (empty_state [Example.alice])))
         /\ find_medication (Reminder.medication_id r)
              (medications (run Example.calm Example.session
                                (empty_state [Example.alice])))
            = Some m
         /\ Medication.user_id m = Reminder.user_id r
         /\ event e = "medication_reminder"
         /\ payload_get "medication_id" (payload e) = Some (PStr (Medication.id m))
         /\ payload_get "medication_name" (payload e)
            = Some (of_pystr (Medication.name m))
         /\ room e = ("user_" ++ Medication.user_id m)%string.
Proof.
  assert (Hok : store_ok (empty_state [Example.alice])).
  { split; simpl; constructor. }
  assert (Hown : reminders_owned (empty_state [Example.alice])) by constructor.
  split; [exact Hok|].
  apply (alerts_go_to_the_owner Example.calm Example.session
           (empty_state [Example.alice]) Hok Hown).
Defined.

(* ================================================================= *)
(** ** POST /upload-prescription *)

Lemma has_active_name_app : forall uid n ms ms',
  has_active_name uid n ms = true -> has_active_name uid n (ms ++ ms') = true.
Proof.
  intros uid n ms ms' H. unfold has_active_name in *. rewrite existsb_app, H. reflexivity.
Qed.

(** What adding one extracted candidate does when it ends normally. *)
Lemma add_extracted_ok : forall env u n0 med_data s n s',
  add_extracted u n0 med_data env s = (Ok n, s') ->
  exists name added,
    dict_lookup "name" med_data = Some name
    /\ has_active_name (User.id u) name (medications s') = true
    /\ medications s' = medications s ++ added
    /\ n = n0 + List.length added
    /\ List.length added <= 1
    /\ Forall (extracted_from u [med_data]) added
    /\ emitted s' = emitted s ++ map (added_event env u) added
    /\ uploads s' = uploads s
    /\ users s' = users s
    /\ medication_logs s' = medication_logs s.
Proof.
  intros env u n0 med_data s n s'. rewrite add_extracted_unfold.
  destruct (dict_lookup "name" med_data) as [name|] eqn:Hname; [|discriminate].
  destruct (io_fault env (io_ops s)); [discriminate|].
  destruct (has_active_name (User.id u) name (medications s)) eqn:Hdup.
  { intros H. inversion H; subst. exists name, []. cbn.
    rewrite !app_nil_r. repeat split; auto. }
  cbv zeta. destruct (io_fault env (S (io_ops s))); [discriminate|].
  destruct (existsb _ (medications s)); [discriminate|].
  set (m := ocr_medication (new_oid env (oids_made s)) u med_data name).
  unfold ensure_reminders.
  destruct (ensure_each_adds env (User.id u) (Medication.id m)
              (parse_frequency_to_times (Medication.frequency m))
              (medication_stored m s))
    as (radded & _ & _ & Hw & _).
  destruct (for_each _ _ env (medication_stored m s)) as [[[]|e] s1];
    cbn [snd] in Hw; [|discriminate].
  destruct (io_fault env (io_ops s1)); [discriminate|].
  intros H. inversion H; subst. clear H.
  destruct Hw as (W1 & W2 & W3 & W4 & W5 & W6).
  exists name, [m]. cbn [medications emitted uploads users medication_logs
                         with_emitted with_io_ops List.length map].
  rewrite W1, W2, W3, W4, W5.
  cbn [medications emitted uploads users medication_logs medication_stored
       with_medications with_io_ops with_oids_made].
  split; [reflexivity|].
  split.
  { unfold has_active_name. rewrite existsb_app. cbn.
    rewrite String.eqb_refl. cbn.
    assert (Hn : pystr_eqb name name = true) by now apply pystr_eqb_eq.
    rewrite Hn. apply orb_true_r. }
  split; [reflexivity|]. split; [lia|]. split; [lia|].
  split.
  { constructor; [|constructor]. repeat split.
    exists med_data. cbn. auto. }
  repeat split.
Qed.

Lemma extracted_from_incl : forall u xs ys m,
  (forall d, In d xs -> In d ys) -> extracted_from u xs m -> extracted_from u ys m.
Proof.
  intros u xs ys m Hincl (A & B & C & d & Hd & E). repeat split; auto.
  exists d. split; [now apply Hincl | exact E].
Qed.

(** What the loop over the extracted candidates does when it ends
    normally. *)
Lemma add_all_ok : forall env u xs n0 s n s',
  for_fold xs n0 (add_extracted u) env s = (Ok n, s') ->
  exists added,
    medications s' = medications s ++ added
    /\ n = n0 + List.length added
    /\ List.length added <= List.length xs
    /\ Forall (extracted_from u xs) added
    /\ emitted s' = emitted s ++ map (added_event env u) added
    /\ uploads s' = uploads s
    /\ users s' = users s
    /\ medication_logs s' = medication_logs s
    /\ forall med_data, In med_data xs ->
         exists name, dict_lookup "name" med_data = Some name
                      /\ has_active_name (User.id u) name (medications s') = true.
Proof.
  intros env u xs. induction xs as [|x xs IH]; intros n0 s n s' H.
  - cbn in H. inversion H; subst. exists []. cbn. rewrite !app_nil_r.
    repeat split; auto. intros d [].
  - cbn [for_fold] in H. unfold bind in H.
    destruct (add_extracted u n0 x env s) as [[n1|e] s1] eqn:Hstep; [|discriminate].
    destruct (add_extracted_ok _ _ _ _ _ _ _ Hstep)
      as (name & a1 & Hname & Hact & Hm1 & Hn1 & Hlen1 & Hall1 & He1 & Hu1 & Hus1 & Hl1).
    destruct (IH _ _ _ _ H)
      as (a2 & Hm2 & Hn2 & Hlen2 & Hall2 & He2 & Hu2 & Hus2 & Hl2 & Hnames).
    exists (a1 ++ a2).
    rewrite Hm2, Hm1, He2, He1, Hu2, Hu1, Hus2, Hus1, Hl2, Hl1.
    rewrite map_app, length_app, <- !app_assoc.
    split; [reflexivity|]. split; [lia|]. split; [cbn [List.length]; lia|].
    split.
    { apply Forall_app. split.
      - eapply Forall_impl; [|exact Hall1]. intros m.
        apply extracted_from_incl. intros d [Hd|[]]. now left.
      - eapply Forall_impl; [|exact Hall2]. intros m.
        apply extracted_from_incl. intros d Hd. now right. }
    repeat split.
    intros d [Hd|Hd].
    + subst d. exists name. split; [exact Hname|].
      rewrite app_assoc. apply has_active_name_app. now rewrite <- Hm1.
    + rewrite app_assoc, <- Hm1, <- Hm2. now apply Hnames.
Qed.

Lemma PrescriptionUpload_save_new : forall u env s,
  PrescriptionUpload.id u = None ->
  PrescriptionUpload_save u env s
  = if io_fault env (io_ops s) then (Raise StoreError, after 1 1 s)
    else if existsb (upload_has_id (new_oid env (oids_made s))) (uploads s)
    then (Raise NotUniqueError, after 1 1 s)
    else (Ok (PrescriptionUpload.with_id (new_oid env (oids_made s)) u),
          with_uploads (uploads s
                          ++ [PrescriptionUpload.with_id (new_oid env (oids_made s)) u])
                       (after 1 1 s)).
Proof.
  intros u env s Hid. unfold PrescriptionUpload_save. rewrite Hid.
  unfold bind, gen_oid, io, gets, modify, ret, raise.
  cbn [io_ops with_oids_made with_io_ops uploads].
  destruct (io_fault env (io_ops s)); [reflexivity|].
  cbn [uploads with_oids_made with_io_ops].
  destruct (existsb _ (uploads s)); reflexivity.
Qed.

Lemma PrescriptionUpload_save_stored : forall u i env s,
  PrescriptionUpload.id u = Some i ->
  PrescriptionUpload_save u env s
  = if io_fault env (io_ops s) then (Raise StoreError, after 1 0 s)
    else (Ok u,
          with_uploads (map (fun v => if upload_has_id i v then u else v) (uploads s))
                       (after 1 0 s)).
Proof.
  intros u i env s Hid. unfold PrescriptionUpload_save. rewrite Hid.
  unfold bind, io, modify, ret.
  destruct (io_fault env (io_ops s)); reflexivity.
Qed.

(** A branch that ends in the handler of the [try] is answered 500 or
    left by an exception. *)
Ltac upload_fails :=
  let H := fresh "H" in
  intros H; exfalso; revert H; unfold bind, ret;
  match goal with
  | |- context [PrescriptionUpload_save ?x ?e ?st] =>
      destruct (PrescriptionUpload_save x e st) as [[?a|?ex] ?sx]
  end; cbn; discriminate.

(** The run of an upload that is answered 200. *)
Lemma upload_200_run : forall env u req s res,
  res = upload_prescription u req env s ->
  fst res = Ok 200 ->
  has_file req = true
  /\ file_name req <> EmptyString
  /\ exists s2 n s3,
       medications s2 = medications s
       /\ emitted s2 = emitted s
       /\ users s2 = users s
       /\ medication_logs s2 = medication_logs s
       /\ reminders s2 = reminders s
       /\ uploads s2
          = uploads s
            ++ [PrescriptionUpload.mk (Some (new_oid env (oids_made s)))
                                      (User.id u) (file_name req) "processing" 0 0]
       /\ for_fold (extracted req) 0 (add_extracted u) env s2 = (Ok n, s3)
       /\ res = (Ok 200,
                 with_uploads
                   (map (fun v => if upload_has_id (new_oid env (oids_made s)) v
                                  then completed_upload (new_oid env (oids_made s)) u req n
                                  else v)
                        (uploads s3))
                   (after 1 0 s3)).
Proof.
  intros env u req s res Hres. unfold upload_prescription in Hres.
  unfold bind at 1 in Hres. unfold try_except at 1 in Hres.
  destruct (has_file req) eqn:Hfile; cbn [negb] in Hres; [|subst res; discriminate].
  destruct (String.eqb (file_name req) EmptyString) eqn:Hname; [subst res; discriminate|].
  unfold bind at 1 in Hres. unfold datetime_now at 1 in Hres.
  unfold bind at 1, io at 1 in Hres.
  cbn [io_ops with_clock_reads] in Hres.
  destruct (io_fault env (io_ops s)) eqn:Hio1; [subst res; discriminate|].
  unfold ret at 1 in Hres.
  unfold bind at 1 in Hres. unfold try_except at 1 in Hres. unfold bind at 1 in Hres.
  rewrite PrescriptionUpload_save_new in Hres by reflexivity.
  cbn [io_ops oids_made uploads with_io_ops with_clock_reads] in Hres.
  destruct (io_fault env (S (io_ops s))) eqn:Hio2; [subst res; upload_fails|].
  destruct (existsb _ (uploads s)) eqn:Htaken; [subst res; upload_fails|].
  unfold ret at 1 in Hres.
  unfold bind at 1 in Hres. unfold try_except at 1 in Hres.
  unfold bind at 1, io at 1 in Hres.
  cbn [io_ops after with_uploads with_io_ops with_oids_made with_clock_reads] in Hres.
  destruct (io_fault env (1 + S (io_ops s))) eqn:Hio3; [subst res; upload_fails|].
  unfold bind at 1, io at 1 in Hres.
  cbn [io_ops after with_uploads with_io_ops with_oids_made with_clock_reads] in Hres.
  destruct (io_fault env (S (1 + S (io_ops s)))) eqn:Hio4; [subst res; upload_fails|].
  unfold bind at 1 in Hres.
  match type of Hres with
  | context [for_fold (extracted req) 0 (add_extracted u) env ?st] =>
      set (s2 := st) in Hres;
      destruct (for_fold (extracted req) 0 (add_extracted u) env s2)
        as [[n|e] s3] eqn:Hloop
  end.
  2:{ subst res. upload_fails. }
  unfold ret at 1 in Hres. unfold try_except at 1 in Hres. unfold bind at 1 in Hres.
  rewrite (PrescriptionUpload_save_stored _ (new_oid env (oids_made s))) in Hres
    by reflexivity.
  destruct (io_fault env (io_ops s3)) eqn:Hio5; [subst res; upload_fails|].
  intros _. cbn [ret] in Hres.
  split; [reflexivity|].
  split; [intros Heq; rewrite Heq in Hname; discriminate|].
  exists s2, n, s3.
  split; [reflexivity|]. split; [reflexivity|]. split; [reflexivity|].
  split; [reflexivity|]. split; [reflexivity|]. split; [reflexivity|].
  split; [exact Hloop|]. exact Hres.
Qed.

(** X16: when POST /upload-prescription answers 200, the medications
    it stored are appended to the collection, each built from one of the
    extracted candidates, owned by the current user, active and of source
    ocr; one [medication_added] event was emitted for each of them, in
    their order, and nothing else; the upload record is stored as
    completed with the number of candidates and the number of medications
    added; and every candidate's name is now an active medication of the
    user. *)
Theorem upload_prescription_counts :
  forall env current_user req s,
    fst (upload_prescription current_user req env s) = Ok 200 ->
    has_file req = true
    /\ file_name req <> EmptyString
    /\ exists added,
         medications (snd (upload_prescription current_user req env s))
         = medications s ++ added
         /\ Forall (extracted_from current_user (extracted req)) added
         /\ List.length added <= List.length (extracted req)
         /\ emitted (snd (upload_prescription current_user req env s))
            = emitted s ++ map (added_event env current_user) added
         /\ In (completed_upload (new_oid env (oids_made s)) current_user req
                                 (List.length added))
               (uploads (snd (upload_prescription current_user req env s)))
         /\ (forall med_data,
               In med_data (extracted req) ->
               exists name,
                 dict_lookup "name" med_data = Some name
                 /\ has_active_name (User.id current_user) name
                      (medications (snd (upload_prescription current_user req env s)))
                    = true)
         /\ users (snd (upload_prescription current_user req env s)) = users s
         /\ medication_logs (snd (upload_prescription current_user req env s))
            = medication_logs s.
Proof.
  intros env u req s H200.
  destruct (upload_200_run env u req s _ eq_refl H200)
    as (Hfile & Hname & s2 & n & s3 & M2 & E2 & U2 & L2 & R2 & Up2 & Hloop & Hres).
  split; [exact Hfile|]. split; [exact Hname|].
  destruct (add_all_ok _ _ _ _ _ _ _ Hloop)
    as (added & Hm & Hn & Hlen & Hall & He & Hup & Hus & Hl & Hnames).
  exists added. rewrite Hres.
  cbn [snd medications emitted users medication_logs uploads with_uploads after
       with_io_ops with_oids_made].
  rewrite Hm, He, Hus, Hl, Hup, M2, E2, U2, L2, Up2.
  split; [reflexivity|]. split; [exact Hall|]. split; [exact Hlen|].
  split; [reflexivity|].
  split.
  { rewrite map_app, in_app_iff. right. cbn [map]. unfold upload_has_id.
    cbn [PrescriptionUpload.id]. rewrite String.eqb_refl. left.
    cbn in Hn. now subst n. }
  split; [|split; reflexivity].
  intros d Hd. rewrite <- M2, <- Hm. now apply Hnames.
Qed.

Lemma upload_prescription_counts_witness :
  fst (upload_prescription Example.alice Example.scan Example.calm Example.fresh) = Ok 200
  /\ exists added,
       medications (snd (upload_prescription Example.alice Example.scan Example.calm
                                             Example.fresh))
       = medications Example.fresh ++ added
       /\ Forall (extracted_from Example.alice (extracted Example.scan)) added
       /\ List.length added <= List.length (extracted Example.scan)
       /\ emitted (snd (upload_prescription Example.alice Example.scan Example.calm
                                            Example.fresh))
          = emitted Example.fresh ++ map (added_event Example.calm Example.alice) added
       /\ In (completed_upload (new_oid Example.calm (oids_made Example.fresh))
                               Example.alice Example.scan (List.length added))
             (uploads (snd (upload_prescription Example.alice Example.scan Example.calm
                                                Example.fresh)))
       /\ (forall med_data,
             In med_data (extracted Example.scan) ->
             exists name,
               dict_lookup "name" med_data = Some name
               /\ has_active_name (User.id Example.alice) name
                    (medications (snd (upload_prescription Example.alice Example.scan
                                         Example.calm Example.fresh)))
                  = true)
       /\ users (snd (upload_prescription Example.alice Example.scan Example.calm
                                          Example.fresh))
          = users Example.fresh
       /\ medication_logs (snd (upload_prescription Example.alice Example.scan
                                   Example.calm Example.fresh))
          = medication_logs Example.fresh.
Proof.
  split; [reflexivity|].
  apply (upload_prescription_counts Example.calm Example.alice Example.scan Example.fresh).
  reflexivity.
Defined.

(** X17: POST /upload-prescription answers 400 exactly when the request
    has no file part or the file has an empty name, and then nothing at
    all has happened: no file was saved, no record was written and no
    counter moved. *)
Theorem upload_prescription_needs_a_file :
  forall env current_user req s,
    (has_file req = false \/ file_name req = EmptyString ->
     upload_prescription current_user req env s = (Ok 400, s))
    /\ (fst (upload_prescription current_user req env s) = Ok 400 ->
        has_file req = false \/ file_name req = EmptyString).
Proof.
  intros env u req s. split.
  - intros Hno. unfold upload_prescription, bind, try_except.
    destruct (has_file req); cbn [negb]; [|reflexivity].
    destruct Hno as [Hno|Hno]; [discriminate|]. rewrite Hno. reflexivity.
  - remember (upload_prescription u req env s) as res eqn:Hres.
    unfold upload_prescription in Hres.
    unfold bind at 1 in Hres. unfold try_except at 1 in Hres.
    destruct (has_file req) eqn:Hfile; cbn [negb] in Hres; [|now left].
    destruct (String.eqb (file_name req) EmptyString) eqn:Hname.
    { right. now apply String.eqb_eq. }
    unfold bind at 1 in Hres. unfold datetime_now at 1 in Hres.
    unfold bind at 1, io at 1 in Hres.
    cbn [io_ops with_clock_reads] in Hres.
    destruct (io_fault env (io_ops s)) eqn:Hio1; [subst res; discriminate|].
    unfold ret at 1 in Hres.
    unfold bind at 1 in Hres. unfold try_except at 1 in Hres. unfold bind at 1 in Hres.
    rewrite PrescriptionUpload_save_new in Hres by reflexivity.
    cbn [io_ops oids_made uploads with_io_ops with_clock_reads] in Hres.
    destruct (io_fault env (S (io_ops s))) eqn:Hio2; [subst res; upload_fails|].
    destruct (existsb _ (uploads s)) eqn:Htaken; [subst res; upload_fails|].
    unfold ret at 1 in Hres.
    unfold bind at 1 in Hres. unfold try_except at 1 in Hres.
    unfold bind at 1, io at 1 in Hres.
    cbn [io_ops after with_uploads with_io_ops with_oids_made with_clock_reads] in Hres.
    destruct (io_fault env (1 + S (io_ops s))) eqn:Hio3; [subst res; upload_fails|].
    unfold bind at 1, io at 1 in Hres.
    cbn [io_ops after with_uploads with_io_ops with_oids_made with_clock_reads] in Hres.
    destruct (io_fault env (S (1 + S (io_ops s)))) eqn:Hio4; [subst res; upload_fails|].
    unfold bind at 1 in Hres.
    match type of Hres with
    | context [for_fold (extracted req) 0 (add_extracted u) env ?st] =>
        set (s2 := st) in Hres;
        destruct (for_fold (extracted req) 0 (add_extracted u) env s2)
          as [[n|e] s3] eqn:Hloop
    end.
    2:{ subst res. upload_fails. }
    unfold ret at 1 in Hres. unfold try_except at 1 in Hres. unfold bind at 1 in Hres.
    rewrite (PrescriptionUpload_save_stored _ (new_oid env (oids_made s))) in Hres
      by reflexivity.
    destruct (io_fault env (io_ops s3)) eqn:Hio5; [subst res; upload_fails|].
    subst res. discriminate.
Qed.

(* ================================================================= *)
(** ** The startup backfill *)

Lemma for_each_snd : forall A (f : A -> M unit) (I : State -> Prop) env xs,
  (forall x s, In x xs -> I s -> I (snd (f x env s))) ->
  forall s, I s -> I (snd (for_each xs f env s)).
Proof.
  intros A f I env xs. induction xs as [|x xs IH]; intros Hf s Hs; [exact Hs|].
  cbn [for_each]. unfold bind.
  pose proof (Hf x s (or_introl eq_refl) Hs) as Hx.
  destruct (f x env s) as [[[]|e] s1]; cbn [snd] in *; [|exact Hx].
  apply IH; [|exact Hx]. intros y s' Hy. apply Hf. now right.
Qed.

Lemma backfill_adds_refl : forall s, backfill_adds s s.
Proof.
  intros s. split; [apply writes_reminders_only_refl|].
  exists []. now rewrite app_nil_r.
Qed.

Lemma ensure_reminders_backfill_adds : forall env s u m s1,
  In u (users s) ->
  In m (medications s) ->
  Medication.is_active m = true ->
  Medication.user_id m = User.id u ->
  backfill_adds s s1 ->
  backfill_adds s (snd (ensure_reminders (User.id u) m env s1)).
Proof.
  intros env s u m s1 Hu Hm Hact Hown [Hw (added & Hrs & Hall)].
  unfold ensure_reminders.
  destruct (ensure_each_adds env (User.id u) (Medication.id m)
              (parse_frequency_to_times (Medication.frequency m)) s1)
    as (added' & Hrs' & Hall' & Hw' & _).
  split; [eapply writes_reminders_only_trans; eassumption|].
  exists (added ++ added'). rewrite Hrs', Hrs, app_assoc. split; [reflexivity|].
  apply Forall_app. split; [exact Hall|].
  eapply Forall_impl; [|exact Hall']. cbn. intros r Hr.
  exists u, m. repeat split; auto; apply Hr.
Qed.

Lemma backfill_user_adds : forall env s u s1,
  In u (users s) ->
  backfill_adds s s1 ->
  backfill_adds s (snd (backfill_user u env s1)).
Proof.
  intros env s u s1 Hu Hs1. rewrite backfill_user_unfold.
  destruct (io_fault env (io_ops s1)); [exact Hs1|].
  apply for_each_snd with (I := backfill_adds s); [|exact Hs1].
  intros m s2 Hm Hs2. apply filter_In in Hm. destruct Hm as [Hin Hp].
  apply andb_prop in Hp. destruct Hp as [Hown Hact]. apply String.eqb_eq in Hown.
  destruct Hs1 as [(_ & Hms & _) _]. rewrite Hms in Hin.
  now apply ensure_reminders_backfill_adds.
Qed.

Lemma backfill_pass_adds : forall env s, backfill_adds s (snd (backfill_pass env s)).
Proof.
  intros env s. rewrite backfill_pass_unfold.
  destruct (io_fault env (io_ops s)); [exact (backfill_adds_refl s)|].
  apply for_each_snd with (I := backfill_adds s).
  - intros u s1 Hu Hs1. now apply backfill_user_adds.
  - exact (backfill_adds_refl s).
Qed.

(** X18: the startup backfill never raises and prints exactly one line,
    the success line only when its loops ran to the end, and then every
    active medication of every stored user has all its reminders.
    Whatever its outcome it writes reminders only, appends them, and
    appends none but reminders of an active medication of a stored user,
    at a time of that medication's frequency text. *)
Theorem backfill_never_raises :
  forall env s,
    fst (backfill_reminders_for_all_users env s) = Ok tt
    /\ (exists line,
          printed (snd (backfill_reminders_for_all_users env s)) = printed s ++ [line]
          /\ (line = LogBackfilled \/ exists e, line = LogBackfillFailed e)
          /\ (line = LogBackfilled ->
              backfill_reconciled (snd (backfill_reminders_for_all_users env s))))
    /\ users (snd (backfill_reminders_for_all_users env s)) = users s
    /\ medications (snd (backfill_reminders_for_all_users env s)) = medications s
    /\ medication_logs (snd (backfill_reminders_for_all_users env s)) = medication_logs s
    /\ emitted (snd (backfill_reminders_for_all_users env s)) = emitted s
    /\ exists added,
         reminders (snd (backfill_reminders_for_all_users env s)) = reminders s ++ added
         /\ Forall (backfilled_for s) added.
Proof.
  intros env s. unfold backfill_reminders_for_all_users, try_except, bind, print, modify.
  pose proof (backfill_pass_adds env s) as Hadds.
  pose proof (backfill_pass_ok_reconciled env s) as Hrec.
  destruct (backfill_pass env s) as [[[]|e] s1]; cbn [fst snd] in *;
    destruct Hadds as [(U & M & L & Up & E & P) Hadded];
    (split; [reflexivity|]);
    (split; [|now repeat split]).
  - exists LogBackfilled. cbn. rewrite P. split; [reflexivity|]. split; [now left|].
    intros _. exact (Hrec eq_refl).
  - exists (LogBackfillFailed e). cbn. rewrite P. split; [reflexivity|].
    split; [right; eauto | discriminate].
Qed.

(* ================================================================= *)
(** ** The minute a reminder names *)

Lemma pad_dec_2 : forall n,
  pad_dec 2 n = String (digit (n / 10)) (String (digit n) EmptyString).
Proof. intros n. reflexivity. Qed.

Lemma pad_dec_2_inj : forall a b,
  a < 100 -> b < 100 -> pad_dec 2 a = pad_dec 2 b -> a = b.
Proof.
  intros a b Ha Hb H. rewrite !pad_dec_2 in H.
  assert (Ba : a / 10 < 10) by (apply Nat.Div0.div_lt_upper_bound; lia).
  assert (Bb : b / 10 < 10) by (apply Nat.Div0.div_lt_upper_bound; lia).
  assert (Ma : a mod 10 < 10) by (apply Nat.mod_upper_bound; lia).
  assert (Mb : b mod 10 < 10) by (apply Nat.mod_upper_bound; lia).
  assert (H1 : digit (a / 10) = digit (b / 10)) by congruence.
  assert (H2 : digit (a mod 10) = digit (b mod 10)).
  { rewrite <- !digit_mod. congruence. }
  apply digit_inj in H1; [|assumption|assumption].
  apply digit_inj in H2; [|assumption|assumption].
  rewrite (Nat.div_mod_eq a 10), (Nat.div_mod_eq b 10). now rewrite H1, H2.
Qed.

Lemma strftime_HM_inj : forall dt1 dt2,
  time_of_day dt1 -> time_of_day dt2 ->
  strftime_HM dt1 = strftime_HM dt2 ->
  hour dt1 = hour dt2 /\ minute dt1 = minute dt2.
Proof.
  intros dt1 dt2 [Hh1 Hm1] [Hh2 Hm2] H. unfold strftime_HM in H.
  rewrite !pad_dec_2 in H. cbn [String.append] in H.
  split; apply pad_dec_2_inj; try lia; rewrite !pad_dec_2; congruence.
Qed.

(** X19: a reminder names one minute of the day.  Two readings of the
    clock at which the same reminder passes the tests of a tick show the
    same hour and minute; and every time the frequency interpreter yields
    is the HH:MM text of a time of day, so a tick in that minute, and in
    no other, matches it. *)
Theorem reminder_names_one_minute :
  forall dt1 dt2 r,
    time_of_day dt1 ->
    time_of_day dt2 ->
    due dt1 r = true ->
    due dt2 r = true ->
    hour dt1 = hour dt2
    /\ minute dt1 = minute dt2
    /\ forall frequency t,
         In t (parse_frequency_to_times frequency) ->
         exists h m,
           h < 24 /\ m < 60
           /\ forall dt, time_of_day dt ->
                (strftime_HM dt = t <-> hour dt = h /\ minute dt = m).
Proof.
  intros dt1 dt2 r T1 T2 D1 D2. unfold due in D1, D2.
  apply andb_prop in D1, D2. destruct D1 as [D1 _]. destruct D2 as [D2 _].
  apply String.eqb_eq in D1, D2.
  destruct (strftime_HM_inj dt1 dt2 T1 T2) as [Hh Hm]; [congruence|].
  split; [exact Hh|]. split; [exact Hm|].
  intros f t Ht.
  assert (Hex : exists h m, h < 24 /\ m < 60
                            /\ t = strftime_HM (mk_datetime 0 1 1 h m 0 0)).
  { pose proof (parse_cases f) as Hc. simpl in Hc.
    destruct Hc as [Hc|[Hc|[Hc|[Hc|[Hc|[]]]]]]; rewrite <- Hc in Ht; simpl in Ht;
      repeat (destruct Ht as [Ht|Ht]; [subst t|]); try contradiction;
      first [ exists 9, 0; repeat split; try lia; reflexivity
            | exists 14, 0; repeat split; try lia; reflexivity
            | exists 20, 0; repeat split; try lia; reflexivity
            | exists 8, 0; repeat split; try lia; reflexivity
            | exists 12, 0; repeat split; try lia; reflexivity
            | exists 16, 0; repeat split; try lia; reflexivity ]. }
  destruct Hex as (h & m & Hh' & Hm' & Heq). exists h, m.
  split; [exact Hh'|]. split; [exact Hm'|].
  intros dt Tdt. rewrite Heq. split.
  - intros H. apply (strftime_HM_inj dt (mk_datetime 0 1 1 h m 0 0) Tdt); [|exact H].
    split; assumption.
  - intros [A B]. unfold strftime_HM. cbn [hour minute]. now rewrite A, B.
Qed.

Lemma reminder_names_one_minute_witness :
  time_of_day (Example.nine_o_clock 0)
  /\ time_of_day (Example.nine_o_clock 7)
  /\ due (Example.nine_o_clock 0) Example.morning = true
  /\ due (Example.nine_o_clock 7) Example.morning = true
  /\ hour (Example.nine_o_clock 0) = hour (Example.nine_o_clock 7)
  /\ minute (Example.nine_o_clock 0) = minute (Example.nine_o_clock 7).
Proof.
  assert (T1 : time_of_day (Example.nine_o_clock 0)) by (split; cbn; lia).
  assert (T2 : time_of_day (Example.nine_o_clock 7)) by (split; cbn; lia).
  split; [exact T1|]. split; [exact T2|].
  split; [reflexivity|]. split; [reflexivity|].
  destruct (reminder_names_one_minute (Example.nine_o_clock 0) (Example.nine_o_clock 7)
              Example.morning T1 T2 eq_refl eq_refl) as (A & B & _).
  split; [exact A | exact B].
Defined.

(* ================================================================= *)
(** ** A scheduler built without an app or without a socket server *)

(** X20: a scheduler that was given no app never runs a tick: every
    iteration of its loop fails on the attribute of [None], prints the
    error and sleeps.  The loop still ends normally, but it reads neither
    the clock nor the store, writes nothing and emits nothing. *)
Theorem scheduler_without_app_never_ticks :
  forall env self is_running s,
    app self = false ->
    exists s',
      _reminder_loop self is_running env s = (Ok tt, s')
      /\ users s' = users s
      /\ medications s' = medications s
      /\ reminders s' = reminders s
      /\ medication_logs s' = medication_logs s
      /\ emitted s' = emitted s
      /\ clock_reads s' = clock_reads s
      /\ io_ops s' = io_ops s
      /\ sleeps s' = sleeps s + iterations is_running
      /\ printed s'
         = printed s ++ repeat (LogLoopError AttributeError) (iterations is_running).
Proof.
  intros env self is_running s Happ. revert s.
  induction is_running as [|b later IH]; intros s.
  - exists s. cbn. rewrite app_nil_r. repeat split; lia.
  - destruct b.
    + cbn [_reminder_loop iterations]. rewrite Happ.
      unfold bind at 1. unfold try_except, bind at 1, raise.
      unfold bind, print, sleep_60, modify.
      destruct (IH (with_sleeps (S (sleeps (with_printed
                                              (printed s ++ [LogLoopError AttributeError]) s)))
                      (with_printed (printed s ++ [LogLoopError AttributeError]) s)))
        as (s' & Hrun & U & M & R & L & E & C & I & Sl & P).
      exists s'. split; [exact Hrun|].
      cbn in U, M, R, L, E, C, I, Sl, P.
      repeat split; try assumption; [lia|].
      rewrite P, <- app_assoc. reflexivity.
    + exists s. cbn. rewrite app_nil_r. repeat split; lia.
Qed.

Lemma scheduler_without_app_never_ticks_witness :
  exists s',
    _reminder_loop (mk_scheduler true false) [true; true; false] Example.calm Example.fresh
    = (Ok tt, s')
    /\ users s' = users Example.fresh
    /\ medications s' = medications Example.fresh
    /\ reminders s' = reminders Example.fresh
    /\ medication_logs s' = medication_logs Example.fresh
    /\ emitted s' = emitted Example.fresh
    /\ clock_reads s' = clock_reads Example.fresh
    /\ io_ops s' = io_ops Example.fresh
    /\ sleeps s' = sleeps Example.fresh + iterations [true; true; false]
    /\ printed s'
       = printed Example.fresh
         ++ repeat (LogLoopError AttributeError) (iterations [true; true; false]).
Proof.
  apply (scheduler_without_app_never_ticks Example.calm (mk_scheduler true false)
           [true; true; false] Example.fresh).
  reflexivity.
Defined.

Lemma send_alert_unfold : forall self r env s,
  _send_reminder_alert self r env s
  = if io_fault env (io_ops s) then (Raise StoreError, after 1 0 s)
    else match find_medication (Reminder.medication_id r) (medications s) with
         | None => (Ok tt, after 1 0 s)
         | Some m =>
             let s1 := with_clock_reads (S (clock_reads s)) (after 1 0 s) in
             if io_fault env (S (io_ops s)) then (Raise StoreError, after 1 0 s1)
             else
               let s2 :=
                 with_clock_reads (S (S (clock_reads s)))
                   (with_reminders
                      (update_by_id Reminder.id (Reminder.id r)
                         (Reminder.set_last_sent (Some (bson_datetime (now env (clock_reads s)))))
                         (reminders s))
                      (after 2 0 s)) in
               if socketio self then
                 if io_fault env (S (S (io_ops s))) then (Raise StoreError, after 1 0 s2)
                 else (Ok tt,
                       with_printed (printed s ++ [LogReminderSent (Medication.name m)])
                         (with_emitted
                            (emitted s
                               ++ [mk_emission "medication_reminder"
                                     (alert_payload r m (now env (S (clock_reads s))))
                                     ("user_" ++ Reminder.user_id r)])
                            (after 1 0 s2)))
               else (Ok tt,
                     with_printed (printed s ++ [LogReminderSent (Medication.name m)]) s2)
         end.
Proof.
  intros self r env s. unfold _send_reminder_alert.
  unfold bind at 1. unfold Medication_by_id. rewrite query_unfold.
  destruct (io_fault env (io_ops s)); [reflexivity|].
  cbn [medications with_io_ops].
  destruct (find_medication (Reminder.medication_id r) (medications s)) as [m|];
    [|reflexivity].
  unfold bind at 1, datetime_now at 1.
  unfold bind at 1, Reminder_save_last_sent, bind at 1, io at 1.
  cbn [io_ops clock_reads with_io_ops with_clock_reads].
  destruct (io_fault env (S (io_ops s))); [reflexivity|].
  unfold modify at 1. unfold bind at 1, datetime_now.
  cbn [io_ops clock_reads reminders with_io_ops with_clock_reads with_reminders].
  cbv zeta.
  destruct (socketio self).
  - unfold bind at 1. rewrite socketio_emit_unfold.
    cbn [io_ops emitted with_io_ops with_clock_reads with_reminders].
    destruct (io_fault env (S (S (io_ops s)))); reflexivity.
  - reflexivity.
Qed.

(** X21: a scheduler that was given no socket server emits nothing,
    yet it treats every due reminder as sent: when the store does not
    fail, [_send_reminder_alert] stores the reading of the clock, to the
    millisecond, as [last_sent] and prints the sent line, so the reminder
    is not due again that day although no client was told. *)
Theorem scheduler_without_socket_marks_sent :
  forall env self s,
    socketio self = false ->
    emitted (snd (_check_and_send_reminders self env s)) = emitted s
    /\ forall r m,
         io_fault env (io_ops s) = false ->
         io_fault env (S (io_ops s)) = false ->
         find_medication (Reminder.medication_id r) (medications s) = Some m ->
         fst (_send_reminder_alert self r env s) = Ok tt
         /\ emitted (snd (_send_reminder_alert self r env s)) = emitted s
         /\ reminders (snd (_send_reminder_alert self r env s))
            = update_by_id Reminder.id (Reminder.id r)
                (Reminder.set_last_sent (Some (bson_datetime (now env (clock_reads s)))))
                (reminders s)
         /\ date (bson_datetime (now env (clock_reads s))) = date (now env (clock_reads s))
         /\ second (bson_datetime (now env (clock_reads s)))
            = second (now env (clock_reads s))
         /\ microsecond (bson_datetime (now env (clock_reads s)))
            = microsecond (now env (clock_reads s)) / 1000 * 1000
         /\ not_sent_today (now env (clock_reads s))
              (Reminder.set_last_sent (Some (bson_datetime (now env (clock_reads s)))) r)
            = false
         /\ printed (snd (_send_reminder_alert self r env s))
            = printed s ++ [LogReminderSent (Medication.name m)].
Proof.
  intros env self s Hsock. split.
  - rewrite tick_unfold.
    destruct (io_fault env (io_ops s)); [reflexivity|].
    apply for_each_snd with (I := fun s1 => emitted s1 = emitted s); [|reflexivity].
    intros r s1 _ Hs1. unfold check_reminder.
    destruct (String.eqb _ _); [|exact Hs1].
    destruct (not_sent_today _ r); [|exact Hs1].
    rewrite send_alert_unfold, Hsock.
    destruct (io_fault env (io_ops s1)); [exact Hs1|].
    destruct (find_medication _ _); [|exact Hs1].
    cbv zeta. destruct (io_fault env (S (io_ops s1))); exact Hs1.
  - intros r m H1 H2 Hm. rewrite send_alert_unfold, H1, Hm, Hsock. cbv zeta.
    rewrite H2. repeat split.
    unfold not_sent_today. cbn [Reminder.last_sent Reminder.set_last_sent].
    rewrite date_bson_datetime.
    replace (date_eqb (date (now env (clock_reads s))) (date (now env (clock_reads s))))
      with true by (symmetry; now apply date_eqb_eq).
    reflexivity.
Qed.

(** Alice's morning reminder and a scheduler without a socket server: the
    tick reads 09:00:00, the dispatch 09:00:01.001999, and the stored
    [last_sent] is 09:00:01.001000. *)
Lemma scheduler_without_socket_marks_sent_witness :
  emitted (snd (_check_and_send_reminders (mk_scheduler false true) Example.calm
                                          Example.fresh))
  = emitted Example.fresh
  /\ reminders (snd (_send_reminder_alert (mk_scheduler false true) Example.morning
                                          Example.calm Example.fresh))
     = update_by_id Reminder.id (Reminder.id Example.morning)
         (Reminder.set_last_sent
            (Some (bson_datetime (now Example.calm (clock_reads Example.fresh)))))
         (reminders Example.fresh)
  /\ now Example.calm 1 = mk_datetime 2024 3 5 9 0 1 1999
  /\ reminders (snd (_check_and_send_reminders (mk_scheduler false true) Example.calm
                                               Example.fresh))
     = [Example.morning_sent (mk_datetime 2024 3 5 9 0 1 1000); Example.evening].
Proof.
  destruct (scheduler_without_socket_marks_sent Example.calm (mk_scheduler false true)
              Example.fresh eq_refl) as [Hquiet Hsent].
  split; [exact Hquiet|]. split; [|split; reflexivity].
  apply (Hsent Example.morning Example.aspirin); reflexivity.
Defined.

(* ================================================================= *)
(** ** From POST /medications to the alert *)

(** The run of a POST /medications that is answered 201. *)
Lemma medications_post_201_run : forall env u json s,
  fst (medications_post u json env s) = Ok 201 ->
  exists data,
    json = Some data
    /\ existsb (fun m' => String.eqb (Medication.id m') (new_oid env (oids_made s)))
               (medications s) = false
    /\ fst (ensure_reminders (User.id u)
              (manual_medication (new_oid env (oids_made s)) u data) env
              (medication_stored
                 (manual_medication (new_oid env (oids_made s)) u data) s)) = Ok tt
    /\ snd (medications_post u json env s)
       = snd (ensure_reminders (User.id u)
                (manual_medication (new_oid env (oids_made s)) u data) env
                (medication_stored
                   (manual_medication (new_oid env (oids_made s)) u data) s)).
Proof.
  intros env u json s.
  destruct json as [data|]; [|rewrite medications_post_unfold; discriminate].
  post_paths env u data s; intros H201; try discriminate H201.
  exists data. rewrite Hloop. repeat split. exact Htaken.
Qed.

Lemma ensure_reminder_clock : forall env uid mid t s,
  clock_reads (snd (ensure_reminder uid mid t env s)) = clock_reads s.
Proof.
  intros env uid mid t s. rewrite ensure_reminder_unfold.
  destruct (io_fault env (io_ops s)); [reflexivity|].
  destruct (find (has_key uid mid t) (reminders s)); [reflexivity|].
  rewrite Reminder_insert_unfold. cbv zeta.
  cbn [io_ops oids_made reminders with_io_ops].
  destruct (io_fault env (S (io_ops s))); [reflexivity|].
  destruct (existsb _ (reminders s)); reflexivity.
Qed.

Lemma ensure_reminders_clock : forall env uid m s,
  clock_reads (snd (ensure_reminders uid m env s)) = clock_reads s.
Proof.
  intros env uid m s. unfold ensure_reminders.
  apply (for_each_snd _ _ (fun st => clock_reads st = clock_reads s)); [|reflexivity].
  intros t st _ Hst. now rewrite ensure_reminder_clock.
Qed.

(** POST /medications does not read the clock. *)
Lemma medications_post_clock : forall env u json s,
  clock_reads (snd (medications_post u json env s)) = clock_reads s.
Proof.
  intros env u json s.
  destruct json as [data|]; [|now rewrite medications_post_unfold].
  post_paths env u data s; try reflexivity.
  - replace s' with (snd (ensure_reminders (User.id u)
                            (manual_medication (new_oid env (oids_made s)) u data) env
                            (medication_stored
                               (manual_medication (new_oid env (oids_made s)) u data) s)))
      by now rewrite Hloop.
    now rewrite ensure_reminders_clock.
  - replace s' with (snd (ensure_reminders (User.id u)
                            (manual_medication (new_oid env (oids_made s)) u data) env
                            (medication_stored
                               (manual_medication (new_oid env (oids_made s)) u data) s)))
      by now rewrite Hloop.
    now rewrite ensure_reminders_clock.
Qed.

(** X22: a medication added through POST /medications is alerted at its
    times.  When the store is consistent and the request was answered
    201, a tick of a scheduler with a socket server that reads the clock
    at one of the times of the new medication's frequency text, with no
    failing operation, emits a reminder alert that names the new
    medication and goes to the room of the user who added it. *)
Theorem posted_medication_is_alerted :
  forall env env' self current_user data s,
    store_ok s ->
    fst (medications_post current_user (Some data) env s) = Ok 201 ->
    no_faults env' ->
    socketio self = true ->
    In (strftime_HM (now env' (clock_reads s)))
       (parse_frequency_to_times (dict_get data "frequency" (Some EmptyString))) ->
    exists e,
      In e (new_emissions
              (snd (medications_post current_user (Some data) env s))
              (snd (_check_and_send_reminders self env'
                      (snd (medications_post current_user (Some data) env s)))))
      /\ event e = "medication_reminder"
      /\ payload_get "medication_id" (payload e)
         = Some (PStr (new_oid env (oids_made s)))
      /\ payload_get "medication_name" (payload e)
         = Some (of_pystr (dict_get data "name" None))
      /\ payload_get "time" (payload e)
         = Some (PStr (strftime_HM (now env' (clock_reads s))))
      /\ room e = ("user_" ++ User.id current_user)%string.
Proof.
  intros env env' self u data s Hok H201 Hnf Hsock Htime.
  assert (Hok1 : store_ok (snd (medications_post u (Some data) env s))).
  { pose proof (medications_post_store_ok env u (Some data) s Hok) as H.
    destruct (medications_post u (Some data) env s) as [[a|e] s']; exact H. }
  destruct (medications_post_201_run env u (Some data) s H201)
    as (data' & Hdata & Htaken & Hloop & Hsnd).
  inversion Hdata; subst data'. clear Hdata.
  set (s1 := snd (medications_post u (Some data) env s)) in *.
  set (m := manual_medication (new_oid env (oids_made s)) u data) in *.
  unfold ensure_reminders in Hloop, Hsnd.
  destruct (ensure_each_adds env (User.id u) (Medication.id m)
              (parse_frequency_to_times (Medication.frequency m))
              (medication_stored m s))
    as (added & Hrs & Hall & Hw & Hexact).
  rewrite <- Hsnd in Hrs, Hw.
  destruct Hw as (_ & Hmeds & _).
  (* no stored reminder carried the new id *)
  assert (Hnone : forall t, In t (parse_frequency_to_times (Medication.frequency m)) ->
                            find (has_key (User.id u) (Medication.id m) t)
                                 (reminders (medication_stored m s)) = None).
  { intros t _. apply find_none_intro. intros r Hr. unfold has_key.
    destruct (String.eqb (Reminder.medication_id r) (Medication.id m)) eqn:Heq;
      [|now rewrite andb_false_r].
    exfalso. apply String.eqb_eq in Heq.
    pose proof (reminder_times_ok s Hok) as Ht. rewrite Forall_forall in Ht.
    destruct (Ht r Hr) as (f & Hf & _). unfold frequency_of in Hf.
    apply existsb_med_id_false in Htaken. destruct Htaken as [_ Hfind].
    rewrite Heq in Hf. cbn [Medication.id m manual_medication] in Hf.
    unfold m in Hf. cbn [Medication.id manual_medication] in Hf.
    rewrite Hfind in Hf. discriminate. }
  pose proof (Hexact Hloop (proj1 (parse_times_distinct _)) Hnone) as Htimes.
  (* the reminder of the tick's minute *)
  assert (Hr : exists r, In r added /\ Reminder.time r = strftime_HM (now env' (clock_reads s))).
  { change (Medication.frequency m) with (dict_get data "frequency" (Some EmptyString))
      in Htimes.
    rewrite <- Htimes in Htime. apply in_map_iff in Htime.
    destruct Htime as (r & Ht & Hin). eauto. }
  destruct Hr as (r & Hin & Ht).
  rewrite Forall_forall in Hall. destruct (Hall r Hin) as (Ru & Rm & _ & Ra & Rl).
  assert (Hclock : clock_reads s1 = clock_reads s) by apply medications_post_clock.
  assert (Hfind : find_medication (Reminder.medication_id r) (medications s1) = Some m).
  { rewrite Hmeds, Rm. now apply find_medication_stored. }
  destruct (tick_dispatch env' self s1 r m Hnf Hsock) as (k & s2 & Hrun & _ & _ & Ha & _).
  - apply (reminder_ids_unique s1 Hok1).
  - rewrite Hrs, in_app_iff. now right.
  - exact Ra.
  - rewrite Hclock. apply due_intro; [exact Ht | now left].
  - exact Hfind.
  - rewrite Hrun. cbn [snd].
    exists (mk_emission "medication_reminder" (alert_payload r m (now env' (S k)))
                        ("user_" ++ Reminder.user_id r)).
    split.
    { assert (Hin' : In (mk_emission "medication_reminder"
                           (alert_payload r m (now env' (S k)))
                           ("user_" ++ Reminder.user_id r))
                        (alerts_for (Reminder.id r) (new_emissions s1 s2))).
      { rewrite Ha. now left. }
      unfold alerts_for in Hin'. apply filter_In in Hin'. apply Hin'. }
    cbn. rewrite Ru, Ht. repeat split.
Qed.

Lemma posted_medication_is_alerted_witness :
  exists e,
    In e (new_emissions
            (snd (medications_post Example.alice (Some Example.new_aspirin) Example.calm
                                   (empty_state [Example.alice])))
            (snd (_check_and_send_reminders Example.scheduler Example.calm
                    (snd (medications_post Example.alice (Some Example.new_aspirin)
                                           Example.calm (empty_state [Example.alice]))))))
    /\ event e = "medication_reminder"
    /\ payload_get "medication_id" (payload e)
       = Some (PStr (new_oid Example.calm (oids_made (empty_state [Example.alice]))))
    /\ payload_get "medication_name" (payload e)
       = Some (of_pystr (dict_get Example.new_aspirin "name" None))
    /\ payload_get "time" (payload e)
       = Some (PStr (strftime_HM (now Example.calm
                                      (clock_reads (empty_state [Example.alice])))))
    /\ room e = ("user_" ++ User.id Example.alice)%string.
Proof.
  apply (posted_medication_is_alerted Example.calm Example.calm Example.scheduler
           Example.alice Example.new_aspirin (empty_state [Example.alice])).
  - split; simpl; constructor.
  - reflexivity.
  - intros k. reflexivity.
  - reflexivity.
  - simpl. auto.
Defined.

(* ================================================================= *)
(** ** GET /reminders *)

Lemma writes_nothing_refl : forall s, writes_nothing s s.
Proof. intros s. now repeat split. Qed.

Lemma writes_nothing_io : forall s n, writes_nothing s (with_io_ops n s).
Proof. intros s n. now repeat split. Qed.

Lemma rows_cons : forall env r rs s,
  for_collect (r :: rs)
    (fun rem => med <- Medication_by_id (Reminder.medication_id rem) ;;
                ret (reminder_row rem med)) env s
  = if io_fault env (io_ops s) then (Raise StoreError, with_io_ops (S (io_ops s)) s)
    else match for_collect rs
                 (fun rem => med <- Medication_by_id (Reminder.medication_id rem) ;;
                             ret (reminder_row rem med))
                 env (with_io_ops (S (io_ops s)) s) with
         | (Ok ys, s') =>
             (Ok (reminder_row r (find_medication (Reminder.medication_id r)
                                                  (medications s)) :: ys), s')
         | (Raise e, s') => (Raise e, s')
         end.
Proof.
  intros env r rs s. cbn [for_collect]. unfold bind at 1. unfold bind at 1.
  unfold Medication_by_id at 1. rewrite query_unfold.
  destruct (io_fault env (io_ops s)); [reflexivity|].
  cbn [medications with_io_ops]. unfold ret at 1. unfold bind at 1.
  destruct (for_collect rs _ env (with_io_ops (S (io_ops s)) s)) as [[ys|e] s'];
    reflexivity.
Qed.

(** The loop of GET /reminders, with its possible failure. *)
Lemma rows_collect : forall env rs s,
  writes_nothing s
    (snd (for_collect rs
            (fun rem => med <- Medication_by_id (Reminder.medication_id rem) ;;
                        ret (reminder_row rem med)) env s))
  /\ forall rows,
       fst (for_collect rs
              (fun rem => med <- Medication_by_id (Reminder.medication_id rem) ;;
                          ret (reminder_row rem med)) env s) = Ok rows ->
       rows = map (fun rem => reminder_row rem
                                (find_medication (Reminder.medication_id rem)
                                                 (medications s))) rs.
Proof.
  intros env rs. induction rs as [|r rs IH]; intros s.
  - cbn. split; [apply writes_nothing_refl|]. intros rows H. now inversion H.
  - rewrite rows_cons. cbn [map].
    destruct (io_fault env (io_ops s)).
    { cbn. split; [apply writes_nothing_io | discriminate]. }
    destruct (IH (with_io_ops (S (io_ops s)) s)) as [Hw Hrows].
    destruct (for_collect rs _ env (with_io_ops (S (io_ops s)) s)) as [[rows'|e] s'];
      cbn [fst snd] in *.
    + split; [exact Hw|]. intros rows H. inversion H. f_equal. now apply Hrows.
    + split; [exact Hw | discriminate].
Qed.

(** X23: GET /reminders never raises and writes nothing.  It answers
    either 500 with no row, or 200 with one row for each active reminder
    of the current user and of no other user, in the order of the
    collection, each with the name of its medication document, deleted or
    not, or Unknown when that document is not stored. *)
Theorem list_reminders_reads_only :
  forall env current_user s,
    writes_nothing s (snd (list_reminders current_user env s))
    /\ (fst (list_reminders current_user env s) = Ok (500, [])
        \/ fst (list_reminders current_user env s)
           = Ok (200,
                 map (fun rem => reminder_row rem
                                   (find_medication (Reminder.medication_id rem)
                                                    (medications s)))
                     (filter (fun r => String.eqb (Reminder.user_id r) (User.id current_user)
                                       && Reminder.is_active r)
                             (reminders s))))
    /\ (forall rem m,
          find_medication (Reminder.medication_id rem) (medications s) = Some m ->
          payload_get "medication_name"
            (reminder_row rem (find_medication (Reminder.medication_id rem)
                                               (medications s)))
          = Some (of_pystr (Medication.name m)))
    /\ (forall rem,
          find_medication (Reminder.medication_id rem) (medications s) = None ->
          payload_get "medication_name"
            (reminder_row rem (find_medication (Reminder.medication_id rem)
                                               (medications s)))
          = Some (PStr "Unknown")).
Proof.
  intros env u s.
  assert (H : writes_nothing s (snd (list_reminders u env s))
              /\ (fst (list_reminders u env s) = Ok (500, [])
                  \/ fst (list_reminders u env s)
                     = Ok (200,
                           map (fun rem => reminder_row rem
                                             (find_medication (Reminder.medication_id rem)
                                                              (medications s)))
                               (filter (fun r => String.eqb (Reminder.user_id r) (User.id u)
                                                 && Reminder.is_active r)
                                       (reminders s))))).
  { remember (list_reminders u env s) as res eqn:Hres.
    unfold list_reminders, try_except in Hres. unfold bind at 1 in Hres.
    unfold Reminder_active_of_user in Hres. rewrite query_unfold in Hres.
    destruct (io_fault env (io_ops s)).
    { subst res. cbn. split; [apply writes_nothing_io | now left]. }
    cbn [reminders with_io_ops] in Hres. unfold bind at 1 in Hres.
    destruct (rows_collect env
                (filter (fun r => String.eqb (Reminder.user_id r) (User.id u)
                                  && Reminder.is_active r) (reminders s))
                (with_io_ops (S (io_ops s)) s)) as [Hw Hrows].
    destruct (for_collect _ _ env (with_io_ops (S (io_ops s)) s)) as [[rows|e] s'];
      cbn [fst snd ret] in *; subst res; cbn [fst snd].
    - split; [exact Hw|]. right. now rewrite (Hrows rows eq_refl).
    - split; [exact Hw | now left]. }
  destruct H as [Hw Hst]. split; [exact Hw|]. split; [exact Hst|].
  split.
  - intros rem m Hm. rewrite Hm. reflexivity.
  - intros rem Hm. rewrite Hm. reflexivity.
Qed.
